(** * XION CW721 scripts: helpers, configuration and command scripts

    A shallow embedding of [utils/helpers.js], [utils/config.js] and the
    command scripts under [scripts/].  JavaScript numbers are IEEE 754
    binary64 values (the standard library's [spec_float]); the ECMAScript
    built-ins the helpers call ([parseFloat], [parseInt], [Math.floor],
    [Math.ceil], [Number.prototype.toFixed], [Number.prototype.toString])
    are written out over exact integer arithmetic.  [process.env] is a
    finite map from names to strings, [process.argv] a list of strings, and
    the wrapped SDK together with the remote chain is an interface whose
    calls are recorded in a trace. *)

From Stdlib Require Import ZArith Lia String Ascii List Bool SpecFloat.
From stdpp Require Import base strings gmap list pretty.

Local Open Scope Z_scope.

(** ** Strings *)

Module JsString.

(** A string is the sequence of the bytes of its UTF-8 encoding. *)

(** The white space and line terminators of one byte: TAB, LF, VT, FF,
    CR and the space. *)
Definition is_whitespace (c : ascii) : bool :=
  match N_of_ascii c with
  | 9 | 10 | 11 | 12 | 13 | 32 => true
  | _ => false
  end%N.

(** The white space and line terminators whose encoding starts with
    the byte 226: after the byte 128, U+2000 to U+200A, U+2028, U+2029
    and U+202F; after the byte 129, U+205F. *)
Definition is_wide_space_226 (c2 c3 : ascii) : bool :=
  match N_of_ascii c2 with
  | 128 =>
      let n := N_of_ascii c3 in
      ((128 <=? n) && (n <=? 138)) || (n =? 168) || (n =? 169) || (n =? 175)
  | 129 => N_of_ascii c3 =? 159
  | _ => false
  end%N.

(** The string without the white space and line terminators at its
    head: those of one byte, U+00A0 (the bytes 194 160), U+1680 (225
    154 128), the ones that start with the byte 226, U+3000 (227 128
    128) and U+FEFF (239 187 191). *)
Fixpoint trim_start (s : string) : string :=
  match s with
  | String c r =>
      if is_whitespace c then trim_start r
      else
        match N_of_ascii c with
        | 194 =>
            match r with
            | String c2 r2 => if (N_of_ascii c2 =? 160)%N then trim_start r2 else s
            | EmptyString => s
            end
        | 225 =>
            match r with
            | String c2 (String c3 r3) =>
                if ((N_of_ascii c2 =? 154) && (N_of_ascii c3 =? 128))%N
                then trim_start r3 else s
            | _ => s
            end
        | 226 =>
            match r with
            | String c2 (String c3 r3) =>
                if is_wide_space_226 c2 c3 then trim_start r3 else s
            | _ => s
            end
        | 227 =>
            match r with
            | String c2 (String c3 r3) =>
                if ((N_of_ascii c2 =? 128) && (N_of_ascii c3 =? 128))%N
                then trim_start r3 else s
            | _ => s
            end
        | 239 =>
            match r with
            | String c2 (String c3 r3) =>
                if ((N_of_ascii c2 =? 187) && (N_of_ascii c3 =? 191))%N
                then trim_start r3 else s
            | _ => s
            end
        | _ => s
        end%N
  | EmptyString => s
  end.

Definition digit_of (c : ascii) : option Z :=
  let n := Z.of_N (N_of_ascii c) in
  if (48 <=? n) && (n <=? 57) then Some (n - 48) else None.

Definition hex_digit_of (c : ascii) : option Z :=
  let n := Z.of_N (N_of_ascii c) in
  if (48 <=? n) && (n <=? 57) then Some (n - 48)
  else if (97 <=? n) && (n <=? 102) then Some (n - 87)
  else if (65 <=? n) && (n <=? 70) then Some (n - 55)
  else None.

(** Reads the longest run of digits at the head of [s]; returns the value
    accumulated on top of [acc], the number of digits read added to [cnt],
    and the rest of the string. *)
Fixpoint read_digits_with (digit : ascii -> option Z) (radix : Z)
         (acc cnt : Z) (s : string) : Z * Z * string :=
  match s with
  | String c r =>
      match digit c with
      | Some d => read_digits_with digit radix (radix * acc + d) (cnt + 1) r
      | None => (acc, cnt, s)
      end
  | EmptyString => (acc, cnt, s)
  end.

Definition read_digits := read_digits_with digit_of 10.
Definition read_hex_digits := read_digits_with hex_digit_of 16.

Definition read_sign (s : string) : bool * string :=
  match s with
  | String "-" r => (true, r)
  | String "+" r => (false, r)
  | _ => (false, s)
  end.

Fixpoint starts_with (p s : string) : bool :=
  match p, s with
  | EmptyString, _ => true
  | String a p', String b s' => if Ascii.eqb a b then starts_with p' s' else false
  | String _ _, EmptyString => false
  end.

(** [String.prototype.includes] *)
Fixpoint includes (s needle : string) : bool :=
  starts_with needle s
  || match s with
     | String _ r => includes r needle
     | EmptyString => false
     end.

Fixpoint str_take (n : nat) (s : string) : string :=
  match n, s with
  | S n', String c r => String c (str_take n' r)
  | _, _ => EmptyString
  end.

Fixpoint str_drop (n : nat) (s : string) : string :=
  match n, s with
  | S n', String _ r => str_drop n' r
  | _, _ => s
  end.

Fixpoint str_repeat (c : ascii) (n : nat) : string :=
  match n with
  | O => EmptyString
  | S n' => String c (str_repeat c n')
  end.

Definition lower_char (c : ascii) : ascii :=
  let n := N_of_ascii c in
  if ((65 <=? n) && (n <=? 90))%N then ascii_of_N (n + 32) else c.

(** [String.prototype.toLowerCase] on the ASCII letters. *)
Fixpoint toLowerCase (s : string) : string :=
  match s with
  | String c r => String (lower_char c) (toLowerCase r)
  | EmptyString => EmptyString
  end.

Definition upper_char (c : ascii) : ascii :=
  let n := N_of_ascii c in
  if ((97 <=? n) && (n <=? 122))%N then ascii_of_N (n - 32) else c.

Fixpoint toUpperCase (s : string) : string :=
  match s with
  | String c r => String (upper_char c) (toUpperCase r)
  | EmptyString => EmptyString
  end.

End JsString.

(** ** Numbers: IEEE 754 binary64 *)

Module Number.
Import JsString.

Abbreviation number := spec_float.

#[global] Instance number_eq_dec : EqDecision spec_float.
Proof. solve_decision. Defined.

(** [ilog2 n d] is the integer part of the base-two logarithm of the
    positive rational [n / d]. *)
Definition ilog2 (n d : Z) : Z :=
  let b := Z.log2 d + 1 in Z.log2 (n * 2 ^ b / d) - b.

(** Round to nearest, ties to even, of the rational [n / d] ([0 <= n],
    [0 < d]) with sign [s]: the mantissa is the quotient of [n / d] by
    [2 ^ e], where [e] is the exponent of the binade of [n / d] (at least
    the subnormal exponent -1074); a result of [2 ^ 1024] or more
    overflows to infinity. *)
Definition round (s : bool) (n d : Z) : number :=
  if n <=? 0 then S754_zero s
  else
    let e := Z.max (ilog2 n d - 52) (-1074) in
    let N := n * 2 ^ Z.max 0 (- e) in
    let D := d * 2 ^ Z.max 0 e in
    let q := N / D in
    let r := N mod D in
    let q' := match 2 * r ?= D with
              | Lt => q
              | Gt => q + 1
              | Eq => if Z.even q then q else q + 1
              end in
    if q' =? 0 then S754_zero s
    else
      let m := if q' =? 2 ^ 53 then 2 ^ 52 else q' in
      let e' := if q' =? 2 ^ 53 then e + 1 else e in
      if 971 <? e' then S754_infinity s else S754_finite s (Z.to_pos m) e'.

(** The number value of an integer. *)
Definition of_Z (z : Z) : number :=
  if z =? 0 then S754_zero false else round (z <? 0) (Z.abs z) 1.

(** The representation of the integer [z], [0 < z < 2 ^ 53], with sign
    [s]: a 53-bit mantissa and a non-positive exponent. *)
Definition int_repr (s : bool) (z : Z) : number :=
  S754_finite s (Z.to_pos (z * 2 ^ (52 - Z.log2 z))) (Z.log2 z - 52).

(** [x * y] *)
Definition mul (x y : number) : number :=
  match x, y with
  | S754_nan, _ | _, S754_nan => S754_nan
  | S754_infinity _, S754_zero _ | S754_zero _, S754_infinity _ => S754_nan
  | S754_infinity sx, S754_infinity sy
  | S754_infinity sx, S754_finite sy _ _
  | S754_finite sx _ _, S754_infinity sy => S754_infinity (xorb sx sy)
  | S754_zero sx, S754_zero sy
  | S754_zero sx, S754_finite sy _ _
  | S754_finite sx _ _, S754_zero sy => S754_zero (xorb sx sy)
  | S754_finite sx mx ex, S754_finite sy my ey =>
      round (xorb sx sy)
            (Z.pos mx * Z.pos my * 2 ^ Z.max 0 (ex + ey))
            (2 ^ Z.max 0 (- (ex + ey)))
  end.

(** [x / y] *)
Definition div (x y : number) : number :=
  match x, y with
  | S754_nan, _ | _, S754_nan => S754_nan
  | S754_infinity _, S754_infinity _ | S754_zero _, S754_zero _ => S754_nan
  | S754_infinity sx, S754_zero sy
  | S754_infinity sx, S754_finite sy _ _
  | S754_finite sx _ _, S754_zero sy => S754_infinity (xorb sx sy)
  | S754_zero sx, S754_infinity sy
  | S754_zero sx, S754_finite sy _ _
  | S754_finite sx _ _, S754_infinity sy => S754_zero (xorb sx sy)
  | S754_finite sx mx ex, S754_finite sy my ey =>
      round (xorb sx sy)
            (Z.pos mx * 2 ^ Z.max 0 (ex - ey))
            (Z.pos my * 2 ^ Z.max 0 (ey - ex))
  end.

(** The integer part, rounding toward minus infinity, of a finite value
    [(-1)^s * m * 2^e]. *)
Definition floor_Z (s : bool) (m : positive) (e : Z) : Z :=
  let z := if s then Z.neg m else Z.pos m in
  if 0 <=? e then z * 2 ^ e else z / 2 ^ (- e).

(** Rounding toward plus infinity. *)
Definition ceil_Z (s : bool) (m : positive) (e : Z) : Z :=
  let z := if s then Z.neg m else Z.pos m in
  if 0 <=? e then z * 2 ^ e else - ((- z) / 2 ^ (- e)).

(** Rounding toward zero. *)
Definition trunc_Z (s : bool) (m : positive) (e : Z) : Z :=
  let z := if s then Z.neg m else Z.pos m in
  if 0 <=? e then z * 2 ^ e else Z.quot z (2 ^ (- e)).

(** The integer part of a number that has one, rounding toward minus
    infinity and toward zero: both zeros have the integer part 0. *)
Definition floor_of (x : number) : option Z :=
  match x with
  | S754_zero _ => Some 0
  | S754_finite s m e => Some (floor_Z s m e)
  | _ => None
  end.

Definition trunc_of (x : number) : option Z :=
  match x with
  | S754_zero _ => Some 0
  | S754_finite s m e => Some (trunc_Z s m e)
  | _ => None
  end.

(** Whether the sign of a number is negative, and whether a number is
    an integer ([Number.isInteger]). *)
Definition negative (x : number) : bool :=
  match x with
  | S754_zero s | S754_infinity s | S754_finite s _ _ => s
  | S754_nan => false
  end.

Definition is_integer (x : number) : bool :=
  match x with
  | S754_zero _ => true
  | S754_finite _ m e => (0 <=? e) || (Z.pos m mod 2 ^ (- e) =? 0)
  | _ => false
  end.

Definition of_integral (s : bool) (z : Z) : number :=
  if z =? 0 then S754_zero s else round (z <? 0) (Z.abs z) 1.

(** [Math.floor] *)
Definition Math_floor (x : number) : number :=
  match x with
  | S754_finite s m e => if 0 <=? e then x else of_integral s (floor_Z s m e)
  | _ => x
  end.

(** [Math.ceil] *)
Definition Math_ceil (x : number) : number :=
  match x with
  | S754_finite s m e => if 0 <=? e then x else of_integral s (ceil_Z s m e)
  | _ => x
  end.

(** [x === 0] for a number [x]: both zeros are strictly equal to [0]. *)
Definition is_zero (x : number) : bool :=
  match x with
  | S754_zero _ => true
  | _ => false
  end.

(** [Math.pow(10, k)] for a small non-negative integer [k], where the
    power is an exactly representable integer. *)
Definition pow10 (k : Z) : number := of_Z (10 ^ k).

(** *** [parseFloat] and [parseInt] *)

Definition read_exponent (s : string) : Z :=
  match s with
  | String c r =>
      if Ascii.eqb c "e" || Ascii.eqb c "E" then
        let '(neg, r') := read_sign r in
        let '(v, cnt, _) := read_digits 0 0 r' in
        if cnt =? 0 then 0 else if neg then - v else v
      else 0
  | EmptyString => 0
  end.

Definition parseFloat (input : string) : number :=
  let '(neg, s) := read_sign (trim_start input) in
  if starts_with "Infinity" s then S754_infinity neg
  else
    let '(ip, ic, s1) := read_digits 0 0 s in
    let '(m, fc, s2) :=
      match s1 with
      | String "." r => read_digits ip 0 r
      | _ => (ip, 0, s1)
      end in
    if ic + fc =? 0 then S754_nan
    else
      let ex := read_exponent s2 - fc in
      round neg (m * 10 ^ Z.max 0 ex) (10 ^ Z.max 0 (- ex)).

(** [parseInt] with the radix left undefined: base ten unless the digits
    carry the [0x] prefix. *)
Definition parseInt (input : string) : number :=
  let '(neg, s) := read_sign (trim_start input) in
  let '(v, cnt, _) :=
    match s with
    | String "0" (String c r) =>
        if Ascii.eqb c "x" || Ascii.eqb c "X"
        then read_hex_digits 0 0 r
        else read_digits 0 0 s
    | _ => read_digits 0 0 s
    end in
  if cnt =? 0 then S754_nan else round neg v 1.

(** *** [Number.prototype.toString] and [Number.prototype.toFixed] *)

Definition ndigits (z : Z) : Z := Z.of_nat (String.length (pretty z)).

Fixpoint lead_zeros (fuel : nat) (n d j : Z) : Z :=
  match fuel with
  | O => j
  | S f => if d <=? n * 10 ^ j then j else lead_zeros f n d (j + 1)
  end.

(** The decimal exponent [n0] of a positive rational:
    [10 ^ (n0 - 1) <= n / d < 10 ^ n0]. *)
Definition dec_exponent (n d : Z) : Z :=
  if d <=? n then ndigits (n / d) else 1 - lead_zeros 400 n d 1.

(** The [k]-digit decimals next to [nV / dV] that read back as [x]: the
    one below, the one above, or of the two the closer one. *)
Definition shortest_step (x : number) (nV dV n0 k : Z) : option Z :=
  let Wn := nV * 10 ^ Z.max 0 (k - n0) in
  let Wd := dV * 10 ^ Z.max 0 (n0 - k) in
  let lo := Wn / Wd in
  let hi := lo + 1 in
  let ok s := bool_decide (round false (s * 10 ^ Z.max 0 (n0 - k))
                                 (10 ^ Z.max 0 (k - n0)) = x) in
  match ok lo, ok hi with
  | true, true =>
      Some match 2 * Wn ?= (lo + hi) * Wd with
           | Lt => lo
           | Gt => hi
           | Eq => if Z.even lo then lo else hi
           end
  | true, false => Some lo
  | false, true => Some hi
  | false, false => None
  end.

Fixpoint shortest (fuel : nat) (x : number) (nV dV n0 k : Z) : Z * Z :=
  match fuel with
  | O => (nV * 10 ^ Z.max 0 (k - n0) / (dV * 10 ^ Z.max 0 (n0 - k)), k)
  | S f =>
      match shortest_step x nV dV n0 k with
      | Some s => (s, k)
      | None => shortest f x nV dV n0 (k + 1)
      end
  end.

(** The decimal text of the positive finite value [m * 2 ^ e]: the
    shortest digit string that reads back as the same number, laid out as
    an integer, a decimal fraction or in exponent form. *)
Definition toString_pos (m : positive) (e : Z) : string :=
  let x := S754_finite false m e in
  let nV := Z.pos m * 2 ^ Z.max 0 e in
  let dV := 2 ^ Z.max 0 (- e) in
  let n0 := dec_exponent nV dV in
  let '(s0, k) := shortest 17 x nV dV n0 1 in
  let s := if s0 =? 10 ^ k then 10 ^ (k - 1) else s0 in
  let n := if s0 =? 10 ^ k then n0 + 1 else n0 in
  let digits := pretty s in
  if (k <=? n) && (n <=? 21) then digits +:+ str_repeat "0" (Z.to_nat (n - k))
  else if (0 <? n) && (n <=? 21)
  then str_take (Z.to_nat n) digits +:+ "." +:+ str_drop (Z.to_nat n) digits
  else if (-6 <? n) && (n <=? 0)
  then "0." +:+ str_repeat "0" (Z.to_nat (- n)) +:+ digits
  else
    let es := (if n - 1 <? 0 then "-" else "+") +:+ pretty (Z.abs (n - 1)) in
    if k =? 1 then digits +:+ "e" +:+ es
    else str_take 1 digits +:+ "." +:+ str_drop 1 digits +:+ "e" +:+ es.

Definition toString (x : number) : string :=
  match x with
  | S754_nan => "NaN"
  | S754_zero _ => "0"
  | S754_infinity s => if s then "-Infinity" else "Infinity"
  | S754_finite s m e => (if s then "-" else EmptyString) +:+ toString_pos m e
  end.

(** The digits of the integer [n] with a point before the last [f]. *)
Definition fixed_digits (n : Z) (f : nat) : string :=
  let m := pretty n in
  match f with
  | O => m
  | S _ =>
      let k := String.length m in
      let m' := if (k <=? f)%nat then str_repeat "0" (f + 1 - k) +:+ m else m in
      let k' := String.length m' in
      str_take (k' - f) m' +:+ "." +:+ str_drop (k' - f) m'
  end.

(** [x.toFixed(f)] for [0 <= f <= 100]: the integer [n] for which
    [n / 10 ^ f] is closest to [x], the larger one of two. *)
Definition toFixed (x : number) (f : nat) : string :=
  match x with
  | S754_nan => "NaN"
  | S754_infinity s => if s then "-Infinity" else "Infinity"
  | S754_zero _ => fixed_digits 0 f
  | S754_finite s m e =>
      let nV := Z.pos m * 2 ^ Z.max 0 e in
      let dV := 2 ^ Z.max 0 (- e) in
      (if s then "-" else EmptyString) +:+
      (if 10 ^ 21 * dV <=? nV then toString_pos m e
       else fixed_digits ((2 * nV * 10 ^ Z.of_nat f + dV) / (2 * dV)) f)
  end.

End Number.

(** ** Configuration: [utils/config.js] *)

Module Config.

Record faucet_info := { discord : string; command : string }.

Record xion_config := {
  chainId : string;
  chainName : string;
  rpcEndpoint : string;
  restEndpoint : string;
  addressPrefix : string;
  gasPrice : string;
  gasAdjustment : Number.number;
  denom : string;
  decimals : Z;
  cw721MetadataOnchainCodeId : Z;
  faucet : faucet_info
}.

Definition XION_CONFIG : xion_config := {|
  chainId := "xion-testnet-2";
  chainName := "XION Testnet";
  rpcEndpoint := "https://rpc.xion-testnet-2.burnt.com:443";
  restEndpoint := "https://api.xion-testnet-2.burnt.com";
  addressPrefix := "xion";
  gasPrice := "0.025uxion";
  gasAdjustment := Number.round false 13 10;
  denom := "uxion";
  decimals := 6;
  cw721MetadataOnchainCodeId := 525;
  faucet := {| discord := "https://discord.gg/burnt";
               command := "/faucet [your-xion-address]" |}
|}.

End Config.

(** ** Amounts and fees: the pure functions of [utils/helpers.js] *)

Module Amounts.
Import Number Config.

(** The argument of the conversions is a string or a number. *)
Inductive amount :=
| AmountString (s : string)
| AmountNumber (x : number).

Definition formatXionAmount (a : amount) : string :=
  let numAmount := match a with
                   | AmountString s => parseInt s
                   | AmountNumber x => x
                   end in
  toFixed (div numAmount (pow10 (decimals XION_CONFIG))) 6.

Definition parseXionAmount (a : amount) : string :=
  let numAmount := match a with
                   | AmountString s => parseFloat s
                   | AmountNumber x => x
                   end in
  toString (Math_floor (mul numAmount (pow10 (decimals XION_CONFIG)))).

(** The mantissa of the double nearest to the price 0.025, whose exponent
    is -58: forty times it is [2 ^ 58 + 16]. *)
Definition price_mantissa : Z := 7205759403792794.

Record Coin := { coin_denom : string; coin_amount : string }.

Record StdFee := { fee_amount : list Coin; fee_gas : string }.

Definition calculateFee (gasAmount : number) : StdFee :=
  let gasPrice := parseFloat (gasPrice XION_CONFIG) in
  let feeAmount := Math_ceil (mul gasAmount gasPrice) in
  {| fee_amount := [ {| coin_denom := denom XION_CONFIG;
                        coin_amount := toString feeAmount |} ];
     fee_gas := toString gasAmount |}.

End Amounts.

(** ** The wrapped SDK, the remote chain and the script runtime *)

Module Runtime.
Import Number Amounts.

(** A thrown [Error]: its message and the stack text the host attached. *)
Record js_error := { message : string; stack : option string }.

Inductive result (A : Type) :=
| Ok (a : A)
| Err (e : js_error).
Arguments Ok {A} a.
Arguments Err {A} e.

Record Account := { address : string; algo : string; pubkey : string }.

Record Attribute := { attr_key : string; attr_value : string }.
Record TxEvent := { event_type : string; event_attributes : list Attribute }.
Record TxLog := { log_events : list TxEvent }.

(** The receipt of an executed or instantiated contract call. *)
Record TxResult := {
  transactionHash : string;
  gasUsed : Z;
  gasWanted : Z;
  height : Z;
  logs : option (list TxLog)
}.

Record InstantiateResult := { contractAddress : string; instantiate_tx : TxResult }.

Record InstantiateMsg := { inst_name : string; inst_symbol : string; inst_minter : string }.

Inductive QueryMsg :=
| OwnerOf (token_id : string)
| NftInfo (token_id : string)
| Tokens (owner : string) (limit : Z).

(** The interface of the wrapped client library and of the host: wallets,
    connections, and the remote chain as a state that calls may change. *)
Class Sdk := {
  Wallet : Type;
  Client : Type;
  Chain : Type;
  IndexedTx : Type;
  Json : Type;
  error_stack : string -> option string;
  undefined_property : string -> js_error;
  JSON_parse : string -> result Json;
  JSON_stringify : Json -> string;
  json_truthy : Json -> bool;
  json_text : Json -> string;
  wallet_fromMnemonic : string -> string -> result Wallet;
  wallet_getAccounts : Wallet -> list Account;
  client_connect : string -> Chain -> result Client * Chain;
  client_connectWithSigner : string -> Wallet -> string -> Chain -> result Client * Chain;
  client_getTx : Client -> string -> Chain -> result (option IndexedTx) * Chain;
  client_getBalance : Client -> string -> string -> Chain -> result Coin * Chain;
  client_disconnect : Client -> Chain -> Chain;
  set_timeout : number -> Chain -> Chain
}.

Section WithSdk.
Context `{Sdk}.

Record Approval := { spender : string; expires : Json }.
Record OwnerOfResponse := { owner : string; approvals : list Approval }.
Record NftInfoResponse := {
  token_uri : option string;
  extension : option (list (string * Json))
}.
Record TokensResponse := { tokens : list string }.

(** The metadata object a mint carries. *)
Record Extension := {
  ext_name : option string;
  ext_description : option string;
  ext_image : option string;
  ext_attributes : option Json;
  ext_animation_url : option string;
  ext_external_url : option string;
  ext_background_color : option string
}.

Record MintMsg := {
  mint_token_id : string;
  mint_owner : string;
  mint_token_uri : string;
  mint_extension : Extension
}.

(** The contract calls of the connected client. *)
Class Contracts := {
  client_queryOwnerOf : Client -> string -> string -> Chain -> result OwnerOfResponse * Chain;
  client_queryNftInfo : Client -> string -> string -> Chain -> result NftInfoResponse * Chain;
  client_queryTokens : Client -> string -> string -> Z -> Chain -> result TokensResponse * Chain;
  client_execute : Client -> string -> string -> MintMsg -> string -> list Coin -> Chain -> result TxResult * Chain;
  client_instantiate : Client -> string -> Z -> InstantiateMsg -> string -> option string -> Chain -> result InstantiateResult * Chain
}.

(** What a run does, in order: console output, SDK calls with their
    arguments, sleeps, and the exit of the process. *)
Inductive event :=
| ConsoleLog (line : string)
| ConsoleError (line : string)
| WalletFromMnemonic (mnemonic prefix : string)
| WalletGetAccounts
| Connect (endpoint : string)
| ConnectWithSigner (endpoint gasPrice : string)
| QueryContractSmart (contract : string) (msg : QueryMsg)
| Execute (sender contract : string) (msg : MintMsg) (memo : string) (funds : list Coin)
| Instantiate (sender : string) (codeId : Z) (msg : InstantiateMsg)
              (label : string) (admin : option string)
| GetTx (hash : string)
| GetBalance (address denom : string)
| Disconnect
| Sleep (ms : number)
| ProcessExit (code : Z).

(** The calls that go to the network. *)
Definition is_network (ev : event) : bool :=
  match ev with
  | Connect _ | ConnectWithSigner _ _ | QueryContractSmart _ _
  | Execute _ _ _ _ _ | Instantiate _ _ _ _ _ | GetTx _ | GetBalance _ _ => true
  | _ => false
  end.

Definition is_instantiate (ev : event) : bool :=
  match ev with
  | Instantiate _ _ _ _ _ => true
  | _ => false
  end.

Definition is_lookup (ev : event) : bool :=
  match ev with
  | GetTx _ => true
  | _ => false
  end.

Inductive outcome (A : Type) :=
| Returned (a : A)
| Thrown (e : js_error)
| Exited (code : Z).
Arguments Returned {A} a.
Arguments Thrown {A} e.
Arguments Exited {A} code.

(** A run from a chain state: how it ends, the chain state it leaves and
    the events it produced. *)
Record run (A : Type) := mkRun {
  run_outcome : outcome A;
  run_chain : Chain;
  run_trace : list event
}.
Arguments mkRun {A} _ _ _.
Arguments run_outcome {A} _.
Arguments run_chain {A} _.
Arguments run_trace {A} _.

Definition M (A : Type) : Type := Chain -> run A.

(** The run [r] with the events [t] in front of its own. *)
Definition prepend {A} (t : list event) (r : run A) : run A :=
  mkRun (run_outcome r) (run_chain r) (t ++ run_trace r).

Definition ret {A} (a : A) : M A := fun c => mkRun (Returned a) c [].

Definition bind {A B} (m : M A) (k : A -> M B) : M B :=
  fun c =>
    let r := m c in
    match run_outcome r with
    | Returned a => prepend (run_trace r) (k a (run_chain r))
    | Thrown e => mkRun (Thrown e) (run_chain r) (run_trace r)
    | Exited code => mkRun (Exited code) (run_chain r) (run_trace r)
    end.

Definition throw {A} (e : js_error) : M A := fun c => mkRun (Thrown e) c [].

Definition emit (ev : event) : M unit := fun c => mkRun (Returned tt) c [ev].

(** [try { body } catch (e) { handler e }] *)
Definition try_catch {A} (body : M A) (handler : js_error -> M A) : M A :=
  fun c =>
    let r := body c in
    match run_outcome r with
    | Thrown e => prepend (run_trace r) (handler e (run_chain r))
    | _ => r
    end.

(** A call to the SDK: recorded, answered by the chain, rejected
    promises rethrown by [await]. *)
Definition call {A} (ev : event) (op : Chain -> result A * Chain) : M A :=
  fun c =>
    let '(r, c') := op c in
    mkRun (match r with Ok a => Returned a | Err e => Thrown e end) c' [ev].

Definition new_Error (msg : string) : js_error :=
  {| message := msg; stack := error_stack msg |}.

Definition console_log (line : string) : M unit := emit (ConsoleLog line).
Definition console_error (line : string) : M unit := emit (ConsoleError line).

(** [process.exit(code)] *)
Definition process_exit {A} (code : Z) : M A :=
  fun c => mkRun (Exited code) c [ProcessExit code].

Fixpoint for_each {A} (xs : list A) (body : A -> M unit) : M unit :=
  match xs with
  | [] => ret tt
  | x :: xs' => bind (body x) (fun _ => for_each xs' body)
  end.

(** A computation that leaves the chain state as it found it. *)
Definition preserves {A} (m : M A) : Prop :=
  forall c, run_chain (m c) = c.

End WithSdk.

Arguments Returned {A} a.
Arguments Thrown {A} e.
Arguments Exited {A} code.
Arguments mkRun {_ A} _ _ _.
Arguments run_outcome {_ A} _.
Arguments run_chain {_ A} _.
Arguments run_trace {_ A} _.

Notation "'let*' x ':=' m 'in' k" := (bind m (fun x => k))
  (at level 10, x name, m at level 100, k at level 200).
Notation "'do*' m 'in' k" := (bind m (fun _ => k))
  (at level 10, m at level 100, k at level 200).

End Runtime.

(** ** The effectful helpers of [utils/helpers.js] *)

Module Helpers.
Import JsString Number Config Amounts Runtime.

(** A value read from [process.env] or [process.argv]: a string or
    [undefined].  Only the non-empty string is truthy. *)
Definition truthy (v : option string) : bool :=
  match v with
  | Some s => negb (String.eqb s EmptyString)
  | None => false
  end.

(** [a || b] on two such values. *)
Definition js_or (a b : option string) : option string :=
  if truthy a then a else b.

(** [a || "literal"] *)
Definition or_default (a : option string) (d : string) : string :=
  match a with
  | Some s => if String.eqb s EmptyString then d else s
  | None => d
  end.

(** The text of a value inside a template literal. *)
Definition text (v : option string) : string :=
  match v with
  | Some s => s
  | None => "undefined"
  end.

Definition nl : string := String "010" EmptyString.

Definition dquote : string := String "034" EmptyString.

Section WithSdk.
Context `{Sdk} `{!Contracts}.

Definition createWalletFromMnemonic (mnemonic : string) : M Wallet :=
  call (WalletFromMnemonic mnemonic (addressPrefix XION_CONFIG))
       (fun c => (wallet_fromMnemonic mnemonic (addressPrefix XION_CONFIG), c)).

Definition loadWallet (env : gmap string string) : M Wallet :=
  match env !! "MNEMONIC" with
  | Some mnemonic =>
      if String.eqb mnemonic EmptyString
      then throw (new_Error "MNEMONIC not found in environment variables. Please set it in .env file")
      else createWalletFromMnemonic mnemonic
  | None =>
      throw (new_Error "MNEMONIC not found in environment variables. Please set it in .env file")
  end.

(** [accounts[0]], which is [undefined] for a wallet without accounts. *)
Definition getFirstAccount (wallet : Wallet) : M (option Account) :=
  call WalletGetAccounts (fun c => (Ok (head (wallet_getAccounts wallet)), c)).

(** [account.address]: reading a property of [undefined] throws. *)
Definition account_address (account : option Account) : M string :=
  match account with
  | Some a => ret (address a)
  | None => throw (undefined_property "address")
  end.

Definition connectQueryClient : M Client :=
  call (Connect (rpcEndpoint XION_CONFIG)) (client_connect (rpcEndpoint XION_CONFIG)).

Definition connectSigningClient (wallet : Wallet) : M Client :=
  call (ConnectWithSigner (rpcEndpoint XION_CONFIG) (gasPrice XION_CONFIG))
       (client_connectWithSigner (rpcEndpoint XION_CONFIG) wallet (gasPrice XION_CONFIG)).

(** [queryContract], at the three queries the scripts send. *)
Definition queryOwnerOf (client : Client) (contract token_id : string) : M OwnerOfResponse :=
  call (QueryContractSmart contract (OwnerOf token_id))
       (client_queryOwnerOf client contract token_id).

Definition queryNftInfo (client : Client) (contract token_id : string) : M NftInfoResponse :=
  call (QueryContractSmart contract (NftInfo token_id))
       (client_queryNftInfo client contract token_id).

Definition queryTokens (client : Client) (contract owner : string) (limit : Z) : M TokensResponse :=
  call (QueryContractSmart contract (Tokens owner limit))
       (client_queryTokens client contract owner limit).

Definition executeContract (client : Client) (senderAddress contract : string)
           (executeMsg : MintMsg) (memo : string) (funds : list Coin) : M TxResult :=
  call (Execute senderAddress contract executeMsg memo funds)
       (client_execute client senderAddress contract executeMsg memo funds).

Definition instantiateContract (client : Client) (senderAddress : string) (codeId : Z)
           (instantiateMsg : InstantiateMsg) (label admin : string) : M InstantiateResult :=
  let admin' := if String.eqb admin EmptyString then None else Some admin in
  call (Instantiate senderAddress codeId instantiateMsg label admin')
       (client_instantiate client senderAddress codeId instantiateMsg label admin').

Definition getTransaction (client : Client) (txHash : string) : M (option IndexedTx) :=
  call (GetTx txHash) (client_getTx client txHash).

(** [await new Promise((resolve) => setTimeout(resolve, delayMs))] *)
Definition sleep (delayMs : number) : M unit :=
  fun c => mkRun (Returned tt) (set_timeout delayMs c) [Sleep delayMs].

(** The body of the [for] loop of [waitForTransaction] with [remaining]
    iterations to go, followed by the [throw] after the loop. *)
Fixpoint waitForTransaction_loop (client : Client) (txHash : string)
         (maxAttempts : nat) (delayMs : number) (remaining : nat) : M IndexedTx :=
  match remaining with
  | O =>
      throw (new_Error ("Transaction " +:+ txHash +:+ " not found after "
                        +:+ pretty maxAttempts +:+ " attempts"))
  | S remaining' =>
      let* tx := getTransaction client txHash in
      match tx with
      | Some t => ret t
      | None =>
          do* sleep delayMs in
          waitForTransaction_loop client txHash maxAttempts delayMs remaining'
      end
  end.

(** [maxAttempts] is a count of attempts; both optional arguments take
    their default when left out. *)
Definition waitForTransaction (client : Client) (txHash : string)
           (maxAttempts : option nat) (delayMs : option number) : M IndexedTx :=
  let maxAttempts := default 20%nat maxAttempts in
  let delayMs := default (of_Z 1000) delayMs in
  waitForTransaction_loop client txHash maxAttempts delayMs maxAttempts.

(** The chain state in which lookup number [i] (from zero) of a poll
    that starts in state [c] is made: every earlier lookup, and the
    sleep after it, has acted on the chain. *)
Fixpoint poll_state (client : Client) (txHash : string) (delayMs : number)
         (c : Chain) (i : nat) : Chain :=
  match i with
  | O => c
  | S i' =>
      poll_state client txHash delayMs
                 (set_timeout delayMs (snd (client_getTx client txHash c))) i'
  end.

(** What lookup number [i] of such a poll answers. *)
Definition lookup_at (client : Client) (txHash : string) (delayMs : number)
           (c : Chain) (i : nat) : result (option IndexedTx) :=
  fst (client_getTx client txHash (poll_state client txHash delayMs c i)).

(** The events of a poll that finds the transaction at lookup number [i]. *)
Fixpoint poll_trace (txHash : string) (delayMs : number) (i : nat) : list event :=
  match i with
  | O => [GetTx txHash]
  | S i' => GetTx txHash :: Sleep delayMs :: poll_trace txHash delayMs i'
  end.

(** The events of a poll of [n] lookups that all come back empty. *)
Fixpoint empty_poll_trace (txHash : string) (delayMs : number) (n : nat) : list event :=
  match n with
  | O => []
  | S n' => GetTx txHash :: Sleep delayMs :: empty_poll_trace txHash delayMs n'
  end.

Definition getBalance (client : Client) (address : string) : M Coin :=
  call (GetBalance address (denom XION_CONFIG))
       (client_getBalance client address (denom XION_CONFIG)).

Definition printTxResult (result : TxResult) : M unit :=
  do* console_log (nl +:+ "Transaction successful!") in
  do* console_log ("Transaction Hash: " +:+ transactionHash result) in
  do* console_log ("Gas Used: " +:+ pretty (gasUsed result)) in
  do* console_log ("Gas Wanted: " +:+ pretty (gasWanted result)) in
  do* console_log ("Height: " +:+ pretty (height result)) in
  match logs result with
  | Some (l :: ls) =>
      do* console_log (nl +:+ "Events:") in
      for_each (l :: ls) (fun log =>
        for_each (log_events log) (fun ev =>
          do* console_log ("  " +:+ event_type ev +:+ ":") in
          for_each (event_attributes ev) (fun attr =>
            console_log ("    " +:+ attr_key attr +:+ ": " +:+ attr_value attr))))
  | _ => ret tt
  end.

Definition disconnect (client : Client) : M unit :=
  fun c => mkRun (Returned tt) (client_disconnect client c) [Disconnect].

Definition handleError {A} (error : js_error) : M A :=
  do* console_error (nl +:+ "Error occurred:") in
  do* console_error (message error) in
  do* (if truthy (stack error)
       then do* console_error (nl +:+ "Stack trace:") in
            console_error (text (stack error))
       else ret tt) in
  process_exit 1.

End WithSdk.

End Helpers.

(** ** The command scripts *)

Module Scripts.
Import JsString Number Config Amounts Runtime Helpers.

Definition rule : string := str_repeat "=" 80.

(** [xs.join(sep)] *)
Fixpoint join (sep : string) (xs : list string) : string :=
  match xs with
  | [] => EmptyString
  | [x] => x
  | x :: xs' => x +:+ sep +:+ join sep xs'
  end.

(** *** Parameters read from the environment and the command line *)

(** [process.env.NAME || process.argv[i]] *)
Definition env_or_arg (env : gmap string string) (argv : list string)
           (name : string) (i : nat) : option string :=
  js_or (env !! name) (argv !! i).

Record mint_params := {
  mint_CONTRACT_ADDRESS : option string;
  mint_TOKEN_ID : string;
  mint_OWNER_ADDRESS : option string;
  mint_TOKEN_URI : string;
  mint_TOKEN_NAME : string;
  mint_TOKEN_DESCRIPTION : string;
  mint_TOKEN_IMAGE : string;
  mint_METADATA_STORAGE : string;
  mint_TOKEN_ATTRIBUTES : option string
}.

Definition mintToken_params (env : gmap string string) (argv : list string) : mint_params :=
  let TOKEN_ID := or_default (env_or_arg env argv "TOKEN_ID" 2) "1" in
  let TOKEN_URI :=
    or_default (env_or_arg env argv "TOKEN_URI" 4) "ipfs://QmExample..." in
  {| mint_CONTRACT_ADDRESS := env !! "CONTRACT_ADDRESS";
     mint_TOKEN_ID := TOKEN_ID;
     mint_OWNER_ADDRESS := env_or_arg env argv "OWNER_ADDRESS" 3;
     mint_TOKEN_URI := TOKEN_URI;
     mint_TOKEN_NAME := or_default (env !! "TOKEN_NAME") ("NFT #" +:+ TOKEN_ID);
     mint_TOKEN_DESCRIPTION :=
       or_default (env !! "TOKEN_DESCRIPTION") "An NFT from my collection";
     mint_TOKEN_IMAGE := or_default (env !! "TOKEN_IMAGE") TOKEN_URI;
     mint_METADATA_STORAGE :=
       toLowerCase (or_default (env !! "METADATA_STORAGE") "onchain");
     mint_TOKEN_ATTRIBUTES := env !! "TOKEN_ATTRIBUTES" |}.

Record transfer_gas_params := { gas_RECIPIENT : option string; gas_AMOUNT : option string }.

Definition transferGas_params (env : gmap string string) (argv : list string)
  : transfer_gas_params :=
  {| gas_RECIPIENT := env_or_arg env argv "RECIPIENT" 2;
     gas_AMOUNT := env_or_arg env argv "AMOUNT" 3 |}.

Record monitor_params := { monitor_TX_HASH : option string; monitor_WAIT_FOR_TX : bool }.

Definition monitorTransaction_params (env : gmap string string) (argv : list string)
  : monitor_params :=
  {| monitor_TX_HASH := env_or_arg env argv "TX_HASH" 2;
     monitor_WAIT_FOR_TX :=
       bool_decide (env !! "WAIT" = Some "true")
       || bool_decide (argv !! 3%nat = Some "--wait") |}.

Record verify_params := {
  verify_CONTRACT_ADDRESS : option string;
  verify_TOKEN_ID : option string;
  verify_EXPECTED_OWNER : option string
}.

Definition verifyOwnership_params (env : gmap string string) (argv : list string)
  : verify_params :=
  {| verify_CONTRACT_ADDRESS := env !! "CONTRACT_ADDRESS";
     verify_TOKEN_ID := env_or_arg env argv "TOKEN_ID" 2;
     verify_EXPECTED_OWNER := env_or_arg env argv "EXPECTED_OWNER" 3 |}.

Record transfer_nft_params := {
  nft_CONTRACT_ADDRESS : option string;
  nft_TOKEN_ID : option string;
  nft_RECIPIENT : option string
}.

Definition transferNFT_params (env : gmap string string) (argv : list string)
  : transfer_nft_params :=
  {| nft_CONTRACT_ADDRESS := env !! "CONTRACT_ADDRESS";
     nft_TOKEN_ID := env_or_arg env argv "TOKEN_ID" 2;
     nft_RECIPIENT := env_or_arg env argv "RECIPIENT" 3 |}.

(** [check-gas-fee.js]: [TX_TYPE] or the first argument, [mint] otherwise. *)
Definition checkGasFee_TRANSACTION_TYPE (env : gmap string string) (argv : list string)
  : string :=
  or_default (env_or_arg env argv "TX_TYPE" 2) "mint".

(** [sign-message.js]: [MESSAGE] or all the arguments joined by a space. *)
Definition signMessage_MESSAGE (env : gmap string string) (argv : list string)
  : option string :=
  js_or (env !! "MESSAGE") (Some (join " " (drop 2 argv))).

Record sign_tx_params := { sign_TX_TYPE : string; sign_OUTPUT_FILE : string }.

Definition signTransaction_params (env : gmap string string) (argv : list string)
  : sign_tx_params :=
  {| sign_TX_TYPE := or_default (env_or_arg env argv "TX_TYPE" 2) "send-tokens";
     sign_OUTPUT_FILE :=
       or_default (env_or_arg env argv "OUTPUT_FILE" 3) "signed-tx.json" |}.

Record deploy_params := {
  deploy_NFT_NAME : string;
  deploy_NFT_SYMBOL : string;
  deploy_CONTRACT_LABEL : string
}.

Definition deployContract_params (env : gmap string string) : deploy_params :=
  {| deploy_NFT_NAME := or_default (env !! "NFT_NAME") "My NFT Collection";
     deploy_NFT_SYMBOL := or_default (env !! "NFT_SYMBOL") "MNFT";
     deploy_CONTRACT_LABEL := or_default (env !! "CONTRACT_LABEL") "my-nft-contract" |}.

Section WithSdk.
Context `{Sdk} `{!Contracts}.

(** *** [mint-token.js] *)

(** The [extension] object of the mint message, by storage mode. *)
Definition mint_extension_of (env : gmap string string) (p : mint_params)
  : M (Extension * string) :=
  if String.eqb (mint_METADATA_STORAGE p) "onchain" then
    let* attributes :=
      (if truthy (mint_TOKEN_ATTRIBUTES p) then
         match JSON_parse (text (mint_TOKEN_ATTRIBUTES p)) with
         | Ok j => ret (Some j)
         | Err _ =>
             do* console_log "Warning: Could not parse TOKEN_ATTRIBUTES JSON, skipping attributes" in
             ret None
         end
       else ret None) in
    let optional name := if truthy (env !! name) then env !! name else None in
    ret ({| ext_name := Some (mint_TOKEN_NAME p);
            ext_description := Some (mint_TOKEN_DESCRIPTION p);
            ext_image := Some (mint_TOKEN_IMAGE p);
            ext_attributes := attributes;
            ext_animation_url := optional "TOKEN_ANIMATION_URL";
            ext_external_url := optional "TOKEN_EXTERNAL_URL";
            ext_background_color := optional "TOKEN_BACKGROUND_COLOR" |},
         "ON-CHAIN (Full metadata stored on blockchain)")
  else
    ret ({| ext_name := None;
            ext_description := None;
            ext_image := Some (mint_TOKEN_IMAGE p);
            ext_attributes := None;
            ext_animation_url := None;
            ext_external_url := None;
            ext_background_color := None |},
         "OFF-CHAIN (Metadata stored on IPFS: " +:+ mint_TOKEN_URI p +:+ ")").

Definition mintToken (env : gmap string string) (argv : list string) : M unit :=
  try_catch
    (let p := mintToken_params env argv in
     do* console_log ("Minting new NFT..." +:+ nl) in
     if negb (truthy (mint_CONTRACT_ADDRESS p)) then
       do* console_error "Error: CONTRACT_ADDRESS not set!" in
       do* console_log "   Please set CONTRACT_ADDRESS in your .env file" in
       console_log "   Or run: export CONTRACT_ADDRESS=xion1..."
     else
       let contract := text (mint_CONTRACT_ADDRESS p) in
       do* console_log "Loading wallet from environment..." in
       let* wallet := loadWallet env in
       let* account := getFirstAccount wallet in
       let* address := account_address account in
       do* console_log ("Wallet loaded: " +:+ address +:+ nl) in
       do* console_log "Connecting to XION network..." in
       let* client := connectSigningClient wallet in
       do* console_log ("Connected to " +:+ chainId XION_CONFIG +:+ nl) in
       let ownerAddress := or_default (mint_OWNER_ADDRESS p) address in
       let* ext := mint_extension_of env p in
       let mintMsg := {| mint_token_id := mint_TOKEN_ID p;
                         mint_owner := ownerAddress;
                         mint_token_uri := mint_TOKEN_URI p;
                         mint_extension := fst ext |} in
       let onchain := String.eqb (mint_METADATA_STORAGE p) "onchain" in
       do* console_log "NFT Details:" in
       do* console_log ("   Contract: " +:+ contract) in
       do* console_log ("   Token ID: " +:+ mint_TOKEN_ID p) in
       do* console_log ("   Owner: " +:+ ownerAddress) in
       do* console_log ("   Storage Mode: " +:+ toUpperCase (mint_METADATA_STORAGE p)) in
       do* console_log ("   " +:+ snd ext) in
       do* (if onchain then
              do* console_log ("   Name: " +:+ mint_TOKEN_NAME p) in
              do* console_log ("   Description: " +:+ mint_TOKEN_DESCRIPTION p) in
              do* console_log ("   Image: " +:+ mint_TOKEN_IMAGE p) in
              match ext_attributes (fst ext) with
              | Some j =>
                  if json_truthy j
                  then console_log ("   Attributes: " +:+ JSON_stringify j)
                  else ret tt
              | None => ret tt
              end
            else ret tt) in
       do* console_log ("   Token URI: " +:+ mint_TOKEN_URI p) in
       do* console_log (nl +:+ "Minting NFT...") in
       let* result := executeContract client address contract mintMsg
                        ("Minted NFT #" +:+ mint_TOKEN_ID p) [] in
       do* console_log (nl +:+ rule) in
       do* console_log "NFT MINTED SUCCESSFULLY!" in
       do* console_log rule in
       do* console_log ("Token ID: " +:+ mint_TOKEN_ID p) in
       do* console_log ("Owner: " +:+ ownerAddress) in
       do* console_log ("Contract: " +:+ contract) in
       do* console_log ("Storage: " +:+ toUpperCase (mint_METADATA_STORAGE p)) in
       do* console_log ("Explorer: https://www.mintscan.io/xion-testnet/tx/"
                        +:+ transactionHash result) in
       do* console_log rule in
       do* printTxResult result in
       do* console_log (nl +:+ "METADATA STORAGE:") in
       do* (if onchain then
              do* console_log "   All metadata is stored ON-CHAIN in the contract" in
              do* console_log "   Metadata can be queried directly from the contract" in
              console_log "   No external dependencies (IPFS not required)"
            else
              do* console_log "   Metadata is stored OFF-CHAIN on IPFS" in
              do* console_log ("   Token URI: " +:+ mint_TOKEN_URI p) in
              do* console_log "   Contract stores only the IPFS reference" in
              console_log "   Wallets/apps will fetch metadata from IPFS") in
       do* console_log (nl +:+ "NEXT STEPS:") in
       do* console_log "   1. Use verify-ownership.js to verify the NFT owner" in
       do* console_log "   2. Use transfer-nft.js to transfer the NFT to another address" in
       do* console_log "   3. Query NFT metadata using the contract address and token ID" in
       do* console_log EmptyString in
       disconnect client)
    handleError.

(** *** [deploy-contract.js] *)

Definition deployContract (env : gmap string string) : M unit :=
  try_catch
    (let p := deployContract_params env in
     do* console_log ("Deploying CW721 NFT Contract..." +:+ nl) in
     do* console_log "Loading wallet from environment..." in
     let* wallet := loadWallet env in
     let* account := getFirstAccount wallet in
     let* address := account_address account in
     do* console_log ("Wallet loaded: " +:+ address +:+ nl) in
     do* console_log "Connecting to XION network..." in
     let* client := connectSigningClient wallet in
     do* console_log ("Connected to " +:+ chainId XION_CONFIG +:+ nl) in
     let* balance := getBalance client address in
     do* console_log ("Wallet balance: " +:+ coin_amount balance +:+ " "
                      +:+ coin_denom balance) in
     if is_zero (parseInt (coin_amount balance)) then
       do* console_log (nl +:+ "Warning: Wallet has zero balance!") in
       do* console_log "   Please fund your wallet with testnet tokens before deploying." in
       do* console_log ("   Discord: " +:+ discord (faucet XION_CONFIG)) in
       console_log ("   Command: " +:+ command (faucet XION_CONFIG))
     else
       let instantiateMsg := {| inst_name := deploy_NFT_NAME p;
                                inst_symbol := deploy_NFT_SYMBOL p;
                                inst_minter := address |} in
       do* console_log (nl +:+ "Contract Configuration:") in
       do* console_log ("   Name: " +:+ deploy_NFT_NAME p) in
       do* console_log ("   Symbol: " +:+ deploy_NFT_SYMBOL p) in
       do* console_log ("   Minter: " +:+ address) in
       do* console_log ("   Code ID: " +:+ pretty (cw721MetadataOnchainCodeId XION_CONFIG)) in
       do* console_log ("   Label: " +:+ deploy_CONTRACT_LABEL p) in
       do* console_log (nl +:+ "Instantiating contract...") in
       let* result := instantiateContract client address
                        (cw721MetadataOnchainCodeId XION_CONFIG)
                        instantiateMsg (deploy_CONTRACT_LABEL p) address in
       let contractAddress := contractAddress result in
       do* console_log (nl +:+ rule) in
       do* console_log "CONTRACT DEPLOYED SUCCESSFULLY!" in
       do* console_log rule in
       do* console_log ("Contract Address: " +:+ contractAddress) in
       do* console_log ("Explorer: https://www.mintscan.io/xion-testnet/address/"
                        +:+ contractAddress) in
       do* console_log rule in
       do* printTxResult (instantiate_tx result) in
       do* console_log (nl +:+ "NEXT STEPS:") in
       do* console_log ("   1. Add CONTRACT_ADDRESS=" +:+ dquote +:+ contractAddress
                        +:+ dquote +:+ " to your .env file") in
       do* console_log "   2. Use mint-token.js to mint your first NFT" in
       do* console_log "   3. Use transfer-nft.js to transfer NFTs between addresses" in
       do* console_log EmptyString in
       disconnect client)
    handleError.

(** *** [verify-ownership.js] *)

(** [obj[key]] on the key-value pairs of an object. *)
Fixpoint field (key : string) (obj : list (string * Json)) : option Json :=
  match obj with
  | [] => None
  | (k, v) :: obj' => if String.eqb k key then Some v else field key obj'
  end.

Definition print_field (label key : string) (obj : list (string * Json)) : M unit :=
  match field key obj with
  | Some v => if json_truthy v then console_log (label +:+ json_text v) else ret tt
  | None => ret tt
  end.

Definition known_field (k : string) : bool :=
  String.eqb k "name" || String.eqb k "description" || String.eqb k "image".

Definition print_metadata (nftInfo : NftInfoResponse) : M unit :=
  do* console_log (nl +:+ "NFT Metadata:") in
  do* console_log ("   Token URI: " +:+ or_default (token_uri nftInfo) "Not set") in
  match extension nftInfo with
  | Some ext =>
      do* print_field "   Name: " "name" ext in
      do* print_field "   Description: " "description" ext in
      do* print_field "   Image: " "image" ext in
      let otherFields := List.filter (fun kv => negb (known_field (fst kv))) ext in
      match otherFields with
      | [] => ret tt
      | _ :: _ =>
          do* console_log "   Additional metadata:" in
          for_each otherFields (fun kv =>
            console_log ("     " +:+ fst kv +:+ ": "
                         +:+ match field (fst kv) ext with
                             | Some v => JSON_stringify v
                             | None => "undefined"
                             end))
      end
  | None => ret tt
  end.

Fixpoint print_approvals (i : nat) (xs : list Approval) : M unit :=
  match xs with
  | [] => ret tt
  | a :: xs' =>
      do* console_log ("   " +:+ pretty (S i) +:+ ". " +:+ spender a
                       +:+ " (expires: " +:+ json_text (expires a) +:+ ")") in
      print_approvals (S i) xs'
  end.

Definition verifyOwnership (env : gmap string string) (argv : list string) : M unit :=
  try_catch
    (let p := verifyOwnership_params env argv in
     do* console_log ("Verifying NFT Ownership..." +:+ nl) in
     if negb (truthy (verify_CONTRACT_ADDRESS p)) then
       do* console_error "Error: CONTRACT_ADDRESS not set!" in
       console_log "   Please set CONTRACT_ADDRESS in your .env file"
     else if negb (truthy (verify_TOKEN_ID p)) then
       do* console_error "Error: TOKEN_ID not provided!" in
       do* console_log "   Usage: npm run verify-ownership <token_id> [expected_owner_address]" in
       console_log "   Or set TOKEN_ID in .env file"
     else
       let contract := text (verify_CONTRACT_ADDRESS p) in
       let token_id := text (verify_TOKEN_ID p) in
       do* console_log "Connecting to XION network..." in
       let* client := connectQueryClient in
       do* console_log ("Connected to " +:+ chainId XION_CONFIG +:+ nl) in
       do* console_log "Query Details:" in
       do* console_log ("   Contract: " +:+ contract) in
       do* console_log ("   Token ID: " +:+ token_id) in
       do* console_log (nl +:+ "Querying NFT ownership...") in
       let* ownerResult := queryOwnerOf client contract token_id in
       do* console_log (nl +:+ rule) in
       do* console_log "OWNERSHIP VERIFICATION RESULT" in
       do* console_log rule in
       do* console_log ("Token ID: " +:+ token_id) in
       do* console_log ("Owner: " +:+ owner ownerResult) in
       do* (match approvals ownerResult with
            | [] => console_log "Approvals: None"
            | _ :: _ =>
                do* console_log ("Approvals: "
                                 +:+ pretty (length (approvals ownerResult))) in
                print_approvals 0 (approvals ownerResult)
            end) in
       do* console_log rule in
       do* (if truthy (verify_EXPECTED_OWNER p) then
              do* console_log (nl +:+ "Verification Check:") in
              do* console_log ("   Expected: " +:+ text (verify_EXPECTED_OWNER p)) in
              do* console_log ("   Actual: " +:+ owner ownerResult) in
              if String.eqb (owner ownerResult) (text (verify_EXPECTED_OWNER p))
              then console_log "   MATCH - Ownership verified!"
              else console_log "   MISMATCH - Owner does not match expected address"
            else ret tt) in
       do* console_log (nl +:+ "Fetching NFT metadata...") in
       do* try_catch
             (let* nftInfo := queryNftInfo client contract token_id in
              print_metadata nftInfo)
             (fun _ => console_log (nl +:+ "Could not fetch metadata (may not be available)")) in
       do* console_log (nl +:+ "Checking owner's total NFTs...") in
       do* try_catch
             (let* tokensResult := queryTokens client contract (owner ownerResult) 100 in
              do* console_log (nl +:+ "Total NFTs owned by " +:+ owner ownerResult +:+ ": "
                               +:+ pretty (length (tokens tokensResult))) in
              match tokens tokensResult with
              | [] => ret tt
              | _ :: _ => console_log ("   Token IDs: " +:+ join ", " (tokens tokensResult))
              end)
             (fun _ => console_log (nl +:+ "Could not fetch owner's token list")) in
       do* console_log EmptyString in
       disconnect client)
    (fun error =>
       if truthy (Some (message error)) && includes (message error) "not found" then
         do* console_error (nl +:+ "Error: Token not found!") in
         do* console_log "   The specified token ID does not exist in this contract." in
         console_log "   Please check the token ID and contract address."
       else handleError error).

End WithSdk.

End Scripts.

(** ** A scripted SDK

    An instance of the interface for concrete runs: lookup number [i] is
    answered by [responses i], the balance is a fixed amount, the contract
    answers every query with the same token, and nothing but the count of
    lookups changes the chain state. *)

Module Stub.
Import JsString Number Config Amounts Runtime.

Definition sdk (responses : nat -> option string) (balance : string) : Sdk := {|
  Wallet := string;
  Client := unit;
  Chain := nat;
  IndexedTx := string;
  Json := string;
  error_stack := fun _ => None;
  undefined_property := fun p =>
    {| message := "Cannot read properties of undefined (reading '" +:+ p +:+ "')";
       stack := None |};
  JSON_parse := fun s => Ok s;
  JSON_stringify := fun j => j;
  json_truthy := fun j => negb (String.eqb j EmptyString);
  json_text := fun j => j;
  wallet_fromMnemonic := fun mnemonic prefix => Ok (prefix +:+ "1stub");
  wallet_getAccounts := fun w => [ {| address := w; algo := "secp256k1"; pubkey := EmptyString |} ];
  client_connect := fun _ c => (Ok tt, c);
  client_connectWithSigner := fun _ _ _ c => (Ok tt, c);
  client_getTx := fun _ _ c => (Ok (responses c), S c);
  client_getBalance := fun _ _ d c => (Ok {| coin_denom := d; coin_amount := balance |}, c);
  client_disconnect := fun _ c => c;
  set_timeout := fun _ c => c
|}.

Definition receipt : TxResult :=
  {| transactionHash := "A1B2"; gasUsed := 150000; gasWanted := 200000;
     height := 42; logs := None |}.

Definition contracts (responses : nat -> option string) (balance : string)
  : @Contracts (sdk responses balance) := {|
  client_queryOwnerOf := fun _ _ _ c =>
    (Ok (@Build_OwnerOfResponse (sdk responses balance) "xion1owner" []), c);
  client_queryNftInfo := fun _ _ _ c =>
    (Ok (@Build_NftInfoResponse (sdk responses balance) (Some "ipfs://token")
           (Some [("name", "Token"); ("rarity", "rare")])), c);
  client_queryTokens := fun _ _ _ _ c =>
    (Ok {| tokens := ["1"; "2"] |}, c);
  client_execute := fun _ _ _ _ _ _ c => (Ok receipt, c);
  client_instantiate := fun _ _ _ _ _ _ c =>
    (Ok {| contractAddress := "xion1contract"; instantiate_tx := receipt |}, c)
|}.

(** Two empty lookups, then the receipt. *)
Definition third_time (i : nat) : option string :=
  match i with
  | 2%nat => Some "receipt"
  | _ => None
  end.

Definition never (i : nat) : option string := None.

Definition found_sdk : Sdk := sdk third_time "0".
Definition found_contracts : @Contracts found_sdk := contracts third_time "0".
Definition never_sdk : Sdk := sdk never "0".
Definition never_contracts : @Contracts never_sdk := contracts never "0".
Definition funded_sdk : Sdk := sdk never "1".
Definition funded_contracts : @Contracts funded_sdk := contracts never "1".

End Stub.

(** ** Decimal layout *)

Module Decimal.

(** The last [k] decimal digits of [r], leading zeros included. *)
Fixpoint last_digits (k : nat) (r : Z) : string :=
  match k with
  | O => EmptyString
  | S k' => last_digits k' (r / 10) +:+ String (pretty_N_char (Z.to_N (r mod 10))) EmptyString
  end.

End Decimal.

(** ** Shapes of runs *)

Module RunShape.
Import JsString Runtime Helpers.

Section WithSdk.
Context `{Sdk}.

Definition is_console (ev : event) : bool :=
  match ev with
  | ConsoleLog _ | ConsoleError _ => true
  | _ => false
  end.

Definition is_sleep (ev : event) : bool :=
  match ev with
  | Sleep _ => true
  | _ => false
  end.

(** The calls that reach the SDK at all: the wallet and the network. *)
Definition is_sdk_call (ev : event) : bool :=
  match ev with
  | ConsoleLog _ | ConsoleError _ | Sleep _ | ProcessExit _ => false
  | _ => true
  end.

(** A computation that only writes to the console: it returns, leaves
    the chain state alone and records nothing but console lines. *)
Definition prints_only {A} (m : M A) : Prop :=
  forall c, exists a t, m c = mkRun (Returned a) c t /\ forallb is_console t = true.

(** A computation that never ends the process. *)
Definition never_exits {A} (m : M A) : Prop :=
  forall c code, run_outcome (m c) <> Exited code.

(** What [handleError] records for an error: the heading, the message,
    the stack when there is one, and the exit with code 1. *)
Definition error_report (error : js_error) : list event :=
  [ ConsoleError (nl +:+ "Error occurred:"); ConsoleError (message error) ]
  ++ (if truthy (stack error)
      then [ ConsoleError (nl +:+ "Stack trace:"); ConsoleError (text (stack error)) ]
      else [])
  ++ [ ProcessExit 1 ].

End WithSdk.

End RunShape.

(** ** A scripted SDK with failures

    Every call is answered from a script: lookup number [i] by
    [lookups i], the other calls by a fixed answer each, which may be a
    rejection.  The chain state counts the lookups. *)

Module Scripted.
Import JsString Number Config Amounts Runtime.

Definition account : Account :=
  {| address := "xion1stub"; algo := "secp256k1"; pubkey := EmptyString |}.

Definition timeout : js_error := {| message := "socket hang up"; stack := None |}.

Definition not_found : js_error :=
  {| message := "Query failed: token_id not found"; stack := None |}.

Record script := {
  wallet_answer : result string;
  accounts_answer : list Account;
  connect_answer : result unit;
  lookups : nat -> result (option string);
  balance_answer : result string
}.

Definition sdk (s : script) : Sdk := {|
  Wallet := string;
  Client := unit;
  Chain := nat;
  IndexedTx := string;
  Json := string;
  error_stack := fun _ => None;
  undefined_property := fun p =>
    {| message := "Cannot read properties of undefined (reading '" +:+ p +:+ "')";
       stack := None |};
  JSON_parse := fun t =>
    if String.eqb t "{" then Err {| message := "Unexpected end of JSON input"; stack := None |}
    else Ok t;
  JSON_stringify := fun j => j;
  json_truthy := fun j => negb (String.eqb j EmptyString);
  json_text := fun j => j;
  wallet_fromMnemonic := fun _ _ => wallet_answer s;
  wallet_getAccounts := fun _ => accounts_answer s;
  client_connect := fun _ c => (connect_answer s, c);
  client_connectWithSigner := fun _ _ _ c => (connect_answer s, c);
  client_getTx := fun _ _ c => (lookups s c, S c);
  client_getBalance := fun _ _ d c =>
    (match balance_answer s with
     | Ok a => Ok {| coin_denom := d; coin_amount := a |}
     | Err e => Err e
     end, c);
  client_disconnect := fun _ c => c;
  set_timeout := fun _ c => c
|}.

Record contract_script (s : script) := {
  owner_answer : result (@OwnerOfResponse (sdk s));
  info_answer : result (@NftInfoResponse (sdk s));
  tokens_answer : result TokensResponse;
  execute_answer : result TxResult;
  instantiate_answer : result InstantiateResult
}.
Arguments owner_answer {s} _.
Arguments info_answer {s} _.
Arguments tokens_answer {s} _.
Arguments execute_answer {s} _.
Arguments instantiate_answer {s} _.

Definition contracts (s : script) (k : contract_script s) : @Contracts (sdk s) := {|
  client_queryOwnerOf := fun _ _ _ c => (owner_answer k, c);
  client_queryNftInfo := fun _ _ _ c => (info_answer k, c);
  client_queryTokens := fun _ _ _ _ c => (tokens_answer k, c);
  client_execute := fun _ _ _ _ _ _ c => (execute_answer k, c);
  client_instantiate := fun _ _ _ _ _ _ c => (instantiate_answer k, c)
|}.

Definition receipt : TxResult :=
  {| transactionHash := "A1B2"; gasUsed := 150000; gasWanted := 200000;
     height := 42; logs := None |}.

(** A contract that knows the token: the metadata query is rejected, the
    other calls answer. *)
Definition knows_token (s : script) : contract_script s :=
  {| owner_answer := Ok (@Build_OwnerOfResponse (sdk s) "xion1owner" []);
     info_answer := Err {| message := "metadata unavailable"; stack := None |};
     tokens_answer := Ok {| tokens := ["1"; "2"] |};
     execute_answer := Ok receipt;
     instantiate_answer :=
       Ok {| contractAddress := "xion1contract"; instantiate_tx := receipt |} |}.

(** A contract that rejects the ownership query with [e]. *)
Definition rejects_owner (s : script) (e : js_error) : contract_script s :=
  {| owner_answer := Err e;
     info_answer := Err e;
     tokens_answer := Err e;
     execute_answer := Err e;
     instantiate_answer := Err e |}.


(** The environment of a configured installation. *)
Definition configured : gmap string string :=
  <[ "CONTRACT_ADDRESS" := "xion1contract" ]> {[ "MNEMONIC" := "abandon ability able" ]}.

(** A healthy SDK: the wallet derives, the connection opens, no lookup
    finds anything and the balance is [balance]. *)
Definition healthy (balance : string) : script :=
  {| wallet_answer := Ok "wallet";
     accounts_answer := [account];
     connect_answer := Ok tt;
     lookups := fun _ => Ok None;
     balance_answer := Ok balance |}.

(** Two empty lookups, then a rejection. *)
Definition flaky : script :=
  {| wallet_answer := Ok "wallet";
     accounts_answer := [account];
     connect_answer := Ok tt;
     lookups := fun i => match i with 2%nat => Err timeout | _ => Ok None end;
     balance_answer := Ok "0" |}.

End Scripted.

(** ** Token transfers and fee estimates

    The scripts that send native tokens, transfer a token of the
    contract and estimate fees call the SDK beyond the interface above:
    [client.sendTokens], [client.execute] with a transfer message and
    [client.simulate].  Their runs record these calls next to the events
    of the helpers they share with the other scripts. *)

Module Transfers.
Import JsString Number Config Amounts Runtime Helpers Scripts.

(** [x < y] and [x - y] on numbers: the standard library's binary64
    comparison and subtraction. *)
Definition lt (x y : number) : bool := SFltb x y.

Definition sub (x y : number) : number := SFsub 53 1024 x y.

(** Text within ASCII: there the byte-wise [toLowerCase] and white space
    of [JsString] are those of JavaScript. *)
Definition ascii_only (s : string) : bool :=
  forallb (fun c => (N_of_ascii c <? 128)%N) (list_ascii_of_string s).

(** The mantissa of the double nearest to the adjustment 1.3, whose
    exponent is -52: ten times it is [13 * 2 ^ 52 + 2]. *)
Definition adjustment_mantissa : Z := 5854679515581645.

Record TransferMsg := { transfer_recipient : string; transfer_token_id : string }.

Section WithSdk.
Context `{Sdk}.

(** The message a contract is executed with. *)
Inductive ContractMsg :=
| MintContractMsg (msg : MintMsg)
| TransferContractMsg (msg : TransferMsg).

(** The messages handed to [client.simulate], by their [typeUrl]. *)
Inductive EncodeObject :=
| MsgExecuteContract (sender contract : string) (msg : ContractMsg) (funds : list Coin)
| MsgSend (fromAddress toAddress : string) (amount : list Coin)
| MsgInstantiateContract (sender admin : string) (codeId : Z) (label : string)
                         (msg : InstantiateMsg) (funds : list Coin).

Class Bank := {
  client_sendTokens : Client -> string -> string -> list Coin -> string -> string ->
                      Chain -> result TxResult * Chain;
  client_executeTransfer : Client -> string -> string -> TransferMsg -> string ->
                           list Coin -> Chain -> result TxResult * Chain;
  client_simulate : Client -> string -> list EncodeObject -> string ->
                    Chain -> result number * Chain
}.

Inductive xevent :=
| Core (ev : event)
| SendTokens (sender recipient : string) (amount : list Coin) (fee memo : string)
| ExecuteTransfer (sender contract : string) (msg : TransferMsg) (memo : string)
                  (funds : list Coin)
| Simulate (sender : string) (messages : list EncodeObject) (memo : string).

Definition is_send (ev : xevent) : bool :=
  match ev with
  | SendTokens _ _ _ _ _ => true
  | _ => false
  end.

Definition is_simulate (ev : xevent) : bool :=
  match ev with
  | Simulate _ _ _ => true
  | _ => false
  end.

(** The calls that reach the SDK, as [is_sdk_call] for the events of the
    helpers. *)
Definition is_xsdk_call (ev : xevent) : bool :=
  match ev with
  | Core (ConsoleLog _) | Core (ConsoleError _) | Core (Sleep _) | Core (ProcessExit _) => false
  | _ => true
  end.

Record xrun (A : Type) := mkXRun {
  xrun_outcome : outcome A;
  xrun_chain : Chain;
  xrun_trace : list xevent
}.
Arguments mkXRun {A} _ _ _.
Arguments xrun_outcome {A} _.
Arguments xrun_chain {A} _.
Arguments xrun_trace {A} _.

Definition X (A : Type) : Type := Chain -> xrun A.

Definition xprepend {A} (t : list xevent) (r : xrun A) : xrun A :=
  mkXRun (xrun_outcome r) (xrun_chain r) (t ++ xrun_trace r).

(** A computation of the helpers, run as it is. *)
Definition lift {A} (m : M A) : X A :=
  fun c => let r := m c in
           mkXRun (run_outcome r) (run_chain r) (map Core (run_trace r)).

Definition xret {A} (a : A) : X A := fun c => mkXRun (Returned a) c [].

Definition xbind {A B} (m : X A) (k : A -> X B) : X B :=
  fun c =>
    let r := m c in
    match xrun_outcome r with
    | Returned a => xprepend (xrun_trace r) (k a (xrun_chain r))
    | Thrown e => mkXRun (Thrown e) (xrun_chain r) (xrun_trace r)
    | Exited code => mkXRun (Exited code) (xrun_chain r) (xrun_trace r)
    end.

Definition xtry_catch {A} (body : X A) (handler : js_error -> X A) : X A :=
  fun c =>
    let r := body c in
    match xrun_outcome r with
    | Thrown e => xprepend (xrun_trace r) (handler e (xrun_chain r))
    | _ => r
    end.

Definition xcall {A} (ev : xevent) (op : Chain -> result A * Chain) : X A :=
  fun c =>
    let '(r, c') := op c in
    mkXRun (match r with Ok a => Returned a | Err e => Thrown e end) c' [ev].

Definition xlog (line : string) : X unit := lift (console_log line).
Definition xerror (line : string) : X unit := lift (console_error line).

(** A computation that never ends the process. *)
Definition xnever_exits {A} (m : X A) : Prop :=
  forall c code, xrun_outcome (m c) <> Exited code.

End WithSdk.

Arguments mkXRun {_ A} _ _ _.
Arguments xrun_outcome {_ A} _.
Arguments xrun_chain {_ A} _.
Arguments xrun_trace {_ A} _.

Notation "'let+' x ':=' m 'in' k" := (xbind m (fun x => k))
  (at level 10, x name, m at level 100, k at level 200).
Notation "'do+' m 'in' k" := (xbind m (fun _ => k))
  (at level 10, m at level 100, k at level 200).

Section Scripts.
Context `{Sdk} `{!Contracts} `{!Bank}.

(** What the three scripts print and call between their banner and
    their own work when the wallet loads and the connection opens: the
    wallet, its first account and the signing connection. *)
Definition opening (mnemonic : string) (address : string) : list xevent :=
  map Core
    [ ConsoleLog "Loading wallet from environment...";
      WalletFromMnemonic mnemonic "xion";
      WalletGetAccounts;
      ConsoleLog ("Wallet loaded: " +:+ address +:+ nl);
      ConsoleLog "Connecting to XION network...";
      ConnectWithSigner (rpcEndpoint XION_CONFIG) (gasPrice XION_CONFIG);
      ConsoleLog ("Connected to " +:+ chainId XION_CONFIG +:+ nl) ].

(** [simulateTransaction] of [utils/helpers.js] *)
Definition simulateTransaction (client : Client) (senderAddress : string)
           (messages : list EncodeObject) : X number :=
  let+ gasEstimate := xcall (Simulate senderAddress messages EmptyString)
                            (client_simulate client senderAddress messages EmptyString) in
  xret (Math_ceil (mul gasEstimate (gasAdjustment XION_CONFIG))).

(** [executeContract] of [utils/helpers.js] at a transfer message: the
    fee is ["auto"] at every call. *)
Definition executeTransfer (client : Client) (senderAddress contract : string)
           (executeMsg : TransferMsg) (memo : string) (funds : list Coin) : X TxResult :=
  xcall (ExecuteTransfer senderAddress contract executeMsg memo funds)
        (client_executeTransfer client senderAddress contract executeMsg memo funds).

(** *** [transfer-gas.js] *)

Definition transferGas (env : gmap string string) (argv : list string) : X unit :=
  xtry_catch
    (let p := transferGas_params env argv in
     do+ xlog ("Transferring XION Tokens..." +:+ nl) in
     if negb (truthy (gas_RECIPIENT p)) then
       do+ xerror "Error: RECIPIENT address not provided!" in
       do+ xlog "   Usage: npm run transfer-gas <recipient_address> <amount_in_xion>" in
       do+ xlog "   Example: npm run transfer-gas xion1abc... 1.5" in
       xlog "   Or set RECIPIENT and AMOUNT in .env file"
     else if negb (truthy (gas_AMOUNT p)) then
       do+ xerror "Error: AMOUNT not provided!" in
       do+ xlog "   Usage: npm run transfer-gas <recipient_address> <amount_in_xion>" in
       do+ xlog "   Example: npm run transfer-gas xion1abc... 1.5" in
       xlog "   Or set AMOUNT in .env file"
     else
       let RECIPIENT := text (gas_RECIPIENT p) in
       let AMOUNT := text (gas_AMOUNT p) in
       do+ xlog "Loading wallet from environment..." in
       let+ wallet := lift (loadWallet env) in
       let+ account := lift (getFirstAccount wallet) in
       let+ address := lift (account_address account) in
       do+ xlog ("Wallet loaded: " +:+ address +:+ nl) in
       do+ xlog "Connecting to XION network..." in
       let+ client := lift (connectSigningClient wallet) in
       do+ xlog ("Connected to " +:+ chainId XION_CONFIG +:+ nl) in
       let amountInUxion := parseXionAmount (AmountString AMOUNT) in
       let+ balance := lift (getBalance client address) in
       let balanceInXion := formatXionAmount (AmountString (coin_amount balance)) in
       do+ xlog "Wallet Balance:" in
       do+ xlog ("   Current: " +:+ coin_amount balance +:+ " " +:+ denom XION_CONFIG
                 +:+ " (" +:+ balanceInXion +:+ " XION)") in
       if lt (parseInt (coin_amount balance)) (parseInt amountInUxion) then
         do+ xerror (nl +:+ "Error: Insufficient balance!") in
         do+ xlog ("   Required: " +:+ amountInUxion +:+ " " +:+ denom XION_CONFIG
                   +:+ " (" +:+ AMOUNT +:+ " XION)") in
         xlog ("   Available: " +:+ coin_amount balance +:+ " " +:+ denom XION_CONFIG
               +:+ " (" +:+ balanceInXion +:+ " XION)")
       else
         do+ xlog (nl +:+ "Transfer Details:") in
         do+ xlog ("   From: " +:+ address) in
         do+ xlog ("   To: " +:+ RECIPIENT) in
         do+ xlog ("   Amount: " +:+ amountInUxion +:+ " " +:+ denom XION_CONFIG
                   +:+ " (" +:+ AMOUNT +:+ " XION)") in
         do+ xlog (nl +:+ "Sending tokens...") in
         let amount := [ {| coin_denom := denom XION_CONFIG; coin_amount := amountInUxion |} ] in
         let memo := "Transfer " +:+ AMOUNT +:+ " XION tokens" in
         let+ result := xcall (SendTokens address RECIPIENT amount "auto" memo)
                              (client_sendTokens client address RECIPIENT amount "auto" memo) in
         do+ xlog (nl +:+ rule) in
         do+ xlog "TOKENS TRANSFERRED SUCCESSFULLY!" in
         do+ xlog rule in
         do+ xlog ("Amount: " +:+ amountInUxion +:+ " " +:+ denom XION_CONFIG
                   +:+ " (" +:+ AMOUNT +:+ " XION)") in
         do+ xlog ("From: " +:+ address) in
         do+ xlog ("To: " +:+ RECIPIENT) in
         do+ xlog ("Explorer: https://www.mintscan.io/xion-testnet/tx/"
                   +:+ transactionHash result) in
         do+ xlog rule in
         do+ lift (printTxResult result) in
         let+ newBalance := lift (getBalance client address) in
         let newBalanceInXion := formatXionAmount (AmountString (coin_amount newBalance)) in
         do+ xlog (nl +:+ "Updated Balance:") in
         do+ xlog ("   Previous: " +:+ coin_amount balance +:+ " " +:+ denom XION_CONFIG
                   +:+ " (" +:+ balanceInXion +:+ " XION)") in
         do+ xlog ("   Current: " +:+ coin_amount newBalance +:+ " " +:+ denom XION_CONFIG
                   +:+ " (" +:+ newBalanceInXion +:+ " XION)") in
         do+ xlog ("   Transferred: " +:+ amountInUxion +:+ " " +:+ denom XION_CONFIG
                   +:+ " (" +:+ AMOUNT +:+ " XION)") in
         do+ xlog ("   Gas Fee: "
                   +:+ toString (sub (sub (parseInt (coin_amount balance))
                                          (parseInt (coin_amount newBalance)))
                                     (parseInt amountInUxion))
                   +:+ " " +:+ denom XION_CONFIG) in
         do+ xlog EmptyString in
         lift (disconnect client))
    (fun error => lift (handleError error)).

(** *** [transfer-nft.js] *)

Definition transferNFT (env : gmap string string) (argv : list string) : X unit :=
  xtry_catch
    (let p := transferNFT_params env argv in
     do+ xlog ("Transferring NFT..." +:+ nl) in
     if negb (truthy (nft_CONTRACT_ADDRESS p)) then
       do+ xerror "Error: CONTRACT_ADDRESS not set!" in
       xlog "   Please set CONTRACT_ADDRESS in your .env file"
     else if negb (truthy (nft_TOKEN_ID p)) then
       do+ xerror "Error: TOKEN_ID not provided!" in
       do+ xlog "   Usage: npm run transfer-nft <token_id> <recipient_address>" in
       xlog "   Or set TOKEN_ID and RECIPIENT in .env file"
     else if negb (truthy (nft_RECIPIENT p)) then
       do+ xerror "Error: RECIPIENT address not provided!" in
       do+ xlog "   Usage: npm run transfer-nft <token_id> <recipient_address>" in
       xlog "   Or set RECIPIENT in .env file"
     else
       let CONTRACT_ADDRESS := text (nft_CONTRACT_ADDRESS p) in
       let TOKEN_ID := text (nft_TOKEN_ID p) in
       let RECIPIENT := text (nft_RECIPIENT p) in
       do+ xlog "Loading wallet from environment..." in
       let+ wallet := lift (loadWallet env) in
       let+ account := lift (getFirstAccount wallet) in
       let+ address := lift (account_address account) in
       do+ xlog ("Wallet loaded: " +:+ address +:+ nl) in
       do+ xlog "Connecting to XION network..." in
       let+ client := lift (connectSigningClient wallet) in
       do+ xlog ("Connected to " +:+ chainId XION_CONFIG +:+ nl) in
       let transferMsg := {| transfer_recipient := RECIPIENT;
                             transfer_token_id := TOKEN_ID |} in
       do+ xlog "Transfer Details:" in
       do+ xlog ("   Contract: " +:+ CONTRACT_ADDRESS) in
       do+ xlog ("   Token ID: " +:+ TOKEN_ID) in
       do+ xlog ("   From: " +:+ address) in
       do+ xlog ("   To: " +:+ RECIPIENT) in
       do+ xlog (nl +:+ "Executing transfer...") in
       let memo := "Transferred NFT #" +:+ TOKEN_ID +:+ " to " +:+ RECIPIENT in
       let+ result := executeTransfer client address CONTRACT_ADDRESS transferMsg memo [] in
       do+ xlog (nl +:+ rule) in
       do+ xlog "NFT TRANSFERRED SUCCESSFULLY!" in
       do+ xlog rule in
       do+ xlog ("Token ID: " +:+ TOKEN_ID) in
       do+ xlog ("From: " +:+ address) in
       do+ xlog ("To: " +:+ RECIPIENT) in
       do+ xlog ("Contract: " +:+ CONTRACT_ADDRESS) in
       do+ xlog ("Explorer: https://www.mintscan.io/xion-testnet/tx/"
                 +:+ transactionHash result) in
       do+ xlog rule in
       do+ lift (printTxResult result) in
       do+ xlog (nl +:+ "NEXT STEPS:") in
       do+ xlog "   1. Use verify-ownership.js to confirm the new owner" in
       do+ xlog "   2. Use monitor-transaction.js to track transaction status" in
       do+ xlog EmptyString in
       lift (disconnect client))
    (fun error => lift (handleError error)).

(** *** [check-gas-fee.js]

    The script as first listed; its second listing differs only in the
    sample messages it simulates and in the encoding of one note line. *)

Definition example_address : string := "xion1qka2er800suxsy7y9yz9wqgt8p3ktw5ptpf28s".

(** [fee.amount[0].amount]: the amount of the first coin of a fee. *)
Definition first_amount (fee : StdFee) : X string :=
  match fee_amount fee with
  | coin :: _ => xret (coin_amount coin)
  | [] => lift (throw (undefined_property "amount"))
  end.

(** What follows the [switch]: simulation, fee and balance report. *)
Definition estimate (client : Client) (address : string)
           (messages : list EncodeObject) (txDescription : string) : X unit :=
  do+ xlog ("Simulating: " +:+ txDescription) in
  do+ xlog ("Estimating gas..." +:+ nl) in
  let+ gasEstimate := simulateTransaction client address messages in
  let fee := calculateFee gasEstimate in
  let+ feeText := first_amount fee in
  let feeAmount := parseInt feeText in
  let feeInXion := formatXionAmount (AmountNumber feeAmount) in
  do+ xlog rule in
  do+ xlog "GAS ESTIMATION RESULTS" in
  do+ xlog rule in
  do+ xlog ("Transaction Type: " +:+ txDescription) in
  do+ xlog ("Estimated Gas: " +:+ toString gasEstimate +:+ " units") in
  do+ xlog ("Gas Price: " +:+ gasPrice XION_CONFIG) in
  do+ xlog ("Gas Adjustment: " +:+ toString (gasAdjustment XION_CONFIG) +:+ "x") in
  do+ xlog ("Estimated Fee: " +:+ toString feeAmount +:+ " " +:+ denom XION_CONFIG
            +:+ " (" +:+ feeInXion +:+ " XION)") in
  do+ xlog rule in
  let+ balance := lift (getBalance client address) in
  let balanceInXion := formatXionAmount (AmountString (coin_amount balance)) in
  let afterTx := sub (parseInt (coin_amount balance)) feeAmount in
  do+ xlog (nl +:+ "Wallet Balance:") in
  do+ xlog ("   Current: " +:+ coin_amount balance +:+ " " +:+ denom XION_CONFIG
            +:+ " (" +:+ balanceInXion +:+ " XION)") in
  do+ xlog ("   After TX: " +:+ toString afterTx +:+ " " +:+ denom XION_CONFIG
            +:+ " (" +:+ formatXionAmount (AmountNumber afterTx) +:+ " XION)") in
  do+ (if lt (parseInt (coin_amount balance)) feeAmount then
         do+ xlog (nl +:+ "Warning: Insufficient balance for this transaction!") in
         xlog "   Please fund your wallet with testnet tokens."
       else
         xlog (nl +:+ "Sufficient balance for this transaction")) in
  do+ xlog (nl +:+ "NOTE:") in
  do+ xlog "   - Gas estimates are approximate and may vary" in
  do+ xlog "   - Actual gas used may be different from the estimate" in
  do+ xlog "   - Fees are automatically calculated as: gas_used Ã— gas_price" in
  do+ xlog EmptyString in
  lift (disconnect client).

Definition checkGasFee (env : gmap string string) (argv : list string) : X unit :=
  xtry_catch
    (let CONTRACT_ADDRESS := env !! "CONTRACT_ADDRESS" in
     let TRANSACTION_TYPE := checkGasFee_TRANSACTION_TYPE env argv in
     do+ xlog ("Estimating Gas Fees..." +:+ nl) in
     do+ xlog "Loading wallet from environment..." in
     let+ wallet := lift (loadWallet env) in
     let+ account := lift (getFirstAccount wallet) in
     let+ address := lift (account_address account) in
     do+ xlog ("Wallet loaded: " +:+ address +:+ nl) in
     do+ xlog "Connecting to XION network..." in
     let+ client := lift (connectSigningClient wallet) in
     do+ xlog ("Connected to " +:+ chainId XION_CONFIG +:+ nl) in
     let kind := toLowerCase TRANSACTION_TYPE in
     if String.eqb kind "mint" then
       if negb (truthy CONTRACT_ADDRESS) then
         xerror "Error: CONTRACT_ADDRESS required for mint simulation"
       else
         let mintMsg := {| mint_token_id := "1";
                           mint_owner := address;
                           mint_token_uri := "ipfs://example";
                           mint_extension :=
                             {| ext_name := Some "Test NFT";
                                ext_description := Some "Test";
                                ext_image := Some "ipfs://example";
                                ext_attributes := None;
                                ext_animation_url := None;
                                ext_external_url := None;
                                ext_background_color := None |} |} in
         estimate client address
                  [ MsgExecuteContract address (text CONTRACT_ADDRESS)
                                       (MintContractMsg mintMsg) [] ]
                  "Mint NFT"
     else if String.eqb kind "transfer-nft" then
       if negb (truthy CONTRACT_ADDRESS) then
         xerror "Error: CONTRACT_ADDRESS required for transfer-nft simulation"
       else
         let transferNftMsg := {| transfer_recipient := example_address;
                                  transfer_token_id := "1" |} in
         estimate client address
                  [ MsgExecuteContract address (text CONTRACT_ADDRESS)
                                       (TransferContractMsg transferNftMsg) [] ]
                  "Transfer NFT"
     else if String.eqb kind "send-tokens" then
       let amount := or_default (env !! "AMOUNT") "1000000" in
       let recipient := or_default (env !! "RECIPIENT") example_address in
       estimate client address
                [ MsgSend address recipient
                          [ {| coin_denom := denom XION_CONFIG; coin_amount := amount |} ] ]
                "Send Tokens"
     else if String.eqb kind "instantiate" then
       let codeId := cw721MetadataOnchainCodeId XION_CONFIG in
       let instantiateMsg := {| inst_name := "Test NFT Collection";
                                inst_symbol := "TEST";
                                inst_minter := address |} in
       estimate client address
                [ MsgInstantiateContract address address codeId "test-contract"
                                         instantiateMsg [] ]
                "Instantiate Contract"
     else
       do+ xerror ("Unknown transaction type: " +:+ TRANSACTION_TYPE) in
       do+ xlog (nl +:+ "Available transaction types:") in
       do+ xlog "   - mint: Estimate gas for minting an NFT" in
       do+ xlog "   - transfer-nft: Estimate gas for transferring an NFT" in
       do+ xlog "   - send-tokens: Estimate gas for sending XION tokens" in
       do+ xlog "   - instantiate: Estimate gas for deploying a contract" in
       xlog (nl +:+ "Usage: npm run check-gas <transaction-type>"))
    (fun error => lift (handleError error)).

End Scripts.

End Transfers.

(** The scripted SDK, answering transfers and simulations from fixed
    answers. *)
Module ScriptedBank.
Import Runtime Transfers.

Definition bank (s : Scripted.script) (send_answer : result TxResult)
           (simulate_answer : result Number.number) : @Bank (Scripted.sdk s) := {|
  client_sendTokens := fun _ _ _ _ _ _ c => (send_answer, c);
  client_executeTransfer := fun _ _ _ _ _ _ c => (send_answer, c);
  client_simulate := fun _ _ _ _ c => (simulate_answer, c)
|}.

(** A wallet of five XION whose transfers and simulations are accepted,
    the simulation answering 100000 units of gas, or rejected. *)
Definition funded : Sdk := Scripted.sdk (Scripted.healthy "5000000").

Definition accepting : @Bank funded :=
  bank _ (Ok Scripted.receipt) (Ok (Number.of_Z 100000)).

Definition rejecting : @Bank funded :=
  bank _ (Err Scripted.timeout) (Err Scripted.timeout).

Definition transfer_env : gmap string string :=
  <[ "RECIPIENT" := "xion1friend" ]> Scripted.configured.

End ScriptedBank.

(** ** Runs that can be compared, and a chain that counts its calls *)

Module Repeat.
Import JsString Number Config Amounts Runtime Helpers Scripts.

Section WithSdk.
Context `{Sdk} `{!Contracts}.

(** A call answers alike in the chain states that [R] relates: the same
    response, and states that [R] relates again. *)
Definition answers_alike {A} (R : Chain -> Chain -> Prop)
           (op : Chain -> result A * Chain) : Prop :=
  forall c c', R c c' -> fst (op c) = fst (op c') /\ R (snd (op c)) (snd (op c')).

(** The calls of the query client answer alike in the states that [R]
    relates. *)
Definition same_answers (R : Chain -> Chain -> Prop) : Prop :=
  (forall endpoint, answers_alike R (client_connect endpoint))
  /\ (forall client contract token,
         answers_alike R (client_queryOwnerOf client contract token))
  /\ (forall client contract token,
         answers_alike R (client_queryNftInfo client contract token))
  /\ (forall client contract owner limit,
         answers_alike R (client_queryTokens client contract owner limit))
  /\ (forall client c c', R c c' -> R (client_disconnect client c) (client_disconnect client c')).

(** A computation runs alike from the states that [R] relates: it ends
    the same way, records the same events and leaves states that [R]
    relates. *)
Definition alike {A} (R : Chain -> Chain -> Prop) (m : M A) : Prop :=
  forall c c', R c c' ->
    run_outcome (m c) = run_outcome (m c')
    /\ run_trace (m c) = run_trace (m c')
    /\ R (run_chain (m c)) (run_chain (m c')).

(** The calls of the query client leave the chain state as it is. *)
Definition read_only : Prop :=
  (forall endpoint c, snd (client_connect endpoint c) = c)
  /\ (forall client contract token c,
         snd (client_queryOwnerOf client contract token c) = c)
  /\ (forall client contract token c,
         snd (client_queryNftInfo client contract token c) = c)
  /\ (forall client contract owner limit c,
         snd (client_queryTokens client contract owner limit c) = c)
  /\ (forall client c, client_disconnect client c = c).

(** Both runs print the line. *)
Definition both_print (line : string) (r r' : run unit) : Prop :=
  In (ConsoleLog line) (run_trace r) /\ In (ConsoleLog line) (run_trace r').

End WithSdk.

End Repeat.

(** An SDK whose chain state counts the calls made: every call of the
    query client changes it, and no answer depends on it. *)
Module Counting.
Import JsString Number Config Amounts Runtime.

Definition sdk : Sdk := {|
  Wallet := string;
  Client := unit;
  Chain := nat;
  IndexedTx := string;
  Json := string;
  error_stack := fun _ => None;
  undefined_property := fun p =>
    {| message := "Cannot read properties of undefined (reading '" +:+ p +:+ "')";
       stack := None |};
  JSON_parse := fun s => Ok s;
  JSON_stringify := fun j => j;
  json_truthy := fun j => negb (String.eqb j EmptyString);
  json_text := fun j => j;
  wallet_fromMnemonic := fun mnemonic prefix => Ok (prefix +:+ "1stub");
  wallet_getAccounts := fun w => [ {| address := w; algo := "secp256k1"; pubkey := EmptyString |} ];
  client_connect := fun _ c => (Ok tt, S c);
  client_connectWithSigner := fun _ _ _ c => (Ok tt, S c);
  client_getTx := fun _ _ c => (Ok None, S c);
  client_getBalance := fun _ _ d c => (Ok {| coin_denom := d; coin_amount := "0" |}, S c);
  client_disconnect := fun _ c => S c;
  set_timeout := fun _ c => c
|}.

Definition metadata : @NftInfoResponse sdk :=
  @Build_NftInfoResponse sdk (Some "ipfs://token")
    (Some [("name", "Token"); ("image", EmptyString); ("rarity", "rare")]).

Definition contracts : @Contracts sdk :=
  @Build_Contracts sdk
    (fun _ _ _ c => (Ok (@Build_OwnerOfResponse sdk "xion1owner" []), S c))
    (fun _ _ _ c => (Ok metadata, S c))
    (fun _ _ _ _ c => (Ok {| tokens := ["1"; "2"] |}, S c))
    (fun _ _ _ _ _ _ c => (Ok Stub.receipt, S c))
    (fun _ _ _ _ _ _ c =>
       (Ok {| contractAddress := "xion1contract"; instantiate_tx := Stub.receipt |}, S c)).

(** A contract whose token has changed hands by the next query: the
    owner it answers depends on the chain state. *)
Definition moving_contracts : @Contracts sdk :=
  @Build_Contracts sdk
    (fun _ _ _ c => (Ok (@Build_OwnerOfResponse sdk ("xion1owner" +:+ pretty c) []), S c))
    (fun _ _ _ c => (Ok metadata, S c))
    (fun _ _ _ _ c => (Ok {| tokens := ["1"; "2"] |}, S c))
    (fun _ _ _ _ _ _ c => (Ok Stub.receipt, S c))
    (fun _ _ _ _ _ _ c =>
       (Ok {| contractAddress := "xion1contract"; instantiate_tx := Stub.receipt |}, S c)).

End Counting.

(** ** Rounding: the binade of a rational and values that round exactly *)

Module RoundingFacts.
Import JsString Number.

Lemma pow2_pos k : 0 <= k -> 0 < 2 ^ k.
Proof. intros. apply Z.pow_pos_nonneg; lia. Qed.

Lemma pow2_split a b : 0 <= a -> 0 <= b -> 2 ^ (a + b) = 2 ^ a * 2 ^ b.
Proof. intros. apply Z.pow_add_r; lia. Qed.

(** The binade of a positive rational, in cross-multiplied form. *)
Lemma ilog2_unique n d f :
  0 < n -> 0 < d ->
  d * 2 ^ Z.max 0 f <= n * 2 ^ Z.max 0 (- f) < 2 * (d * 2 ^ Z.max 0 f) ->
  ilog2 n d = f.
Proof.
  intros Hn Hd [Hlo Hhi]. unfold ilog2.
  pose proof (Z.log2_nonneg d) as Hl0.
  destruct (Z.log2_spec d Hd) as [Hd1 Hd2].
  replace (Z.succ (Z.log2 d)) with (Z.log2 d + 1) in Hd2 by lia.
  set (b := Z.log2 d + 1) in *.
  assert (Hb : 0 < 2 ^ b) by (apply pow2_pos; lia).
  assert (Hfb : 0 <= f + b).
  { destruct (Z.le_gt_cases 0 f) as [?|Hf]; [lia|].
    rewrite (Z.max_l 0 f) in Hhi by lia. rewrite (Z.max_r 0 (- f)) in Hhi by lia.
    rewrite Z.pow_0_r in Hhi.
    assert (2 ^ (- f) < 2 ^ (b + 1)).
    { rewrite (pow2_split b 1) by lia. change (2 ^ 1) with 2.
      assert (0 < 2 ^ (- f)) by (apply pow2_pos; lia). nia. }
    apply Z.pow_lt_mono_r_iff in H; lia. }
  enough (Z.log2 (n * 2 ^ b / d) = f + b) by lia.
  apply Z.log2_unique; [lia|].
  replace (Z.succ (f + b)) with (f + b + 1) by lia.
  destruct (Z.le_gt_cases 0 f) as [Hf|Hf].
  - rewrite (Z.max_r 0 f) in * by lia. rewrite (Z.max_l 0 (- f)) in * by lia.
    rewrite Z.pow_0_r in *.
    assert (0 < 2 ^ f) by (apply pow2_pos; lia).
    split.
    + apply Z.div_le_lower_bound; [lia|]. rewrite pow2_split by lia. nia.
    + apply Z.div_lt_upper_bound; [lia|].
      rewrite (pow2_split (f + b) 1), pow2_split by lia. change (2 ^ 1) with 2. nia.
  - rewrite (Z.max_l 0 f) in * by lia. rewrite (Z.max_r 0 (- f)) in * by lia.
    rewrite Z.pow_0_r in *.
    assert (0 < 2 ^ (- f)) by (apply pow2_pos; lia).
    assert (0 < 2 ^ (f + b)) by (apply pow2_pos; lia).
    assert (Hs : 2 ^ b = 2 ^ (f + b) * 2 ^ (- f)).
    { rewrite <- pow2_split by lia. f_equal. lia. }
    split.
    + apply Z.div_le_lower_bound; [lia|]. rewrite Hs. nia.
    + apply Z.div_lt_upper_bound; [lia|].
      rewrite (pow2_split (f + b) 1) by lia. change (2 ^ 1) with 2.
      rewrite Hs. nia.
Qed.

(** A rational within half a unit above a 53-bit mantissa rounds to it. *)
Lemma round_near s n d M E :
  0 < n -> 0 < d -> 2 ^ 52 <= M < 2 ^ 53 -> -1074 <= E <= 0 ->
  M * d <= n * 2 ^ (- E) -> 2 * (n * 2 ^ (- E) - M * d) < d ->
  round s n d = S754_finite s (Z.to_pos M) E.
Proof.
  intros Hn Hd HM HE Hlo Hhi. unfold round.
  destruct (Z.leb_spec n 0); [lia|].
  assert (HP : 0 < 2 ^ (- E)) by (apply pow2_pos; lia).
  assert (Hf : ilog2 n d = 52 + E).
  { apply ilog2_unique; try lia.
    destruct (Z.le_gt_cases 0 (52 + E)) as [Hf|Hf].
    - rewrite (Z.max_r 0 (52 + E)), (Z.max_l 0 (- (52 + E))), Z.pow_0_r by lia.
      assert (0 < 2 ^ (52 + E)) by (apply pow2_pos; lia).
      assert (Hs : 2 ^ 52 = 2 ^ (52 + E) * 2 ^ (- E)).
      { rewrite <- pow2_split by lia. f_equal. lia. }
      change (2 ^ 53) with (2 * 2 ^ 52) in HM. nia.
    - rewrite (Z.max_l 0 (52 + E)), (Z.max_r 0 (- (52 + E))), Z.pow_0_r by lia.
      assert (0 < 2 ^ (- (52 + E))) by (apply pow2_pos; lia).
      assert (Hs : 2 ^ (- E) = 2 ^ 52 * 2 ^ (- (52 + E))).
      { rewrite <- pow2_split by lia. f_equal. lia. }
      change (2 ^ 53) with (2 * 2 ^ 52) in HM. nia. }
  rewrite Hf. replace (52 + E - 52) with E by lia.
  rewrite (Z.max_l E (-1074)) by lia.
  rewrite (Z.max_r 0 (- E)), (Z.max_l 0 E), Z.pow_0_r, Z.mul_1_r by lia.
  assert (Hq : n * 2 ^ (- E) / d = M).
  { symmetry. apply (Z.div_unique_pos _ _ _ (n * 2 ^ (- E) - M * d)); lia. }
  assert (Hr : (n * 2 ^ (- E)) mod d = n * 2 ^ (- E) - M * d).
  { symmetry. apply (Z.mod_unique_pos _ _ M); lia. }
  rewrite Hq, Hr.
  destruct (Z.compare_spec (2 * (n * 2 ^ (- E) - M * d)) d); try lia.
  destruct (Z.eqb_spec M 0); [lia|].
  destruct (Z.eqb_spec M (2 ^ 53)); [lia|].
  destruct (Z.ltb_spec 971 E); [lia|]. reflexivity.
Qed.

End RoundingFacts.

(** ** Integers below [2 ^ 53] are computed with exactly *)

Module IntegerFacts.
Import JsString Number RoundingFacts.

Lemma int_mantissa z :
  0 < z < 2 ^ 53 ->
  0 <= Z.log2 z <= 52 /\ 2 ^ 52 <= z * 2 ^ (52 - Z.log2 z) < 2 ^ 53.
Proof.
  intros [Hz Hz2].
  destruct (Z.log2_spec z Hz) as [Hl1 Hl2].
  pose proof (Z.log2_nonneg z) as Hl0.
  assert (Hl : Z.log2 z < 53) by (apply Z.log2_lt_pow2; lia).
  split; [lia|].
  replace (Z.succ (Z.log2 z)) with (Z.log2 z + 1) in Hl2 by lia.
  rewrite (pow2_split (Z.log2 z) 1) in Hl2 by lia. change (2 ^ 1) with 2 in Hl2.
  assert (0 < 2 ^ (52 - Z.log2 z)) by (apply pow2_pos; lia).
  assert (Hs : 2 ^ 52 = 2 ^ Z.log2 z * 2 ^ (52 - Z.log2 z)).
  { rewrite <- pow2_split by lia. f_equal. lia. }
  change (2 ^ 53) with (2 * 2 ^ 52). rewrite Hs. nia.
Qed.

(** An integer below [2 ^ 53], given as an exact quotient, is not rounded. *)
Lemma round_int s z d :
  0 < z < 2 ^ 53 -> 0 < d -> round s (z * d) d = int_repr s z.
Proof.
  intros Hz Hd. destruct (int_mantissa z Hz) as [Hl HM].
  unfold int_repr. apply round_near; try lia.
  - replace (- (Z.log2 z - 52)) with (52 - Z.log2 z) by lia. lia.
  - replace (- (Z.log2 z - 52)) with (52 - Z.log2 z) by lia. lia.
Qed.

Lemma of_Z_int z : 0 < z < 2 ^ 53 -> of_Z z = int_repr false z.
Proof.
  intros Hz. unfold of_Z.
  destruct (Z.eqb_spec z 0); [lia|]. destruct (Z.ltb_spec z 0); [lia|].
  rewrite Z.abs_eq by lia. rewrite <- (Z.mul_1_r z) at 1. apply round_int; lia.
Qed.

Lemma int_repr_pos_mantissa s z :
  0 < z < 2 ^ 53 ->
  int_repr s z = S754_finite s (Z.to_pos (z * 2 ^ (52 - Z.log2 z))) (Z.log2 z - 52)
  /\ Z.pos (Z.to_pos (z * 2 ^ (52 - Z.log2 z))) = z * 2 ^ (52 - Z.log2 z).
Proof.
  intros Hz. destruct (int_mantissa z Hz) as [Hl HM]. split; [reflexivity|].
  apply Z2Pos.id. lia.
Qed.

Lemma mul_int sa sb a b :
  0 < a -> 0 < b -> a * b < 2 ^ 53 ->
  mul (int_repr sa a) (int_repr sb b) = int_repr (xorb sa sb) (a * b).
Proof.
  intros Ha Hb Hab.
  assert (Ha' : 0 < a < 2 ^ 53) by nia. assert (Hb' : 0 < b < 2 ^ 53) by nia.
  destruct (int_mantissa a Ha') as [Hla HMa]. destruct (int_mantissa b Hb') as [Hlb HMb].
  destruct (int_repr_pos_mantissa sa a Ha') as [-> Pa].
  destruct (int_repr_pos_mantissa sb b Hb') as [-> Pb].
  cbn [mul]. rewrite Pa, Pb.
  rewrite (Z.max_l 0 (Z.log2 a - 52 + (Z.log2 b - 52))), Z.pow_0_r, Z.mul_1_r by lia.
  rewrite (Z.max_r 0 (- (Z.log2 a - 52 + (Z.log2 b - 52)))) by lia.
  replace (- (Z.log2 a - 52 + (Z.log2 b - 52)))
    with ((52 - Z.log2 a) + (52 - Z.log2 b)) by lia.
  rewrite pow2_split by lia.
  replace (a * 2 ^ (52 - Z.log2 a) * (b * 2 ^ (52 - Z.log2 b)))
    with (a * b * (2 ^ (52 - Z.log2 a) * 2 ^ (52 - Z.log2 b))) by ring.
  apply round_int; [lia|].
  apply Z.mul_pos_pos; apply pow2_pos; lia.
Qed.

Lemma div_int s1 s2 k c :
  0 < k -> 0 < c -> k * c < 2 ^ 53 ->
  div (int_repr s1 (k * c)) (int_repr s2 c) = int_repr (xorb s1 s2) k.
Proof.
  intros Hk Hc Hkc.
  assert (Hk' : 0 < k < 2 ^ 53) by nia. assert (Hc' : 0 < c < 2 ^ 53) by nia.
  assert (Hkc' : 0 < k * c < 2 ^ 53) by nia.
  destruct (int_mantissa (k * c) Hkc') as [Hl1 HM1].
  destruct (int_mantissa c Hc') as [Hl2 HM2].
  destruct (int_repr_pos_mantissa s1 (k * c) Hkc') as [-> P1].
  destruct (int_repr_pos_mantissa s2 c Hc') as [-> P2].
  cbn [div]. rewrite P1, P2.
  assert (Hle : Z.log2 c <= Z.log2 (k * c)) by (apply Z.log2_le_mono; nia).
  rewrite (Z.max_r 0 (Z.log2 (k * c) - 52 - (Z.log2 c - 52))) by lia.
  rewrite (Z.max_l 0 (Z.log2 c - 52 - (Z.log2 (k * c) - 52))), Z.pow_0_r, Z.mul_1_r by lia.
  replace (k * c * 2 ^ (52 - Z.log2 (k * c)) * 2 ^ (Z.log2 (k * c) - 52 - (Z.log2 c - 52)))
    with (k * (c * 2 ^ (52 - Z.log2 c))).
  { apply round_int; lia. }
  rewrite <- !Z.mul_assoc. rewrite <- pow2_split by lia. do 3 f_equal. lia.
Qed.

Lemma floor_Z_int s z :
  0 < z < 2 ^ 53 ->
  floor_Z s (Z.to_pos (z * 2 ^ (52 - Z.log2 z))) (Z.log2 z - 52) = if s then - z else z.
Proof.
  intros Hz. destruct (int_mantissa z Hz) as [Hl HM].
  destruct (int_repr_pos_mantissa s z Hz) as [_ P].
  unfold floor_Z.
  assert (0 < 2 ^ (52 - Z.log2 z)) by (apply pow2_pos; lia).
  replace (if s then Z.neg _ else Z.pos _)
    with ((if s then - z else z) * 2 ^ (52 - Z.log2 z)).
  2:{ destruct s; [|lia]. rewrite <- Pos2Z.opp_pos, P. lia. }
  destruct (Z.leb_spec 0 (Z.log2 z - 52)).
  - replace (Z.log2 z) with 52 by lia. simpl. lia.
  - replace (- (Z.log2 z - 52)) with (52 - Z.log2 z) by lia.
    apply Z.div_mul. lia.
Qed.

Lemma of_integral_int s z :
  0 < z < 2 ^ 53 -> of_integral s (if s then - z else z) = int_repr s z.
Proof.
  intros Hz. unfold of_integral.
  destruct (Z.eqb_spec (if s then - z else z) 0); [destruct s; lia|].
  replace (Z.abs (if s then - z else z)) with (z * 1) by (destruct s; lia).
  replace ((if s then - z else z) <? 0) with s
    by (destruct s; symmetry; [apply Z.ltb_lt|apply Z.ltb_ge]; lia).
  apply round_int; lia.
Qed.

Lemma Math_floor_int s z : 0 < z < 2 ^ 53 -> Math_floor (int_repr s z) = int_repr s z.
Proof.
  intros Hz. unfold int_repr at 1. cbn [Math_floor].
  destruct (Z.leb_spec 0 (Z.log2 z - 52)); [reflexivity|].
  rewrite floor_Z_int by done. apply of_integral_int; done.
Qed.

End IntegerFacts.

(** ** The shape of rounded values *)

Module RoundFacts.
Import JsString Number RoundingFacts IntegerFacts.

Lemma ilog2_spec n d :
  0 < n -> 0 < d ->
  d * 2 ^ Z.max 0 (ilog2 n d) <= n * 2 ^ Z.max 0 (- ilog2 n d)
    < 2 * (d * 2 ^ Z.max 0 (ilog2 n d)).
Proof.
  intros Hn Hd. unfold ilog2.
  pose proof (Z.log2_nonneg d) as Hl0.
  destruct (Z.log2_spec d Hd) as [Hd1 Hd2].
  replace (Z.succ (Z.log2 d)) with (Z.log2 d + 1) in Hd2 by lia.
  set (b := Z.log2 d + 1) in *.
  assert (Hb : 0 < 2 ^ b) by (apply pow2_pos; lia).
  set (Y := n * 2 ^ b / d).
  assert (HY : d * Y <= n * 2 ^ b < d * (Y + 1)).
  { pose proof (Z.div_mod (n * 2 ^ b) d ltac:(lia)).
    pose proof (Z.mod_pos_bound (n * 2 ^ b) d Hd). fold Y in H. nia. }
  assert (HY1 : 1 <= Y).
  { apply Z.div_le_lower_bound; [lia|]. nia. }
  destruct (Z.log2_spec Y ltac:(lia)) as [HY2 HY3].
  pose proof (Z.log2_nonneg Y) as HlY.
  replace (Z.succ (Z.log2 Y)) with (Z.log2 Y + 1) in HY3 by lia.
  rewrite (pow2_split (Z.log2 Y) 1) in HY3 by lia. change (2 ^ 1) with 2 in HY3.
  set (g := Z.log2 Y) in *.
  assert (Hg : 0 < 2 ^ g) by (apply pow2_pos; lia).
  destruct (Z.le_gt_cases b g) as [Hf|Hf].
  - rewrite (Z.max_r 0 (g - b)), (Z.max_l 0 (- (g - b))), Z.pow_0_r by lia.
    assert (Hs : 2 ^ g = 2 ^ (g - b) * 2 ^ b).
    { rewrite <- pow2_split by lia. f_equal. lia. }
    assert (0 < 2 ^ (g - b)) by (apply pow2_pos; lia). nia.
  - rewrite (Z.max_l 0 (g - b)), (Z.max_r 0 (- (g - b))), Z.pow_0_r by lia.
    assert (Hs : 2 ^ b = 2 ^ g * 2 ^ (- (g - b))).
    { rewrite <- pow2_split by lia. f_equal. lia. }
    assert (0 < 2 ^ (- (g - b))) by (apply pow2_pos; lia). nia.
Qed.

(** The scaled quotient that [round] takes as the mantissa before rounding. *)
Lemma round_quotient_bounds n d :
  0 < n -> 0 < d ->
  let e := Z.max (ilog2 n d - 52) (-1074) in
  let q := n * 2 ^ Z.max 0 (- e) / (d * 2 ^ Z.max 0 e) in
  0 <= q < 2 ^ 53 /\ (-1074 <= ilog2 n d - 52 -> 2 ^ 52 <= q).
Proof.
  intros Hn Hd e q. pose proof (ilog2_spec n d Hn Hd) as Hf.
  set (f := ilog2 n d) in *.
  assert (HD : 0 < d * 2 ^ Z.max 0 e) by (apply Z.mul_pos_pos; [lia|apply pow2_pos; lia]).
  assert (HN : 0 < n * 2 ^ Z.max 0 (- e)) by (apply Z.mul_pos_pos; [lia|apply pow2_pos; lia]).
  assert (Hup : n * 2 ^ Z.max 0 (- e) < 2 ^ 53 * (d * 2 ^ Z.max 0 e)).
  { destruct (Z.le_gt_cases 0 e) as [He|He].
    - assert (e = f - 52) by lia.
      rewrite (Z.max_r 0 e), (Z.max_l 0 (- e)), Z.pow_0_r by lia.
      rewrite (Z.max_r 0 f), (Z.max_l 0 (- f)), Z.pow_0_r in Hf by lia.
      assert (Hs : 2 ^ f = 2 ^ 52 * 2 ^ e).
      { rewrite <- pow2_split by lia. f_equal. lia. }
      assert (0 < 2 ^ e) by (apply pow2_pos; lia).
      change (2 ^ 53) with (2 * 2 ^ 52). nia.
    - rewrite (Z.max_l 0 e), (Z.max_r 0 (- e)), Z.pow_0_r by lia.
      destruct (Z.le_gt_cases 0 f) as [Hf0|Hf0].
      + rewrite (Z.max_r 0 f), (Z.max_l 0 (- f)), Z.pow_0_r in Hf by lia.
        assert (e = f - 52) by lia.
        assert (Hs : 2 ^ 52 = 2 ^ f * 2 ^ (- e)).
        { rewrite <- pow2_split by lia. f_equal. lia. }
        assert (0 < 2 ^ f) by (apply pow2_pos; lia).
        assert (0 < 2 ^ (- e)) by (apply pow2_pos; lia).
        change (2 ^ 53) with (2 * 2 ^ 52). nia.
      + rewrite (Z.max_l 0 f), (Z.max_r 0 (- f)), Z.pow_0_r in Hf by lia.
        assert (Hs : 2 ^ 52 * 2 ^ (- f) = 2 ^ (- e) * 2 ^ (52 - f + e)).
        { rewrite <- !pow2_split by lia. f_equal. lia. }
        assert (1 <= 2 ^ (52 - f + e)) by (pose proof (pow2_pos (52 - f + e)); lia).
        assert (0 < 2 ^ (- e)) by (apply pow2_pos; lia).
        assert (0 < 2 ^ (- f)) by (apply pow2_pos; lia).
        change (2 ^ 53) with (2 * 2 ^ 52).
        assert (n * 2 ^ (- e) * 2 ^ (52 - f + e) < 2 * 2 ^ 52 * d) by nia.
        nia. }
  split.
  - split; [apply Z.div_pos; lia|]. apply Z.div_lt_upper_bound; lia.
  - intros He. assert (e = f - 52) by lia.
    apply Z.div_le_lower_bound; [lia|].
    destruct (Z.le_gt_cases 0 e) as [He0|He0].
    + rewrite (Z.max_r 0 e), (Z.max_l 0 (- e)), Z.pow_0_r by lia.
      rewrite (Z.max_r 0 f), (Z.max_l 0 (- f)), Z.pow_0_r in Hf by lia.
      assert (Hs : 2 ^ f = 2 ^ 52 * 2 ^ e).
      { rewrite <- pow2_split by lia. f_equal. lia. }
      nia.
    + rewrite (Z.max_l 0 e), (Z.max_r 0 (- e)), Z.pow_0_r by lia.
      destruct (Z.le_gt_cases 0 f) as [Hf0|Hf0].
      * rewrite (Z.max_r 0 f), (Z.max_l 0 (- f)), Z.pow_0_r in Hf by lia.
        assert (Hs : 2 ^ 52 = 2 ^ f * 2 ^ (- e)).
        { rewrite <- pow2_split by lia. f_equal. lia. }
        assert (0 < 2 ^ (- e)) by (apply pow2_pos; lia). nia.
      * rewrite (Z.max_l 0 f), (Z.max_r 0 (- f)), Z.pow_0_r in Hf by lia.
        assert (Hs : 2 ^ (- e) = 2 ^ 52 * 2 ^ (- f)).
        { rewrite <- pow2_split by lia. f_equal. lia. }
        nia.
Qed.

(** The shape of a rounded value: the quotient or its successor as the
    mantissa, renormalised when the successor reaches [2 ^ 53]. *)
Lemma round_cases s n d :
  0 < n -> 0 < d ->
  let e := Z.max (ilog2 n d - 52) (-1074) in
  let N := n * 2 ^ Z.max 0 (- e) in
  let D := d * 2 ^ Z.max 0 e in
  let q := N / D in
  round s n d = S754_zero s /\ q = 0
  \/ round s n d = S754_infinity s /\ 971 <= e
  \/ exists m e', round s n d = S754_finite s (Z.to_pos m) e'
       /\ (e' = e /\ 0 < m < 2 ^ 53
             /\ (m = q /\ 2 * (N - q * D) <= D \/ m = q + 1 /\ D <= 2 * (N - q * D))
           \/ e' = e + 1 /\ m = 2 ^ 52 /\ q + 1 = 2 ^ 53).
Proof.
  intros Hn Hd e N D q.
  destruct (round_quotient_bounds n d Hn Hd) as [Hq _]. fold e in Hq. fold N D q in Hq.
  assert (HD : 0 < D) by (apply Z.mul_pos_pos; [lia|apply pow2_pos; lia]).
  unfold round. destruct (Z.leb_spec n 0); [lia|]. fold e N D q.
  assert (Hr : N mod D = N - q * D).
  { pose proof (Z.div_mod N D ltac:(lia)). fold q in H0. lia. }
  pose proof (Z.mod_pos_bound N D HD) as Hrb.
  rewrite Hr in *.
  set (q' := match 2 * (N - q * D) ?= D with
             | Lt => q | Gt => q + 1 | Eq => if Z.even q then q else q + 1 end).
  assert (Hq' : q' = q /\ 2 * (N - q * D) <= D \/ q' = q + 1 /\ D <= 2 * (N - q * D)).
  { unfold q'. destruct (Z.compare_spec (2 * (N - q * D)) D); [|left; lia|right; lia].
    destruct (Z.even q); [left|right]; lia. }
  destruct (Z.eqb_spec q' 0) as [H0|H0].
  { left. split; [done|]. lia. }
  right. destruct (Z.eqb_spec q' (2 ^ 53)) as [Hc|Hc].
  - destruct (Z.ltb_spec 971 (e + 1)).
    + left. split; [done|lia].
    + right. exists (2 ^ 52), (e + 1). split; [done|]. right. lia.
  - destruct (Z.ltb_spec 971 e).
    + left. split; [done|lia].
    + right. exists q', e. split; [done|]. left. split; [done|]. split; [lia|done].
Qed.

(** A finite result of [round] is in canonical form. *)
Lemma round_finite s n d s' m e :
  0 < d -> round s n d = S754_finite s' m e ->
  s' = s /\ Z.pos m < 2 ^ 53 /\ -1074 <= e <= 971 /\ (-1074 < e -> 2 ^ 52 <= Z.pos m).
Proof.
  intros Hd Heq.
  destruct (Z.le_gt_cases n 0) as [Hn|Hn].
  { unfold round in Heq. destruct (Z.leb_spec n 0); [discriminate|lia]. }
  destruct (round_quotient_bounds n d Hn Hd) as [Hq Hq52].
  destruct (round_cases s n d Hn Hd) as [[H0 _]|[[H0 _]|(m' & e' & H0 & Hc)]];
    rewrite H0 in Heq; try discriminate.
  inversion Heq; subst s' m e; clear Heq. split; [done|].
  assert (Hinf : ~ 971 < e').
  { intros He. unfold round in H0. destruct (n <=? 0); [discriminate|].
    repeat match type of H0 with
           | context [if ?b then _ else _] => destruct b eqn:?
           end; try discriminate; inversion H0; subst;
    repeat match goal with
           | H : (_ <? _) = false |- _ => apply Z.ltb_ge in H
           end; lia. }
  destruct Hc as [(-> & Hm & Hc)|(-> & -> & Hc)].
  - rewrite Z2Pos.id by lia. split; [lia|]. split; [lia|].
    intros He. lia.
  - rewrite Z2Pos.id by lia. split; [lia|]. split; [lia|]. lia.
Qed.

End RoundFacts.

(** ** Decimal digits: printing and reading back *)

Module DecimalFacts.
Import JsString.

Lemma append_cons c (a b : string) : String c a +:+ b = String c (a +:+ b).
Proof. reflexivity. Qed.

Lemma append_nil_l (b : string) : EmptyString +:+ b = b.
Proof. reflexivity. Qed.

Lemma append_nil_r (a : string) : a +:+ EmptyString = a.
Proof. induction a as [|c a IH]; [reflexivity|]. by rewrite append_cons, IH. Qed.

Lemma length_append (a b : string) :
  String.length (a +:+ b) = (String.length a + String.length b)%nat.
Proof.
  induction a as [|c a IH]; [reflexivity|].
  rewrite append_cons. simpl. by rewrite IH.
Qed.

Lemma take_append (a b : string) : str_take (String.length a) (a +:+ b) = a.
Proof.
  induction a as [|c a IH]; [by destruct b|].
  rewrite append_cons. simpl. by rewrite IH.
Qed.

Lemma drop_append (a b : string) : str_drop (String.length a) (a +:+ b) = b.
Proof. induction a as [|c a IH]; [reflexivity|]. by rewrite append_cons. Qed.

Lemma append_assoc (a b c : string) : (a +:+ b) +:+ c = a +:+ (b +:+ c).
Proof.
  induction a as [|x a IH]; [reflexivity|]. rewrite !append_cons. by rewrite IH.
Qed.

Lemma pretty_N_go_app (x : N) (s : string) :
  pretty_N_go x s = pretty_N_go x EmptyString +:+ s.
Proof.
  revert s. induction (N.lt_wf_0 x) as [x _ IH]. intros s.
  destruct (N.eq_0_gt_0_cases x) as [->|Hx]; [reflexivity|].
  rewrite (pretty_N_go_step x s), (pretty_N_go_step x EmptyString) by done.
  rewrite (IH (x `div` 10)%N (N.div_lt x 10 Hx eq_refl) (String _ s)).
  rewrite (IH (x `div` 10)%N (N.div_lt x 10 Hx eq_refl) (String _ EmptyString)).
  by rewrite append_assoc.
Qed.

Lemma pretty_Z_pos (z : Z) : 0 < z -> pretty z = pretty_N_go (Z.to_N z) EmptyString.
Proof. intros Hz. destruct z as [|p|p]; try lia. reflexivity. Qed.

Lemma pretty_mul10 (z : Z) : 0 < z -> pretty (z * 10) = pretty z +:+ "0".
Proof.
  intros Hz. rewrite !pretty_Z_pos by lia.
  rewrite pretty_N_go_step by lia.
  replace (Z.to_N (z * 10) `div` 10)%N with (Z.to_N z).
  2:{ rewrite Z2N.inj_mul by lia. change (Z.to_N 10) with 10%N.
      by rewrite N.div_mul. }
  replace (Z.to_N (z * 10) `mod` 10)%N with 0%N.
  2:{ rewrite Z2N.inj_mul by lia. change (Z.to_N 10) with 10%N.
      by rewrite N.Div0.mod_mul. }
  apply pretty_N_go_app.
Qed.

Lemma repeat_snoc c n : str_repeat c (S n) = str_repeat c n +:+ String c EmptyString.
Proof.
  induction n as [|n IH]; [reflexivity|].
  change (str_repeat c (S (S n))) with (String c (str_repeat c (S n))).
  rewrite IH at 1. reflexivity.
Qed.

Lemma pretty_mul_pow10 (z : Z) (j : nat) :
  0 < z -> pretty (z * 10 ^ Z.of_nat j) = pretty z +:+ str_repeat "0" j.
Proof.
  intros Hz. induction j as [|j IH].
  - simpl. by rewrite Z.mul_1_r, append_nil_r.
  - rewrite Nat2Z.inj_succ, Z.pow_succ_r by lia.
    replace (z * (10 * 10 ^ Z.of_nat j)) with (z * 10 ^ Z.of_nat j * 10) by ring.
    rewrite pretty_mul10 by (apply Z.mul_pos_pos; [lia|apply Z.pow_pos_nonneg; lia]).
    rewrite IH, repeat_snoc. by rewrite append_assoc.
Qed.

Lemma digit_of_pretty_N_char (d : N) :
  (d < 10)%N -> digit_of (pretty_N_char d) = Some (Z.of_N d).
Proof.
  intros Hd.
  assert (d = 0 \/ d = 1 \/ d = 2 \/ d = 3 \/ d = 4 \/ d = 5
          \/ d = 6 \/ d = 7 \/ d = 8 \/ d = 9)%N as Hc by lia.
  repeat (destruct Hc as [->|Hc]; [reflexivity|]). by subst.
Qed.

(** Reading back the digits of a printed natural number. *)
Lemma read_digits_pretty_N_go (x : N) (s : string) (c : Z) :
  exists c', c <= c' /\ ((0 < x)%N -> c < c') /\
    read_digits 0 c (pretty_N_go x s) = read_digits (Z.of_N x) c' s.
Proof.
  revert s c. induction (N.lt_wf_0 x) as [x _ IH]. intros s c.
  destruct (N.eq_0_gt_0_cases x) as [->|Hx].
  { exists c. split; [lia|]. split; [lia|]. reflexivity. }
  rewrite pretty_N_go_step by done.
  destruct (IH (x `div` 10)%N (N.div_lt x 10 Hx eq_refl)
               (String (pretty_N_char (x `mod` 10)) s) c) as (c' & Hc & _ & ->).
  exists (c' + 1). split; [lia|]. split; [lia|].
  unfold read_digits at 1. cbn [read_digits_with].
  rewrite digit_of_pretty_N_char by (apply N.mod_lt; lia).
  fold read_digits. f_equal.
  rewrite (N.div_mod x 10) at 3 by lia. lia.
Qed.

(** The printed form of a positive number: its length and magnitude. *)
Lemma pretty_N_go_length (x : N) (s : string) :
  (0 < x)%N ->
  exists j, 1 <= j /\ Z.of_nat (String.length (pretty_N_go x s))
                      = Z.of_nat (String.length s) + j
            /\ 10 ^ (j - 1) <= Z.of_N x < 10 ^ j.
Proof.
  revert s. induction (N.lt_wf_0 x) as [x _ IH]. intros s Hx.
  rewrite pretty_N_go_step by done.
  destruct (N.eq_0_gt_0_cases (x `div` 10)%N) as [H0|Hpos].
  - rewrite H0, pretty_N_go_0. exists 1. split; [lia|]. split.
    + simpl String.length. lia.
    + apply N.div_small_iff in H0; lia.
  - destruct (IH (x `div` 10)%N (N.div_lt x 10 Hx eq_refl)
                 (String (pretty_N_char (x `mod` 10)) s) Hpos) as (j & Hj & Hlen & Hlo & Hhi).
    exists (j + 1). split; [lia|]. split.
    + rewrite Hlen. simpl String.length. lia.
    + replace (j + 1 - 1) with (j - 1 + 1) by lia.
      rewrite !Z.pow_add_r by lia. change (10 ^ 1) with 10.
      rewrite N2Z.inj_div in Hlo, Hhi. change (Z.of_N 10) with 10 in *.
      pose proof (Z.div_mod (Z.of_N x) 10 ltac:(lia)).
      pose proof (Z.mod_pos_bound (Z.of_N x) 10 ltac:(lia)).
      lia.
Qed.

(** The first character printed for a positive number is a non-zero digit. *)
Lemma pretty_N_go_head (x : N) (s : string) :
  (0 < x)%N ->
  exists d r, pretty_N_go x s = String (pretty_N_char d) r /\ (0 < d < 10)%N.
Proof.
  revert s. induction (N.lt_wf_0 x) as [x _ IH]. intros s Hx.
  rewrite pretty_N_go_step by done.
  destruct (N.eq_0_gt_0_cases (x `div` 10)%N) as [H0|Hpos].
  - rewrite H0, pretty_N_go_0. exists (x `mod` 10)%N, s. split; [done|].
    apply N.div_small_iff in H0; [|lia]. rewrite N.mod_small by lia. lia.
  - apply IH; [by apply N.div_lt|done].
Qed.

End DecimalFacts.

(** ** [toString] on integers *)

Module ToStringFacts.
Import JsString Number RoundingFacts IntegerFacts DecimalFacts.

Lemma int_repr_inj s1 s2 a b :
  0 < a < 2 ^ 53 -> 0 < b < 2 ^ 53 -> int_repr s1 a = int_repr s2 b -> a = b.
Proof.
  intros Ha Hb Heq. unfold int_repr in Heq. inversion Heq as [[Hs Hm He]].
  destruct (int_mantissa a Ha) as [Hla HMa]. destruct (int_mantissa b Hb) as [Hlb HMb].
  apply Z2Pos.inj in Hm; [|lia..].
  replace (Z.log2 b) with (Z.log2 a) in Hm by lia.
  apply Z.mul_reg_r in Hm; [done|].
  assert (0 < 2 ^ (52 - Z.log2 a)) by (apply pow2_pos; lia). lia.
Qed.

(** Only the integer itself reads back as an integer below [2 ^ 53]. *)
Lemma round_int_inj c z :
  0 < z < 2 ^ 53 -> round false c 1 = int_repr false z -> c = z.
Proof.
  intros Hz Heq. destruct (int_mantissa z Hz) as [Hlz _].
  destruct (Z.le_gt_cases c 0) as [Hc0|Hc0].
  { unfold round in Heq. destruct (Z.leb_spec c 0); [discriminate|lia]. }
  destruct (Z.lt_ge_cases c (2 ^ 53)) as [Hc|Hc].
  { rewrite <- (Z.mul_1_r c) in Heq at 1. rewrite round_int in Heq by lia.
    by apply int_repr_inj in Heq. }
  exfalso.
  assert (Hl : 53 <= Z.log2 c) by (apply Z.log2_le_pow2; lia).
  assert (Hf : ilog2 c 1 = Z.log2 c).
  { apply ilog2_unique; try lia.
    destruct (Z.log2_spec c Hc0) as [H1 H2].
    rewrite (Z.max_r 0 (Z.log2 c)), (Z.max_l 0 (- Z.log2 c)), Z.pow_0_r by lia.
    replace (Z.succ (Z.log2 c)) with (Z.log2 c + 1) in H2 by lia.
    rewrite (pow2_split (Z.log2 c) 1) in H2 by lia. change (2 ^ 1) with 2 in H2. lia. }
  unfold round, int_repr in Heq. rewrite Hf in Heq.
  destruct (c <=? 0); [discriminate|].
  repeat match type of Heq with
         | context [if ?b then _ else _] => destruct b
         end; try discriminate; inversion Heq as [[Hm He]]; lia.
Qed.

Section Shortest.
Variables (z dV L : Z).
Hypothesis Hz : 0 < z < 2 ^ 53.
Hypothesis HdV : 0 < dV.

Lemma shortest_step_int k :
  1 <= k <= L ->
  shortest_step (int_repr false z) (z * dV) dV L k
  = if decide (z mod 10 ^ (L - k) = 0) then Some (z / 10 ^ (L - k)) else None.
Proof.
  intros Hk. unfold shortest_step.
  rewrite (Z.max_l 0 (k - L)), (Z.max_r 0 (L - k)), Z.pow_0_r, Z.mul_1_r by lia.
  assert (HP : 0 < 10 ^ (L - k)) by (apply Z.pow_pos_nonneg; lia).
  replace (z * dV / (dV * 10 ^ (L - k))) with (z / 10 ^ (L - k)).
  2:{ rewrite (Z.mul_comm dV). by rewrite Z.div_mul_cancel_r by lia. }
  pose proof (Z.div_mod z (10 ^ (L - k)) ltac:(lia)) as Hdm.
  pose proof (Z.mod_pos_bound z (10 ^ (L - k)) HP) as Hmb.
  assert (Hhi : bool_decide (round false ((z / 10 ^ (L - k) + 1) * 10 ^ (L - k)) 1
                             = int_repr false z) = false).
  { apply bool_decide_eq_false. intros Heq. apply round_int_inj in Heq; [nia|done]. }
  rewrite Hhi. destruct (decide (z mod 10 ^ (L - k) = 0)) as [H0|H0].
  - replace (z / 10 ^ (L - k) * 10 ^ (L - k)) with (z * 1) by lia.
    rewrite round_int by lia. by rewrite bool_decide_eq_true_2.
  - rewrite bool_decide_eq_false_2; [done|].
    intros Heq. apply round_int_inj in Heq; [nia|done].
Qed.

Lemma shortest_int fuel k :
  1 <= k <= L -> L - k < Z.of_nat fuel ->
  exists s k', shortest fuel (int_repr false z) (z * dV) dV L k = (s, k')
               /\ k <= k' <= L /\ z = s * 10 ^ (L - k').
Proof.
  revert k. induction fuel as [|fuel IH]; intros k Hk Hfuel; [lia|].
  cbn [shortest]. rewrite shortest_step_int by done.
  destruct (decide (z mod 10 ^ (L - k) = 0)) as [H0|H0].
  - exists (z / 10 ^ (L - k)), k. split; [done|]. split; [lia|].
    assert (HP : 0 < 10 ^ (L - k)) by (apply Z.pow_pos_nonneg; lia).
    pose proof (Z.div_mod z (10 ^ (L - k)) ltac:(lia)). lia.
  - assert (k <> L).
    { intros ->. rewrite Z.sub_diag, Z.pow_0_r, Z.mod_1_r in H0. done. }
    destruct (IH (k + 1)) as (s & k' & Heq & Hk' & Hs); [lia..|].
    exists s, k'. split; [done|]. split; [lia|done].
Qed.

End Shortest.

Lemma ndigits_spec z : 0 < z -> 10 ^ (ndigits z - 1) <= z < 10 ^ ndigits z.
Proof.
  intros Hz. unfold ndigits. rewrite pretty_Z_pos by done.
  destruct (pretty_N_go_length (Z.to_N z) EmptyString ltac:(lia)) as (j & Hj & -> & Hb).
  simpl String.length. rewrite Z2N.id in Hb by lia.
  replace (Z.of_nat 0 + j) with j by lia. done.
Qed.

(** An integer below [2 ^ 53] prints as its decimal digits. *)
Lemma toString_int s z :
  0 < z < 2 ^ 53 ->
  toString (int_repr s z) = (if s then "-" else EmptyString) +:+ pretty z.
Proof.
  intros Hz. destruct (int_mantissa z Hz) as [Hl HM].
  destruct (int_repr_pos_mantissa false z Hz) as [_ P].
  unfold int_repr. cbn [toString]. f_equal.
  unfold toString_pos. rewrite P.
  rewrite (Z.max_l 0 (Z.log2 z - 52)), Z.pow_0_r, Z.mul_1_r by lia.
  rewrite (Z.max_r 0 (- (Z.log2 z - 52))) by lia.
  replace (- (Z.log2 z - 52)) with (52 - Z.log2 z) by lia.
  set (dV := 2 ^ (52 - Z.log2 z)).
  assert (HdV : 0 < dV) by (apply pow2_pos; lia).
  assert (Hn0 : dec_exponent (z * dV) dV = ndigits z).
  { unfold dec_exponent. destruct (Z.leb_spec dV (z * dV)); [|nia].
    by rewrite Z.div_mul by lia. }
  rewrite Hn0. pose proof (ndigits_spec z ltac:(lia)) as HL.
  set (L := ndigits z) in *.
  assert (HL1 : 1 <= L).
  { destruct (Z.le_gt_cases 1 L); [done|].
    destruct (Z.eq_dec L 0) as [H0|H0].
    - rewrite H0 in HL. simpl in HL. lia.
    - rewrite (Z.pow_neg_r 10 L) in HL by lia. lia. }
  assert (HL16 : L - 1 < 16).
  { apply (Z.pow_lt_mono_r_iff 10); [lia..|]. 
    eapply Z.le_lt_trans; [apply HL|]. eapply Z.lt_trans; [apply Hz|]. reflexivity. }
  destruct (shortest_int z dV L Hz HdV 17 1) as (s0 & k & Heq & Hk & Hs); [lia..|].
  unfold int_repr in Heq. fold dV in Heq. rewrite Heq.
  assert (HP : 0 < 10 ^ (L - k)) by (apply Z.pow_pos_nonneg; lia).
  assert (Hs0 : 0 < s0 < 10 ^ k).
  { split; [nia|].
    replace L with (k + (L - k)) in HL at 2 by lia.
    rewrite Z.pow_add_r in HL by lia. nia. }
  destruct (Z.eqb_spec s0 (10 ^ k)); [lia|].
  destruct (Z.leb_spec k L); [|lia]. destruct (Z.leb_spec L 21); [|lia].
  cbn [andb]. rewrite <- pretty_mul_pow10 by lia.
  rewrite Z2Nat.id by lia. by rewrite <- Hs.
Qed.

End ToStringFacts.

(** ** [parseInt], [parseFloat] and [toFixed] on integers *)

Module ParseFacts.
Import JsString Number RoundingFacts IntegerFacts DecimalFacts ToStringFacts RoundFacts.

Lemma pretty_head (z : Z) :
  0 < z -> exists d r, pretty z = String (pretty_N_char d) r /\ (0 < d < 10)%N.
Proof. intros Hz. rewrite pretty_Z_pos by done. apply pretty_N_go_head. lia. Qed.

Lemma pretty_length_pos (z : Z) : 0 < z -> (1 <= String.length (pretty z))%nat.
Proof.
  intros Hz. destruct (pretty_head z Hz) as (d & r & -> & _). simpl. lia.
Qed.

Lemma read_digits_pretty (z : Z) (rest : string) :
  0 < z ->
  exists c, 0 < c /\ read_digits 0 0 (pretty z +:+ rest) = read_digits z c rest.
Proof.
  intros Hz. rewrite pretty_Z_pos by done. rewrite <- pretty_N_go_app.
  destruct (read_digits_pretty_N_go (Z.to_N z) rest 0) as (c & _ & Hc & ->).
  exists c. split; [apply Hc; lia|]. by rewrite Z2N.id by lia.
Qed.

(** A string that starts with a non-zero digit carries no white space, no
    sign and no [Infinity] or [0x] prefix. *)
Lemma head_digit_sign (d : N) (r : string) :
  (0 < d < 10)%N ->
  read_sign (trim_start (String (pretty_N_char d) r)) = (false, String (pretty_N_char d) r)
  /\ starts_with "Infinity" (String (pretty_N_char d) r) = false.
Proof.
  intros Hd.
  assert (d = 1 \/ d = 2 \/ d = 3 \/ d = 4 \/ d = 5
          \/ d = 6 \/ d = 7 \/ d = 8 \/ d = 9)%N as Hc by lia.
  repeat (destruct Hc as [->|Hc]; [split; reflexivity|]). subst. split; reflexivity.
Qed.

Lemma parseInt_head (d : N) (r : string) :
  (0 < d < 10)%N ->
  parseInt (String (pretty_N_char d) r)
  = let '(v, cnt, _) := read_digits 0 0 (String (pretty_N_char d) r) in
    if cnt =? 0 then S754_nan else round false v 1.
Proof.
  intros Hd. unfold parseInt. rewrite (proj1 (head_digit_sign d r Hd)).
  assert (d = 1 \/ d = 2 \/ d = 3 \/ d = 4 \/ d = 5
          \/ d = 6 \/ d = 7 \/ d = 8 \/ d = 9)%N as Hc by lia.
  repeat (destruct Hc as [->|Hc]; [reflexivity|]). subst. reflexivity.
Qed.

(** [parseInt] reads the decimal digits of an integer below [2 ^ 53] back
    exactly. *)
Lemma parseInt_pretty (z : Z) :
  0 < z < 2 ^ 53 -> parseInt (pretty z) = int_repr false z.
Proof.
  intros Hz. destruct (pretty_head z ltac:(lia)) as (d & r & Hp & Hd).
  rewrite Hp, parseInt_head by done. rewrite <- Hp.
  destruct (read_digits_pretty z EmptyString ltac:(lia)) as (c & Hc & Hr).
  rewrite append_nil_r in Hr. rewrite Hr.
  change (read_digits z c EmptyString) with (z, c, EmptyString). cbv beta iota.
  destruct (Z.eqb_spec c 0); [lia|].
  rewrite <- (Z.mul_1_r z) at 1. apply round_int; lia.
Qed.

(** [parseFloat] reads the fixed-point text of an integer below [2 ^ 53]
    back exactly. *)
Lemma parseFloat_fixed (z : Z) :
  0 < z < 2 ^ 53 -> parseFloat (pretty z +:+ ".000000") = int_repr false z.
Proof.
  intros Hz. destruct (pretty_head z ltac:(lia)) as (d & r & Hp & Hd).
  unfold parseFloat.
  destruct (head_digit_sign d (r +:+ ".000000") Hd) as [Hsign Hinf].
  rewrite <- append_cons, <- Hp in Hsign, Hinf. rewrite Hsign, Hinf.
  destruct (read_digits_pretty z ".000000" ltac:(lia)) as (c & Hc & ->).
  change (read_digits z c ".000000") with (z, c, ".000000"%string).
  cbn match.
  change (read_digits z 0 "000000")
    with (10 * (10 * (10 * (10 * (10 * (10 * z + 0) + 0) + 0) + 0) + 0) + 0,
          0 + 1 + 1 + 1 + 1 + 1 + 1, EmptyString).
  cbv beta iota.
  destruct (Z.eqb_spec (c + (0 + 1 + 1 + 1 + 1 + 1 + 1)) 0); [lia|].
  change (read_exponent EmptyString - (0 + 1 + 1 + 1 + 1 + 1 + 1)) with (-6).
  change (10 ^ Z.max 0 (-6)) with 1. change (10 ^ Z.max 0 (- -6)) with 1000000.
  replace ((10 * (10 * (10 * (10 * (10 * (10 * z + 0) + 0) + 0) + 0) + 0) + 0) * 1)
    with (z * 1000000) by lia.
  apply round_int; lia.
Qed.

(** [toFixed(6)] of an integer below [2 ^ 53]. *)
Lemma toFixed_int s z :
  0 < z < 2 ^ 53 ->
  toFixed (int_repr s z) 6 = (if s then "-" else EmptyString) +:+ pretty z +:+ ".000000".
Proof.
  intros Hz. destruct (int_mantissa z Hz) as [Hl HM].
  destruct (int_repr_pos_mantissa s z Hz) as [_ P].
  unfold int_repr. cbn [toFixed]. f_equal. rewrite P.
  rewrite (Z.max_l 0 (Z.log2 z - 52)), Z.pow_0_r, Z.mul_1_r by lia.
  rewrite (Z.max_r 0 (- (Z.log2 z - 52))) by lia.
  replace (- (Z.log2 z - 52)) with (52 - Z.log2 z) by lia.
  set (dV := 2 ^ (52 - Z.log2 z)).
  assert (HdV : 0 < dV) by (apply pow2_pos; lia).
  assert (H21 : 2 ^ 53 < 10 ^ 21) by reflexivity.
  destruct (Z.leb_spec (10 ^ 21 * dV) (z * dV)); [nia|].
  replace ((2 * (z * dV) * 10 ^ Z.of_nat 6 + dV) / (2 * dV)) with (z * 10 ^ Z.of_nat 6).
  2:{ apply (Z.div_unique_pos _ _ _ dV); [lia|]. ring. }
  unfold fixed_digits. rewrite pretty_mul_pow10 by lia.
  rewrite length_append. cbn [str_repeat String.length].
  pose proof (pretty_length_pos z ltac:(lia)) as Hlen.
  destruct (Nat.leb_spec (String.length (pretty z) + 6) 6); [lia|].
  rewrite length_append. cbn [String.length].
  replace (String.length (pretty z) + 6 - 6)%nat with (String.length (pretty z)) by lia.
  by rewrite take_append, drop_append.
Qed.

End ParseFacts.

(** ** The fee: gas times the price, rounded up *)

Module FeeFacts.
Import JsString Number Amounts RoundingFacts IntegerFacts DecimalFacts ToStringFacts RoundFacts.

Lemma Math_ceil_between m e N :
  e < 0 -> 0 < m -> 0 < N < 2 ^ 53 ->
  (N - 1) * 2 ^ (- e) < m <= N * 2 ^ (- e) ->
  Math_ceil (S754_finite false (Z.to_pos m) e) = int_repr false N.
Proof.
  intros He Hm HN Hb. cbn [Math_ceil].
  destruct (Z.leb_spec 0 e); [lia|].
  unfold ceil_Z. destruct (Z.leb_spec 0 e); [lia|].
  rewrite Z2Pos.id by lia.
  assert (HP : 0 < 2 ^ (- e)) by (apply pow2_pos; lia).
  assert (Hq : - m / 2 ^ (- e) = - N).
  { symmetry. apply (Z.div_unique_pos _ _ _ (N * 2 ^ (- e) - m)); lia. }
  rewrite Hq, Z.opp_involutive.
  apply (of_integral_int false N HN).
Qed.

Lemma Math_ceil_int z : 0 < z < 2 ^ 53 -> Math_ceil (int_repr false z) = int_repr false z.
Proof.
  intros Hz. destruct (int_mantissa z Hz) as [Hl HM].
  destruct (Z.eq_dec (Z.log2 z) 52) as [H52|H52].
  - unfold int_repr. cbn [Math_ceil]. rewrite H52. reflexivity.
  - unfold int_repr at 1. apply Math_ceil_between; try lia.
    replace (- (Z.log2 z - 52)) with (52 - Z.log2 z) by lia.
    assert (0 < 2 ^ (52 - Z.log2 z)) by (apply pow2_pos; lia). nia.
Qed.

Lemma gas_price_value :
  parseFloat (Config.gasPrice Config.XION_CONFIG)
  = S754_finite false (Z.to_pos price_mantissa) (-58).
Proof. vm_compute. reflexivity. Qed.

(** The product of an integer gas amount and the price, as [round] sees it. *)
Lemma mul_price g :
  0 < g < 2 ^ 53 ->
  mul (int_repr false g) (S754_finite false (Z.to_pos price_mantissa) (-58))
  = round false (g * 2 ^ (52 - Z.log2 g) * price_mantissa)
                (2 ^ 58 * 2 ^ (52 - Z.log2 g)).
Proof.
  intros Hg. destruct (int_mantissa g Hg) as [Hl HM].
  destruct (int_repr_pos_mantissa false g Hg) as [-> P]. cbn [mul xorb].
  rewrite P. change (Z.pos (Z.to_pos price_mantissa)) with price_mantissa.
  rewrite (Z.max_l 0 (Z.log2 g - 52 + -58)), Z.pow_0_r, Z.mul_1_r by lia.
  rewrite (Z.max_r 0 (- (Z.log2 g - 52 + -58))) by lia.
  replace (- (Z.log2 g - 52 + -58)) with (58 + (52 - Z.log2 g)) by lia.
  by rewrite pow2_split by lia.
Qed.

(** Rounding up the double-precision product of an integer gas amount and
    the price 0.025 gives the exact quotient by 40, rounded up. *)
Lemma ceil_price g :
  0 < g < 2 ^ 53 ->
  Math_ceil (round false (g * 2 ^ (52 - Z.log2 g) * price_mantissa)
                         (2 ^ 58 * 2 ^ (52 - Z.log2 g)))
  = int_repr false ((g + 39) / 40).
Proof.
  intros Hg.
  destruct (int_mantissa g Hg) as [Hl _].
  set (K := 2 ^ (52 - Z.log2 g)).
  assert (HK : 0 < K) by (apply pow2_pos; lia).
  set (N := (g + 39) / 40).
  assert (HN : 40 * (N - 1) < g <= 40 * N).
  { pose proof (Z.div_mod (g + 39) 40 ltac:(lia)).
    pose proof (Z.mod_pos_bound (g + 39) 40 ltac:(lia)). fold N in H. lia. }
  assert (HN53 : 0 < N < 2 ^ 53) by lia.
  assert (HN640 : 640 * N < 2 ^ 58) by lia.
  set (n := g * K * price_mantissa). set (d := 2 ^ 58 * K).
  assert (Hn : 0 < n) by (unfold n, price_mantissa; nia).
  assert (Hd : 0 < d) by (unfold d; lia).
  assert (H40 : 40 * n = g * K * (2 ^ 58 + 16)) by (unfold n, price_mantissa; lia).
  destruct (Z.eq_dec g (40 * N)) as [Heq|Hne].
  - (* a multiple of 40: the product rounds to the quotient itself *)
    destruct (int_mantissa N HN53) as [HlN HMN].
    assert (HP : 0 < 2 ^ (52 - Z.log2 N)) by (apply pow2_pos; lia).
    rewrite (round_near false n d (N * 2 ^ (52 - Z.log2 N)) (Z.log2 N - 52));
      try lia.
    + apply Math_ceil_int; done.
    + replace (- (Z.log2 N - 52)) with (52 - Z.log2 N) by lia.
      assert (40 * (N * 2 ^ (52 - Z.log2 N) * d)
              <= 40 * n * 2 ^ (52 - Z.log2 N)); [|lia].
      rewrite H40, Heq. unfold d. nia.
    + replace (- (Z.log2 N - 52)) with (52 - Z.log2 N) by lia.
      assert (40 * (2 * (n * 2 ^ (52 - Z.log2 N) - N * 2 ^ (52 - Z.log2 N) * d))
              < 40 * d); [|lia].
      replace (40 * (2 * (n * 2 ^ (52 - Z.log2 N) - N * 2 ^ (52 - Z.log2 N) * d)))
        with (2 * (40 * n * 2 ^ (52 - Z.log2 N) - 40 * N * 2 ^ (52 - Z.log2 N) * d))
        by ring.
      rewrite H40, Heq. unfold d.
      replace (2 * (40 * N * K * (2 ^ 58 + 16) * 2 ^ (52 - Z.log2 N)
                    - 40 * N * 2 ^ (52 - Z.log2 N) * (2 ^ 58 * K)))
        with (K * (40 * 32 * (N * 2 ^ (52 - Z.log2 N)))) by ring.
      replace (40 * (2 ^ 58 * K)) with (K * (40 * 2 ^ 58)) by ring.
      apply Z.mul_lt_mono_pos_l; [done|].
      change (2 ^ 58) with (32 * 2 ^ 53). lia.
  - (* otherwise the rounded product lies strictly between N - 1 and N *)
    assert (Hlt : g * (2 ^ 58 + 16) < 40 * N * 2 ^ 58).
    { clearbody N K. clear - HN Hne HN640. lia. }
    pose proof (ilog2_spec n d Hn Hd) as Hf.
    destruct (round_quotient_bounds n d Hn Hd) as [Hq Hq52].
    pose proof (round_cases false n d Hn Hd) as Hc. cbv zeta in Hc.
    set (f := ilog2 n d) in *.
    assert (Hf6 : -6 <= f).
    { destruct (Z.le_gt_cases (-6) f); [done|]. exfalso.
      rewrite (Z.max_l 0 f), (Z.max_r 0 (- f)), Z.pow_0_r in Hf by lia.
      assert (Hs : 2 ^ (- f) = 2 ^ 7 * 2 ^ (- f - 7)).
      { rewrite <- pow2_split by lia. f_equal. lia. }
      assert (1 <= 2 ^ (- f - 7)) by (pose proof (pow2_pos (- f - 7)); lia).
      assert (40 * (n * 2 ^ 7) < 40 * (2 * d)) by nia.
      rewrite Z.mul_assoc, H40 in H1. unfold d in H1.
      change (2 ^ 7) with 128 in H1. nia. }
    assert (Hf47 : f <= 47).
    { destruct (Z.le_gt_cases f 47); [done|]. exfalso.
      rewrite (Z.max_r 0 f), (Z.max_l 0 (- f)), Z.pow_0_r in Hf by lia.
      assert (Hs : 2 ^ f = 2 ^ 48 * 2 ^ (f - 48)).
      { rewrite <- pow2_split by lia. f_equal. lia. }
      assert (1 <= 2 ^ (f - 48)) by (pose proof (pow2_pos (f - 48)); lia).
      assert (40 * (d * 2 ^ 48) <= 40 * n) by nia.
      rewrite H40 in H1. unfold d in H1.
      assert (g * (2 ^ 58 + 16) < 40 * 2 ^ 58 * 2 ^ 48) by (clear - Hg; lia). nia. }
    rewrite (Z.max_l (f - 52) (-1074)) in * by lia.
    rewrite (Z.max_r 0 (- (f - 52))), (Z.max_l 0 (f - 52)), Z.pow_0_r, Z.mul_1_r in * by lia.
    set (P := 2 ^ (- (f - 52))) in *.
    assert (HP : 32 <= P).
    { unfold P. change 32 with (2 ^ 5). apply Z.pow_le_mono_r; lia. }
    specialize (Hq52 ltac:(lia)).
    set (q := n * P / d) in *.
    assert (Hqd : q * d <= n * P < (q + 1) * d).
    { pose proof (Z.div_mod (n * P) d ltac:(lia)).
      pose proof (Z.mod_pos_bound (n * P) d Hd). fold q in H. lia. }
    assert (Hfrac : P * d <= 40 * (n * P - (N - 1) * P * d)).
    { replace (40 * (n * P - (N - 1) * P * d))
        with (40 * n * P - 40 * (N - 1) * P * d) by ring.
      rewrite H40. unfold d.
      assert (Hg1 : 40 * (N - 1) + 1 <= g) by lia.
      assert (HKP : 0 <= K * P) by (apply Z.mul_nonneg_nonneg; lia).
      assert (Hprod : 0 <= K * P * (2 ^ 58 * (g - (40 * (N - 1) + 1)) + 16 * g)).
      { apply Z.mul_nonneg_nonneg; [done|]. change (2 ^ 58) with 288230376151711744. lia. }
      lia. }
    assert (Hlow : (N - 1) * P <= q).
    { apply Z.div_le_lower_bound; [lia|].
      assert (0 < P * d) by (apply Z.mul_pos_pos; lia). lia. }
    assert (Hdown : 2 * (n * P - q * d) <= d -> (N - 1) * P < q).
    { intros Hhalf. destruct (Z.eq_dec q ((N - 1) * P)) as [Hq0|Hq0]; [|lia].
      exfalso. rewrite Hq0 in Hhalf.
      assert (32 * d <= P * d) by (apply Z.mul_le_mono_nonneg_r; lia). lia. }
    assert (Hupp : q + 1 <= N * P).
    { enough (q < N * P) by lia. apply Z.div_lt_upper_bound; [lia|].
      assert (40 * n * P < 40 * (d * (N * P))); [|lia].
      rewrite H40. unfold d.
      assert (HKP : 0 < K * P) by (apply Z.mul_pos_pos; lia).
      assert (Hprod : K * P * (g * (2 ^ 58 + 16)) < K * P * (40 * N * 2 ^ 58)).
      { apply Z.mul_lt_mono_pos_l; done. }
      lia. }
    destruct Hc as [[_ H0]|[[_ H0]|(m & e' & -> & Hm)]]; [lia..|].
    destruct Hm as [(-> & Hm & [[-> Hhalf]| [-> Hhalf]])|(-> & -> & Hcarry)].
    + specialize (Hdown Hhalf). apply Math_ceil_between; lia.
    + apply Math_ceil_between; lia.
    + apply Math_ceil_between; try lia.
      replace (- (f - 52 + 1)) with (- (f - 52) - 1) by lia.
      assert (Hs : P = 2 * 2 ^ (- (f - 52) - 1)).
      { unfold P. change 2 with (2 ^ 1) at 2. rewrite <- pow2_split by lia. f_equal. lia. }
      change (2 ^ 53) with (2 * 2 ^ 52) in Hcarry.
      rewrite Hs in Hlow, Hupp. clear - Hlow Hupp Hcarry.
      set (P' := 2 ^ (- (f - 52) - 1)) in *.
      change (2 ^ 52) with 4503599627370496 in *. lia.
Qed.

End FeeFacts.

(** ** Amount conversion and fee calculation *)

Module AmountClaims.
Import JsString Number Config Amounts.
Import RoundingFacts IntegerFacts RoundFacts DecimalFacts ToStringFacts ParseFacts FeeFacts.

Lemma pretty_signed z :
  z <> 0 -> (if z <? 0 then "-" else EmptyString) +:+ pretty (Z.abs z) = pretty z.
Proof. intros Hz. destruct z; [done|reflexivity..]. Qed.

Lemma ten_pow_decimals : pow10 (decimals XION_CONFIG) = int_repr false 1000000.
Proof. unfold pow10. change (10 ^ decimals XION_CONFIG) with 1000000. by apply of_Z_int. Qed.

(** A finite product is in canonical form. *)
Lemma mul_finite x y s m e :
  mul x y = S754_finite s m e ->
  Z.pos m < 2 ^ 53 /\ -1074 <= e <= 971 /\ (-1074 < e -> 2 ^ 52 <= Z.pos m).
Proof.
  destruct x as [sx|sx| |sx mx ex], y as [sy|sy| |sy my ey]; cbn [mul]; try discriminate.
  intros Heq. apply round_finite in Heq; [tauto|].
  apply pow2_pos. lia.
Qed.

(** [Math.floor] followed by [toString], on a canonical finite value
    whose integer part is below [2 ^ 53] in magnitude. *)
Lemma floor_toString s m e :
  Z.pos m < 2 ^ 53 -> (-1074 < e -> 2 ^ 52 <= Z.pos m) ->
  Z.abs (floor_Z s m e) < 2 ^ 53 ->
  toString (Math_floor (S754_finite s m e)) = pretty (floor_Z s m e).
Proof.
  intros Hm Hnorm Hz. cbn [Math_floor].
  destruct (Z.leb_spec 0 e) as [He|He].
  - assert (He0 : e = 0).
    { destruct (Z.eq_dec e 0); [done|]. exfalso.
      unfold floor_Z in Hz. destruct (Z.leb_spec 0 e); [|lia].
      assert (2 <= 2 ^ e).
      { change 2 with (2 ^ 1) at 1. apply Z.pow_le_mono_r; lia. }
      specialize (Hnorm ltac:(lia)). change (2 ^ 53) with (2 * 2 ^ 52) in Hz.
      destruct s; nia. }
    subst e. specialize (Hnorm ltac:(lia)).
    assert (Hl : Z.log2 (Z.pos m) = 52).
    { apply Z.log2_unique; [lia|]. change (Z.succ 52) with 53. lia. }
    assert (Hr : S754_finite s m 0 = int_repr s (Z.pos m)).
    { unfold int_repr. rewrite Hl. change (52 - 52) with 0.
      by rewrite Z.pow_0_r, Z.mul_1_r. }
    rewrite Hr, toString_int by lia.
    unfold floor_Z. cbn [Z.leb Z.compare]. rewrite Z.pow_0_r, Z.mul_1_r. by destruct s.
  - set (z := floor_Z s m e) in *. unfold of_integral.
    destruct (Z.eqb_spec z 0) as [->|Hz0]; [reflexivity|].
    rewrite <- (Z.mul_1_r (Z.abs z)), round_int by lia.
    rewrite toString_int by lia. by apply pretty_signed.
Qed.

Lemma floor_trunc_nonneg m e : floor_Z false m e = trunc_Z false m e.
Proof.
  unfold floor_Z, trunc_Z. destruct (Z.leb_spec 0 e); [done|].
  symmetry. apply Z.quot_div_nonneg; [lia|]. apply pow2_pos. lia.
Qed.

Lemma floor_trunc_negative m e :
  e < 0 -> Z.pos m mod 2 ^ (- e) <> 0 -> floor_Z true m e = trunc_Z true m e - 1.
Proof.
  intros He Hm. unfold floor_Z, trunc_Z. destruct (Z.leb_spec 0 e); [lia|].
  assert (HP : 0 < 2 ^ (- e)) by (apply pow2_pos; lia).
  change (Z.neg m) with (- Z.pos m).
  rewrite Z.quot_opp_l by lia. rewrite Z.quot_div_nonneg by lia.
  apply Z.div_opp_l_nz; [lia|done].
Qed.

(** The products the claims turn on, computed as above, are the products of
    the standard library's specification of binary64 arithmetic. *)
Example products_agree_with_SpecFloat :
  mul (parseFloat "1.9999995") (pow10 6)
  = SFmul 53 1024 (parseFloat "1.9999995") (pow10 6)
  /\ mul (parseFloat "-0.0000015") (pow10 6)
     = SFmul 53 1024 (parseFloat "-0.0000015") (pow10 6)
  /\ mul (parseFloat "0.000249") (pow10 6)
     = SFmul 53 1024 (parseFloat "0.000249") (pow10 6)
  /\ mul (of_Z 196012139032032768) (parseFloat "0.025uxion")
     = SFmul 53 1024 (of_Z 196012139032032768) (parseFloat "0.025uxion")
  /\ mul (of_Z 200000) (parseFloat "0.025uxion")
     = SFmul 53 1024 (of_Z 200000) (parseFloat "0.025uxion")
  /\ div (of_Z 8200000) (pow10 6) = SFdiv 53 1024 (of_Z 8200000) (pow10 6)
  /\ div (of_Z (10 ^ 22)) (pow10 6) = SFdiv 53 1024 (of_Z (10 ^ 22)) (pow10 6)
  /\ div (of_Z 1) (of_Z 3) = SFdiv 53 1024 (of_Z 1) (of_Z 3).
Proof. vm_compute. repeat split. Qed.

(** The product is the double-precision one: 0.000249 times [10 ^ 6] is
    just below 249 in doubles, and a product of [10 ^ 21] or more prints in
    exponent form. *)
Example parseXionAmount_double_product :
  parseXionAmount (AmountString "0.000249") = "248"
  /\ parseXionAmount (AmountString "8.2") = "8199999"
  /\ parseXionAmount (AmountNumber (of_Z (10 ^ 16))) = "1e+22".
Proof. vm_compute. repeat split. Qed.

(** On an integer amount the conversion is exact, whatever its sign. *)
Lemma parseXionAmount_integer (k : Z) :
  Z.abs k * 10 ^ 6 < 2 ^ 53 ->
  parseXionAmount (AmountNumber (of_Z k)) = pretty (k * 10 ^ 6).
Proof.
  intros Hk. change (10 ^ 6) with 1000000 in *.
  destruct (Z.eq_dec k 0) as [->|Hk0]; [vm_compute; reflexivity|].
  assert (Hrepr : of_Z k = int_repr (k <? 0) (Z.abs k)).
  { unfold of_Z. destruct (Z.eqb_spec k 0); [done|].
    rewrite <- (Z.mul_1_r (Z.abs k)) at 1. apply round_int; lia. }
  unfold parseXionAmount. rewrite Hrepr, ten_pow_decimals, mul_int by lia.
  rewrite xorb_false_r, Math_floor_int, toString_int by lia.
  replace (k * 1000000) with (if k <? 0 then - (Z.abs k * 1000000) else Z.abs k * 1000000)
    by (destruct (Z.ltb_spec k 0); lia).
  destruct (Z.ltb_spec k 0).
  - destruct (Z.abs k * 1000000) eqn:E; try lia. reflexivity.
  - reflexivity.
Qed.

(** C3: the amount "1.9999995" converts to "1999999", the truncated value,
    and not to the rounded "2000000". *)
Theorem parseXionAmount_truncates_example :
  parseXionAmount (AmountString "1.9999995") = "1999999"
  /\ parseXionAmount (AmountString "1.9999995") <> "2000000".
Proof. vm_compute. split; [reflexivity|discriminate]. Qed.

(** The round trip within the integers a double holds exactly: a
    multiple of [10 ^ 6] below [2 ^ 53], given as a decimal string or as
    a number, comes back as its decimal string. *)
Lemma round_trip_small (b : Z) :
  0 <= b < 2 ^ 53 -> b mod 10 ^ decimals XION_CONFIG = 0 ->
  parseXionAmount (AmountString (formatXionAmount (AmountString (pretty b)))) = pretty b
  /\ parseXionAmount (AmountString (formatXionAmount (AmountNumber (of_Z b)))) = pretty b.
Proof.
  intros Hb Hmod. change (10 ^ decimals XION_CONFIG) with 1000000 in Hmod.
  destruct (Z.eq_dec b 0) as [->|Hb0].
  { split; vm_compute; reflexivity. }
  pose proof (Z.div_mod b 1000000 ltac:(lia)) as Hdm. rewrite Hmod in Hdm.
  set (k := b / 1000000) in *.
  assert (Hk : 0 < k) by lia.
  assert (Hfmt : formatXionAmount (AmountNumber (int_repr false b))
                 = pretty k +:+ ".000000").
  { unfold formatXionAmount. rewrite ten_pow_decimals.
    replace b with (k * 1000000) at 1 by lia.
    rewrite (div_int false false k 1000000) by lia.
    cbn [xorb]. by rewrite toFixed_int by lia. }
  assert (Hparse : parseXionAmount (AmountString (pretty k +:+ ".000000")) = pretty b).
  { unfold parseXionAmount. rewrite parseFloat_fixed, ten_pow_decimals by lia.
    rewrite mul_int by lia. cbn [xorb].
    rewrite Math_floor_int, toString_int by lia.
    replace (k * 1000000) with b by lia. reflexivity. }
  split.
  - replace (formatXionAmount (AmountString (pretty b)))
      with (formatXionAmount (AmountNumber (int_repr false b))).
    + by rewrite Hfmt.
    + unfold formatXionAmount. by rewrite parseInt_pretty by lia.
  - rewrite of_Z_int by lia. by rewrite Hfmt.
Qed.

(** C5, within the integers a double holds exactly: for every integer gas
    amount [g] with [0 <= g < 2 ^ 53], [calculateFee] returns one coin of
    denom [uxion] whose amount is the decimal string of [g / 40] rounded
    up, which is [g] times the price 0.025 rounded up, and the decimal
    string of [g] as the gas limit; for 200000 the fee amount is 5000. *)
Theorem calculateFee_ceiling (g : Z) :
  0 <= g < 2 ^ 53 ->
  calculateFee (of_Z g)
  = {| fee_amount := [ {| coin_denom := "uxion";
                          coin_amount := pretty ((g + 39) / 40) |} ];
       fee_gas := pretty g |}
  /\ 40 * ((g + 39) / 40 - 1) < g <= 40 * ((g + 39) / 40)
  /\ calculateFee (of_Z 200000)
     = {| fee_amount := [ {| coin_denom := "uxion"; coin_amount := "5000" |} ];
          fee_gas := "200000" |}.
Proof.
  intros Hg. split; [|split; [|vm_compute; reflexivity]].
  - destruct (Z.eq_dec g 0) as [->|Hg0]; [vm_compute; reflexivity|].
    unfold calculateFee. rewrite gas_price_value, of_Z_int by lia.
    rewrite mul_price, ceil_price by lia.
    assert (0 < (g + 39) / 40 < 2 ^ 53).
    { pose proof (Z.div_mod (g + 39) 40 ltac:(lia)).
      pose proof (Z.mod_pos_bound (g + 39) 40 ltac:(lia)). lia. }
    rewrite !toString_int by lia. reflexivity.
  - pose proof (Z.div_mod (g + 39) 40 ltac:(lia)).
    pose proof (Z.mod_pos_bound (g + 39) 40 ltac:(lia)). lia.
Qed.

Lemma calculateFee_ceiling_witness :
  calculateFee (of_Z 123457)
  = {| fee_amount := [ {| coin_denom := "uxion";
                          coin_amount := pretty ((123457 + 39) / 40) |} ];
       fee_gas := pretty 123457 |}.
Proof.
  refine (proj1 (calculateFee_ceiling 123457 _)).
  vm_compute. split; [discriminate|reflexivity].
Defined.

(** The gas amount 196012139032032768 is a double ([6125379344751024 * 2 ^ 5]).
    A fortieth of it, rounded up, is 4900303475800820; the fee computed is
    4900303475800819, and the gas limit is printed as 196012139032032770. *)
Lemma calculateFee_counterexample :
  of_Z 196012139032032768 = S754_finite false 6125379344751024 5
  /\ 6125379344751024 * 2 ^ 5 = 196012139032032768
  /\ (196012139032032768 + 39) / 40 = 4900303475800820
  /\ calculateFee (of_Z 196012139032032768)
     = {| fee_amount := [ {| coin_denom := "uxion"; coin_amount := "4900303475800819" |} ];
          fee_gas := "196012139032032770" |}
  /\ calculateFee (of_Z 196012139032032768)
     <> {| fee_amount := [ {| coin_denom := "uxion";
                              coin_amount := pretty ((196012139032032768 + 39) / 40) |} ];
           fee_gas := pretty 196012139032032768 |}.
Proof. vm_compute. repeat split; discriminate. Qed.

End AmountClaims.

(** ** Runs: sequencing, traces and the chain state *)

Module RunFacts.
Import Runtime.

Section WithSdk.
Context `{Sdk}.

Lemma bind_emit {B} (ev : event) (k : unit -> M B) (c : Chain) :
  bind (emit ev) k c = prepend [ev] (k tt c).
Proof. reflexivity. Qed.

Lemma bind_ret {A B} (a : A) (k : A -> M B) (c : Chain) :
  bind (ret a) k c = k a c.
Proof. unfold bind, ret. cbn. by destruct (k a c). Qed.

Lemma bind_run {A B} (m : M A) (k : A -> M B) (c c' : Chain) (a : A) (t : list event) :
  m c = mkRun (Returned a) c' t -> bind m k c = prepend t (k a c').
Proof. intros Hm. unfold bind. by rewrite Hm. Qed.

Lemma bind_call {A B} (ev : event) (op : Chain -> result A * Chain)
      (k : A -> M B) (c : Chain) :
  bind (call ev op) k c
  = match fst (op c) with
    | Ok a => prepend [ev] (k a (snd (op c)))
    | Err e => mkRun (Thrown e) (snd (op c)) [ev]
    end.
Proof. unfold bind, call. by destruct (op c) as [[a|e] c']. Qed.

Lemma prepend_prepend {A} (t t' : list event) (r : run A) :
  prepend t (prepend t' r) = prepend (t ++ t') r.
Proof. unfold prepend. cbn. by rewrite app_assoc. Qed.

(** What the body of a [try] produced stays at the head of the trace. *)
Lemma try_catch_trace {A} (body : M A) (handler : js_error -> M A) (c : Chain) :
  exists t, run_trace (try_catch body handler c) = run_trace (body c) ++ t.
Proof.
  unfold try_catch. destruct (run_outcome (body c)).
  - exists []. by rewrite app_nil_r.
  - eexists. reflexivity.
  - exists []. by rewrite app_nil_r.
Qed.

Lemma preserves_ret {A} (a : A) : preserves (ret a).
Proof. by intros c. Qed.

Lemma preserves_throw {A} (e : js_error) : preserves (@throw _ A e).
Proof. by intros c. Qed.

Lemma preserves_emit (ev : event) : preserves (emit ev).
Proof. by intros c. Qed.

Lemma preserves_exit {A} (code : Z) : preserves (@process_exit _ A code).
Proof. by intros c. Qed.

Lemma preserves_bind {A B} (m : M A) (k : A -> M B) :
  preserves m -> (forall a, preserves (k a)) -> preserves (bind m k).
Proof.
  intros Hm Hk c. unfold bind. specialize (Hm c).
  destruct (run_outcome (m c)); unfold prepend; cbn [run_chain]; [|done..].
  rewrite Hk. done.
Qed.

Lemma preserves_try_catch {A} (m : M A) (h : js_error -> M A) :
  preserves m -> (forall e, preserves (h e)) -> preserves (try_catch m h).
Proof.
  intros Hm Hh c. unfold try_catch. specialize (Hm c).
  destruct (run_outcome (m c)); unfold prepend; cbn [run_chain]; [done| |done].
  rewrite Hh. done.
Qed.

Lemma preserves_call {A} (ev : event) (op : Chain -> result A * Chain) :
  (forall c, snd (op c) = c) -> preserves (call ev op).
Proof.
  intros Hop c. unfold call. specialize (Hop c).
  destruct (op c) as [r c']. exact Hop.
Qed.

Lemma preserves_for_each {A} (xs : list A) (body : A -> M unit) :
  (forall x, preserves (body x)) -> preserves (for_each xs body).
Proof.
  intros Hbody. induction xs as [|x xs IH]; [apply preserves_ret|].
  cbn [for_each]. apply preserves_bind; [apply Hbody|]. intros _. exact IH.
Qed.

End WithSdk.

End RunFacts.

(** ** The poller, the wallet loader and the command scripts *)

Module RunClaims.
Import JsString Number Config Amounts Runtime Helpers Scripts.
Import RoundingFacts IntegerFacts RoundFacts DecimalFacts ToStringFacts ParseFacts.

Section Poller.
Context `{Sdk}.
Variables (client : Client) (txHash : string) (maxAttempts : nat) (delayMs : number).

Lemma loop_found (i : nat) :
  forall (remaining : nat) (c : Chain) (r : IndexedTx),
    (i < remaining)%nat ->
    (forall j, (j < i)%nat -> lookup_at client txHash delayMs c j = Ok None) ->
    lookup_at client txHash delayMs c i = Ok (Some r) ->
    waitForTransaction_loop client txHash maxAttempts delayMs remaining c
    = mkRun (Returned r)
            (snd (client_getTx client txHash (poll_state client txHash delayMs c i)))
            (poll_trace txHash delayMs i).
Proof.
  induction i as [|i IH]; intros remaining c r Hrem Hempty Hfound;
    (destruct remaining as [|remaining]; [lia|]).
  - unfold lookup_at in Hfound. cbn [poll_state] in *.
    cbn [waitForTransaction_loop]. unfold bind, getTransaction, call.
    destruct (client_getTx client txHash c) as [res c'].
    cbn in Hfound. subst res. reflexivity.
  - pose proof (Hempty 0%nat ltac:(lia)) as H0.
    unfold lookup_at in H0. cbn [poll_state] in H0.
    cbn [waitForTransaction_loop poll_state poll_trace].
    unfold bind, getTransaction, call, sleep.
    destruct (client_getTx client txHash c) as [res c'] eqn:Hc.
    cbn in H0. subst res. cbn [run_outcome run_chain run_trace snd].
    rewrite (IH remaining (set_timeout delayMs c') r); [reflexivity|lia| |].
    + intros j Hj. specialize (Hempty (S j) ltac:(lia)).
      unfold lookup_at in *. cbn [poll_state] in Hempty. by rewrite Hc in Hempty.
    + unfold lookup_at in *. cbn [poll_state] in Hfound. by rewrite Hc in Hfound.
Qed.

Lemma loop_exhausted (remaining : nat) :
  forall (c : Chain),
    (forall j, (j < remaining)%nat -> lookup_at client txHash delayMs c j = Ok None) ->
    waitForTransaction_loop client txHash maxAttempts delayMs remaining c
    = mkRun (Thrown (new_Error ("Transaction " +:+ txHash +:+ " not found after "
                                +:+ pretty maxAttempts +:+ " attempts")))
            (poll_state client txHash delayMs c remaining)
            (empty_poll_trace txHash delayMs remaining).
Proof.
  induction remaining as [|remaining IH]; intros c Hempty; [reflexivity|].
  pose proof (Hempty 0%nat ltac:(lia)) as H0.
  unfold lookup_at in H0. cbn [poll_state] in H0.
  cbn [waitForTransaction_loop poll_state empty_poll_trace].
  unfold bind, getTransaction, call, sleep.
  destruct (client_getTx client txHash c) as [res c'] eqn:Hc.
  cbn in H0. subst res. cbn [run_outcome run_chain run_trace snd].
  rewrite (IH (set_timeout delayMs c')); [reflexivity|].
  intros j Hj. specialize (Hempty (S j) ltac:(lia)).
  unfold lookup_at in *. cbn [poll_state] in Hempty. by rewrite Hc in Hempty.
Qed.

Lemma poll_trace_lookups (i : nat) :
  length (List.filter is_lookup (poll_trace txHash delayMs i)) = S i.
Proof. induction i as [|i IH]; [reflexivity|]. cbn. by rewrite IH. Qed.

Lemma empty_poll_trace_lookups (n : nat) :
  length (List.filter is_lookup (empty_poll_trace txHash delayMs n)) = n.
Proof. induction n as [|n IH]; [reflexivity|]. cbn. by rewrite IH. Qed.

(** C1: if lookup number [k] of at most [maxAttempts] is the first to
    return a receipt, [waitForTransaction] returns that receipt after
    exactly [k] lookups (and [k - 1] sleeps); if all [maxAttempts]
    lookups return empty it makes exactly [maxAttempts] lookups and
    throws the error whose message carries the hash and the attempt
    count.  Left out, the arguments default to 20 attempts and a delay
    of 1000. *)
Theorem waitForTransaction_polls (c : Chain) :
  (forall (k : nat) (r : IndexedTx),
      (1 <= k <= maxAttempts)%nat ->
      (forall j, (j < k - 1)%nat -> lookup_at client txHash delayMs c j = Ok None) ->
      lookup_at client txHash delayMs c (k - 1) = Ok (Some r) ->
      let res := waitForTransaction client txHash (Some maxAttempts) (Some delayMs) c in
      run_outcome res = Returned r
      /\ length (List.filter is_lookup (run_trace res)) = k
      /\ run_trace res = poll_trace txHash delayMs (k - 1))
  /\ ((forall j, (j < maxAttempts)%nat -> lookup_at client txHash delayMs c j = Ok None) ->
      let res := waitForTransaction client txHash (Some maxAttempts) (Some delayMs) c in
      run_outcome res
      = Thrown (new_Error ("Transaction " +:+ txHash +:+ " not found after "
                           +:+ pretty maxAttempts +:+ " attempts"))
      /\ length (List.filter is_lookup (run_trace res)) = maxAttempts)
  /\ waitForTransaction client txHash None None c
     = waitForTransaction client txHash (Some 20%nat) (Some (of_Z 1000)) c.
Proof.
  split; [|split; [|reflexivity]].
  - intros k r Hk Hempty Hfound res. unfold res.
    change (waitForTransaction client txHash (Some maxAttempts) (Some delayMs) c)
      with (waitForTransaction_loop client txHash maxAttempts delayMs maxAttempts c).
    rewrite (loop_found (k - 1) maxAttempts c r) by (lia || done).
    cbn [run_outcome run_trace]. rewrite poll_trace_lookups.
    split; [done|]. split; [lia|done].
  - intros Hempty res. unfold res.
    change (waitForTransaction client txHash (Some maxAttempts) (Some delayMs) c)
      with (waitForTransaction_loop client txHash maxAttempts delayMs maxAttempts c).
    rewrite loop_exhausted by done.
    cbn [run_outcome run_trace]. by rewrite empty_poll_trace_lookups.
Qed.

End Poller.

Lemma waitForTransaction_polls_witness :
  (run_outcome (@waitForTransaction Stub.found_sdk tt "ABC" (Some 5%nat)
                                    (Some (of_Z 250)) 0%nat)
   = Returned "receipt"
   /\ length (List.filter is_lookup
                (run_trace (@waitForTransaction Stub.found_sdk tt "ABC" (Some 5%nat)
                                                (Some (of_Z 250)) 0%nat))) = 3%nat)
  /\ (run_outcome (@waitForTransaction Stub.never_sdk tt "ABC" (Some 3%nat)
                                       (Some (of_Z 250)) 0%nat)
      = Thrown (@new_Error Stub.never_sdk
                  ("Transaction " +:+ "ABC" +:+ " not found after "
                   +:+ pretty 3%nat +:+ " attempts"))
      /\ length (List.filter is_lookup
                   (run_trace (@waitForTransaction Stub.never_sdk tt "ABC" (Some 3%nat)
                                                   (Some (of_Z 250)) 0%nat))) = 3%nat).
Proof.
  split.
  - pose proof (proj1 (@waitForTransaction_polls Stub.found_sdk tt "ABC" 5%nat
                         (of_Z 250) 0%nat) 3%nat "receipt") as Hw.
    destruct Hw as (Ho & Hn & _).
    + lia.
    + intros j Hj. assert (j = 0 \/ j = 1)%nat as [->| ->] by lia; reflexivity.
    + reflexivity.
    + split; [exact Ho|exact Hn].
  - pose proof (proj1 (proj2 (@waitForTransaction_polls Stub.never_sdk tt "ABC" 3%nat
                                (of_Z 250) 0%nat))) as Hw.
    destruct Hw as (Ho & Hn).
    + intros j Hj. reflexivity.
    + split; [exact Ho|exact Hn].
Defined.

End RunClaims.

Module ScriptClaims.
Import JsString Number Config Amounts Runtime Helpers Scripts.
Import RunFacts.

Section WithSdk.
Context `{Sdk} `{!Contracts}.

(** C7: without a mnemonic in the environment [loadWallet] throws its
    configuration error before any derivation is attempted; with one it
    derives the wallet from that mnemonic and the configured address
    prefix, in a single derivation.  An empty value counts as none. *)
Theorem loadWallet_requires_mnemonic (env : gmap string string) (c : Chain) :
  (env !! "MNEMONIC" = None ->
   loadWallet env c
   = mkRun (Thrown (new_Error "MNEMONIC not found in environment variables. Please set it in .env file"))
           c [])
  /\ (forall mnemonic,
         env !! "MNEMONIC" = Some mnemonic -> mnemonic <> EmptyString ->
         loadWallet env c
         = mkRun (match wallet_fromMnemonic mnemonic "xion" with
                  | Ok w => Returned w
                  | Err e => Thrown e
                  end)
                 c [WalletFromMnemonic mnemonic "xion"])
  /\ (env !! "MNEMONIC" = Some EmptyString ->
      loadWallet env c
      = mkRun (Thrown (new_Error "MNEMONIC not found in environment variables. Please set it in .env file"))
              c []).
Proof.
  split; [|split].
  - intros Henv. unfold loadWallet. by rewrite Henv.
  - intros mnemonic Henv Hne. unfold loadWallet. rewrite Henv.
    destruct (String.eqb_spec mnemonic EmptyString); [done|]. reflexivity.
  - intros Henv. unfold loadWallet. by rewrite Henv.
Qed.

(** C6: without a contract address [mintToken] prints its diagnostic and
    returns: it does not throw, the chain is untouched, and the run has
    no wallet derivation, no connection and no contract call. *)
Theorem mintToken_without_contract_address
        (env : gmap string string) (argv : list string) (c : Chain) :
  truthy (env !! "CONTRACT_ADDRESS") = false ->
  mintToken env argv c
  = mkRun (Returned tt) c
          [ ConsoleLog ("Minting new NFT..." +:+ nl);
            ConsoleError "Error: CONTRACT_ADDRESS not set!";
            ConsoleLog "   Please set CONTRACT_ADDRESS in your .env file";
            ConsoleLog "   Or run: export CONTRACT_ADDRESS=xion1..." ]
  /\ existsb is_network (run_trace (mintToken env argv c)) = false
  /\ (forall mnemonic prefix,
         ~ In (WalletFromMnemonic mnemonic prefix) (run_trace (mintToken env argv c))).
Proof.
  intros Henv.
  assert (Hrun : mintToken env argv c
                 = mkRun (Returned tt) c
                     [ ConsoleLog ("Minting new NFT..." +:+ nl);
                       ConsoleError "Error: CONTRACT_ADDRESS not set!";
                       ConsoleLog "   Please set CONTRACT_ADDRESS in your .env file";
                       ConsoleLog "   Or run: export CONTRACT_ADDRESS=xion1..." ]).
  { unfold mintToken, try_catch. cbv zeta. unfold console_log, console_error.
    rewrite bind_emit. cbn [mintToken_params mint_CONTRACT_ADDRESS].
    rewrite Henv. cbn [negb]. rewrite !bind_emit. reflexivity. }
  split; [exact Hrun|]. rewrite Hrun. split; [reflexivity|].
  intros mnemonic prefix Hin. cbn in Hin. intuition discriminate.
Qed.

End WithSdk.

Lemma loadWallet_requires_mnemonic_witness :
  @loadWallet Stub.never_sdk ∅ 0%nat
  = @mkRun Stub.never_sdk _
           (Thrown (@new_Error Stub.never_sdk
                      "MNEMONIC not found in environment variables. Please set it in .env file"))
           0%nat []
  /\ @loadWallet Stub.never_sdk {[ "MNEMONIC" := "abandon ability able" ]} 0%nat
     = @mkRun Stub.never_sdk _ (match @wallet_fromMnemonic Stub.never_sdk "abandon ability able" "xion" with
              | Ok w => Returned w
              | Err e => Thrown e
              end)
             0%nat [WalletFromMnemonic "abandon ability able" "xion"].
Proof.
  split.
  - refine (proj1 (@loadWallet_requires_mnemonic Stub.never_sdk ∅ 0%nat) _). reflexivity.
  - refine (proj1 (proj2 (@loadWallet_requires_mnemonic
                     Stub.never_sdk {[ "MNEMONIC" := "abandon ability able" ]} 0%nat))
                  "abandon ability able" _ _); [reflexivity|discriminate].
Defined.

Lemma mintToken_without_contract_address_witness :
  existsb is_network
          (run_trace (@mintToken Stub.never_sdk Stub.never_contracts
                        {[ "MNEMONIC" := "abandon ability able" ]}
                        ["node"; "mint-token.js"; "7"] 0%nat)) = false.
Proof.
  refine (proj1 (proj2 (@mintToken_without_contract_address
                          Stub.never_sdk Stub.never_contracts
                          {[ "MNEMONIC" := "abandon ability able" ]}
                          ["node"; "mint-token.js"; "7"] 0%nat _))).
  reflexivity.
Defined.

End ScriptClaims.

Module ParameterClaims.
Import JsString Number Config Amounts Runtime Helpers Scripts.

Lemma env_or_arg_env env argv name i v :
  env !! name = Some v -> v <> EmptyString -> env_or_arg env argv name i = Some v.
Proof.
  intros Henv Hv. unfold env_or_arg, js_or. rewrite Henv. cbn.
  destruct (String.eqb_spec v EmptyString); [done|]. reflexivity.
Qed.

Lemma env_or_arg_arg env argv name i :
  truthy (env !! name) = false -> env_or_arg env argv name i = argv !! i.
Proof. intros Henv. unfold env_or_arg, js_or. by rewrite Henv. Qed.

(** C8, as the scripts have it: every parameter with both sources other
    than the wait flag is read as [process.env.NAME || process.argv[i]]
    (the message of [sign-message.js] with all the arguments joined), so
    the environment value is used when it is set and not empty, and the
    command-line argument only when it is unset or empty.  The wait flag
    of [monitor-transaction.js] is on when [WAIT] is "true" or the third
    argument is [--wait]: the argument turns it on whatever [WAIT] holds. *)
Theorem environment_takes_precedence (env : gmap string string) (argv : list string) :
  (forall name i v, env !! name = Some v -> v <> EmptyString ->
                    env_or_arg env argv name i = Some v)
  /\ (forall name i, truthy (env !! name) = false ->
                     env_or_arg env argv name i = argv !! i)
  /\ (mint_TOKEN_ID (mintToken_params env argv)
        = or_default (env_or_arg env argv "TOKEN_ID" 2) "1"
      /\ mint_OWNER_ADDRESS (mintToken_params env argv)
         = env_or_arg env argv "OWNER_ADDRESS" 3
      /\ mint_TOKEN_URI (mintToken_params env argv)
         = or_default (env_or_arg env argv "TOKEN_URI" 4) "ipfs://QmExample..."
      /\ gas_RECIPIENT (transferGas_params env argv) = env_or_arg env argv "RECIPIENT" 2
      /\ gas_AMOUNT (transferGas_params env argv) = env_or_arg env argv "AMOUNT" 3
      /\ monitor_TX_HASH (monitorTransaction_params env argv)
         = env_or_arg env argv "TX_HASH" 2
      /\ verify_TOKEN_ID (verifyOwnership_params env argv)
         = env_or_arg env argv "TOKEN_ID" 2
      /\ verify_EXPECTED_OWNER (verifyOwnership_params env argv)
         = env_or_arg env argv "EXPECTED_OWNER" 3
      /\ nft_TOKEN_ID (transferNFT_params env argv) = env_or_arg env argv "TOKEN_ID" 2
      /\ nft_RECIPIENT (transferNFT_params env argv) = env_or_arg env argv "RECIPIENT" 3
      /\ checkGasFee_TRANSACTION_TYPE env argv
         = or_default (env_or_arg env argv "TX_TYPE" 2) "mint"
      /\ sign_TX_TYPE (signTransaction_params env argv)
         = or_default (env_or_arg env argv "TX_TYPE" 2) "send-tokens"
      /\ sign_OUTPUT_FILE (signTransaction_params env argv)
         = or_default (env_or_arg env argv "OUTPUT_FILE" 3) "signed-tx.json")
  /\ (forall v, env !! "MESSAGE" = Some v -> v <> EmptyString ->
                signMessage_MESSAGE env argv = Some v)
  /\ (truthy (env !! "MESSAGE") = false ->
      signMessage_MESSAGE env argv = Some (join " " (drop 2 argv)))
  /\ (argv !! 3%nat = Some "--wait" ->
      monitor_WAIT_FOR_TX (monitorTransaction_params env argv) = true)
  /\ (env !! "WAIT" = Some "true" ->
      monitor_WAIT_FOR_TX (monitorTransaction_params env argv) = true)
  /\ (env !! "WAIT" <> Some "true" -> argv !! 3%nat <> Some "--wait" ->
      monitor_WAIT_FOR_TX (monitorTransaction_params env argv) = false).
Proof.
  split; [intros; by apply env_or_arg_env|].
  split; [intros; by apply env_or_arg_arg|].
  split; [repeat split|].
  split.
  { intros v Henv Hv. unfold signMessage_MESSAGE, js_or. rewrite Henv. cbn.
    destruct (String.eqb_spec v EmptyString); [done|]. reflexivity. }
  split.
  { intros Henv. unfold signMessage_MESSAGE, js_or. by rewrite Henv. }
  cbn [monitorTransaction_params monitor_WAIT_FOR_TX].
  split; [|split].
  - intros Harg. rewrite (bool_decide_eq_true_2 _ Harg). apply orb_true_r.
  - intros Henv. by rewrite (bool_decide_eq_true_2 _ Henv).
  - intros Henv Harg.
    by rewrite (bool_decide_eq_false_2 _ Henv), (bool_decide_eq_false_2 _ Harg).
Qed.

Lemma environment_takes_precedence_witness :
  env_or_arg {[ "TOKEN_ID" := "7" ]} ["node"; "mint-token.js"; "9"] "TOKEN_ID" 2 = Some "7"
  /\ env_or_arg ∅ ["node"; "mint-token.js"; "9"] "TOKEN_ID" 2 = Some "9".
Proof.
  split.
  - refine (proj1 (environment_takes_precedence
                     {[ "TOKEN_ID" := "7" ]} ["node"; "mint-token.js"; "9"])
                  "TOKEN_ID" 2%nat "7" _ _); [reflexivity|discriminate].
  - refine (proj1 (proj2 (environment_takes_precedence ∅ ["node"; "mint-token.js"; "9"]))
                  "TOKEN_ID" 2%nat _). reflexivity.
Defined.

(** With [WAIT] set to "false" in the environment, the argument [--wait]
    still decides: the flag is on with it and off without it. *)
Lemma wait_flag_counterexample :
  truthy (({[ "WAIT" := "false" ]} : gmap string string) !! "WAIT") = true
  /\ monitor_WAIT_FOR_TX
       (monitorTransaction_params {[ "WAIT" := "false" ]}
          ["node"; "monitor-transaction.js"; "ABC"; "--wait"])
     = true
  /\ monitor_WAIT_FOR_TX
       (monitorTransaction_params {[ "WAIT" := "false" ]}
          ["node"; "monitor-transaction.js"; "ABC"])
     = false.
Proof. vm_compute. repeat split. Qed.

End ParameterClaims.

(** ** Runs that leave the chain state alone *)

Module PreservationFacts.
Import JsString Number Config Amounts Runtime Helpers Scripts RunFacts.

Section WithSdk.
Context `{Sdk} `{!Contracts}.

Lemma preserves_print_approvals (i : nat) (xs : list Approval) :
  preserves (print_approvals i xs).
Proof.
  revert i. induction xs as [|a xs IH]; intros i; [apply preserves_ret|].
  cbn [print_approvals]. apply preserves_bind; [apply preserves_emit|].
  intros _. apply IH.
Qed.

Ltac preserve_step :=
  lazymatch goal with
  | |- preserves (ret _) => apply preserves_ret
  | |- preserves (throw _) => apply preserves_throw
  | |- preserves (emit _) => apply preserves_emit
  | |- preserves (process_exit _) => apply preserves_exit
  | |- preserves (print_approvals _ _) => apply preserves_print_approvals
  | |- preserves (bind _ _) => apply preserves_bind; [|intros ?]
  | |- preserves (try_catch _ _) => apply preserves_try_catch; [|intros ?]
  | |- preserves (for_each _ _) => apply preserves_for_each; intros ?
  | |- preserves (call _ _) => apply preserves_call; solve [auto]
  | |- preserves (if ?b then _ else _) => destruct b
  | |- preserves (match ?x with _ => _ end) => destruct x
  end.

Ltac preserve := repeat preserve_step.

Lemma preserves_handleError {A} (e : js_error) : preserves (@handleError _ A e).
Proof. unfold handleError, console_error. preserve. Qed.

Lemma preserves_print_metadata (nftInfo : NftInfoResponse) :
  preserves (print_metadata nftInfo).
Proof. unfold print_metadata, print_field, console_log. preserve. Qed.

(** Against a chain that queries leave unchanged, verifying ownership
    leaves it unchanged too. *)
Lemma verifyOwnership_preserves (env : gmap string string) (argv : list string) :
  (forall endpoint c, snd (client_connect endpoint c) = c) ->
  (forall client contract token c,
      snd (client_queryOwnerOf client contract token c) = c) ->
  (forall client contract token c,
      snd (client_queryNftInfo client contract token c) = c) ->
  (forall client contract owner limit c,
      snd (client_queryTokens client contract owner limit c) = c) ->
  (forall client c, client_disconnect client c = c) ->
  preserves (verifyOwnership env argv).
Proof.
  intros Hconnect Howner Hinfo Htokens Hdisconnect.
  assert (Hd : forall client, preserves (disconnect client)).
  { intros client c. apply Hdisconnect. }
  unfold verifyOwnership, console_log, console_error, connectQueryClient,
    queryOwnerOf, queryNftInfo, queryTokens.
  repeat lazymatch goal with
         | |- preserves (print_metadata _) => apply preserves_print_metadata
         | |- preserves (handleError _) => apply preserves_handleError
         | |- preserves (disconnect _) => apply Hd
         | |- _ => preserve_step
         end.
Qed.

End WithSdk.

End PreservationFacts.

Module DeployClaims.
Import JsString Number Config Amounts Runtime Helpers Scripts.
Import RoundingFacts IntegerFacts RoundFacts DecimalFacts ToStringFacts ParseFacts RunFacts.

Lemma round_integer_nonzero s n : 0 < n -> is_zero (round s n 1) = false.
Proof.
  intros Hn.
  assert (Hf : ilog2 n 1 = Z.log2 n).
  { apply ilog2_unique; try lia.
    destruct (Z.log2_spec n Hn) as [H1 H2]. pose proof (Z.log2_nonneg n).
    rewrite (Z.max_r 0 (Z.log2 n)), (Z.max_l 0 (- Z.log2 n)), Z.pow_0_r by lia.
    replace (Z.succ (Z.log2 n)) with (Z.log2 n + 1) in H2 by lia.
    rewrite (pow2_split (Z.log2 n) 1) in H2 by lia. change (2 ^ 1) with 2 in H2. lia. }
  destruct (round_quotient_bounds n 1 Hn ltac:(lia)) as [_ Hq].
  pose proof (Z.log2_nonneg n).
  destruct (round_cases s n 1 Hn ltac:(lia)) as [[_ H0]|[[-> _]|(m & e' & -> & _)]];
    [|reflexivity..].
  rewrite Hf in *. specialize (Hq ltac:(lia)). lia.
Qed.

(** [parseInt] of the decimal digits of a natural number is zero only for
    zero. *)
Lemma parseInt_pretty_zero (n : Z) :
  0 <= n -> (is_zero (parseInt (pretty n)) = true <-> n = 0).
Proof.
  intros Hn. destruct (Z.eq_dec n 0) as [->|Hn0]; [done|].
  split; [|done]. intros Hz. exfalso.
  destruct (pretty_head n ltac:(lia)) as (d & r & Hp & Hd).
  rewrite Hp, parseInt_head in Hz by done. rewrite <- Hp in Hz.
  destruct (read_digits_pretty n EmptyString ltac:(lia)) as (c & Hc & Hr).
  rewrite append_nil_r in Hr. rewrite Hr in Hz.
  change (read_digits n c EmptyString) with (n, c, EmptyString) in Hz. cbv beta iota in Hz.
  destruct (Z.eqb_spec c 0); [lia|].
  rewrite round_integer_nonzero in Hz by lia. discriminate.
Qed.

Section WithSdk.
Context `{Sdk} `{!Contracts}.

(** C10: once the balance is fetched, [deployContract] returns at the
    funding warning without an instantiate call exactly when the balance
    parses to zero; for the decimal string of any positive balance,
    however small, it goes on to the instantiate call. *)
Theorem deployContract_balance_guard
        (env : gmap string string) (c c1 c2 : Chain) (mnemonic : string)
        (wallet : Wallet) (account : Account) (accounts : list Account)
        (client : Client) (balance : Coin) :
  env !! "MNEMONIC" = Some mnemonic -> mnemonic <> EmptyString ->
  wallet_fromMnemonic mnemonic "xion" = Ok wallet ->
  wallet_getAccounts wallet = account :: accounts ->
  client_connectWithSigner (rpcEndpoint XION_CONFIG) wallet (gasPrice XION_CONFIG) c
  = (Ok client, c1) ->
  client_getBalance client (address account) "uxion" c1 = (Ok balance, c2) ->
  (is_zero (parseInt (coin_amount balance)) = true ->
   run_outcome (deployContract env c) = Returned tt
   /\ run_chain (deployContract env c) = c2
   /\ existsb is_instantiate (run_trace (deployContract env c)) = false
   /\ In (ConsoleLog (nl +:+ "Warning: Wallet has zero balance!"))
         (run_trace (deployContract env c)))
  /\ (is_zero (parseInt (coin_amount balance)) = false ->
      In (Instantiate (address account) 525
            {| inst_name := deploy_NFT_NAME (deployContract_params env);
               inst_symbol := deploy_NFT_SYMBOL (deployContract_params env);
               inst_minter := address account |}
            (deploy_CONTRACT_LABEL (deployContract_params env))
            (if String.eqb (address account) EmptyString then None else Some (address account)))
         (run_trace (deployContract env c)))
  /\ (forall n, 0 <= n -> coin_amount balance = pretty n ->
                (is_zero (parseInt (coin_amount balance)) = true <-> n = 0)).
Proof.
  intros Henv Hne Hwallet Haccounts Hconnect Hbalance.
  unfold deployContract.
  match goal with |- context [try_catch ?b handleError c] => set (body := b) end.
  set (prefix := [ ConsoleLog ("Deploying CW721 NFT Contract..." +:+ nl);
                   ConsoleLog "Loading wallet from environment...";
                   WalletFromMnemonic mnemonic "xion";
                   WalletGetAccounts;
                   ConsoleLog ("Wallet loaded: " +:+ address account +:+ nl);
                   ConsoleLog "Connecting to XION network...";
                   ConnectWithSigner (rpcEndpoint XION_CONFIG) (gasPrice XION_CONFIG);
                   ConsoleLog ("Connected to " +:+ chainId XION_CONFIG +:+ nl);
                   GetBalance (address account) "uxion";
                   ConsoleLog ("Wallet balance: " +:+ coin_amount balance +:+ " "
                               +:+ coin_denom balance) ]).
  assert (Hload : loadWallet env c
                  = mkRun (Returned wallet) c [WalletFromMnemonic mnemonic "xion"]).
  { unfold loadWallet. rewrite Henv. destruct (String.eqb_spec mnemonic EmptyString); [done|].
    unfold createWalletFromMnemonic, call. cbn [addressPrefix XION_CONFIG].
    by rewrite Hwallet. }
  assert (Hfirst : getFirstAccount wallet c
                   = mkRun (Returned (Some account)) c [WalletGetAccounts]).
  { unfold getFirstAccount, call. by rewrite Haccounts. }
  assert (Hclient : connectSigningClient wallet c
                    = mkRun (Returned client) c1
                            [ConnectWithSigner (rpcEndpoint XION_CONFIG)
                                               (gasPrice XION_CONFIG)]).
  { unfold connectSigningClient, call. by rewrite Hconnect. }
  assert (Hbal : getBalance client (address account) c1
                 = mkRun (Returned balance) c2 [GetBalance (address account) "uxion"]).
  { unfold getBalance, call. change (denom XION_CONFIG) with "uxion".
    by rewrite Hbalance. }
  assert (Hzero : is_zero (parseInt (coin_amount balance)) = true ->
                  body c
                  = mkRun (Returned tt) c2
                      (prefix ++
                       [ ConsoleLog (nl +:+ "Warning: Wallet has zero balance!");
                         ConsoleLog "   Please fund your wallet with testnet tokens before deploying.";
                         ConsoleLog ("   Discord: " +:+ discord (faucet XION_CONFIG));
                         ConsoleLog ("   Command: " +:+ command (faucet XION_CONFIG)) ])).
  { intros Hz. unfold body. cbv zeta. unfold console_log.
    rewrite !bind_emit. rewrite (bind_run _ _ _ _ _ _ Hload). rewrite !prepend_prepend.
    rewrite (bind_run _ _ _ _ _ _ Hfirst). rewrite !prepend_prepend.
    cbn [account_address]. rewrite bind_ret, !bind_emit, !prepend_prepend.
    rewrite (bind_run _ _ _ _ _ _ Hclient), bind_emit, !prepend_prepend.
    rewrite (bind_run _ _ _ _ _ _ Hbal), bind_emit, !prepend_prepend.
    rewrite Hz. reflexivity. }
  assert (Hnonzero :
    is_zero (parseInt (coin_amount balance)) = false ->
    exists r,
      body c
      = prepend (prefix ++
                 [ ConsoleLog (nl +:+ "Contract Configuration:");
                   ConsoleLog ("   Name: " +:+ deploy_NFT_NAME (deployContract_params env));
                   ConsoleLog ("   Symbol: " +:+ deploy_NFT_SYMBOL (deployContract_params env));
                   ConsoleLog ("   Minter: " +:+ address account);
                   ConsoleLog ("   Code ID: " +:+ pretty (cw721MetadataOnchainCodeId XION_CONFIG));
                   ConsoleLog ("   Label: " +:+ deploy_CONTRACT_LABEL (deployContract_params env));
                   ConsoleLog (nl +:+ "Instantiating contract...");
                   Instantiate (address account) 525
                     {| inst_name := deploy_NFT_NAME (deployContract_params env);
                        inst_symbol := deploy_NFT_SYMBOL (deployContract_params env);
                        inst_minter := address account |}
                     (deploy_CONTRACT_LABEL (deployContract_params env))
                     (if String.eqb (address account) EmptyString then None
                      else Some (address account)) ]) r).
  { intros Hz. unfold body. cbv zeta. unfold console_log.
    rewrite !bind_emit. rewrite (bind_run _ _ _ _ _ _ Hload). rewrite !prepend_prepend.
    rewrite (bind_run _ _ _ _ _ _ Hfirst). rewrite !prepend_prepend.
    cbn [account_address]. rewrite bind_ret, !bind_emit, !prepend_prepend.
    rewrite (bind_run _ _ _ _ _ _ Hclient), bind_emit, !prepend_prepend.
    rewrite (bind_run _ _ _ _ _ _ Hbal), bind_emit, !prepend_prepend.
    rewrite Hz. rewrite !bind_emit, !prepend_prepend.
    unfold instantiateContract. rewrite bind_call.
    change (cw721MetadataOnchainCodeId XION_CONFIG) with 525.
    destruct (client_instantiate _ _ _ _ _ _ _) as [[result|err] c3]; cbn [fst snd].
    - rewrite prepend_prepend. eexists. reflexivity.
    - eexists (mkRun (Thrown err) c3 []). unfold prepend. cbn [run_outcome run_chain run_trace].
      by rewrite <- app_assoc. }
  split; [|split].
  - intros Hz. specialize (Hzero Hz).
    assert (Hrun : try_catch body handleError c = body c).
    { unfold try_catch. by rewrite Hzero. }
    rewrite Hrun, Hzero. cbn [run_outcome run_chain run_trace].
    split; [done|]. split; [done|]. split; [reflexivity|].
    apply in_or_app. right. left. reflexivity.
  - intros Hz. destruct (Hnonzero Hz) as [r Hr].
    destruct (try_catch_trace body handleError c) as [t' ->].
    rewrite Hr. unfold prepend. cbn [run_trace].
    apply in_or_app. left. apply in_or_app. left. apply in_or_app. right.
    do 7 right. left. reflexivity.
  - intros n Hn ->. by apply parseInt_pretty_zero.
Qed.

End WithSdk.

Lemma deployContract_balance_guard_witness :
  existsb is_instantiate
          (run_trace (@deployContract Stub.never_sdk Stub.never_contracts
                        {[ "MNEMONIC" := "abandon ability able" ]} 0%nat)) = false
  /\ In (Instantiate "xion1stub" 525
           {| inst_name := deploy_NFT_NAME
                             (deployContract_params {[ "MNEMONIC" := "abandon ability able" ]});
              inst_symbol := deploy_NFT_SYMBOL
                               (deployContract_params {[ "MNEMONIC" := "abandon ability able" ]});
              inst_minter := "xion1stub" |}
           (deploy_CONTRACT_LABEL
              (deployContract_params {[ "MNEMONIC" := "abandon ability able" ]}))
           (if String.eqb "xion1stub" EmptyString then None else Some "xion1stub"))
        (run_trace (@deployContract Stub.funded_sdk Stub.funded_contracts
                      {[ "MNEMONIC" := "abandon ability able" ]} 0%nat)).
Proof.
  split.
  - refine (proj1 (proj2 (proj2 (proj1
             (@deployContract_balance_guard Stub.never_sdk Stub.never_contracts
                {[ "MNEMONIC" := "abandon ability able" ]} 0%nat 0%nat 0%nat
                "abandon ability able" "xion1stub"
                {| address := "xion1stub"; algo := "secp256k1"; pubkey := EmptyString |} []
                tt {| coin_denom := "uxion"; coin_amount := "0" |} _ _ _ _ _ _) _))));
      try reflexivity; discriminate.
  - refine (proj1 (proj2
             (@deployContract_balance_guard Stub.funded_sdk Stub.funded_contracts
                {[ "MNEMONIC" := "abandon ability able" ]} 0%nat 0%nat 0%nat
                "abandon ability able" "xion1stub"
                {| address := "xion1stub"; algo := "secp256k1"; pubkey := EmptyString |} []
                tt {| coin_denom := "uxion"; coin_amount := "1" |} _ _ _ _ _ _)) _);
      try reflexivity; discriminate.
Defined.

End DeployClaims.

(** ** Fixed-point text: digits before and after the point *)

Module FixedPointFacts.
Import JsString Number Decimal.
Import RoundingFacts IntegerFacts RoundFacts DecimalFacts ToStringFacts ParseFacts.

Lemma pretty_snoc (z d : Z) :
  0 < z -> 0 <= d < 10 ->
  pretty (z * 10 + d) = pretty z +:+ String (pretty_N_char (Z.to_N d)) EmptyString.
Proof.
  intros Hz Hd. rewrite !pretty_Z_pos by lia.
  rewrite pretty_N_go_step by lia.
  replace (Z.to_N (z * 10 + d) `div` 10)%N with (Z.to_N z).
  2:{ apply N2Z.inj. rewrite N2Z.inj_div, !Z2N.id by lia. change (Z.of_N 10) with 10.
      apply (Z.div_unique_pos _ _ _ d); lia. }
  replace (Z.to_N (z * 10 + d) `mod` 10)%N with (Z.to_N d).
  2:{ apply N2Z.inj. rewrite N2Z.inj_mod, !Z2N.id by lia. change (Z.of_N 10) with 10.
      apply (Z.mod_unique_pos _ _ z); lia. }
  apply pretty_N_go_app.
Qed.

Lemma pretty_digit (d : Z) :
  0 <= d < 10 -> pretty d = String (pretty_N_char (Z.to_N d)) EmptyString.
Proof.
  intros Hd.
  assert (d = 0 \/ d = 1 \/ d = 2 \/ d = 3 \/ d = 4 \/ d = 5
          \/ d = 6 \/ d = 7 \/ d = 8 \/ d = 9) as Hc by lia.
  repeat (destruct Hc as [->|Hc]; [reflexivity|]). by subst.
Qed.

Lemma length_last_digits k r : String.length (last_digits k r) = k.
Proof.
  revert r. induction k as [|k IH]; intros r; [reflexivity|].
  cbn [last_digits]. rewrite length_append, IH. simpl. lia.
Qed.

Lemma pretty_app_last_digits (k : nat) (q r : Z) :
  0 < q -> 0 <= r < 10 ^ Z.of_nat k ->
  pretty (q * 10 ^ Z.of_nat k + r) = pretty q +:+ last_digits k r.
Proof.
  revert r. induction k as [|k IH]; intros r Hq Hr.
  - change (10 ^ Z.of_nat 0) with 1 in *. replace r with 0 by lia.
    cbn [last_digits]. by rewrite append_nil_r, Z.mul_1_r, Z.add_0_r.
  - rewrite Nat2Z.inj_succ, Z.pow_succ_r in * by lia.
    pose proof (Z.div_mod r 10 ltac:(lia)) as Hdm.
    pose proof (Z.mod_pos_bound r 10 ltac:(lia)) as Hmb.
    assert (HP : 0 < 10 ^ Z.of_nat k) by (apply Z.pow_pos_nonneg; lia).
    assert (Hr10 : 0 <= r / 10 < 10 ^ Z.of_nat k).
    { split; [apply Z.div_pos; lia|]. apply Z.div_lt_upper_bound; lia. }
    replace (q * (10 * 10 ^ Z.of_nat k) + r)
      with ((q * 10 ^ Z.of_nat k + r / 10) * 10 + r mod 10) by lia.
    rewrite pretty_snoc by nia. rewrite IH by lia.
    cbn [last_digits]. by rewrite append_assoc.
Qed.

Lemma last_digits_zero k : last_digits k 0 = str_repeat "0" k.
Proof.
  induction k as [|k IH]; [reflexivity|].
  cbn [last_digits]. change (0 / 10) with 0. rewrite IH.
  change (String (pretty_N_char (Z.to_N (0 mod 10))) EmptyString) with "0"%string.
  by rewrite <- repeat_snoc.
Qed.

Lemma str_repeat_add c (a b : nat) :
  str_repeat c (a + b) = str_repeat c a +:+ str_repeat c b.
Proof. induction a as [|a IH]; [reflexivity|]. simpl. by rewrite IH. Qed.

(** Below [10 ^ k] the last [k] digits are the printed number, padded
    with zeros on the left. *)
Lemma last_digits_small (k : nat) (r : Z) :
  0 < r < 10 ^ Z.of_nat k ->
  (String.length (pretty r) <= k)%nat
  /\ last_digits k r = str_repeat "0" (k - String.length (pretty r)) +:+ pretty r.
Proof.
  revert r. induction k as [|k IH]; intros r Hr.
  { change (10 ^ Z.of_nat 0) with 1 in Hr. lia. }
  rewrite Nat2Z.inj_succ, Z.pow_succ_r in Hr by lia.
  pose proof (Z.div_mod r 10 ltac:(lia)) as Hdm.
  pose proof (Z.mod_pos_bound r 10 ltac:(lia)) as Hmb.
  cbn [last_digits].
  destruct (Z.eq_dec (r / 10) 0) as [H0|H0].
  - rewrite H0, last_digits_zero.
    rewrite (Z.mod_small r 10) by lia.
    rewrite pretty_digit by lia. simpl String.length. split; [lia|].
    f_equal. f_equal. lia.
  - assert (Hq : 0 < r / 10 < 10 ^ Z.of_nat k).
    { split; [pose proof (Z.div_pos r 10); lia|]. apply Z.div_lt_upper_bound; lia. }
    destruct (IH (r / 10) Hq) as [Hlen ->].
    assert (Hpr : pretty r = pretty (r / 10)
                             +:+ String (pretty_N_char (Z.to_N (r mod 10))) EmptyString).
    { rewrite <- pretty_snoc by lia. f_equal. lia. }
    rewrite Hpr. rewrite length_append. simpl String.length.
    split; [lia|]. rewrite append_assoc. do 2 f_equal. lia.
Qed.

(** [fixed_digits] lays out the whole part, the point and the last [f]
    digits. *)
Lemma fixed_digits_split (n : Z) (f : nat) :
  0 <= n ->
  fixed_digits n (S f)
  = pretty (n / 10 ^ Z.of_nat (S f)) +:+ "." +:+ last_digits (S f) (n mod 10 ^ Z.of_nat (S f)).
Proof.
  intros Hn. unfold fixed_digits. cbv beta iota zeta.
  assert (Hk : (1 <= S f)%nat) by lia. revert Hk. generalize (S f). intros k Hk.
  assert (HP : 0 < 10 ^ Z.of_nat k) by (apply Z.pow_pos_nonneg; lia).
  pose proof (Z.div_mod n (10 ^ Z.of_nat k) ltac:(lia)) as Hdm.
  pose proof (Z.mod_pos_bound n (10 ^ Z.of_nat k) HP) as Hmb.
  destruct (Z.lt_ge_cases n (10 ^ Z.of_nat k)) as [Hlt|Hge].
  - rewrite Z.div_small, Z.mod_small by lia.
    assert (Hpad : (if (String.length (pretty n) <=? k)%nat
                    then str_repeat "0" (k + 1 - String.length (pretty n)) +:+ pretty n
                    else pretty n) = String "0" (last_digits k n)).
    { destruct (Z.eq_dec n 0) as [->|Hn0].
      - rewrite last_digits_zero. change (pretty 0) with "0"%string. simpl String.length.
        destruct (Nat.leb_spec 1 k); [|lia].
        replace (k + 1 - 1)%nat with k by lia.
        symmetry. exact (repeat_snoc "0" k).
      - destruct (last_digits_small k n ltac:(lia)) as [Hlen ->].
        destruct (Nat.leb_spec (String.length (pretty n)) k); [|lia].
        replace (k + 1 - String.length (pretty n))%nat
          with (1 + (k - String.length (pretty n)))%nat by lia.
        by rewrite str_repeat_add. }
    rewrite Hpad. cbn [String.length]. rewrite length_last_digits.
    replace (S k - k)%nat with 1%nat by lia. reflexivity.
  - assert (Hq : 0 < n / 10 ^ Z.of_nat k).
    { apply Z.div_str_pos. lia. }
    assert (Hpr : pretty n = pretty (n / 10 ^ Z.of_nat k)
                             +:+ last_digits k (n mod 10 ^ Z.of_nat k)).
    { rewrite <- pretty_app_last_digits by lia. f_equal. lia. }
    rewrite Hpr. rewrite length_append, length_last_digits.
    pose proof (pretty_length_pos _ Hq) as Hlen.
    destruct (Nat.leb_spec (String.length (pretty (n / 10 ^ Z.of_nat k)) + k) k); [lia|].
    rewrite length_append, length_last_digits.
    replace (String.length (pretty (n / 10 ^ Z.of_nat k)%Z) + k - k)%nat
      with (String.length (pretty (n / 10 ^ Z.of_nat k))) by lia.
    by rewrite take_append, drop_append.
Qed.

End FixedPointFacts.

(** ** Quotients and products that are not exact *)

Module QuotientFacts.
Import JsString Number Decimal.
Import RoundingFacts IntegerFacts RoundFacts DecimalFacts ToStringFacts ParseFacts.

Lemma ilog2_scale n d K :
  0 < n -> 0 < d -> 0 < K -> ilog2 (n * K) (d * K) = ilog2 n d.
Proof.
  intros Hn Hd HK. apply ilog2_unique; [nia..|].
  pose proof (ilog2_spec n d Hn Hd) as Hf.
  set (A := 2 ^ Z.max 0 (ilog2 n d)) in *. set (B := 2 ^ Z.max 0 (- ilog2 n d)) in *.
  replace (d * K * A) with (K * (d * A)) by ring.
  replace (n * K * B) with (K * (n * B)) by ring.
  split.
  - apply Z.mul_le_mono_nonneg_l; lia.
  - replace (2 * (K * (d * A))) with (K * (2 * (d * A))) by ring.
    apply Z.mul_lt_mono_pos_l; lia.
Qed.

(** Rounding sees the rational, not the fraction it is given as. *)
Lemma round_scale s n d K :
  0 < n -> 0 < d -> 0 < K -> round s (n * K) (d * K) = round s n d.
Proof.
  intros Hn Hd HK. unfold round. rewrite ilog2_scale by done.
  destruct (Z.leb_spec (n * K) 0); [nia|]. destruct (Z.leb_spec n 0); [lia|].
  set (e := Z.max (ilog2 n d - 52) (-1074)).
  set (A := 2 ^ Z.max 0 (- e)). set (B := 2 ^ Z.max 0 e).
  assert (HA : 0 < A) by (apply pow2_pos; lia).
  assert (HB : 0 < B) by (apply pow2_pos; lia).
  replace (n * K * A) with (n * A * K) by ring.
  replace (d * K * B) with (d * B * K) by ring.
  assert (HD : 0 < d * B) by lia.
  rewrite Z.div_mul_cancel_r by lia. rewrite Z.mul_mod_distr_r by lia.
  replace (2 * ((n * A) mod (d * B) * K)) with (2 * ((n * A) mod (d * B)) * K) by ring.
  rewrite <- Zmult_compare_compat_r by lia. reflexivity.
Qed.

(** The quotient of two integers below [2 ^ 53] is their ratio, rounded. *)
Lemma div_ints s1 s2 a c :
  0 < a < 2 ^ 53 -> 0 < c < 2 ^ 53 ->
  div (int_repr s1 a) (int_repr s2 c) = round (xorb s1 s2) a c.
Proof.
  intros Ha Hc.
  destruct (int_mantissa a Ha) as [Hla _]. destruct (int_mantissa c Hc) as [Hlc _].
  destruct (int_repr_pos_mantissa s1 a Ha) as [-> Pa].
  destruct (int_repr_pos_mantissa s2 c Hc) as [-> Pc].
  cbn [div]. rewrite Pa, Pc.
  destruct (Z.le_gt_cases (Z.log2 c) (Z.log2 a)) as [Hle|Hgt].
  - rewrite (Z.max_r 0 (Z.log2 a - 52 - (Z.log2 c - 52))) by lia.
    rewrite (Z.max_l 0 (Z.log2 c - 52 - (Z.log2 a - 52))), Z.pow_0_r, Z.mul_1_r by lia.
    replace (a * 2 ^ (52 - Z.log2 a) * 2 ^ (Z.log2 a - 52 - (Z.log2 c - 52)))
      with (a * 2 ^ (52 - Z.log2 c)).
    { apply round_scale; [lia..|]. apply pow2_pos. lia. }
    rewrite <- Z.mul_assoc, <- pow2_split by lia. do 2 f_equal. lia.
  - rewrite (Z.max_l 0 (Z.log2 a - 52 - (Z.log2 c - 52))), Z.pow_0_r, Z.mul_1_r by lia.
    rewrite (Z.max_r 0 (Z.log2 c - 52 - (Z.log2 a - 52))) by lia.
    replace (c * 2 ^ (52 - Z.log2 c) * 2 ^ (Z.log2 c - 52 - (Z.log2 a - 52)))
      with (c * 2 ^ (52 - Z.log2 a)).
    { apply round_scale; [lia..|]. apply pow2_pos. lia. }
    rewrite <- Z.mul_assoc, <- pow2_split by lia. do 2 f_equal. lia.
Qed.

(** The product of a value with a negative exponent and an integer. *)
Lemma mul_finite_int s s2 m e c :
  0 < m -> e < 0 -> 0 < c < 2 ^ 53 ->
  mul (S754_finite s (Z.to_pos m) e) (int_repr s2 c) = round (xorb s s2) (m * c) (2 ^ (- e)).
Proof.
  intros Hm He Hc. destruct (int_mantissa c Hc) as [Hlc _].
  destruct (int_repr_pos_mantissa s2 c Hc) as [-> Pc].
  cbn [mul]. rewrite Pc, Z2Pos.id by lia.
  rewrite (Z.max_l 0 (e + (Z.log2 c - 52))), Z.pow_0_r, Z.mul_1_r by lia.
  rewrite (Z.max_r 0 (- (e + (Z.log2 c - 52)))) by lia.
  replace (- (e + (Z.log2 c - 52))) with (- e + (52 - Z.log2 c)) by lia.
  rewrite pow2_split by lia. rewrite Z.mul_assoc.
  apply round_scale.
  - nia.
  - apply pow2_pos. lia.
  - apply pow2_pos. lia.
Qed.

(** A value rounded up into the next binade was at least half a unit
    above the last mantissa of its own. *)
Lemma round_carry s n d :
  0 < n -> 0 < d ->
  let e := Z.max (ilog2 n d - 52) (-1074) in
  let N := n * 2 ^ Z.max 0 (- e) in
  let D := d * 2 ^ Z.max 0 e in
  round s n d = S754_finite s (Z.to_pos (2 ^ 52)) (e + 1) ->
  (2 ^ 53 - 1) * D <= N < 2 ^ 53 * D /\ D <= 2 * (N - (2 ^ 53 - 1) * D).
Proof.
  intros Hn Hd e N D Heq.
  destruct (round_quotient_bounds n d Hn Hd) as [Hq _]. fold e in Hq. fold N D in Hq.
  assert (HD : 0 < D) by (apply Z.mul_pos_pos; [lia|apply pow2_pos; lia]).
  pose proof (Z.div_mod N D ltac:(lia)) as Hdm.
  pose proof (Z.mod_pos_bound N D HD) as Hrb.
  unfold round in Heq. destruct (Z.leb_spec n 0); [lia|]. fold e N D in Heq.
  set (q := N / D) in *.
  destruct (Z.compare_spec (2 * (N mod D)) D) as [Hc|Hc|Hc];
    [destruct (Z.even q)| |];
    repeat match type of Heq with
           | context [if ?b =? ?c then _ else _] => destruct (Z.eqb_spec b c)
           | context [if ?b <? ?c then _ else _] => destruct (Z.ltb_spec b c)
           end; try discriminate;
    inversion Heq as [[Hm He]]; try lia;
    apply Z2Pos.inj in Hm; lia.
Qed.

(** The double nearest to [b / 10 ^ 6], for [b] below [2 ^ 33 * 10 ^ 6]:
    a mantissa [m] and an exponent [e] of -20 at most with
    [m * 2 ^ e * 10 ^ 6] within [10 ^ 6 * 2 ^ e / 2] of [b]. *)
Lemma round_millionths b :
  0 < b < 2 ^ 33 * 10 ^ 6 ->
  exists m e, round false b (10 ^ 6) = S754_finite false (Z.to_pos m) e
              /\ 2 ^ 52 <= m < 2 ^ 53 /\ -72 <= e <= -20
              /\ 2 * Z.abs (b * 2 ^ (- e) - m * 10 ^ 6) <= 10 ^ 6.
Proof.
  intros Hb. change (10 ^ 6) with 1000000 in *. change (2 ^ 33) with 8589934592 in Hb.
  assert (Hd : 0 < 1000000) by lia. assert (Hn : 0 < b) by lia.
  pose proof (ilog2_spec b 1000000 Hn Hd) as Hf.
  destruct (round_quotient_bounds b 1000000 Hn Hd) as [Hq Hq52].
  pose proof (round_cases false b 1000000 Hn Hd) as Hc. cbv zeta in Hc.
  set (f := ilog2 b 1000000) in *.
  assert (Hf20 : -20 <= f).
  { destruct (Z.le_gt_cases (-20) f); [done|]. exfalso.
    rewrite (Z.max_l 0 f), (Z.max_r 0 (- f)), Z.pow_0_r in Hf by lia.
    assert (2 ^ 21 <= 2 ^ (- f)) by (apply Z.pow_le_mono_r; lia).
    change (2 ^ 21) with 2097152 in H0. nia. }
  assert (Hf32 : f <= 32).
  { destruct (Z.le_gt_cases f 32); [done|]. exfalso.
    rewrite (Z.max_r 0 f), (Z.max_l 0 (- f)), Z.pow_0_r in Hf by lia.
    assert (2 ^ 33 <= 2 ^ f) by (apply Z.pow_le_mono_r; lia).
    change (2 ^ 33) with 8589934592 in H0. lia. }
  rewrite (Z.max_l (f - 52) (-1074)) in * by lia.
  rewrite (Z.max_r 0 (- (f - 52))), (Z.max_l 0 (f - 52)), Z.pow_0_r, Z.mul_1_r in * by lia.
  set (P := 2 ^ (- (f - 52))) in *.
  assert (HP : 2 ^ 20 <= P) by (apply Z.pow_le_mono_r; lia).
  change (2 ^ 20) with 1048576 in HP.
  specialize (Hq52 ltac:(lia)).
  set (q := b * P / 1000000) in *.
  assert (Hqd : q * 1000000 <= b * P < (q + 1) * 1000000).
  { pose proof (Z.div_mod (b * P) 1000000 ltac:(lia)).
    pose proof (Z.mod_pos_bound (b * P) 1000000 Hd). fold q in H. lia. }
  destruct Hc as [[_ H0]|[[_ H0]|(m & e' & Hr & Hm)]]; [lia..|].
  destruct Hm as [(-> & Hm & Hcase)|(-> & -> & Hcarry)].
  - exists m, (f - 52). split; [done|]. fold P.
    split; [destruct Hcase as [[-> _]|[-> _]]; lia|]. split; [lia|].
    destruct Hcase as [[-> Hh]|[-> Hh]]; lia.
  - (* the quotient rounds up to the next binade *)
    pose proof (round_carry false b 1000000 Hn Hd) as Hup. cbv zeta in Hup.
    fold f in Hup. rewrite (Z.max_l (f - 52) (-1074)) in Hup by lia.
    rewrite (Z.max_r 0 (- (f - 52))), (Z.max_l 0 (f - 52)), Z.pow_0_r, Z.mul_1_r in Hup by lia.
    fold P in Hup. specialize (Hup Hr). destruct Hup as [Hup1 Hup2].
    change (2 ^ 53) with 9007199254740992 in *.
    assert (Hf31 : f <= 31).
    { destruct (Z.eq_dec f 32) as [Heq|]; [|lia]. exfalso.
      assert (P = 1048576) by (unfold P; rewrite Heq; reflexivity). lia. }
    exists (2 ^ 52), (f - 52 + 1). split; [done|]. split; [lia|]. split; [lia|].
    assert (Hs : P = 2 * 2 ^ (- (f - 52 + 1))).
    { unfold P. change 2 with (2 ^ 1) at 2. rewrite <- pow2_split by lia. f_equal. lia. }
    set (P' := 2 ^ (- (f - 52 + 1))) in *.
    change (2 ^ 52) with 4503599627370496 in *. lia.
Qed.

(** [toFixed(6)] of a value within half a millionth of [b / 10 ^ 6]. *)
Lemma toFixed_millionths b m e :
  0 < b < 2 ^ 53 -> 0 < m -> e <= -20 ->
  2 * Z.abs (b * 2 ^ (- e) - m * 10 ^ 6) <= 10 ^ 6 ->
  toFixed (S754_finite false (Z.to_pos m) e) 6 = fixed_digits b 6.
Proof.
  intros Hb Hm He Hnear. cbn [toFixed]. rewrite Z2Pos.id by lia.
  rewrite (Z.max_l 0 e), Z.pow_0_r, Z.mul_1_r by lia.
  rewrite (Z.max_r 0 (- e)) by lia.
  set (P := 2 ^ (- e)) in *.
  assert (HP : 2 ^ 20 <= P) by (apply Z.pow_le_mono_r; lia).
  change (2 ^ 20) with 1048576 in HP.
  change (10 ^ 6) with 1000000 in Hnear. change (10 ^ Z.of_nat 6) with 1000000.
  change (2 ^ 53) with 9007199254740992 in Hb.
  change (10 ^ 21) with 1000000000000000000000.
  destruct (Z.leb_spec (1000000000000000000000 * P) m); [nia|].
  rewrite append_nil_l. f_equal.
  symmetry. apply (Z.div_unique_pos _ _ _ (2 * m * 1000000 + P - 2 * P * b)); lia.
Qed.

End QuotientFacts.

(** ** Amounts that are not whole: display text and the way back *)

Module AmountTextFacts.
Import JsString Number Config Amounts Decimal.
Import RoundingFacts IntegerFacts RoundFacts DecimalFacts ToStringFacts ParseFacts.
Import FixedPointFacts QuotientFacts.

Lemma digit_head_sign (d : N) (r : string) :
  (d < 10)%N ->
  read_sign (trim_start (String (pretty_N_char d) r)) = (false, String (pretty_N_char d) r)
  /\ starts_with "Infinity" (String (pretty_N_char d) r) = false.
Proof.
  intros Hd.
  assert (d = 0 \/ d = 1 \/ d = 2 \/ d = 3 \/ d = 4 \/ d = 5
          \/ d = 6 \/ d = 7 \/ d = 8 \/ d = 9)%N as Hc by lia.
  repeat (destruct Hc as [->|Hc]; [split; reflexivity|]). subst. split; reflexivity.
Qed.

Lemma read_digits_last_digits (k : nat) (r acc cnt : Z) (rest : string) :
  0 <= r < 10 ^ Z.of_nat k ->
  read_digits acc cnt (last_digits k r +:+ rest)
  = read_digits (acc * 10 ^ Z.of_nat k + r) (cnt + Z.of_nat k) rest.
Proof.
  revert r rest. induction k as [|k IH]; intros r rest Hr.
  - change (10 ^ Z.of_nat 0) with 1 in *. replace r with 0 by lia.
    cbn [last_digits]. rewrite append_nil_l. f_equal; lia.
  - rewrite Nat2Z.inj_succ, Z.pow_succ_r in * by lia.
    pose proof (Z.div_mod r 10 ltac:(lia)) as Hdm.
    pose proof (Z.mod_pos_bound r 10 ltac:(lia)) as Hmb.
    assert (HP : 0 < 10 ^ Z.of_nat k) by (apply Z.pow_pos_nonneg; lia).
    assert (Hr10 : 0 <= r / 10 < 10 ^ Z.of_nat k).
    { split; [apply Z.div_pos; lia|]. apply Z.div_lt_upper_bound; lia. }
    cbn [last_digits]. rewrite append_assoc, append_cons, append_nil_l.
    rewrite IH by done. unfold read_digits at 1. cbn [read_digits_with].
    rewrite digit_of_pretty_N_char by lia. fold read_digits.
    rewrite Z2N.id by lia. f_equal; lia.
Qed.

(** The digits of a printed natural number, read back with more text
    behind them. *)
Lemma read_digits_printed (q : Z) (rest : string) :
  0 <= q ->
  exists d t c, (d < 10)%N /\ pretty q = String (pretty_N_char d) t /\ 0 < c
                /\ read_digits 0 0 (pretty q +:+ rest) = read_digits q c rest.
Proof.
  intros Hq. destruct (Z.eq_dec q 0) as [->|Hq0].
  - exists 0%N, EmptyString, 1. split; [lia|]. split; [reflexivity|]. split; [lia|].
    reflexivity.
  - destruct (pretty_head q ltac:(lia)) as (d & t & Hp & Hd).
    destruct (read_digits_pretty q rest ltac:(lia)) as (c & Hc & Hrd).
    exists d, t, c. split; [lia|]. done.
Qed.

(** [parseFloat] reads a fixed-point text with six decimals as the
    double nearest to the number it spells. *)
Lemma parseFloat_fixed_text (q r : Z) :
  0 <= q -> 0 <= r < 10 ^ 6 ->
  parseFloat (pretty q +:+ "." +:+ last_digits 6 r) = round false (q * 10 ^ 6 + r) (10 ^ 6).
Proof.
  intros Hq Hr.
  destruct (read_digits_printed q ("." +:+ last_digits 6 r) Hq) as (d & t & c & Hd & Hp & Hc & Hrd).
  unfold parseFloat.
  destruct (digit_head_sign d (t +:+ "." +:+ last_digits 6 r) Hd) as [Hsign Hinf].
  rewrite <- append_cons, <- Hp in Hsign, Hinf. rewrite Hsign, Hinf, Hrd.
  rewrite append_cons, append_nil_l.
  change (read_digits q c (String "." (last_digits 6 r)))
    with (q, c, String "."%char (last_digits 6 r)).
  cbn match.
  rewrite <- (append_nil_r (last_digits 6 r)).
  rewrite (read_digits_last_digits 6 r q 0 EmptyString) by done.
  change (read_digits (q * 10 ^ Z.of_nat 6 + r) (0 + Z.of_nat 6) EmptyString)
    with (q * 10 ^ Z.of_nat 6 + r, 0 + Z.of_nat 6, EmptyString).
  cbv beta iota.
  destruct (Z.eqb_spec (c + (0 + Z.of_nat 6)) 0); [lia|].
  change (read_exponent EmptyString - (0 + Z.of_nat 6)) with (-6).
  change (10 ^ Z.max 0 (-6)) with 1. change (Z.max 0 (- -6)) with 6.
  change (Z.of_nat 6) with 6. by rewrite Z.mul_1_r.
Qed.

(** The integer part of a value strictly between [b - 1] and [b + 1]. *)
Lemma floor_between b m e :
  0 < m -> e <= 0 ->
  (b - 1) * 2 ^ (- e) < m < (b + 1) * 2 ^ (- e) ->
  floor_Z false (Z.to_pos m) e = b \/ floor_Z false (Z.to_pos m) e = b - 1.
Proof.
  intros Hm He Hb. unfold floor_Z. rewrite Z2Pos.id by lia.
  destruct (Z.leb_spec 0 e).
  - replace e with 0 in * by lia. change (2 ^ (- 0)) with 1 in Hb. change (2 ^ 0) with 1. lia.
  - assert (HP : 0 < 2 ^ (- e)) by (apply pow2_pos; lia).
    assert (m / 2 ^ (- e) < b + 1) by (apply Z.div_lt_upper_bound; lia).
    assert (b - 1 <= m / 2 ^ (- e)) by (apply Z.div_le_lower_bound; lia).
    lia.
Qed.

(** A value within half a millionth of [b / 10 ^ 6], times [10 ^ 6] and
    rounded down, is [b] or [b - 1]. *)
Lemma floor_product_millionths b m e :
  0 < b < 2 ^ 33 * 10 ^ 6 -> 2 ^ 52 <= m < 2 ^ 53 -> e <= -20 ->
  2 * Z.abs (b * 2 ^ (- e) - m * 10 ^ 6) <= 10 ^ 6 ->
  toString (Math_floor (mul (S754_finite false (Z.to_pos m) e) (int_repr false 1000000)))
  = pretty b
  \/ toString (Math_floor (mul (S754_finite false (Z.to_pos m) e) (int_repr false 1000000)))
     = pretty (b - 1).
Proof.
  intros Hb Hm He Hnear.
  change (2 ^ 33 * 10 ^ 6) with 8589934592000000 in Hb.
  change (10 ^ 6) with 1000000 in Hnear.
  rewrite mul_finite_int by (try reflexivity; lia). cbn [xorb].
  set (P := 2 ^ (- e)) in *.
  assert (HP : 2 ^ 20 <= P) by (apply Z.pow_le_mono_r; lia).
  change (2 ^ 20) with 1048576 in HP.
  set (n := m * 1000000).
  assert (Hn : 0 < n) by (unfold n; lia). assert (Hd : 0 < P) by lia.
  (* the distance of the exact product from [b], in units of [1 / P] *)
  set (U := n - b * P).
  assert (HU : -1000000 <= 2 * U <= 1000000) by (unfold U, n; lia).
  pose proof (ilog2_spec n P Hn Hd) as Hf.
  destruct (round_quotient_bounds n P Hn Hd) as [Hq Hq52].
  pose proof (round_cases false n P Hn Hd) as Hc. cbv zeta in Hc.
  pose proof (round_carry false n P Hn Hd) as Hup. cbv zeta in Hup.
  set (f := ilog2 n P) in *.
  assert (Hbp : 1 * P <= b * P) by (apply Z.mul_le_mono_nonneg_r; lia).
  assert (Hbp2 : b * P <= 8589934591999999 * P) by (apply Z.mul_le_mono_nonneg_r; lia).
  assert (Hf1 : -1 <= f).
  { destruct (Z.le_gt_cases (-1) f); [done|]. exfalso.
    rewrite (Z.max_l 0 f), (Z.max_r 0 (- f)), Z.pow_0_r in Hf by lia.
    assert (2 ^ 2 <= 2 ^ (- f)) by (apply Z.pow_le_mono_r; lia).
    change (2 ^ 2) with 4 in H0.
    assert (n * 4 <= n * 2 ^ (- f)) by (apply Z.mul_le_mono_nonneg_l; lia).
    lia. }
  assert (Hf52 : f <= 52).
  { destruct (Z.le_gt_cases f 52); [done|]. exfalso.
    rewrite (Z.max_r 0 f), (Z.max_l 0 (- f)), Z.pow_0_r in Hf by lia.
    assert (2 ^ 53 <= 2 ^ f) by (apply Z.pow_le_mono_r; lia).
    change (2 ^ 53) with 9007199254740992 in H0.
    assert (P * 9007199254740992 <= P * 2 ^ f) by (apply Z.mul_le_mono_nonneg_l; lia).
    lia. }
  rewrite (Z.max_l (f - 52) (-1074)) in * by lia.
  rewrite (Z.max_r 0 (- (f - 52))), (Z.max_l 0 (f - 52)), Z.pow_0_r, Z.mul_1_r in * by lia.
  set (e2 := f - 52) in *. set (P2 := 2 ^ (- e2)) in *.
  assert (HP2 : 1 <= P2) by (pose proof (pow2_pos (- e2)); unfold P2; lia).
  set (q := n * P2 / P) in *.
  assert (Hqd : q * P <= n * P2 < (q + 1) * P).
  { pose proof (Z.div_mod (n * P2) P ltac:(lia)).
    pose proof (Z.mod_pos_bound (n * P2) P Hd). fold q in H. lia. }
  (* a mantissa [M] within half a unit of the product is strictly within
     [P2] of [b * P2] *)
  assert (Hkey : forall M, 2 * Z.abs (n * P2 - M * P) <= P ->
                           (b - 1) * P2 < M < (b + 1) * P2).
  { intros M HM.
    assert (Hid : P * (M - b * P2) = (M * P - n * P2) + P2 * U) by (unfold U; ring).
    assert (HPU : - (1000000 * P2) <= 2 * (P2 * U) <= 1000000 * P2).
    { assert (P2 * (-1000000) <= P2 * (2 * U) <= P2 * 1000000); [|lia].
      split; apply Z.mul_le_mono_nonneg_l; lia. }
    assert (HPP : 1048576 * P2 <= P * P2) by (apply Z.mul_le_mono_nonneg_r; lia).
    assert (HPP1 : P * 1 <= P * P2) by (apply Z.mul_le_mono_nonneg_l; lia).
    assert (Hlt : - (P * P2) < P * (M - b * P2) < P * P2) by lia.
    assert (- P2 < M - b * P2 < P2); [|lia].
    split.
    - apply (Z.mul_lt_mono_pos_l P); [lia|]. lia.
    - apply (Z.mul_lt_mono_pos_l P); [lia|]. lia. }
  assert (Hfin : forall M e', 0 < M -> e' <= 0 ->
                   (b - 1) * 2 ^ (- e') < M < (b + 1) * 2 ^ (- e') ->
                   round false n P = S754_finite false (Z.to_pos M) e' ->
                   toString (Math_floor (round false n P)) = pretty b
                   \/ toString (Math_floor (round false n P)) = pretty (b - 1)).
  { intros M e' HM0 He' HM Heq.
    destruct (round_finite _ _ _ _ _ _ Hd Heq) as (_ & Hm53 & Hex & Hnorm).
    destruct (floor_between b M e' HM0 He' HM) as [Hfl|Hfl].
    - left. rewrite Heq, AmountClaims.floor_toString; [by rewrite Hfl|done..|].
      rewrite Hfl. change (2 ^ 53) with 9007199254740992. lia.
    - right. rewrite Heq, AmountClaims.floor_toString; [by rewrite Hfl|done..|].
      rewrite Hfl. change (2 ^ 53) with 9007199254740992. lia. }
  destruct Hc as [[_ H0]|[[_ H0]|(M & e' & Hr & HM)]].
  - specialize (Hq52 ltac:(lia)). change (2 ^ 52) with 4503599627370496 in Hq52. lia.
  - lia.
  - destruct HM as [(-> & HM & Hcase)|(-> & -> & Hcarry)].
    + apply (Hfin M e2); [lia|lia| |done]. fold P2. apply Hkey.
      destruct Hcase as [[-> Hh]|[-> Hh]]; lia.
    + specialize (Hup Hr). destruct Hup as [Hup1 Hup2].
      assert (HK : (b - 1) * P2 < 2 ^ 53 < (b + 1) * P2).
      { apply Hkey. change (2 ^ 53) with 9007199254740992 in *. lia. }
      change (2 ^ 53) with 9007199254740992 in HK.
      assert (He2 : e2 < 0).
      { destruct (Z.eq_dec e2 0) as [H0|]; [|lia]. exfalso.
        assert (P2 = 1) by (unfold P2; rewrite H0; reflexivity). lia. }
      assert (Hs : P2 = 2 * 2 ^ (- (e2 + 1))).
      { unfold P2. change 2 with (2 ^ 1) at 2. rewrite <- pow2_split by lia. f_equal. lia. }
      apply (Hfin (2 ^ 52) (e2 + 1)); [lia|lia| |done].
      change (2 ^ 52) with 4503599627370496. lia.
Qed.

End AmountTextFacts.

(** ** Amounts: exact display, the way back, and text that is no number *)

Module AmountExtras.
Import JsString Number Config Amounts Decimal.
Import RoundingFacts IntegerFacts RoundFacts DecimalFacts ToStringFacts ParseFacts.
Import FixedPointFacts QuotientFacts AmountTextFacts.

(** The display text of a positive base-unit amount. *)
Lemma format_of_integer (b : Z) :
  0 < b < 2 ^ 33 * 10 ^ 6 ->
  formatXionAmount (AmountNumber (int_repr false b))
  = pretty (b / 10 ^ 6) +:+ "." +:+ last_digits 6 (b mod 10 ^ 6).
Proof.
  intros Hb. unfold formatXionAmount. rewrite AmountClaims.ten_pow_decimals.
  assert (Hb53 : 0 < b < 2 ^ 53).
  { change (2 ^ 33 * 10 ^ 6) with 8589934592000000 in Hb.
    change (2 ^ 53) with 9007199254740992. lia. }
  rewrite div_ints by (try done; split; reflexivity). cbn [xorb].
  destruct (round_millionths b Hb) as (m & e & Hr & Hm & He & Hnear).
  change (10 ^ 6) with 1000000 in Hr. rewrite Hr.
  rewrite (toFixed_millionths b m e) by (try done; lia).
  apply (fixed_digits_split b 5). lia.
Qed.

(** X1: [formatXionAmount] is exact.  For every base-unit amount [b]
    below [2 ^ 33 * 10 ^ 6], given as a number or as its decimal string,
    the display text is the whole part [b / 10 ^ 6], a point, and the six
    digits of [b mod 10 ^ 6]: no digit is lost or rounded. *)
Theorem formatXionAmount_exact (b : Z) :
  0 <= b < 2 ^ 33 * 10 ^ 6 ->
  formatXionAmount (AmountNumber (of_Z b))
  = pretty (b / 10 ^ 6) +:+ "." +:+ last_digits 6 (b mod 10 ^ 6)
  /\ formatXionAmount (AmountString (pretty b))
     = pretty (b / 10 ^ 6) +:+ "." +:+ last_digits 6 (b mod 10 ^ 6).
Proof.
  intros Hb. destruct (Z.eq_dec b 0) as [->|Hb0]; [split; vm_compute; reflexivity|].
  assert (Hb53 : 0 < b < 2 ^ 53).
  { change (2 ^ 33 * 10 ^ 6) with 8589934592000000 in Hb.
    change (2 ^ 53) with 9007199254740992. lia. }
  split.
  - rewrite of_Z_int by done. apply format_of_integer. lia.
  - unfold formatXionAmount at 1. rewrite parseInt_pretty by done.
    apply format_of_integer. lia.
Qed.

Lemma formatXionAmount_exact_witness :
  formatXionAmount (AmountNumber (of_Z 1234567))
  = pretty (1234567 / 10 ^ 6) +:+ "." +:+ last_digits 6 (1234567 mod 10 ^ 6)
  /\ pretty (1234567 / 10 ^ 6) +:+ "." +:+ last_digits 6 (1234567 mod 10 ^ 6) = "1.234567".
Proof.
  split; [|vm_compute; reflexivity].
  refine (proj1 (formatXionAmount_exact 1234567 _)).
  vm_compute. split; [discriminate|reflexivity].
Defined.

(** Converting a display text back can lose a micro-unit: 0.000249 times
    [10 ^ 6] is just below 249 in doubles. *)
Example round_trip_loses_one :
  formatXionAmount (AmountNumber (of_Z 249)) = "0.000249"
  /\ parseXionAmount (AmountString (formatXionAmount (AmountNumber (of_Z 249)))) = "248".
Proof. vm_compute. split; reflexivity. Qed.

(** X2: converting a base-unit amount to display text and back returns
    the amount or one unit less, for every amount below
    [2 ^ 33 * 10 ^ 6]. *)
Theorem amount_round_trip_within_one (b : Z) :
  0 <= b < 2 ^ 33 * 10 ^ 6 ->
  parseXionAmount (AmountString (formatXionAmount (AmountNumber (of_Z b)))) = pretty b
  \/ parseXionAmount (AmountString (formatXionAmount (AmountNumber (of_Z b))))
     = pretty (b - 1).
Proof.
  intros Hb. destruct (Z.eq_dec b 0) as [->|Hb0]; [left; vm_compute; reflexivity|].
  assert (Hb' : 0 < b < 2 ^ 33 * 10 ^ 6) by lia.
  assert (Hb53 : 0 < b < 2 ^ 53).
  { change (2 ^ 33 * 10 ^ 6) with 8589934592000000 in Hb.
    change (2 ^ 53) with 9007199254740992. lia. }
  rewrite of_Z_int, format_of_integer by done.
  unfold parseXionAmount.
  assert (HP : 0 < 10 ^ 6) by reflexivity.
  pose proof (Z.div_mod b (10 ^ 6) ltac:(lia)) as Hdm.
  pose proof (Z.mod_pos_bound b (10 ^ 6) HP) as Hmb.
  rewrite parseFloat_fixed_text by (try done; apply Z.div_pos; lia).
  replace (b / 10 ^ 6 * 10 ^ 6 + b mod 10 ^ 6) with b by lia.
  destruct (round_millionths b Hb') as (m & e & -> & Hm & He & Hnear).
  rewrite AmountClaims.ten_pow_decimals.
  apply floor_product_millionths; (done || lia).
Qed.

Lemma amount_round_trip_within_one_witness :
  parseXionAmount (AmountString (formatXionAmount (AmountNumber (of_Z 1234567)))) = pretty 1234567
  \/ parseXionAmount (AmountString (formatXionAmount (AmountNumber (of_Z 1234567))))
     = pretty (1234567 - 1).
Proof.
  apply (amount_round_trip_within_one 1234567).
  vm_compute. split; [discriminate|reflexivity].
Defined.

(** [parseFloat] reads the decimal digits of an integer below [2 ^ 53]
    back exactly. *)
Lemma parseFloat_pretty (z : Z) :
  0 < z < 2 ^ 53 -> parseFloat (pretty z) = int_repr false z.
Proof.
  intros Hz.
  destruct (read_digits_printed z EmptyString ltac:(lia)) as (d & t & c & Hd & Hp & Hc & Hrd).
  rewrite append_nil_r in Hrd. unfold parseFloat.
  destruct (digit_head_sign d t Hd) as [Hsign Hinf].
  rewrite <- Hp in Hsign, Hinf. rewrite Hsign, Hinf, Hrd.
  change (read_digits z c EmptyString) with (z, c, EmptyString).
  cbv beta iota.
  destruct (Z.eqb_spec (c + 0) 0); [lia|].
  change (read_exponent EmptyString - 0) with 0.
  change (10 ^ Z.max 0 0) with 1. change (10 ^ Z.max 0 (- 0)) with 1.
  apply round_int; lia.
Qed.

(** X3: whole amounts convert exactly.  For every whole number [k] of
    display units with [k * 10 ^ 6] below [2 ^ 53], given as its decimal
    string or as a number, [parseXionAmount] returns the decimal string
    of [k * 10 ^ 6]. *)
Theorem parseXionAmount_whole (k : Z) :
  0 <= k -> k * 10 ^ 6 < 2 ^ 53 ->
  parseXionAmount (AmountString (pretty k)) = pretty (k * 10 ^ 6)
  /\ parseXionAmount (AmountNumber (of_Z k)) = pretty (k * 10 ^ 6).
Proof.
  intros Hk Hb. change (10 ^ 6) with 1000000 in *.
  destruct (Z.eq_dec k 0) as [->|Hk0]; [split; vm_compute; reflexivity|].
  assert (Hk53 : 0 < k < 2 ^ 53) by lia.
  assert (Hnum : parseXionAmount (AmountNumber (int_repr false k)) = pretty (k * 1000000)).
  { unfold parseXionAmount. rewrite AmountClaims.ten_pow_decimals, mul_int by lia.
    cbn [xorb]. rewrite Math_floor_int, toString_int by lia. reflexivity. }
  split.
  - unfold parseXionAmount at 1. rewrite parseFloat_pretty by done. exact Hnum.
  - rewrite of_Z_int by done. exact Hnum.
Qed.

Lemma parseXionAmount_whole_witness :
  parseXionAmount (AmountString (pretty 25)) = pretty (25 * 10 ^ 6)
  /\ pretty (25 * 10 ^ 6) = "25000000".
Proof.
  split; [|vm_compute; reflexivity].
  refine (proj1 (parseXionAmount_whole 25 _ _)); [discriminate|reflexivity].
Defined.

(** X12: text that does not start with a number converts to "NaN".  For
    the empty string and for every string whose first character is an
    ASCII character other than white space, a digit, a sign, a point or
    the [I] of [Infinity], both conversions return the text "NaN" and
    neither raises an error. *)
Theorem conversions_of_text_without_number (c : ascii) (r : string) :
  (N_of_ascii c < 128)%N ->
  is_whitespace c = false -> digit_of c = None ->
  c <> "-"%char -> c <> "+"%char -> c <> "."%char -> c <> "I"%char ->
  parseXionAmount (AmountString (String c r)) = "NaN"
  /\ formatXionAmount (AmountString (String c r)) = "NaN"
  /\ parseXionAmount (AmountString EmptyString) = "NaN"
  /\ formatXionAmount (AmountString EmptyString) = "NaN".
Proof.
  intros Hascii Hws Hdig Hminus Hplus Hpoint Hinf.
  split; [|split; [|split; reflexivity]].
  - destruct c as [b0 b1 b2 b3 b4 b5 b6 b7].
    destruct b0, b1, b2, b3, b4, b5, b6, b7;
      first [ reflexivity
            | exfalso; first [ by apply Hminus | by apply Hplus | by apply Hpoint
                             | by apply Hinf | by vm_compute in Hws
                             | by vm_compute in Hdig | by vm_compute in Hascii ] ].
  - destruct c as [b0 b1 b2 b3 b4 b5 b6 b7].
    destruct b0, b1, b2, b3, b4, b5, b6, b7;
      first [ reflexivity
            | exfalso; first [ by apply Hminus | by apply Hplus | by apply Hpoint
                             | by apply Hinf | by vm_compute in Hws
                             | by vm_compute in Hdig | by vm_compute in Hascii ] ].
Qed.

Lemma conversions_of_text_without_number_witness :
  parseXionAmount (AmountString "abc") = "NaN"
  /\ formatXionAmount (AmountString "abc") = "NaN".
Proof.
  pose proof (conversions_of_text_without_number "a" "bc") as Hw.
  destruct Hw as (Hp & Hf & _); try reflexivity; try discriminate.
  split; [exact Hp|exact Hf].
Defined.

End AmountExtras.

(** ** Rounding to the nearest value *)

Module NearestFacts.
Import JsString Number.
Import RoundingFacts IntegerFacts RoundFacts QuotientFacts.

(** The binade of a rational that lies between [2 ^ 52] and [2 ^ 53]
    units of the exponent [E]. *)
Lemma ilog2_binade n d E :
  0 < n -> 0 < d ->
  2 ^ 52 * (d * 2 ^ Z.max 0 E) <= n * 2 ^ Z.max 0 (- E) < 2 ^ 53 * (d * 2 ^ Z.max 0 E) ->
  ilog2 n d = 52 + E.
Proof.
  intros Hn Hd [Hlo Hhi]. apply ilog2_unique; try lia.
  change (2 ^ 53) with (2 * 2 ^ 52) in Hhi.
  destruct (Z.le_gt_cases 0 E) as [HE|HE].
  - rewrite (Z.max_r 0 E), (Z.max_l 0 (- E)), Z.pow_0_r, Z.mul_1_r in * by lia.
    rewrite (Z.max_r 0 (52 + E)), (Z.max_l 0 (- (52 + E))), Z.pow_0_r, Z.mul_1_r by lia.
    rewrite (pow2_split 52 E) by lia. lia.
  - rewrite (Z.max_l 0 E), (Z.max_r 0 (- E)), Z.pow_0_r, Z.mul_1_r in * by lia.
    assert (HP : 0 < 2 ^ (- E)) by (apply pow2_pos; lia).
    destruct (Z.le_gt_cases 0 (52 + E)) as [Hf|Hf].
    + rewrite (Z.max_r 0 (52 + E)), (Z.max_l 0 (- (52 + E))), Z.pow_0_r, Z.mul_1_r by lia.
      assert (0 < 2 ^ (52 + E)) by (apply pow2_pos; lia).
      assert (Hs : 2 ^ 52 = 2 ^ (52 + E) * 2 ^ (- E)).
      { rewrite <- pow2_split by lia. f_equal. lia. }
      rewrite Hs in Hlo, Hhi. set (A := 2 ^ (52 + E)) in *. set (P := 2 ^ (- E)) in *.
      split.
      * apply (Z.mul_le_mono_pos_r _ _ P); [lia|]. lia.
      * apply (Z.mul_lt_mono_pos_r P); [lia|]. lia.
    + rewrite (Z.max_l 0 (52 + E)), (Z.max_r 0 (- (52 + E))), Z.pow_0_r, Z.mul_1_r by lia.
      assert (0 < 2 ^ (- (52 + E))) by (apply pow2_pos; lia).
      assert (Hs : 2 ^ (- E) = 2 ^ 52 * 2 ^ (- (52 + E))).
      { rewrite <- pow2_split by lia. f_equal. lia. }
      rewrite Hs in Hlo, Hhi. set (A := 2 ^ (- (52 + E))) in *.
      assert (H52 : 0 < 2 ^ 52) by reflexivity. set (T := 2 ^ 52) in *.
      split.
      * apply (Z.mul_le_mono_pos_l _ _ T); [lia|]. lia.
      * apply (Z.mul_lt_mono_pos_l T); [lia|]. lia.
Qed.

(** A rational strictly within half a unit of a 53-bit mantissa rounds
    to it; at the first mantissa of a binade, where the units below are
    half as wide, from above only. *)
Lemma round_nearest s n d M E :
  0 < n -> 0 < d -> 2 ^ 52 <= M < 2 ^ 53 -> -1074 <= E <= 971 ->
  2 * Z.abs (n * 2 ^ Z.max 0 (- E) - M * (d * 2 ^ Z.max 0 E)) < d * 2 ^ Z.max 0 E ->
  (M = 2 ^ 52 -> M * (d * 2 ^ Z.max 0 E) <= n * 2 ^ Z.max 0 (- E)) ->
  round s n d = S754_finite s (Z.to_pos M) E.
Proof.
  intros Hn Hd HM HE Hnear Hfirst.
  assert (HD : 0 < d * 2 ^ Z.max 0 E) by (apply Z.mul_pos_pos; [lia|apply pow2_pos; lia]).
  assert (Hf : ilog2 n d = 52 + E).
  { apply ilog2_binade; try lia.
    set (N := n * 2 ^ Z.max 0 (- E)) in *. set (D := d * 2 ^ Z.max 0 E) in *.
    change (2 ^ 53) with 9007199254740992 in *. change (2 ^ 52) with 4503599627370496 in *.
    destruct (Z.eq_dec M 4503599627370496) as [HM0|HM0].
    - specialize (Hfirst HM0). subst M. lia.
    - assert (4503599627370496 * D <= (M - 1) * D) by (apply Z.mul_le_mono_nonneg_r; lia).
      assert ((M + 1) * D <= 9007199254740992 * D) by (apply Z.mul_le_mono_nonneg_r; lia).
      lia. }
  unfold round. destruct (Z.leb_spec n 0); [lia|].
  rewrite Hf. replace (52 + E - 52) with E by lia.
  rewrite (Z.max_l E (-1074)) by lia.
  set (N := n * 2 ^ Z.max 0 (- E)) in *. set (D := d * 2 ^ Z.max 0 E) in *.
  destruct (Z.le_gt_cases (M * D) N) as [Hle|Hgt].
  - assert (Hq : N / D = M).
    { symmetry. apply (Z.div_unique_pos _ _ _ (N - M * D)); lia. }
    assert (Hr : N mod D = N - M * D).
    { symmetry. apply (Z.mod_unique_pos _ _ M); lia. }
    rewrite Hq, Hr.
    destruct (Z.compare_spec (2 * (N - M * D)) D); try lia.
    destruct (Z.eqb_spec M 0); [lia|].
    destruct (Z.eqb_spec M (2 ^ 53)); [lia|].
    destruct (Z.ltb_spec 971 E); [lia|]. reflexivity.
  - assert (Hq : N / D = M - 1).
    { symmetry. apply (Z.div_unique_pos _ _ _ (N - (M - 1) * D)); lia. }
    assert (Hr : N mod D = N - (M - 1) * D).
    { symmetry. apply (Z.mod_unique_pos _ _ (M - 1)); lia. }
    rewrite Hq, Hr.
    destruct (Z.compare_spec (2 * (N - (M - 1) * D)) D); try lia.
    replace (M - 1 + 1) with M by lia.
    destruct (Z.eqb_spec M 0); [lia|].
    destruct (Z.eqb_spec M (2 ^ 53)); [lia|].
    destruct (Z.ltb_spec 971 E); [lia|]. reflexivity.
Qed.

(** A finite rounded value is within half a unit of the rational. *)
Lemma round_error s n d s' m e :
  0 < n -> 0 < d -> round s n d = S754_finite s' m e ->
  2 * Z.abs (n * 2 ^ Z.max 0 (- e) - Z.pos m * (d * 2 ^ Z.max 0 e)) <= d * 2 ^ Z.max 0 e.
Proof.
  intros Hn Hd Heq.
  pose proof (round_cases s n d Hn Hd) as Hc. cbv zeta in Hc.
  pose proof (round_carry s n d Hn Hd) as Hup. cbv zeta in Hup.
  set (e0 := Z.max (ilog2 n d - 52) (-1074)) in *.
  assert (He0 : -1074 <= e0) by lia.
  set (N := n * 2 ^ Z.max 0 (- e0)) in *. set (D := d * 2 ^ Z.max 0 e0) in *.
  assert (HD : 0 < D) by (apply Z.mul_pos_pos; [lia|apply pow2_pos; lia]).
  pose proof (Z.div_mod N D ltac:(lia)) as Hdm.
  pose proof (Z.mod_pos_bound N D HD) as Hrb.
  set (q := N / D) in *.
  destruct Hc as [[H0 _]|[[H0 _]|(m0 & e' & H0 & Hm)]];
    rewrite H0 in Heq; try discriminate.
  inversion Heq as [[Hs Hm' He']]. clear Heq. subst m e. clear Hs.
  destruct Hm as [(He & Hm0 & Hcase)|(He & Hm0 & Hcarry)].
  - rewrite Z2Pos.id by lia. rewrite He. fold N D.
    destruct Hcase as [[-> Hh]|[-> Hh]].
    + lia.
    + replace ((q + 1) * D) with (q * D + D) by ring. lia.
  - rewrite He, Hm0 in H0. specialize (Hup H0). destruct Hup as [[Hup1 Hup2] Hup3].
    rewrite Z2Pos.id by lia. rewrite Hm0, He.
    change (2 ^ 53) with 9007199254740992 in *. change (2 ^ 52) with 4503599627370496 in *.
    destruct (Z.le_gt_cases 0 e0) as [Hpos|Hneg].
    + rewrite (Z.max_l 0 (- (e0 + 1))), Z.pow_0_r, Z.mul_1_r by lia.
      rewrite (Z.max_r 0 (e0 + 1)) by lia.
      unfold N, D in *.
      rewrite (Z.max_l 0 (- e0)), Z.pow_0_r, Z.mul_1_r in * by lia.
      rewrite (Z.max_r 0 e0) in * by lia.
      rewrite (pow2_split e0 1) by lia. change (2 ^ 1) with 2.
      set (P := 2 ^ e0) in *. lia.
    + rewrite (Z.max_r 0 (- (e0 + 1))) by lia.
      rewrite (Z.max_l 0 (e0 + 1)), Z.pow_0_r, Z.mul_1_r by lia.
      unfold N, D in *.
      rewrite (Z.max_r 0 (- e0)) in * by lia.
      rewrite (Z.max_l 0 e0), Z.pow_0_r, Z.mul_1_r in * by lia.
      replace (- e0) with (- (e0 + 1) + 1) in * by lia.
      rewrite (pow2_split (- (e0 + 1)) 1) in * by lia. change (2 ^ 1) with 2 in *.
      set (P := 2 ^ (- (e0 + 1))) in *. lia.
Qed.

(** A rational between 1 and [2 ^ 900] rounds to a normal value. *)
Lemma round_normal s n d :
  0 < d <= n -> n < d * 2 ^ 900 ->
  exists m e, round s n d = S754_finite s (Z.to_pos m) e
    /\ 2 ^ 52 <= m < 2 ^ 53 /\ -52 <= e <= 971
    /\ 2 * Z.abs (n * 2 ^ Z.max 0 (- e) - m * (d * 2 ^ Z.max 0 e)) <= d * 2 ^ Z.max 0 e.
Proof.
  intros [Hd Hdn] Hup. assert (Hn : 0 < n) by lia.
  pose proof (ilog2_spec n d Hn Hd) as Hf.
  pose proof (round_cases s n d Hn Hd) as Hc. cbv zeta in Hc.
  destruct (round_quotient_bounds n d Hn Hd) as [Hq Hq52].
  set (f := ilog2 n d) in *.
  assert (Hf0 : 0 <= f).
  { destruct (Z.le_gt_cases 0 f); [done|]. exfalso.
    rewrite (Z.max_l 0 f), (Z.max_r 0 (- f)), Z.pow_0_r, Z.mul_1_r in Hf by lia.
    assert (2 ^ 1 <= 2 ^ (- f)) by (apply Z.pow_le_mono_r; lia).
    change (2 ^ 1) with 2 in *.
    assert (n * 2 <= n * 2 ^ (- f)) by (apply Z.mul_le_mono_nonneg_l; lia). lia. }
  assert (Hf9 : f < 900).
  { destruct (Z.lt_ge_cases f 900); [done|]. exfalso.
    rewrite (Z.max_r 0 f), (Z.max_l 0 (- f)), Z.pow_0_r, Z.mul_1_r in Hf by lia.
    assert (2 ^ 900 <= 2 ^ f) by (apply Z.pow_le_mono_r; lia).
    assert (d * 2 ^ 900 <= d * 2 ^ f) by (apply Z.mul_le_mono_nonneg_l; lia). lia. }
  rewrite (Z.max_l (f - 52) (-1074)) in * by lia.
  specialize (Hq52 ltac:(lia)).
  destruct Hc as [[_ H0]|[[_ H0]|(m & e & Hr & Hm)]]; [lia..|].
  pose proof (round_error s n d s _ e Hn Hd Hr) as Herr.
  exists m, e.
  assert (Hme : 2 ^ 52 <= m < 2 ^ 53 /\ -52 <= e <= 971).
  { destruct Hm as [(-> & Hm & Hcase)|(-> & -> & Hcarry)].
    - split; [|lia]. destruct Hcase as [[-> _]|[-> _]]; lia.
    - split; [|lia]. change (2 ^ 53) with (2 * 2 ^ 52). lia. }
  destruct Hme as [Hm1 He1].
  rewrite Z2Pos.id in Herr by lia. done.
Qed.

(** The quotient of a value that is an integer by an integer below
    [2 ^ 53]. *)
Lemma div_by_int s s2 m e c :
  0 < m -> 0 <= e -> 0 < c < 2 ^ 53 ->
  div (S754_finite s (Z.to_pos m) e) (int_repr s2 c) = round (xorb s s2) (m * 2 ^ e) c.
Proof.
  intros Hm He Hc. destruct (int_mantissa c Hc) as [Hlc _].
  destruct (int_repr_pos_mantissa s2 c Hc) as [-> Pc].
  cbn [div]. rewrite Pc, Z2Pos.id by lia.
  rewrite (Z.max_r 0 (e - (Z.log2 c - 52))) by lia.
  rewrite (Z.max_l 0 (Z.log2 c - 52 - e)), Z.pow_0_r, Z.mul_1_r by lia.
  replace (e - (Z.log2 c - 52)) with (e + (52 - Z.log2 c)) by lia.
  rewrite pow2_split by lia. rewrite Z.mul_assoc.
  apply round_scale.
  - apply Z.mul_pos_pos; [lia|apply pow2_pos; lia].
  - lia.
  - apply pow2_pos. lia.
Qed.

End NearestFacts.

(** ** Amounts beyond the integers a double holds exactly *)

Module LargeAmountFacts.
Import JsString Number Config Amounts Decimal.
Import RoundingFacts IntegerFacts RoundFacts DecimalFacts ToStringFacts ParseFacts.
Import FixedPointFacts QuotientFacts AmountTextFacts NearestFacts.

Lemma small_exponent e :
  1 <= e <= 17 ->
  e = 1 \/ e = 2 \/ e = 3 \/ e = 4 \/ e = 5 \/ e = 6 \/ e = 7 \/ e = 8 \/ e = 9
  \/ e = 10 \/ e = 11 \/ e = 12 \/ e = 13 \/ e = 14 \/ e = 15 \/ e = 16 \/ e = 17.
Proof. lia. Qed.

(** No multiple of [10 ^ 6] rounds to a power of two between [2 ^ 53]
    and [2 ^ 69]. *)
Lemma no_power_of_two k e :
  1 <= e <= 17 -> 2 * Z.abs (k * 10 ^ 6 - 2 ^ 52 * 2 ^ e) <= 2 ^ e -> False.
Proof.
  intros He. change (10 ^ 6) with 1000000. change (2 ^ 52) with 4503599627370496.
  destruct (small_exponent e He) as
    [->|[->|[->|[->|[->|[->|[->|[->|[->|[->|[->|[->|[->|[->|[->|[->| ->]]]]]]]]]]]]]]]];
    intros H;
    match type of H with
    | context [2 ^ ?n] => let v := eval vm_compute in (2 ^ n) in change (2 ^ n) with v in H
    end; lia.
Qed.

(** The number value of an integer between [2 ^ 53] and [10 ^ 21]: a
    mantissa [m] and an exponent [e] from 1 to 17, with [m * 2 ^ e]
    within half of [2 ^ e] of the integer. *)
Lemma large_number b :
  2 ^ 53 <= b < 10 ^ 21 ->
  exists m e, of_Z b = S754_finite false (Z.to_pos m) e
    /\ round false b 1 = S754_finite false (Z.to_pos m) e
    /\ 2 ^ 52 <= m < 2 ^ 53 /\ 1 <= e <= 17
    /\ 2 * Z.abs (b - m * 2 ^ e) <= 2 ^ e.
Proof.
  intros Hb. change (2 ^ 53) with 9007199254740992 in Hb.
  change (10 ^ 21) with 1000000000000000000000 in Hb.
  assert (Hof : of_Z b = round false b 1).
  { unfold of_Z. destruct (Z.eqb_spec b 0); [lia|]. destruct (Z.ltb_spec b 0); [lia|].
    by rewrite Z.abs_eq by lia. }
  destruct (round_normal false b 1) as (m & e & Hr & Hm & He & Herr).
  { lia. }
  { assert (2 ^ 70 <= 2 ^ 900) by (apply Z.pow_le_mono_r; lia).
    change (2 ^ 70) with 1180591620717411303424 in *. lia. }
  exists m, e. rewrite Hof. split; [done|]. split; [done|]. split; [done|].
  change (2 ^ 53) with 9007199254740992 in *. change (2 ^ 52) with 4503599627370496 in *.
  rewrite !Z.mul_1_l in Herr.
  destruct (Z.le_gt_cases e 0) as [He0|He0].
  { exfalso. rewrite (Z.max_r 0 (- e)), (Z.max_l 0 e), Z.pow_0_r in Herr by lia.
    assert (1 <= 2 ^ (- e)) by (pose proof (pow2_pos (- e)); lia).
    assert (b * 1 <= b * 2 ^ (- e)) by (apply Z.mul_le_mono_nonneg_l; lia). lia. }
  rewrite (Z.max_l 0 (- e)), Z.pow_0_r, Z.mul_1_r, (Z.max_r 0 e) in Herr by lia.
  split; [|done]. split; [lia|].
  destruct (Z.le_gt_cases e 17); [done|]. exfalso.
  assert (2 ^ 18 <= 2 ^ e) by (apply Z.pow_le_mono_r; lia).
  change (2 ^ 18) with 262144 in *.
  assert (4503599627370496 * 2 ^ e <= m * 2 ^ e) by (apply Z.mul_le_mono_nonneg_r; lia).
  lia.
Qed.

(** The quotient by [10 ^ 6] of such a value: a mantissa [mq] and an
    exponent [eq] that is 19 or 20 below. *)
Lemma large_quotient mg eg :
  2 ^ 52 <= mg < 2 ^ 53 -> 1 <= eg <= 17 ->
  exists mq eq,
    div (S754_finite false (Z.to_pos mg) eg) (int_repr false 1000000)
    = S754_finite false (Z.to_pos mq) eq
    /\ 2 ^ 52 <= mq < 2 ^ 53 /\ (eg - eq = 19 \/ eg - eq = 20)
    /\ 2 * Z.abs (mg * 2 ^ (eg - eq) - mq * 10 ^ 6) <= 10 ^ 6.
Proof.
  intros Hm He. rewrite div_by_int by (change (2 ^ 53) with 9007199254740992; lia).
  cbn [xorb].
  assert (HG : 2 <= 2 ^ eg <= 2 ^ 17).
  { split; [change 2 with (2 ^ 1) at 1|]; apply Z.pow_le_mono_r; lia. }
  set (G := 2 ^ eg) in *.
  change (2 ^ 53) with 9007199254740992 in *. change (2 ^ 52) with 4503599627370496 in *.
  change (2 ^ 17) with 131072 in *.
  assert (Hg1 : 4503599627370496 * G <= mg * G) by (apply Z.mul_le_mono_nonneg_r; lia).
  assert (Hg2 : mg * G <= 9007199254740991 * G) by (apply Z.mul_le_mono_nonneg_r; lia).
  destruct (round_normal false (mg * G) 1000000) as (mq & eq & Hr & Hmq & Heq & Herr).
  { lia. }
  { assert (2 ^ 70 <= 2 ^ 900) by (apply Z.pow_le_mono_r; lia).
    change (2 ^ 70) with 1180591620717411303424 in *. lia. }
  change (2 ^ 53) with 9007199254740992 in *. change (2 ^ 52) with 4503599627370496 in *.
  exists mq, eq. split; [done|]. split; [done|].
  change (10 ^ 6) with 1000000.
  assert (Hneg : eq < 0).
  { destruct (Z.lt_ge_cases eq 0); [done|]. exfalso.
    rewrite (Z.max_l 0 (- eq)), Z.pow_0_r, Z.mul_1_r, (Z.max_r 0 eq) in Herr by lia.
    assert (1 <= 2 ^ eq) by (pose proof (pow2_pos eq); lia).
    set (Q := 2 ^ eq) in *.
    replace (mq * (1000000 * Q)) with (1000000 * (mq * Q)) in Herr by ring.
    assert (4503599627370496 * Q <= mq * Q) by (apply Z.mul_le_mono_nonneg_r; lia).
    lia. }
  rewrite (Z.max_r 0 (- eq)), (Z.max_l 0 eq), Z.pow_0_r, Z.mul_1_r in Herr by lia.
  assert (HW : G * 2 ^ (- eq) = 2 ^ (eg - eq)).
  { unfold G. rewrite <- pow2_split by lia. f_equal; lia. }
  rewrite <- Z.mul_assoc, HW in Herr.
  split; [|done].
  set (W := 2 ^ (eg - eq)) in *.
  assert (HW0 : 0 < W) by (apply pow2_pos; lia).
  assert (Hw1 : 4503599627370496 * W <= mg * W) by (apply Z.mul_le_mono_nonneg_r; lia).
  assert (Hw2 : mg * W <= 9007199254740991 * W) by (apply Z.mul_le_mono_nonneg_r; lia).
  destruct (Z.le_gt_cases (eg - eq) 18) as [Hlow|Hlow].
  { exfalso. assert (W <= 2 ^ 18) by (apply Z.pow_le_mono_r; lia).
    change (2 ^ 18) with 262144 in *. lia. }
  destruct (Z.le_gt_cases 21 (eg - eq)) as [Hhigh|Hhigh].
  { exfalso. assert (2 ^ 21 <= W) by (apply Z.pow_le_mono_r; lia).
    change (2 ^ 21) with 2097152 in *. lia. }
  lia.
Qed.


(** The fixed-point text with six decimals of a value whose unit is
    [2 ^ -19] at least and a half at most reads back as the value. *)
Lemma fixed_reads_back m e :
  2 ^ 52 <= m < 2 ^ 53 -> -19 <= e <= -1 ->
  parseFloat (toFixed (S754_finite false (Z.to_pos m) e) 6)
  = S754_finite false (Z.to_pos m) e.
Proof.
  intros Hm He. cbn [toFixed]. rewrite Z2Pos.id by lia.
  rewrite (Z.max_l 0 e), Z.pow_0_r, Z.mul_1_r by lia.
  rewrite (Z.max_r 0 (- e)) by lia.
  assert (HU : 2 <= 2 ^ (- e) <= 2 ^ 19).
  { split; [change 2 with (2 ^ 1) at 1|]; apply Z.pow_le_mono_r; lia. }
  assert (HY : 2 ^ (52 + e) * 2 ^ (- e) = 2 ^ 52).
  { rewrite <- pow2_split by lia. f_equal; lia. }
  assert (HY0 : 0 < 2 ^ (52 + e)) by (apply pow2_pos; lia).
  set (U := 2 ^ (- e)) in *. set (Y := 2 ^ (52 + e)) in *.
  change (2 ^ 19) with 524288 in HU.
  change (2 ^ 53) with 9007199254740992 in *. change (2 ^ 52) with 4503599627370496 in *.
  change (10 ^ Z.of_nat 6) with 1000000. change (10 ^ 21) with 1000000000000000000000.
  destruct (Z.leb_spec (1000000000000000000000 * U) m); [lia|].
  rewrite append_nil_l.
  set (T := (2 * m * 1000000 + U) / (2 * U)).
  assert (HT : 2 * U * T <= 2 * m * 1000000 + U < 2 * U * T + 2 * U).
  { pose proof (Z.div_mod (2 * m * 1000000 + U) (2 * U) ltac:(lia)) as Hdm.
    pose proof (Z.mod_pos_bound (2 * m * 1000000 + U) (2 * U) ltac:(lia)) as Hmb.
    fold T in Hdm. lia. }
  assert (HTU : 0 < T * U) by lia.
  assert (HT0 : 0 < T).
  { destruct (Z.le_gt_cases T 0) as [Hle|]; [|done]. exfalso.
    assert (T * U <= 0 * U) by (apply Z.mul_le_mono_nonneg_r; lia). lia. }
  rewrite (fixed_digits_split T 5) by lia.
  change (10 ^ Z.of_nat 6) with (10 ^ 6).
  assert (HP : 0 < 10 ^ 6) by reflexivity.
  pose proof (Z.div_mod T (10 ^ 6) ltac:(lia)) as Hdm.
  pose proof (Z.mod_pos_bound T (10 ^ 6) HP) as Hmb.
  rewrite parseFloat_fixed_text by (try done; apply Z.div_pos; lia).
  replace (T / 10 ^ 6 * 10 ^ 6 + T mod 10 ^ 6) with T by lia.
  change (10 ^ 6) with 1000000.
  apply round_nearest; [lia..| |].
  - rewrite (Z.max_r 0 (- e)), (Z.max_l 0 e), Z.pow_0_r, Z.mul_1_r by lia. fold U. lia.
  - rewrite (Z.max_r 0 (- e)), (Z.max_l 0 e), Z.pow_0_r, Z.mul_1_r by lia. fold U.
    change (2 ^ 52) with 4503599627370496. intros ->.
    assert (HTY : T = Y * 1000000).
    { unfold T. symmetry. apply (Z.div_unique_pos _ _ _ U); [lia|].
      rewrite <- HY. ring. }
    rewrite HTY, <- HY. lia.
Qed.

(** The product with [10 ^ 6] of the quotient of the number value of a
    multiple of [10 ^ 6] is that number value again. *)
Lemma product_back k mg eg mq eq :
  2 ^ 52 <= mg < 2 ^ 53 -> 1 <= eg <= 17 ->
  round false (k * 10 ^ 6) 1 = S754_finite false (Z.to_pos mg) eg ->
  2 * Z.abs (k * 10 ^ 6 - mg * 2 ^ eg) <= 2 ^ eg ->
  2 ^ 52 <= mq < 2 ^ 53 -> eg - eq = 19 \/ eg - eq = 20 ->
  2 * Z.abs (mg * 2 ^ (eg - eq) - mq * 10 ^ 6) <= 10 ^ 6 ->
  mul (S754_finite false (Z.to_pos mq) eq) (int_repr false 1000000)
  = S754_finite false (Z.to_pos mg) eg.
Proof.
  intros Hmg Heg Hx Hnear Hmq Hdiff Herr.
  assert (Hk : 0 < k).
  { destruct (Z.le_gt_cases k 0) as [Hle|]; [|done]. exfalso.
    unfold round in Hx. destruct (Z.leb_spec (k * 10 ^ 6) 0); [discriminate|lia]. }
  rewrite mul_finite_int by (change (2 ^ 53) with 9007199254740992 in *; lia).
  cbn [xorb].
  assert (HU0 : 0 < 2 ^ (- eq)) by (apply pow2_pos; lia).
  assert (HG0 : 0 < 2 ^ eg) by (apply pow2_pos; lia).
  assert (HW : 2 ^ (- eq) * 2 ^ eg = 2 ^ (eg - eq)).
  { rewrite <- pow2_split by lia. f_equal; lia. }
  destruct (Z.eq_dec mq (k * 2 ^ (- eq))) as [Hsame|Hother].
  { rewrite Hsame. rewrite <- Hx.
    replace (k * 2 ^ (- eq) * 1000000) with (k * 10 ^ 6 * 2 ^ (- eq)) by (change (10 ^ 6) with 1000000; ring).
    rewrite <- (Z.mul_1_l (2 ^ (- eq))) at 2.
    apply round_scale; lia. }
  assert (Hpow : mg <> 2 ^ 52).
  { intros ->. by apply (no_power_of_two k eg). }
  apply round_nearest; [lia..| |lia].
  - rewrite (Z.max_l 0 (- eg)), Z.pow_0_r, Z.mul_1_r, (Z.max_r 0 eg), HW by lia.
    change (10 ^ 6) with 1000000 in *.
    destruct Hdiff as [Hd|Hd]; rewrite Hd in *.
    + exfalso. apply Hother.
      set (U := 2 ^ (- eq)) in *. set (G := 2 ^ eg) in *.
      change (2 ^ 19) with 524288 in *.
      assert (Hscaled : 2 * Z.abs (k * U * 1000000 - mg * 524288) <= 524288).
      { rewrite <- HW.
        replace (k * U * 1000000 - mg * (U * G)) with (U * (k * 1000000 - mg * G)) by ring.
        rewrite Z.abs_mul, (Z.abs_eq U) by lia.
        replace (2 * (U * Z.abs (k * 1000000 - mg * G)))
          with (U * (2 * Z.abs (k * 1000000 - mg * G))) by ring.
        apply Z.mul_le_mono_nonneg_l; lia. }
      lia.
    + change (2 ^ 20) with 1048576 in *. lia.
Qed.


Lemma ndigits_unique z j : 0 < z -> 10 ^ (j - 1) <= z < 10 ^ j -> ndigits z = j.
Proof.
  intros Hz Hj. pose proof (ndigits_spec z Hz) as Hn.
  destruct (Z.lt_trichotomy (ndigits z) j) as [Hlt|[Heq|Hgt]]; [|done|]; exfalso.
  - assert (10 ^ ndigits z <= 10 ^ (j - 1)) by (apply Z.pow_le_mono_r; lia). lia.
  - assert (10 ^ j <= 10 ^ (ndigits z - 1)) by (apply Z.pow_le_mono_r; lia). lia.
Qed.

(** [parseInt] reads the decimal digits of a positive integer as the
    number value of the integer. *)
Lemma parseInt_digits (z : Z) : 0 < z -> parseInt (pretty z) = of_Z z.
Proof.
  intros Hz. destruct (pretty_head z ltac:(lia)) as (d & r & Hp & Hd).
  rewrite Hp, parseInt_head by done. rewrite <- Hp.
  destruct (read_digits_pretty z EmptyString ltac:(lia)) as (c & Hc & Hr).
  rewrite append_nil_r in Hr. rewrite Hr.
  change (read_digits z c EmptyString) with (z, c, EmptyString). cbv beta iota.
  destruct (Z.eqb_spec c 0); [lia|].
  unfold of_Z. destruct (Z.eqb_spec z 0); [lia|]. destruct (Z.ltb_spec z 0); [lia|].
  by rewrite Z.abs_eq by lia.
Qed.

Section Printed.
Variables (b mg eg : Z).
Hypothesis Hb : 2 ^ 53 <= b < 10 ^ 21.
Hypothesis Hmod : b mod 10 ^ 6 = 0.
Hypothesis Hmg : 2 ^ 52 <= mg < 2 ^ 53.
Hypothesis Heg : 1 <= eg <= 17.
Hypothesis Hx : round false b 1 = S754_finite false (Z.to_pos mg) eg.
Hypothesis Hnear : 2 * Z.abs (b - mg * 2 ^ eg) <= 2 ^ eg.

Lemma unit_bounds : 2 <= 2 ^ eg <= 131072.
Proof.
  change 131072 with (2 ^ 17).
  split; [change 2 with (2 ^ 1) at 1|]; apply Z.pow_le_mono_r; lia.
Qed.

(** Of the multiples of [10 ^ 6], only [b] reads back as its number
    value. *)
Lemma same_multiple c :
  c mod 10 ^ 6 = 0 -> round false c 1 = S754_finite false (Z.to_pos mg) eg -> c = b.
Proof.
  intros Hc Hr.
  assert (Hc0 : 0 < c).
  { destruct (Z.le_gt_cases c 0) as [Hle|]; [|done]. exfalso.
    unfold round in Hr. destruct (Z.leb_spec c 0); [discriminate|lia]. }
  pose proof (round_error false c 1 _ _ _ Hc0 ltac:(lia) Hr) as Herr.
  rewrite Z2Pos.id in Herr by lia.
  rewrite (Z.max_l 0 (- eg)), Z.pow_0_r, Z.mul_1_r, (Z.max_r 0 eg), Z.mul_1_l in Herr by lia.
  pose proof unit_bounds as HG. set (G := 2 ^ eg) in *.
  change (10 ^ 6) with 1000000 in *.
  pose proof (Z.div_mod c 1000000 ltac:(lia)) as Hdc.
  pose proof (Z.div_mod b 1000000 ltac:(lia)) as Hdb.
  rewrite Hc in Hdc. rewrite Hmod in Hdb. lia.
Qed.

Lemma digits_range : 16 <= ndigits b <= 21.
Proof.
  pose proof (ndigits_spec b ltac:(lia)) as HL.
  change (2 ^ 53) with 9007199254740992 in Hb.
  split.
  - destruct (Z.le_gt_cases 16 (ndigits b)); [done|]. exfalso.
    assert (10 ^ ndigits b <= 10 ^ 15) by (apply Z.pow_le_mono_r; lia).
    change (10 ^ 15) with 1000000000000000 in *. lia.
  - destruct (Z.le_gt_cases (ndigits b) 21); [done|]. exfalso.
    assert (10 ^ 21 <= 10 ^ (ndigits b - 1)) by (apply Z.pow_le_mono_r; lia). lia.
Qed.

(** The value has as many digits as [b]. *)
Lemma digits_of_value : ndigits (mg * 2 ^ eg) = ndigits b.
Proof.
  pose proof (ndigits_spec b ltac:(lia)) as HL. pose proof digits_range as HLr.
  pose proof unit_bounds as HG.
  assert (Hg0 : 0 < mg * 2 ^ eg) by (apply Z.mul_pos_pos; lia).
  apply ndigits_unique; [done|].
  remember (ndigits b) as L eqn:HeqL.
  change (10 ^ 6) with 1000000 in *.
  pose proof (Z.div_mod b 1000000 ltac:(lia)) as Hdb. rewrite Hmod in Hdb.
  split.
  - destruct (Z.le_gt_cases (10 ^ (L - 1)) (mg * 2 ^ eg)) as [|Hlt]; [done|]. exfalso.
    assert (Hsplit : 10 ^ (L - 1) = 1000000 * 10 ^ (L - 7)).
    { change 1000000 with (10 ^ 6). rewrite <- Z.pow_add_r by lia. f_equal; lia. }
    assert (Hbt : b = 10 ^ (L - 1)).
    { set (G := 2 ^ eg) in *. set (Q := 10 ^ (L - 7)) in *. lia. }
    change (2 ^ 53) with 9007199254740992 in Hb.
    assert (HLc : L = 17 \/ L = 18 \/ L = 19 \/ L = 20 \/ L = 21).
    { destruct (Z.eq_dec L 16) as [->|]; [|lia]. exfalso.
      change (10 ^ (16 - 1)) with 1000000000000000 in Hbt. lia. }
    clear HL Hsplit Hdb HeqL.
    pose proof Hx as Hx'. rewrite Hbt in Hx'.
    destruct HLc as [->|[->|[->|[->| ->]]]];
      vm_compute in Hx'; destruct mg as [|p|p]; try discriminate;
      injection Hx' as Hp He; subst p eg; vm_compute in Hlt; discriminate.
  - destruct (Z.le_gt_cases (10 ^ L) (mg * 2 ^ eg)) as [Hle|]; [|done]. exfalso.
    assert (Hsplit : 10 ^ L = 1000000 * 10 ^ (L - 6)).
    { change 1000000 with (10 ^ 6). rewrite <- Z.pow_add_r by lia. f_equal; lia. }
    set (G := 2 ^ eg) in *. set (Q := 10 ^ (L - 6)) in *. lia.
Qed.

(** A step of the search for the shortest digits: with six digits or
    more left out, the digits kept are those of [b] or none. *)
Lemma shortest_step_multiple k :
  1 <= k <= ndigits b - 6 ->
  shortest_step (S754_finite false (Z.to_pos mg) eg) (mg * 2 ^ eg) 1 (ndigits b) k
  = if decide (b mod 10 ^ (ndigits b - k) = 0)
    then Some (b / 10 ^ (ndigits b - k)) else None.
Proof.
  intros Hk. pose proof digits_range as HLr. pose proof unit_bounds as HG.
  set (L := ndigits b) in *.
  unfold shortest_step.
  rewrite (Z.max_l 0 (k - L)), (Z.max_r 0 (L - k)), Z.pow_0_r, Z.mul_1_r, Z.mul_1_l by lia.
  assert (Hsplit : 10 ^ (L - k) = 10 ^ (L - k - 6) * 10 ^ 6).
  { rewrite <- Z.pow_add_r by lia. f_equal; lia. }
  assert (HQ : 0 < 10 ^ (L - k - 6)) by (apply Z.pow_pos_nonneg; lia).
  assert (HP : 1000000 <= 10 ^ (L - k)).
  { rewrite Hsplit. change (10 ^ 6) with 1000000. lia. }
  set (P := 10 ^ (L - k)) in *.
  assert (Hok : forall s, bool_decide (round false (s * P) 1
                                       = S754_finite false (Z.to_pos mg) eg)
                          = bool_decide (s * P = b)).
  { intros s. apply bool_decide_ext. split.
    - apply same_multiple. rewrite Hsplit, Z.mul_assoc. apply Z.mod_mul. discriminate.
    - intros ->. exact Hx. }
  rewrite !Hok.
  pose proof (Z.div_mod (mg * 2 ^ eg) P ltac:(lia)) as Hdm.
  pose proof (Z.mod_pos_bound (mg * 2 ^ eg) P ltac:(lia)) as Hmb.
  set (lo := mg * 2 ^ eg / P) in *.
  replace (P * lo) with (lo * P) in Hdm by ring.
  replace ((lo + 1) * P) with (lo * P + P) by ring.
  destruct (decide (b mod P = 0)) as [H0|H0].
  - pose proof (Z.div_mod b P ltac:(lia)) as Hdb. rewrite H0 in Hdb.
    replace (P * (b / P)) with (b / P * P) in Hdb by ring.
    set (c0 := b / P) in *. set (G := 2 ^ eg) in *.
    assert (Hlo : lo = c0 \/ lo = c0 - 1).
    { assert (lo < c0 + 1).
      { apply (Z.mul_lt_mono_pos_r P); [lia|]. lia. }
      assert (c0 - 1 < lo + 1).
      { apply (Z.mul_lt_mono_pos_r P); [lia|]. lia. }
      lia. }
    destruct Hlo as [->| ->].
    + rewrite bool_decide_eq_true_2 by lia. rewrite bool_decide_eq_false_2 by lia. done.
    + rewrite bool_decide_eq_false_2 by lia. rewrite bool_decide_eq_true_2 by lia.
      f_equal. lia.
  - rewrite !bool_decide_eq_false_2; [done| |].
    + intros Heq. apply H0. rewrite <- Heq.
      replace (lo * P + P) with ((lo + 1) * P) by ring. apply Z.mod_mul. lia.
    + intros Heq. apply H0. rewrite <- Heq. apply Z.mod_mul. lia.
Qed.

Lemma shortest_multiple fuel k :
  1 <= k <= ndigits b - 6 -> ndigits b - 6 - k < Z.of_nat fuel ->
  exists s k', shortest fuel (S754_finite false (Z.to_pos mg) eg) (mg * 2 ^ eg) 1
                        (ndigits b) k = (s, k')
               /\ k <= k' <= ndigits b - 6 /\ b = s * 10 ^ (ndigits b - k').
Proof.
  revert k. induction fuel as [|fuel IH]; intros k Hk Hfuel; [lia|].
  cbn [shortest]. rewrite shortest_step_multiple by done.
  destruct (decide (b mod 10 ^ (ndigits b - k) = 0)) as [H0|H0].
  - exists (b / 10 ^ (ndigits b - k)), k. split; [done|]. split; [lia|].
    assert (HP : 0 < 10 ^ (ndigits b - k)) by (apply Z.pow_pos_nonneg; lia).
    pose proof (Z.div_mod b (10 ^ (ndigits b - k)) ltac:(lia)). lia.
  - assert (k <> ndigits b - 6).
    { intros ->. apply H0. replace (ndigits b - (ndigits b - 6)) with 6 by lia. exact Hmod. }
    destruct (IH (k + 1)) as (s & k' & Heq & Hk' & Hs); [lia..|].
    exists s, k'. split; [done|]. split; [lia|done].
Qed.

(** The number value of [b] prints as the decimal digits of [b]. *)
Lemma toString_multiple :
  toString (S754_finite false (Z.to_pos mg) eg) = pretty b.
Proof.
  pose proof digits_range as HLr. pose proof unit_bounds as HG.
  pose proof (ndigits_spec b ltac:(lia)) as HL.
  assert (Hg0 : 0 < mg * 2 ^ eg) by (apply Z.mul_pos_pos; lia).
  cbn [toString]. rewrite append_nil_l. unfold toString_pos.
  rewrite Z2Pos.id by lia.
  rewrite (Z.max_r 0 eg), (Z.max_l 0 (- eg)), Z.pow_0_r by lia.
  assert (Hn0 : dec_exponent (mg * 2 ^ eg) 1 = ndigits b).
  { unfold dec_exponent. destruct (Z.leb_spec 1 (mg * 2 ^ eg)); [|lia].
    rewrite Z.div_1_r. apply digits_of_value. }
  rewrite Hn0.
  destruct (shortest_multiple 17 1) as (s0 & k & Heq & Hk & Hs); [lia..|].
  rewrite Heq. set (L := ndigits b) in *.
  assert (HP : 0 < 10 ^ (L - k)) by (apply Z.pow_pos_nonneg; lia).
  assert (Hs0 : 0 < s0 < 10 ^ k).
  { split; [nia|].
    replace L with (k + (L - k)) in HL at 2 by lia.
    rewrite Z.pow_add_r in HL by lia. nia. }
  destruct (Z.eqb_spec s0 (10 ^ k)); [lia|].
  destruct (Z.leb_spec k L); [|lia]. destruct (Z.leb_spec L 21); [|lia].
  cbn [andb]. rewrite <- pretty_mul_pow10 by lia.
  rewrite Z2Nat.id by lia. by rewrite <- Hs.
Qed.

End Printed.

(** The round trip of a multiple of [10 ^ 6] between [2 ^ 53] and
    [10 ^ 21]. *)
Lemma round_trip_large b :
  2 ^ 53 <= b < 10 ^ 21 -> b mod 10 ^ 6 = 0 ->
  parseXionAmount (AmountString (formatXionAmount (AmountNumber (of_Z b)))) = pretty b.
Proof.
  intros Hb Hmod.
  destruct (large_number b Hb) as (mg & eg & Hof & Hx & Hmg & Heg & Hnear).
  destruct (large_quotient mg eg Hmg Heg) as (mq & eq & Hdiv & Hmq & Hdiff & Herr).
  assert (Hk : b = b / 10 ^ 6 * 10 ^ 6).
  { pose proof (Z.div_mod b (10 ^ 6) ltac:(done)) as Hdm. rewrite Hmod in Hdm. lia. }
  unfold formatXionAmount, parseXionAmount.
  rewrite AmountClaims.ten_pow_decimals, Hof, Hdiv.
  rewrite fixed_reads_back by lia.
  rewrite (product_back (b / 10 ^ 6) mg eg mq eq); try done; try (by rewrite <- Hk).
  cbn [Math_floor]. destruct (Z.leb_spec 0 eg); [|lia].
  by apply toString_multiple.
Qed.

End LargeAmountFacts.

(** ** The round trip of base-unit amounts *)

Module RoundTripClaims.
Import JsString Number Config Amounts Decimal.
Import RoundingFacts IntegerFacts RoundFacts DecimalFacts ToStringFacts ParseFacts.
Import FixedPointFacts QuotientFacts AmountTextFacts NearestFacts LargeAmountFacts.

(** C4, as far as a number prints as its decimal digits: for every
    base-unit amount [b] with [0 <= b < 10 ^ 21] that is a multiple of
    [10 ^ 6], given as its decimal string or as the number nearest to
    it, converting to display units and back returns the decimal string
    of [b]; and 1000000 formats as "1.000000", which parses back to
    "1000000". *)
Theorem amount_round_trip_below_1e21 (b : Z) :
  0 <= b < 10 ^ 21 -> b mod 10 ^ decimals XION_CONFIG = 0 ->
  parseXionAmount (AmountString (formatXionAmount (AmountString (pretty b)))) = pretty b
  /\ parseXionAmount (AmountString (formatXionAmount (AmountNumber (of_Z b)))) = pretty b
  /\ formatXionAmount (AmountNumber (of_Z 1000000)) = "1.000000"
  /\ parseXionAmount (AmountString "1.000000") = "1000000".
Proof.
  intros Hb Hmod.
  assert (Hfix : formatXionAmount (AmountNumber (of_Z 1000000)) = "1.000000"
                 /\ parseXionAmount (AmountString "1.000000") = "1000000").
  { vm_compute. split; reflexivity. }
  destruct (Z.lt_ge_cases b (2 ^ 53)) as [Hsmall|Hlarge].
  - destruct (AmountClaims.round_trip_small b ltac:(lia) Hmod) as [Hs Hn]. done.
  - change (10 ^ decimals XION_CONFIG) with (10 ^ 6) in Hmod.
    pose proof (round_trip_large b ltac:(lia) Hmod) as Hn.
    split; [|done].
    replace (formatXionAmount (AmountString (pretty b)))
      with (formatXionAmount (AmountNumber (of_Z b))); [done|].
    unfold formatXionAmount. rewrite parseInt_digits; [done|].
    change (2 ^ 53) with 9007199254740992 in Hlarge. lia.
Qed.

Lemma amount_round_trip_below_1e21_witness :
  (of_Z 999999999999999000000 = S754_finite false 7629394531249992 17
   /\ 7629394531249992 * 2 ^ 17 = 999999999999998951424)
  /\ parseXionAmount
       (AmountString (formatXionAmount (AmountNumber (of_Z 999999999999999000000))))
     = pretty 999999999999999000000
  /\ parseXionAmount
       (AmountString (formatXionAmount (AmountString (pretty 25000000))))
     = pretty 25000000.
Proof.
  split; [split; vm_compute; reflexivity|]. split.
  - refine (proj1 (proj2 (amount_round_trip_below_1e21 999999999999999000000 _ _))).
    + vm_compute. split; [discriminate|reflexivity].
    + vm_compute. reflexivity.
  - refine (proj1 (amount_round_trip_below_1e21 25000000 _ _)).
    + vm_compute. split; [discriminate|reflexivity].
    + vm_compute. reflexivity.
Defined.

(** The base-unit amounts [10 ^ 21] and [10 ^ 22] are multiples of
    [10 ^ 6]; as a string or as a number they come back in exponent
    form, as "1e+21" and "1e+22", not as their decimal digits. *)
Lemma amount_round_trip_counterexample :
  10 ^ 21 mod 10 ^ decimals XION_CONFIG = 0
  /\ pretty (10 ^ 21) = "1000000000000000000000"
  /\ parseXionAmount (AmountString (formatXionAmount (AmountString (pretty (10 ^ 21)))))
     = "1e+21"
  /\ parseXionAmount (AmountString (formatXionAmount (AmountNumber (of_Z (10 ^ 21)))))
     = "1e+21"
  /\ parseXionAmount (AmountString (formatXionAmount (AmountString (pretty (10 ^ 21)))))
     <> pretty (10 ^ 21)
  /\ 10 ^ 22 mod 10 ^ decimals XION_CONFIG = 0
  /\ parseXionAmount (AmountString (formatXionAmount (AmountString (pretty (10 ^ 22)))))
     = "1e+22"
  /\ parseXionAmount (AmountString (formatXionAmount (AmountNumber (of_Z (10 ^ 22)))))
     = "1e+22"
  /\ parseXionAmount (AmountString (formatXionAmount (AmountString (pretty (10 ^ 22)))))
     <> pretty (10 ^ 22).
Proof. vm_compute. repeat split; discriminate. Qed.

End RoundTripClaims.

(** ** The integer part of the product *)

Module FloorClaims.
Import JsString Number Config Amounts.
Import RoundingFacts IntegerFacts RoundFacts DecimalFacts ToStringFacts ParseFacts.
Import QuotientFacts NearestFacts LargeAmountFacts AmountClaims.

Section Even.
Variable M : Z.
Hypothesis HM : 2 ^ 52 <= M < 2 ^ 53.

(** Twice a 53-bit mantissa is a number value. *)
Lemma even_value : round false (M * 2) 1 = S754_finite false (Z.to_pos M) 1.
Proof.
  apply round_nearest; [lia..| |].
  - change (2 ^ Z.max 0 (Z.opp 1)) with 1. change (2 ^ Z.max 0 1) with 2. lia.
  - change (2 ^ Z.max 0 (Z.opp 1)) with 1. change (2 ^ Z.max 0 1) with 2. lia.
Qed.

(** No other multiple of ten reads back as it. *)
Lemma even_only c :
  c mod 10 = 0 -> round false c 1 = S754_finite false (Z.to_pos M) 1 -> c = M * 2.
Proof.
  intros Hc Hr.
  assert (Hc0 : 0 < c).
  { destruct (Z.le_gt_cases c 0) as [Hle|]; [|done]. exfalso.
    unfold round in Hr. destruct (Z.leb_spec c 0); [discriminate|lia]. }
  pose proof (round_error false c 1 _ _ _ Hc0 ltac:(lia) Hr) as Herr.
  rewrite Z2Pos.id in Herr by lia.
  change (2 ^ Z.max 0 (Z.opp 1)) with 1 in Herr. change (2 ^ Z.max 0 1) with 2 in Herr.
  pose proof (Z.div_mod c 10 ltac:(lia)) as Hdc. rewrite Hc in Hdc. lia.
Qed.

Lemma even_digits : 16 <= ndigits (M * 2) <= 17.
Proof.
  pose proof (ndigits_spec (M * 2) ltac:(lia)) as HL.
  change (2 ^ 53) with 9007199254740992 in HM. change (2 ^ 52) with 4503599627370496 in HM.
  split.
  - destruct (Z.le_gt_cases 16 (ndigits (M * 2))); [done|]. exfalso.
    assert (10 ^ ndigits (M * 2) <= 10 ^ 15) by (apply Z.pow_le_mono_r; lia).
    change (10 ^ 15) with 1000000000000000 in *. lia.
  - destruct (Z.le_gt_cases (ndigits (M * 2)) 17); [done|]. exfalso.
    assert (10 ^ 17 <= 10 ^ (ndigits (M * 2) - 1)) by (apply Z.pow_le_mono_r; lia).
    change (10 ^ 17) with 100000000000000000 in *. lia.
Qed.

(** A step of the search for the shortest digits with digits left out:
    the digits kept are those of the value or none. *)
Lemma shortest_step_even k :
  1 <= k < ndigits (M * 2) ->
  shortest_step (S754_finite false (Z.to_pos M) 1) (M * 2) 1 (ndigits (M * 2)) k
  = if decide ((M * 2) mod 10 ^ (ndigits (M * 2) - k) = 0)
    then Some (M * 2 / 10 ^ (ndigits (M * 2) - k)) else None.
Proof.
  intros Hk. set (L := ndigits (M * 2)) in *.
  unfold shortest_step.
  rewrite (Z.max_l 0 (k - L)), (Z.max_r 0 (L - k)), Z.pow_0_r, Z.mul_1_r, Z.mul_1_l by lia.
  assert (Hsplit : 10 ^ (L - k) = 10 ^ (L - k - 1) * 10).
  { change 10 with (10 ^ 1) at 3. rewrite <- Z.pow_add_r by lia. f_equal; lia. }
  assert (HQ : 0 < 10 ^ (L - k - 1)) by (apply Z.pow_pos_nonneg; lia).
  assert (HP : 10 <= 10 ^ (L - k)) by (rewrite Hsplit; lia).
  set (P := 10 ^ (L - k)) in *.
  assert (Hok : forall s, bool_decide (round false (s * P) 1
                                       = S754_finite false (Z.to_pos M) 1)
                          = bool_decide (s * P = M * 2)).
  { intros s. apply bool_decide_ext. split.
    - apply even_only. rewrite Hsplit, Z.mul_assoc. apply Z.mod_mul. discriminate.
    - intros ->. exact even_value. }
  rewrite !Hok.
  replace ((M * 2 / P + 1) * P) with (M * 2 / P * P + P) by ring.
  pose proof (Z.div_mod (M * 2) P ltac:(lia)) as Hdm.
  pose proof (Z.mod_pos_bound (M * 2) P ltac:(lia)) as Hmb.
  replace (P * (M * 2 / P)) with (M * 2 / P * P) in Hdm by ring.
  destruct (decide ((M * 2) mod P = 0)) as [H0|H0].
  - rewrite bool_decide_eq_true_2 by lia. rewrite bool_decide_eq_false_2 by lia. done.
  - rewrite !bool_decide_eq_false_2 by lia. done.
Qed.

(** With no digit left out the step keeps the value. *)
Lemma shortest_step_all :
  shortest_step (S754_finite false (Z.to_pos M) 1) (M * 2) 1
                (ndigits (M * 2)) (ndigits (M * 2))
  = Some (M * 2).
Proof.
  unfold shortest_step.
  rewrite Z.sub_diag. change (Z.max 0 0) with 0. rewrite Z.pow_0_r, !Z.mul_1_r, Z.div_1_r.
  rewrite (bool_decide_eq_true_2 _ even_value).
  destruct (bool_decide (round false (M * 2 + 1) 1 = S754_finite false (Z.to_pos M) 1));
    [|done].
  destruct (Z.compare_spec (2 * (M * 2)) (M * 2 + (M * 2 + 1))); [lia|done|lia].
Qed.

Lemma shortest_even fuel k :
  1 <= k <= ndigits (M * 2) -> ndigits (M * 2) - k < Z.of_nat fuel ->
  exists s k', shortest fuel (S754_finite false (Z.to_pos M) 1) (M * 2) 1
                        (ndigits (M * 2)) k = (s, k')
               /\ k <= k' <= ndigits (M * 2) /\ M * 2 = s * 10 ^ (ndigits (M * 2) - k').
Proof.
  revert k. induction fuel as [|fuel IH]; intros k Hk Hfuel; [lia|].
  cbn [shortest].
  destruct (Z.eq_dec k (ndigits (M * 2))) as [->|Hne].
  { rewrite shortest_step_all. exists (M * 2), (ndigits (M * 2)).
    split; [done|]. split; [lia|]. rewrite Z.sub_diag, Z.pow_0_r. lia. }
  rewrite shortest_step_even by lia.
  destruct (decide ((M * 2) mod 10 ^ (ndigits (M * 2) - k) = 0)) as [H0|H0].
  - exists (M * 2 / 10 ^ (ndigits (M * 2) - k)), k. split; [done|]. split; [lia|].
    assert (HP : 0 < 10 ^ (ndigits (M * 2) - k)) by (apply Z.pow_pos_nonneg; lia).
    pose proof (Z.div_mod (M * 2) (10 ^ (ndigits (M * 2) - k)) ltac:(lia)). lia.
  - destruct (IH (k + 1)) as (s & k' & Heq & Hk' & Hs); [lia..|].
    exists s, k'. split; [done|]. split; [lia|done].
Qed.

(** An even integer between [2 ^ 53] and [2 ^ 54] prints as its decimal
    digits. *)
Lemma toString_pos_even : toString_pos (Z.to_pos M) 1 = pretty (M * 2).
Proof.
  pose proof even_digits as HLr.
  pose proof (ndigits_spec (M * 2) ltac:(lia)) as HL.
  unfold toString_pos. rewrite Z2Pos.id by lia.
  change (2 ^ Z.max 0 (Z.opp 1)) with 1. change (2 ^ Z.max 0 1) with 2.
  assert (Hn0 : dec_exponent (M * 2) 1 = ndigits (M * 2)).
  { unfold dec_exponent. destruct (Z.leb_spec 1 (M * 2)); [|lia]. by rewrite Z.div_1_r. }
  rewrite Hn0.
  destruct (shortest_even 17 1) as (s0 & k & Heq & Hk & Hs); [lia..|].
  rewrite Heq. set (L := ndigits (M * 2)) in *.
  assert (HP : 0 < 10 ^ (L - k)) by (apply Z.pow_pos_nonneg; lia).
  assert (Hs0 : 0 < s0 < 10 ^ k).
  { split; [nia|].
    replace L with (k + (L - k)) in HL at 2 by lia.
    rewrite Z.pow_add_r in HL by lia. nia. }
  destruct (Z.eqb_spec s0 (10 ^ k)); [lia|].
  destruct (Z.leb_spec k L); [|lia]. destruct (Z.leb_spec L 21); [|lia].
  cbn [andb]. rewrite <- pretty_mul_pow10 by lia.
  rewrite Z2Nat.id by lia. by rewrite <- Hs.
Qed.

End Even.

(** [Math.floor] followed by [toString], on a canonical finite value
    whose integer part is between [2 ^ 53] and [2 ^ 54] in magnitude. *)
Lemma floor_toString_wide s m e :
  Z.pos m < 2 ^ 53 -> (-1074 < e -> 2 ^ 52 <= Z.pos m) ->
  2 ^ 53 <= Z.abs (floor_Z s m e) <= 2 ^ 54 ->
  toString (Math_floor (S754_finite s m e)) = pretty (floor_Z s m e).
Proof.
  intros Hm Hnorm Hz.
  change (2 ^ 53) with 9007199254740992 in *. change (2 ^ 54) with 18014398509481984 in *.
  assert (He : 1 <= e).
  { destruct (Z.le_gt_cases 1 e); [done|]. exfalso.
    unfold floor_Z in Hz. destruct (Z.leb_spec 0 e).
    - replace e with 0 in Hz by lia. rewrite Z.pow_0_r, Z.mul_1_r in Hz. destruct s; lia.
    - assert (HP : 0 < 2 ^ (- e)) by (apply pow2_pos; lia).
      assert (Hb : - Z.pos m <= (if s then Z.neg m else Z.pos m) / 2 ^ (- e) <= Z.pos m).
      { destruct s.
        - split.
          + apply Z.div_le_lower_bound; [lia|].
            change (Z.neg m) with (- Z.pos m). nia.
          + transitivity 0; [|lia]. apply Z.div_le_upper_bound; lia.
        - split.
          + transitivity 0; [lia|]. apply Z.div_pos; lia.
          + apply Z.div_le_upper_bound; [lia|]. nia. }
      lia. }
  specialize (Hnorm ltac:(lia)). change (2 ^ 52) with 4503599627370496 in Hnorm.
  cbn [Math_floor]. destruct (Z.leb_spec 0 e); [|lia].
  assert (Hval : floor_Z s m e = (if s then - (Z.pos m * 2 ^ e) else Z.pos m * 2 ^ e)).
  { unfold floor_Z. destruct (Z.leb_spec 0 e); [|lia]. destruct s; lia. }
  rewrite Hval in *.
  assert (Habs : Z.abs (if s then - (Z.pos m * 2 ^ e) else Z.pos m * 2 ^ e) = Z.pos m * 2 ^ e).
  { assert (0 < 2 ^ e) by (apply pow2_pos; lia). destruct s; nia. }
  rewrite Habs in Hz.
  assert (He2 : e = 1 \/ e = 2 /\ Z.pos m = 4503599627370496).
  { destruct (Z.le_gt_cases e 1); [left; lia|right].
    assert (H4 : 2 ^ 2 <= 2 ^ e) by (apply Z.pow_le_mono_r; lia).
    change (2 ^ 2) with 4 in H4.
    assert (e = 2).
    { destruct (Z.le_gt_cases e 2); [lia|]. exfalso.
      assert (H8 : 2 ^ 3 <= 2 ^ e) by (apply Z.pow_le_mono_r; lia).
      change (2 ^ 3) with 8 in H8. nia. }
    subst e. change (2 ^ 2) with 4 in *. lia. }
  destruct He2 as [->|[-> Hm2]].
  - cbn [toString]. change (2 ^ 1) with 2.
    rewrite <- (Pos2Z.id m) at 1. change (Z.to_pos (Z.pos m)) with (Z.to_pos (Z.pos m)).
    rewrite (toString_pos_even (Z.pos m)).
    + destruct s; [|by rewrite append_nil_l].
      assert (Hpos : 0 < Z.pos m * 2) by lia.
      destruct (Z.pos m * 2) eqn:E; try lia. reflexivity.
    + change (2 ^ 53) with 9007199254740992. change (2 ^ 52) with 4503599627370496. lia.
  - injection Hm2 as ->. destruct s; vm_compute; reflexivity.
Qed.

Lemma floor_trunc_integer s m e :
  (0 <=? e) || (Z.pos m mod 2 ^ (- e) =? 0) = true ->
  floor_Z s m e = trunc_Z s m e.
Proof.
  intros Hi. unfold floor_Z, trunc_Z.
  destruct (Z.leb_spec 0 e) as [He|He]; [done|]. cbn [orb] in Hi.
  apply Z.eqb_eq in Hi.
  assert (HP : 0 < 2 ^ (- e)) by (apply pow2_pos; lia).
  apply Z.mod_divide in Hi; [|lia]. destruct Hi as [c Hc].
  destruct s.
  - change (Z.neg m) with (- Z.pos m). rewrite Hc.
    rewrite <- Z.mul_opp_l, Z.div_mul, Z.quot_mul by lia. done.
  - symmetry. apply Z.quot_div_nonneg; lia.
Qed.

(** C2, as the code has it: [parseXionAmount] returns the decimal string
    of the double-precision product of the amount and [10 ^ 6] rounded
    toward minus infinity ([Math.floor]), whenever that product has an
    integer part [z], zero included, of [2 ^ 54] at most in magnitude.  A
    string amount is first read by [parseFloat].  The product truncated
    toward zero is [z] itself, except for a negative product that is not
    an integer, where it is [z + 1]. *)
Theorem parseXionAmount_floor_of_product (x : number) (z : Z) :
  floor_of (mul x (pow10 (decimals XION_CONFIG))) = Some z ->
  Z.abs z <= 2 ^ 54 ->
  parseXionAmount (AmountNumber x) = pretty z
  /\ (forall str, parseFloat str = x -> parseXionAmount (AmountString str) = pretty z)
  /\ trunc_of (mul x (pow10 (decimals XION_CONFIG)))
     = Some (if negative (mul x (pow10 (decimals XION_CONFIG)))
                && negb (is_integer (mul x (pow10 (decimals XION_CONFIG))))
             then z + 1 else z).
Proof.
  intros Hf Hz.
  assert (Hnum : parseXionAmount (AmountNumber x) = pretty z).
  { unfold parseXionAmount.
    destruct (mul x (pow10 (decimals XION_CONFIG))) as [s|s| |s m e] eqn:Hp;
      cbn [floor_of] in Hf; try discriminate.
    - by injection Hf as <-.
    - injection Hf as <-.
      destruct (mul_finite _ _ _ _ _ Hp) as (Hm & He & Hnorm).
      destruct (Z.lt_ge_cases (Z.abs (floor_Z s m e)) (2 ^ 53)).
      + by apply floor_toString.
      + by apply floor_toString_wide. }
  split; [done|]. split; [by intros str <-|].
  destruct (mul x (pow10 (decimals XION_CONFIG))) as [s|s| |s m e] eqn:Hp;
    cbn [floor_of] in Hf; try discriminate; injection Hf as <-.
  - cbn. by rewrite andb_false_r.
  - cbn [trunc_of negative is_integer]. f_equal.
    destruct s; cbn [andb].
    + destruct ((0 <=? e) || (Z.pos m mod 2 ^ (- e) =? 0)) eqn:Hi; cbn [negb].
      * symmetry. by apply floor_trunc_integer.
      * apply orb_false_iff in Hi. destruct Hi as [He Hm].
        apply Z.leb_gt in He. apply Z.eqb_neq in Hm.
        rewrite floor_trunc_negative by done. lia.
    + symmetry. apply floor_trunc_nonneg.
Qed.

Lemma parseXionAmount_floor_of_product_witness :
  (parseXionAmount (AmountString "1.9999995") = "1999999"
   /\ trunc_of (mul (parseFloat "1.9999995") (pow10 (decimals XION_CONFIG)))
      = Some 1999999)
  /\ (parseXionAmount (AmountString "-0.0000015") = "-2"
      /\ trunc_of (mul (parseFloat "-0.0000015") (pow10 (decimals XION_CONFIG)))
         = Some (-1))
  /\ (parseXionAmount (AmountString "-3") = "-3000000"
      /\ trunc_of (mul (parseFloat "-3") (pow10 (decimals XION_CONFIG)))
         = Some (-3000000))
  /\ parseXionAmount (AmountString "0") = "0"
  /\ parseXionAmount (AmountString "-0") = "0"
  /\ parseXionAmount (AmountString "0.000000") = "0"
  /\ parseXionAmount (AmountString "1e-400") = "0"
  /\ parseXionAmount (AmountNumber (S754_zero true)) = "0"
  /\ parseXionAmount (AmountString (String "194" (String "160" "5"))) = "5000000"
  /\ parseXionAmount (AmountString "-9007199254.740994") = "-9007199254740994".
Proof.
  pose proof (parseXionAmount_floor_of_product (parseFloat "1.9999995") 1999999) as H1.
  pose proof (parseXionAmount_floor_of_product (parseFloat "-0.0000015") (-2)) as H2.
  pose proof (parseXionAmount_floor_of_product (parseFloat "-3") (-3000000)) as H3.
  pose proof (parseXionAmount_floor_of_product (parseFloat "0") 0) as H4.
  pose proof (parseXionAmount_floor_of_product (parseFloat "-0") 0) as H5.
  pose proof (parseXionAmount_floor_of_product (parseFloat "0.000000") 0) as H6.
  pose proof (parseXionAmount_floor_of_product (parseFloat "1e-400") 0) as H7.
  pose proof (parseXionAmount_floor_of_product (S754_zero true) 0) as H8.
  pose proof (parseXionAmount_floor_of_product
                (parseFloat (String "194" (String "160" "5"))) 5000000) as H9.
  destruct H1 as (_ & H1 & T1); [vm_compute; reflexivity|vm_compute; discriminate|].
  destruct H2 as (_ & H2 & T2); [vm_compute; reflexivity|vm_compute; discriminate|].
  destruct H3 as (_ & H3 & T3); [vm_compute; reflexivity|vm_compute; discriminate|].
  destruct H4 as (_ & H4 & _); [vm_compute; reflexivity|vm_compute; discriminate|].
  destruct H5 as (_ & H5 & _); [vm_compute; reflexivity|vm_compute; discriminate|].
  destruct H6 as (_ & H6 & _); [vm_compute; reflexivity|vm_compute; discriminate|].
  destruct H7 as (_ & H7 & _); [vm_compute; reflexivity|vm_compute; discriminate|].
  destruct H8 as (H8 & _); [vm_compute; reflexivity|vm_compute; discriminate|].
  destruct H9 as (_ & H9 & _); [vm_compute; reflexivity|vm_compute; discriminate|].
  pose proof (parseXionAmount_floor_of_product
                (parseFloat "-9007199254.740994") (-9007199254740994)) as H10.
  destruct H10 as (_ & H10 & _); [vm_compute; reflexivity|vm_compute; discriminate|].
  split; [split; [exact (H1 _ eq_refl)|exact T1]|].
  split; [split; [exact (H2 _ eq_refl)|exact T2]|].
  split; [split; [exact (H3 _ eq_refl)|exact T3]|].
  split; [exact (H4 _ eq_refl)|].
  split; [exact (H5 _ eq_refl)|].
  split; [exact (H6 _ eq_refl)|].
  split; [exact (H7 _ eq_refl)|].
  split; [exact H8|].
  split; [exact (H9 _ eq_refl)|].
  exact (H10 _ eq_refl).
Defined.

(** Past [2 ^ 54] the decimal string is the shortest one that reads back
    as the product, not the digits of its integer part: the product of
    18014398509.481990 and [10 ^ 6] is 18014398509481992, the second
    double after [2 ^ 54]. *)
Example parseXionAmount_beyond_exact_integers :
  floor_of (mul (parseFloat "18014398509.481990") (pow10 (decimals XION_CONFIG)))
  = Some (2 ^ 54 + 8)
  /\ parseXionAmount (AmountString "18014398509.481990") = "18014398509481990".
Proof. vm_compute. split; reflexivity. Qed.

(** The amount "-0.0000015" is -15 / 10^7: times [10 ^ 6] it is -1.5, which
    truncates toward zero to -1, and [parseXionAmount] returns "-2". *)
Lemma parseXionAmount_negative_counterexample :
  parseXionAmount (AmountString "-0.0000015") = "-2"
  /\ pretty (Z.quot (-15 * 10 ^ 6) (10 ^ 7)) = "-1"
  /\ parseXionAmount (AmountString "-0.0000015") <> pretty (Z.quot (-15 * 10 ^ 6) (10 ^ 7)).
Proof. vm_compute. repeat split; discriminate. Qed.

End FloorClaims.

(** ** The poller: rejections and the time it takes *)

Module PollerExtras.
Import JsString Number Config Amounts Runtime Helpers RunShape.

Section Poller.
Context `{Sdk}.
Variables (client : Client) (txHash : string) (maxAttempts : nat) (delayMs : number).

Lemma loop_rejected (i : nat) :
  forall (remaining : nat) (c : Chain) (e : js_error),
    (i < remaining)%nat ->
    (forall j, (j < i)%nat -> lookup_at client txHash delayMs c j = Ok None) ->
    lookup_at client txHash delayMs c i = Err e ->
    waitForTransaction_loop client txHash maxAttempts delayMs remaining c
    = mkRun (Thrown e)
            (snd (client_getTx client txHash (poll_state client txHash delayMs c i)))
            (poll_trace txHash delayMs i).
Proof.
  induction i as [|i IH]; intros remaining c e Hrem Hempty Hfail;
    (destruct remaining as [|remaining]; [lia|]).
  - unfold lookup_at in Hfail. cbn [poll_state] in *.
    cbn [waitForTransaction_loop]. unfold bind, getTransaction, call.
    destruct (client_getTx client txHash c) as [res c'].
    cbn in Hfail. subst res. reflexivity.
  - pose proof (Hempty 0%nat ltac:(lia)) as H0.
    unfold lookup_at in H0. cbn [poll_state] in H0.
    cbn [waitForTransaction_loop poll_state poll_trace].
    unfold bind, getTransaction, call, sleep.
    destruct (client_getTx client txHash c) as [res c'] eqn:Hc.
    cbn in H0. subst res. cbn [run_outcome run_chain run_trace snd].
    rewrite (IH remaining (set_timeout delayMs c') e); [reflexivity|lia| |].
    + intros j Hj. specialize (Hempty (S j) ltac:(lia)).
      unfold lookup_at in *. cbn [poll_state] in Hempty. by rewrite Hc in Hempty.
    + unfold lookup_at in *. cbn [poll_state] in Hfail. by rewrite Hc in Hfail.
Qed.

Lemma poll_trace_sleeps (i : nat) :
  length (List.filter is_sleep (poll_trace txHash delayMs i)) = i.
Proof. induction i as [|i IH]; [reflexivity|]. cbn. by rewrite IH. Qed.

Lemma empty_poll_trace_sleeps (n : nat) :
  length (List.filter is_sleep (empty_poll_trace txHash delayMs n)) = n.
Proof. induction n as [|n IH]; [reflexivity|]. cbn. by rewrite IH. Qed.

(** X4: a lookup that is rejected ends the poll at once.  If the first
    [k - 1] lookups come back empty and lookup [k] is rejected with an
    error, [waitForTransaction] throws that same error after exactly [k]
    lookups and [k - 1] sleeps: it does not retry and does not wrap the
    error. *)
Theorem waitForTransaction_rethrows (c : Chain) (k : nat) (e : js_error) :
  (1 <= k <= maxAttempts)%nat ->
  (forall j, (j < k - 1)%nat -> lookup_at client txHash delayMs c j = Ok None) ->
  lookup_at client txHash delayMs c (k - 1) = Err e ->
  run_outcome (waitForTransaction client txHash (Some maxAttempts) (Some delayMs) c)
  = Thrown e
  /\ length (List.filter is_lookup
               (run_trace (waitForTransaction client txHash (Some maxAttempts)
                                              (Some delayMs) c))) = k
  /\ length (List.filter is_sleep
               (run_trace (waitForTransaction client txHash (Some maxAttempts)
                                              (Some delayMs) c))) = (k - 1)%nat.
Proof.
  intros Hk Hempty Hfail.
  change (waitForTransaction client txHash (Some maxAttempts) (Some delayMs) c)
    with (waitForTransaction_loop client txHash maxAttempts delayMs maxAttempts c).
  rewrite (loop_rejected (k - 1) maxAttempts c e) by (lia || done).
  cbn [run_outcome run_trace].
  rewrite RunClaims.poll_trace_lookups, poll_trace_sleeps.
  split; [done|]. split; lia.
Qed.

(** X5: a poll that finds nothing sleeps after every lookup, the last
    one included: with all [maxAttempts] lookups empty the run is
    [maxAttempts] times a lookup followed by a sleep of [delayMs], and
    only then the error is thrown. *)
Theorem waitForTransaction_exhausted_trace (c : Chain) :
  (forall j, (j < maxAttempts)%nat -> lookup_at client txHash delayMs c j = Ok None) ->
  run_trace (waitForTransaction client txHash (Some maxAttempts) (Some delayMs) c)
  = empty_poll_trace txHash delayMs maxAttempts
  /\ length (List.filter is_sleep
               (run_trace (waitForTransaction client txHash (Some maxAttempts)
                                              (Some delayMs) c))) = maxAttempts
  /\ run_chain (waitForTransaction client txHash (Some maxAttempts) (Some delayMs) c)
     = poll_state client txHash delayMs c maxAttempts.
Proof.
  intros Hempty.
  change (waitForTransaction client txHash (Some maxAttempts) (Some delayMs) c)
    with (waitForTransaction_loop client txHash maxAttempts delayMs maxAttempts c).
  rewrite RunClaims.loop_exhausted by done.
  cbn [run_trace run_chain]. by rewrite empty_poll_trace_sleeps.
Qed.

End Poller.

Lemma waitForTransaction_rethrows_witness :
  run_outcome (@waitForTransaction (Scripted.sdk Scripted.flaky) tt "ABC" (Some 5%nat)
                                   (Some (of_Z 250)) 0%nat)
  = Thrown Scripted.timeout
  /\ length (List.filter is_lookup
               (run_trace (@waitForTransaction (Scripted.sdk Scripted.flaky) tt "ABC"
                             (Some 5%nat) (Some (of_Z 250)) 0%nat))) = 3%nat.
Proof.
  pose proof (@waitForTransaction_rethrows (Scripted.sdk Scripted.flaky) tt "ABC" 5%nat
                (of_Z 250) 0%nat 3%nat Scripted.timeout) as Hw.
  destruct Hw as (Ho & Hn & _).
  - lia.
  - intros j Hj. assert (j = 0 \/ j = 1)%nat as [->| ->] by lia; reflexivity.
  - reflexivity.
  - split; [exact Ho|exact Hn].
Defined.

Lemma waitForTransaction_exhausted_trace_witness :
  run_trace (@waitForTransaction (Scripted.sdk (Scripted.healthy "0")) tt "ABC" (Some 2%nat)
                                 (Some (of_Z 250)) 0%nat)
  = [GetTx "ABC"; Sleep (of_Z 250); GetTx "ABC"; Sleep (of_Z 250)].
Proof.
  refine (proj1 (@waitForTransaction_exhausted_trace (Scripted.sdk (Scripted.healthy "0"))
                   tt "ABC" 2%nat (of_Z 250) 0%nat _)).
  intros j Hj. reflexivity.
Defined.

End PollerExtras.

(** ** Runs of the scripts: console blocks, caught errors, exits *)

Module ScriptRunFacts.
Import JsString Number Config Amounts Runtime Helpers Scripts RunShape RunFacts.

Section WithSdk.
Context `{Sdk} `{!Contracts}.

Lemma console_not_network (t : list event) :
  forallb is_console t = true -> List.filter is_network t = [].
Proof.
  induction t as [|ev t IH]; [done|]. intros Ht.
  destruct ev; cbn in *; try discriminate; auto.
Qed.

Lemma console_not_sdk_call (t : list event) :
  forallb is_console t = true -> List.filter is_sdk_call t = [].
Proof.
  induction t as [|ev t IH]; [done|]. intros Ht.
  destruct ev; cbn in *; try discriminate; auto.
Qed.

Lemma prepend_run {A} (t t' : list event) (o : outcome A) (c : Chain) :
  prepend t (mkRun o c t') = mkRun o c (t ++ t').
Proof. reflexivity. Qed.

Lemma prints_only_ret {A} (a : A) : prints_only (ret a).
Proof. intros c. by exists a, []. Qed.

Lemma prints_only_emit (ev : event) : is_console ev = true -> prints_only (emit ev).
Proof. intros Hev c. exists tt, [ev]. split; [done|]. cbn. by rewrite Hev. Qed.

Lemma prints_only_bind {A B} (m : M A) (k : A -> M B) :
  prints_only m -> (forall a, prints_only (k a)) -> prints_only (bind m k).
Proof.
  intros Hm Hk c. destruct (Hm c) as (a & t & Heq & Ht).
  destruct (Hk a c) as (b & t' & Heq' & Ht').
  exists b, (t ++ t'). split.
  - rewrite (bind_run _ _ _ _ _ _ Heq), Heq'. reflexivity.
  - by rewrite forallb_app, Ht, Ht'.
Qed.

Lemma prints_only_for_each {A} (xs : list A) (body : A -> M unit) :
  (forall x, prints_only (body x)) -> prints_only (for_each xs body).
Proof.
  intros Hbody. induction xs as [|x xs IH]; [apply prints_only_ret|].
  cbn [for_each]. apply prints_only_bind; [apply Hbody|]. intros _. exact IH.
Qed.

Lemma prints_only_print_approvals (i : nat) (xs : list Approval) :
  prints_only (print_approvals i xs).
Proof.
  revert i. induction xs as [|a xs IH]; intros i; [apply prints_only_ret|].
  cbn [print_approvals]. apply prints_only_bind; [by apply prints_only_emit|].
  intros _. apply IH.
Qed.

(** A console block in front of the rest of a computation. *)
Lemma bind_prints {B} (m : M unit) (k : unit -> M B) (c : Chain) :
  prints_only m ->
  exists t, forallb is_console t = true /\ bind m k c = prepend t (k tt c).
Proof.
  intros Hm. destruct (Hm c) as ([] & t & Heq & Ht).
  exists t. split; [done|]. by rewrite (bind_run _ _ _ _ _ _ Heq).
Qed.

Lemma try_catch_returned {A} (body : M A) (h : js_error -> M A) c a c' t :
  body c = mkRun (Returned a) c' t -> try_catch body h c = mkRun (Returned a) c' t.
Proof. intros Heq. unfold try_catch. by rewrite Heq. Qed.

Lemma try_catch_thrown {A} (body : M A) (h : js_error -> M A) c e c' t :
  body c = mkRun (Thrown e) c' t -> try_catch body h c = prepend t (h e c').
Proof. intros Heq. unfold try_catch. by rewrite Heq. Qed.

Lemma handleError_run {A} (e : js_error) (c : Chain) :
  @handleError _ A e c = mkRun (Exited 1) c (error_report e).
Proof.
  unfold handleError, error_report, console_error. rewrite !bind_emit.
  destruct (truthy (stack e)).
  - rewrite (bind_run (bind _ _) _ c c tt
               [ConsoleError (nl +:+ "Stack trace:"); ConsoleError (text (stack e))]);
      reflexivity.
  - rewrite bind_ret. reflexivity.
Qed.

Lemma never_exits_ret {A} (a : A) : never_exits (ret a).
Proof. by intros c code. Qed.

Lemma never_exits_throw {A} (e : js_error) : never_exits (@throw _ A e).
Proof. by intros c code. Qed.

Lemma never_exits_emit (ev : event) : never_exits (emit ev).
Proof. by intros c code. Qed.

Lemma never_exits_call {A} (ev : event) (op : Chain -> result A * Chain) :
  never_exits (call ev op).
Proof. intros c code. unfold call. by destruct (op c) as [[a|e] c']. Qed.

Lemma never_exits_bind {A B} (m : M A) (k : A -> M B) :
  never_exits m -> (forall a, never_exits (k a)) -> never_exits (bind m k).
Proof.
  intros Hm Hk c code. unfold bind. specialize (Hm c).
  destruct (run_outcome (m c)) eqn:Ho; cbn [prepend run_outcome]; [apply Hk|done|].
  by destruct (Hm code0).
Qed.

Lemma never_exits_try_catch {A} (m : M A) (h : js_error -> M A) :
  never_exits m -> (forall e, never_exits (h e)) -> never_exits (try_catch m h).
Proof.
  intros Hm Hh c code. unfold try_catch. specialize (Hm c).
  destruct (run_outcome (m c)) eqn:Ho; cbn [prepend run_outcome].
  - by rewrite Ho.
  - apply Hh.
  - by destruct (Hm code0).
Qed.

Lemma never_exits_for_each {A} (xs : list A) (body : A -> M unit) :
  (forall x, never_exits (body x)) -> never_exits (for_each xs body).
Proof.
  intros Hbody. induction xs as [|x xs IH]; [apply never_exits_ret|].
  cbn [for_each]. apply never_exits_bind; [apply Hbody|]. intros _. exact IH.
Qed.

Lemma never_exits_print_approvals (i : nat) (xs : list Approval) :
  never_exits (print_approvals i xs).
Proof.
  revert i. induction xs as [|a xs IH]; intros i; [apply never_exits_ret|].
  cbn [print_approvals]. apply never_exits_bind; [apply never_exits_emit|].
  intros _. apply IH.
Qed.

Lemma never_exits_disconnect (client : Client) : never_exits (disconnect client).
Proof. by intros c code. Qed.

(** How a script that catches everything can end. *)
Lemma caught_outcome (body : M unit) (h : js_error -> M unit) (c : Chain) :
  never_exits body ->
  (forall e c', run_outcome (h e c') = Returned tt \/ run_outcome (h e c') = Exited 1) ->
  run_outcome (try_catch body h c) = Returned tt
  \/ run_outcome (try_catch body h c) = Exited 1.
Proof.
  intros Hbody Hh. unfold try_catch. specialize (Hbody c).
  destruct (run_outcome (body c)) as [[]|e|code] eqn:Ho.
  - left. exact Ho.
  - cbn [prepend run_outcome]. apply Hh.
  - by destruct (Hbody code).
Qed.

(** *** Observing a run through a filter on its events *)

Section Observed.
Variable p : event -> bool.
Hypothesis p_console : forall ev, is_console ev = true -> p ev = false.

Lemma filter_console (t : list event) :
  forallb is_console t = true -> List.filter p t = [].
Proof.
  induction t as [|ev t IH]; [done|]. cbn. intros Ht.
  apply andb_true_iff in Ht as [Hev Ht]. rewrite (p_console ev Hev). auto.
Qed.

Lemma filter_prepend {A} (t : list event) (r : run A) :
  List.filter p (run_trace (prepend t r)) = List.filter p t ++ List.filter p (run_trace r).
Proof. unfold prepend. cbn [run_trace]. apply List.filter_app. Qed.

Lemma filter_bind_emit {B} (ev : event) (k : unit -> M B) (c : Chain) :
  List.filter p (run_trace (bind (emit ev) k c))
  = List.filter p [ev] ++ List.filter p (run_trace (k tt c)).
Proof. rewrite bind_emit. apply filter_prepend. Qed.

Lemma filter_bind_log {B} (ev : event) (k : unit -> M B) (c : Chain) :
  is_console ev = true ->
  List.filter p (run_trace (bind (emit ev) k c)) = List.filter p (run_trace (k tt c)).
Proof. intros Hev. rewrite filter_bind_emit. cbn. by rewrite (p_console ev Hev). Qed.

Lemma filter_bind_run {A B} (m : M A) (k : A -> M B) (c c' : Chain) (a : A) (t : list event) :
  m c = mkRun (Returned a) c' t ->
  List.filter p (run_trace (bind m k c))
  = List.filter p t ++ List.filter p (run_trace (k a c')).
Proof. intros Heq. rewrite (bind_run _ _ _ _ _ _ Heq). apply filter_prepend. Qed.

Lemma filter_bind_prints {B} (m : M unit) (k : unit -> M B) (c : Chain) :
  prints_only m ->
  List.filter p (run_trace (bind m k c)) = List.filter p (run_trace (k tt c)).
Proof.
  intros Hm. destruct (Hm c) as ([] & t & Heq & Ht).
  rewrite (filter_bind_run _ _ _ _ _ _ Heq), (filter_console t Ht). reflexivity.
Qed.

Lemma filter_bind_call {A B} (ev : event) (op : Chain -> result A * Chain)
      (k : A -> M B) (c : Chain) :
  List.filter p (run_trace (bind (call ev op) k c))
  = List.filter p [ev]
    ++ match fst (op c) with
       | Ok a => List.filter p (run_trace (k a (snd (op c))))
       | Err _ => []
       end.
Proof.
  rewrite bind_call. destruct (fst (op c)).
  - apply filter_prepend.
  - cbn [run_trace]. by rewrite app_nil_r.
Qed.

Lemma filter_try_catch {A} (body : M A) (h : js_error -> M A) (c : Chain) :
  (forall e c', List.filter p (run_trace (h e c')) = []) ->
  List.filter p (run_trace (try_catch body h c)) = List.filter p (run_trace (body c)).
Proof.
  intros Hh. unfold try_catch. destruct (run_outcome (body c)); [done| |done].
  rewrite filter_prepend, Hh. apply app_nil_r.
Qed.

End Observed.

Lemma network_console (ev : event) : is_console ev = true -> is_network ev = false.
Proof. by destruct ev. Qed.

Lemma sdk_call_console (ev : event) : is_console ev = true -> is_sdk_call ev = false.
Proof. by destruct ev. Qed.

(** *** The outcome of a run *)

Lemma outcome_prepend {A} (t : list event) (r : run A) :
  run_outcome (prepend t r) = run_outcome r.
Proof. reflexivity. Qed.

Lemma outcome_bind_emit {B} (ev : event) (k : unit -> M B) (c : Chain) :
  run_outcome (bind (emit ev) k c) = run_outcome (k tt c).
Proof. reflexivity. Qed.

Lemma outcome_bind_run {A B} (m : M A) (k : A -> M B) (c c' : Chain) (a : A) (t : list event) :
  m c = mkRun (Returned a) c' t -> run_outcome (bind m k c) = run_outcome (k a c').
Proof. intros Heq. by rewrite (bind_run _ _ _ _ _ _ Heq). Qed.

Lemma outcome_bind_prints {B} (m : M unit) (k : unit -> M B) (c : Chain) :
  prints_only m -> run_outcome (bind m k c) = run_outcome (k tt c).
Proof.
  intros Hm. destruct (Hm c) as ([] & t & Heq & Ht).
  by rewrite (outcome_bind_run _ _ _ _ _ _ Heq).
Qed.

Lemma outcome_bind_call {A B} (ev : event) (op : Chain -> result A * Chain)
      (k : A -> M B) (c : Chain) :
  run_outcome (bind (call ev op) k c)
  = match fst (op c) with
    | Ok a => run_outcome (k a (snd (op c)))
    | Err e => Thrown e
    end.
Proof. rewrite bind_call. by destruct (fst (op c)). Qed.

(** A query followed by console output, with a handler that only
    prints: the block returns whatever the query answers. *)
Lemma try_query_block {A} (ev : event) (op : Chain -> result A * Chain)
      (k : A -> M unit) (h : js_error -> M unit) (c : Chain) :
  (forall a, prints_only (k a)) -> (forall e, prints_only (h e)) ->
  exists t, try_catch (bind (call ev op) k) h c = mkRun (Returned tt) (snd (op c)) (ev :: t)
            /\ forallb is_console t = true.
Proof.
  intros Hk Hh. unfold try_catch. rewrite bind_call.
  destruct (op c) as [[a|e] c']; cbn [fst snd].
  - destruct (Hk a c') as ([] & t & Heq & Ht). rewrite Heq. exists t. done.
  - cbn [run_outcome run_chain run_trace]. destruct (Hh e c') as ([] & t & Heq & Ht).
    rewrite Heq. exists t. done.
Qed.

Lemma bind_thrown {A B} (m : M A) (k : A -> M B) (c c' : Chain) (e : js_error)
      (t : list event) :
  m c = mkRun (Thrown e) c' t -> bind m k c = mkRun (Thrown e) c' t.
Proof. intros Hm. unfold bind. by rewrite Hm. Qed.

Lemma error_report_no_calls (e : js_error) :
  List.filter is_sdk_call (error_report e) = []
  /\ List.filter is_network (error_report e) = [].
Proof. unfold error_report. by destruct (truthy (stack e)). Qed.

Lemma loadWallet_missing (env : gmap string string) (c : Chain) :
  truthy (env !! "MNEMONIC") = false ->
  loadWallet env c
  = mkRun (Thrown (new_Error "MNEMONIC not found in environment variables. Please set it in .env file"))
          c [].
Proof.
  unfold loadWallet, truthy. destruct (env !! "MNEMONIC") as [m|]; [|done].
  by destruct (String.eqb m EmptyString).
Qed.

Lemma loadWallet_present (env : gmap string string) (c : Chain) (mnemonic : string)
      (wallet : Wallet) :
  env !! "MNEMONIC" = Some mnemonic -> mnemonic <> EmptyString ->
  wallet_fromMnemonic mnemonic "xion" = Ok wallet ->
  loadWallet env c = mkRun (Returned wallet) c [WalletFromMnemonic mnemonic "xion"].
Proof.
  intros Henv Hne Hwallet. unfold loadWallet. rewrite Henv.
  destruct (String.eqb_spec mnemonic EmptyString); [done|].
  unfold createWalletFromMnemonic, call. cbn [addressPrefix XION_CONFIG].
  by rewrite Hwallet.
Qed.

Lemma getFirstAccount_run (wallet : Wallet) (account : Account) (accounts : list Account)
      (c : Chain) :
  wallet_getAccounts wallet = account :: accounts ->
  getFirstAccount wallet c = mkRun (Returned (Some account)) c [WalletGetAccounts].
Proof. intros Ha. unfold getFirstAccount, call. by rewrite Ha. Qed.

Lemma connectSigningClient_run (wallet : Wallet) (client : Client) (c c1 : Chain) :
  client_connectWithSigner (rpcEndpoint XION_CONFIG) wallet (gasPrice XION_CONFIG) c
  = (Ok client, c1) ->
  connectSigningClient wallet c
  = mkRun (Returned client) c1
          [ConnectWithSigner (rpcEndpoint XION_CONFIG) (gasPrice XION_CONFIG)].
Proof. intros Hc. unfold connectSigningClient, call. by rewrite Hc. Qed.

Lemma connectQueryClient_run (client : Client) (c c1 : Chain) :
  client_connect (rpcEndpoint XION_CONFIG) c = (Ok client, c1) ->
  connectQueryClient c = mkRun (Returned client) c1 [Connect (rpcEndpoint XION_CONFIG)].
Proof. intros Hc. unfold connectQueryClient, call. by rewrite Hc. Qed.

Lemma truthy_some (s : string) : s <> EmptyString -> truthy (Some s) = true.
Proof. intros Hs. cbn. by destruct (String.eqb_spec s EmptyString). Qed.

Lemma or_default_some (s d : string) : s <> EmptyString -> or_default (Some s) d = s.
Proof. intros Hs. cbn. by destruct (String.eqb_spec s EmptyString). Qed.

End WithSdk.

End ScriptRunFacts.

(** ** The scripts: errors, early returns and the calls they make *)

Module ScriptFacts.
Import JsString Number Config Amounts Runtime Helpers Scripts RunShape RunFacts ScriptRunFacts.

Section WithSdk.
Context `{Sdk} `{!Contracts}.

Ltac prints_step :=
  lazymatch goal with
  | |- prints_only (ret _) => apply prints_only_ret
  | |- prints_only (emit _) => apply prints_only_emit; reflexivity
  | |- prints_only (console_log _) => apply prints_only_emit; reflexivity
  | |- prints_only (console_error _) => apply prints_only_emit; reflexivity
  | |- prints_only (print_approvals _ _) => apply prints_only_print_approvals
  | |- prints_only (bind _ _) => apply prints_only_bind; [|intros ?]
  | |- prints_only (for_each _ _) => apply prints_only_for_each; intros ?
  | |- prints_only (if ?b then _ else _) => destruct b
  | |- prints_only (match ?x with _ => _ end) => destruct x
  end.

Ltac prints := unfold console_log, console_error; repeat prints_step.

Lemma prints_only_printTxResult (result : TxResult) : prints_only (printTxResult result).
Proof. unfold printTxResult. prints. Qed.

Lemma prints_only_print_metadata (nftInfo : NftInfoResponse) :
  prints_only (print_metadata nftInfo).
Proof. unfold print_metadata, print_field. prints. Qed.

Ltac never_exit_step :=
  lazymatch goal with
  | |- never_exits (ret _) => apply never_exits_ret
  | |- never_exits (throw _) => apply never_exits_throw
  | |- never_exits (emit _) => apply never_exits_emit
  | |- never_exits (console_log _) => apply never_exits_emit
  | |- never_exits (console_error _) => apply never_exits_emit
  | |- never_exits (call _ _) => apply never_exits_call
  | |- never_exits (disconnect _) => apply never_exits_disconnect
  | |- never_exits (print_approvals _ _) => apply never_exits_print_approvals
  | |- never_exits (bind _ _) => apply never_exits_bind; [|intros ?]
  | |- never_exits (try_catch _ _) => apply never_exits_try_catch; [|intros ?]
  | |- never_exits (for_each _ _) => apply never_exits_for_each; intros ?
  | |- never_exits (if ?b then _ else _) => destruct b
  | |- never_exits (match ?x with _ => _ end) => destruct x
  end.

Ltac never_exit :=
  cbv zeta;
  unfold console_log, console_error, loadWallet, createWalletFromMnemonic,
    getFirstAccount, account_address, connectSigningClient, connectQueryClient,
    mint_extension_of, executeContract, instantiateContract, getBalance,
    queryOwnerOf, queryNftInfo, queryTokens, printTxResult, print_metadata, print_field;
  cbv zeta; repeat never_exit_step.


(** Steps over a console block, or over a guarded query, at the head of
    the computation in [Hb]. *)
Ltac step_prints_in Hb :=
  match type of Hb with
  | context [bind ?m ?k ?c] =>
      let t := fresh "t" in
      let Ht := fresh "Ht" in
      let Heq := fresh "Heq" in
      destruct (bind_prints m k c ltac:(prints)) as (t & Ht & Heq);
      rewrite Heq in Hb; clear Heq
  end.

Ltac step_query_in Hb :=
  match type of Hb with
  | context [bind (try_catch (bind (call ?ev ?op) ?k) ?h) _ ?c] =>
      let t := fresh "t" in
      let Ht := fresh "Ht" in
      let Heq := fresh "Heq" in
      destruct (try_query_block ev op k h c) as (t & Heq & Ht);
      [intros ?; first [apply prints_only_print_metadata | prints]
      |intros ?; prints
      |rewrite (bind_run _ _ _ _ _ _ Heq) in Hb; clear Heq]
  end.

Lemma handleError_outcome {A} (e : js_error) (c : Chain) :
  run_outcome (@handleError _ A e c) = Exited 1.
Proof. by rewrite handleError_run. Qed.

(** X6: no script run ends in an uncaught exception.  Whatever the
    environment, the arguments and the answers of the SDK, a run of
    [mintToken], [deployContract] or [verifyOwnership] either returns
    normally or ends the process with exit code 1. *)
Theorem scripts_end_in_return_or_exit_1
        (env : gmap string string) (argv : list string) (c : Chain) :
  (run_outcome (mintToken env argv c) = Returned tt
   \/ run_outcome (mintToken env argv c) = Exited 1)
  /\ (run_outcome (deployContract env c) = Returned tt
      \/ run_outcome (deployContract env c) = Exited 1)
  /\ (run_outcome (verifyOwnership env argv c) = Returned tt
      \/ run_outcome (verifyOwnership env argv c) = Exited 1).
Proof.
  split; [|split].
  - unfold mintToken. apply caught_outcome.
    + never_exit.
    + intros e c'. right. apply handleError_outcome.
  - unfold deployContract. apply caught_outcome.
    + never_exit.
    + intros e c'. right. apply handleError_outcome.
  - unfold verifyOwnership. apply caught_outcome.
    + never_exit.
    + intros e c'. destruct (_ && _).
      * left. reflexivity.
      * right. apply handleError_outcome.
Qed.

(** X7: without a mnemonic the wallet scripts stop before any SDK call.
    When [MNEMONIC] is unset or empty, [mintToken] (with a contract
    address) and [deployContract] print their banner and the loading
    line, report the missing mnemonic through [handleError] and end with
    exit code 1; no wallet is derived and no connection is opened. *)
Theorem wallet_scripts_without_mnemonic
        (env : gmap string string) (argv : list string) (c : Chain) :
  truthy (env !! "MNEMONIC") = false ->
  (truthy (env !! "CONTRACT_ADDRESS") = true ->
   mintToken env argv c
   = mkRun (Exited 1) c
       ([ ConsoleLog ("Minting new NFT..." +:+ nl);
          ConsoleLog "Loading wallet from environment..." ]
        ++ error_report (new_Error "MNEMONIC not found in environment variables. Please set it in .env file")))
  /\ deployContract env c
     = mkRun (Exited 1) c
         ([ ConsoleLog ("Deploying CW721 NFT Contract..." +:+ nl);
            ConsoleLog "Loading wallet from environment..." ]
          ++ error_report (new_Error "MNEMONIC not found in environment variables. Please set it in .env file"))
  /\ List.filter is_sdk_call (run_trace (deployContract env c)) = [].
Proof.
  intros Hmn.
  assert (Hdeploy : deployContract env c
     = mkRun (Exited 1) c
         ([ ConsoleLog ("Deploying CW721 NFT Contract..." +:+ nl);
            ConsoleLog "Loading wallet from environment..." ]
          ++ error_report (new_Error "MNEMONIC not found in environment variables. Please set it in .env file"))).
  { unfold deployContract.
    rewrite (try_catch_thrown _ _ c
               (new_Error "MNEMONIC not found in environment variables. Please set it in .env file") c
               [ ConsoleLog ("Deploying CW721 NFT Contract..." +:+ nl);
                 ConsoleLog "Loading wallet from environment..." ]).
    - by rewrite handleError_run, prepend_run.
    - cbv zeta. unfold console_log. rewrite !bind_emit.
      rewrite (bind_thrown _ _ _ _ _ _ (loadWallet_missing env c Hmn)). reflexivity. }
  split; [|split; [exact Hdeploy|]].
  - intros Hca. unfold mintToken.
    rewrite (try_catch_thrown _ _ c
               (new_Error "MNEMONIC not found in environment variables. Please set it in .env file") c
               [ ConsoleLog ("Minting new NFT..." +:+ nl);
                 ConsoleLog "Loading wallet from environment..." ]).
    + by rewrite handleError_run, prepend_run.
    + cbv zeta. unfold console_log. rewrite bind_emit.
      cbn [mintToken_params mint_CONTRACT_ADDRESS]. rewrite Hca. cbn [negb].
      rewrite bind_emit.
      rewrite (bind_thrown _ _ _ _ _ _ (loadWallet_missing env c Hmn)). reflexivity.
  - rewrite Hdeploy. cbn [run_trace]. rewrite List.filter_app.
    by rewrite (proj1 (error_report_no_calls _)).
Qed.

(** The metadata object of a mint: building it only prints, at most the
    warning about unreadable attributes, and it always carries the image. *)
Lemma mint_extension_of_run (env : gmap string string) (p : mint_params) (c : Chain) :
  exists ext info t,
    mint_extension_of env p c = mkRun (Returned (ext, info)) c t
    /\ forallb is_console t = true
    /\ ext_image ext = Some (mint_TOKEN_IMAGE p).
Proof.
  unfold mint_extension_of. destruct (String.eqb (mint_METADATA_STORAGE p) "onchain").
  - destruct (truthy (mint_TOKEN_ATTRIBUTES p)).
    + destruct (JSON_parse (text (mint_TOKEN_ATTRIBUTES p))) as [j|e].
      * rewrite bind_ret. cbv zeta. by eexists _, _, [].
      * unfold console_log, bind, emit, ret, prepend.
        cbn [run_outcome run_chain run_trace app]. by eexists _, _, [_].
    + rewrite bind_ret. cbv zeta. by eexists _, _, [].
  - by eexists _, _, [].
Qed.

(** X8: a mint run makes two network calls and no more: the signing
    connection and one [execute].  The executed message carries the token
    id and URI of the parameters, names [OWNER_ADDRESS] as the owner or,
    without one, the minting account itself, and always has the image in
    its metadata; the memo is "Minted NFT #" and the token id, and no
    funds are attached.  This holds whether the execution succeeds or is
    rejected, and whether or not the attributes parse. *)
Theorem mintToken_network_calls
        (env : gmap string string) (argv : list string) (c c1 : Chain)
        (contract mnemonic : string) (wallet : Wallet) (account : Account)
        (accounts : list Account) (client : Client) :
  env !! "CONTRACT_ADDRESS" = Some contract -> contract <> EmptyString ->
  env !! "MNEMONIC" = Some mnemonic -> mnemonic <> EmptyString ->
  wallet_fromMnemonic mnemonic "xion" = Ok wallet ->
  wallet_getAccounts wallet = account :: accounts ->
  client_connectWithSigner (rpcEndpoint XION_CONFIG) wallet (gasPrice XION_CONFIG) c
  = (Ok client, c1) ->
  exists extension,
    List.filter is_network (run_trace (mintToken env argv c))
    = [ ConnectWithSigner (rpcEndpoint XION_CONFIG) (gasPrice XION_CONFIG);
        Execute (address account) contract
          {| mint_token_id := mint_TOKEN_ID (mintToken_params env argv);
             mint_owner := or_default (env_or_arg env argv "OWNER_ADDRESS" 3)
                                      (address account);
             mint_token_uri := mint_TOKEN_URI (mintToken_params env argv);
             mint_extension := extension |}
          ("Minted NFT #" +:+ mint_TOKEN_ID (mintToken_params env argv)) [] ]
    /\ ext_image extension = Some (mint_TOKEN_IMAGE (mintToken_params env argv)).
Proof.
  intros Hca Hne Hmn Hmne Hwallet Haccounts Hconnect.
  pose proof (loadWallet_present env c mnemonic wallet Hmn Hmne Hwallet) as Hload.
  pose proof (getFirstAccount_run wallet account accounts c Haccounts) as Hfirst.
  pose proof (connectSigningClient_run wallet client c c1 Hconnect) as Hclient.
  destruct (mint_extension_of_run env (mintToken_params env argv) c1)
    as (ext & info & t & Hext & Ht & Himg).
  exists ext. split; [|exact Himg].
  unfold mintToken. rewrite filter_try_catch.
  2:{ intros e c'. rewrite handleError_run. apply error_report_no_calls. }
  cbv zeta. set (p := mintToken_params env argv).
  assert (Hp : mint_CONTRACT_ADDRESS p = Some contract) by exact Hca.
  rewrite Hp, (truthy_some contract Hne). cbn [negb text].
  unfold console_log, console_error.
  repeat rewrite (filter_bind_log is_network network_console) by reflexivity.
  rewrite (filter_bind_run _ _ _ _ _ _ _ Hload).
  rewrite (filter_bind_run _ _ _ _ _ _ _ Hfirst).
  cbn [account_address]. rewrite bind_ret.
  repeat rewrite (filter_bind_log is_network network_console) by reflexivity.
  rewrite (filter_bind_run _ _ _ _ _ _ _ Hclient).
  repeat rewrite (filter_bind_log is_network network_console) by reflexivity.
  rewrite (filter_bind_run _ _ _ _ _ _ _ Hext).
  rewrite (filter_console is_network network_console t Ht).
  cbn [fst snd].
  repeat rewrite (filter_bind_log is_network network_console) by reflexivity.
  rewrite (filter_bind_prints is_network network_console) by prints.
  repeat rewrite (filter_bind_log is_network network_console) by reflexivity.
  unfold executeContract. rewrite filter_bind_call.
  destruct (client_execute _ _ _ _ _ _ _) as [[result|err] c2]; cbn [fst snd]; [|reflexivity].
  repeat rewrite (filter_bind_log is_network network_console) by reflexivity.
  rewrite (filter_bind_prints is_network network_console)
    by apply prints_only_printTxResult.
  repeat rewrite (filter_bind_log is_network network_console) by reflexivity.
  rewrite (filter_bind_prints is_network network_console) by prints.
  repeat rewrite (filter_bind_log is_network network_console) by reflexivity.
  reflexivity.
Qed.

Lemma includes_nonempty (s needle : string) :
  needle <> EmptyString -> includes s needle = true -> s <> EmptyString.
Proof. intros Hn Hi ->. destruct needle; [done|discriminate]. Qed.

(** X9: [verifyOwnership] checks its parameters before it connects.
    Without a contract address, or with one but without a token id from
    the environment or the first argument, it prints the diagnostic and
    returns with no SDK call and the chain untouched; the contract
    address is checked first. *)
Theorem verifyOwnership_missing_parameters
        (env : gmap string string) (argv : list string) (c : Chain) :
  (truthy (env !! "CONTRACT_ADDRESS") = false ->
   verifyOwnership env argv c
   = mkRun (Returned tt) c
       [ ConsoleLog ("Verifying NFT Ownership..." +:+ nl);
         ConsoleError "Error: CONTRACT_ADDRESS not set!";
         ConsoleLog "   Please set CONTRACT_ADDRESS in your .env file" ])
  /\ (truthy (env !! "CONTRACT_ADDRESS") = true ->
      truthy (env_or_arg env argv "TOKEN_ID" 2) = false ->
      verifyOwnership env argv c
      = mkRun (Returned tt) c
          [ ConsoleLog ("Verifying NFT Ownership..." +:+ nl);
            ConsoleError "Error: TOKEN_ID not provided!";
            ConsoleLog "   Usage: npm run verify-ownership <token_id> [expected_owner_address]";
            ConsoleLog "   Or set TOKEN_ID in .env file" ]).
Proof.
  split.
  - intros Hca. unfold verifyOwnership. apply try_catch_returned.
    cbv zeta. unfold console_log, console_error. rewrite bind_emit.
    cbn [verifyOwnership_params verify_CONTRACT_ADDRESS]. rewrite Hca. cbn [negb].
    rewrite !bind_emit. reflexivity.
  - intros Hca Htok. unfold verifyOwnership. apply try_catch_returned.
    cbv zeta. unfold console_log, console_error. rewrite bind_emit.
    cbn [verifyOwnership_params verify_CONTRACT_ADDRESS verify_TOKEN_ID].
    rewrite Hca, Htok. cbn [negb].
    rewrite !bind_emit. reflexivity.
Qed.

(** X10: a token the contract does not know is reported, not raised.
    When the ownership query is rejected with an error whose message
    contains "not found", [verifyOwnership] prints the token-not-found
    diagnostic and returns normally: the process is not ended and the
    client is not disconnected.  Any other rejection of that query ends
    the run with exit code 1. *)
Theorem verifyOwnership_token_not_found
        (env : gmap string string) (argv : list string) (c c1 c2 : Chain)
        (contract token : string) (client : Client) (e : js_error) :
  env !! "CONTRACT_ADDRESS" = Some contract -> contract <> EmptyString ->
  env_or_arg env argv "TOKEN_ID" 2 = Some token -> token <> EmptyString ->
  client_connect (rpcEndpoint XION_CONFIG) c = (Ok client, c1) ->
  client_queryOwnerOf client contract token c1 = (Err e, c2) ->
  (includes (message e) "not found" = true ->
   verifyOwnership env argv c
   = mkRun (Returned tt) c2
       [ ConsoleLog ("Verifying NFT Ownership..." +:+ nl);
         ConsoleLog "Connecting to XION network...";
         Connect (rpcEndpoint XION_CONFIG);
         ConsoleLog ("Connected to " +:+ chainId XION_CONFIG +:+ nl);
         ConsoleLog "Query Details:";
         ConsoleLog ("   Contract: " +:+ contract);
         ConsoleLog ("   Token ID: " +:+ token);
         ConsoleLog (nl +:+ "Querying NFT ownership...");
         QueryContractSmart contract (OwnerOf token);
         ConsoleError (nl +:+ "Error: Token not found!");
         ConsoleLog "   The specified token ID does not exist in this contract.";
         ConsoleLog "   Please check the token ID and contract address." ])
  /\ (includes (message e) "not found" = false ->
      run_outcome (verifyOwnership env argv c) = Exited 1
      /\ run_chain (verifyOwnership env argv c) = c2).
Proof.
  intros Hca Hne Htok Htne Hconnect Hquery.
  pose proof (connectQueryClient_run client c c1 Hconnect) as Hclient.
  set (pre := [ ConsoleLog ("Verifying NFT Ownership..." +:+ nl);
                ConsoleLog "Connecting to XION network...";
                Connect (rpcEndpoint XION_CONFIG);
                ConsoleLog ("Connected to " +:+ chainId XION_CONFIG +:+ nl);
                ConsoleLog "Query Details:";
                ConsoleLog ("   Contract: " +:+ contract);
                ConsoleLog ("   Token ID: " +:+ token);
                ConsoleLog (nl +:+ "Querying NFT ownership...");
                QueryContractSmart contract (OwnerOf token) ]).
  unfold verifyOwnership.
  match goal with |- context [try_catch ?b ?h c] => set (body := b); set (handler := h) end.
  assert (Hbody : body c = mkRun (Thrown e) c2 pre).
  { unfold body. cbv zeta. unfold console_log, console_error. rewrite bind_emit.
    cbn [verifyOwnership_params verify_CONTRACT_ADDRESS verify_TOKEN_ID].
    rewrite Hca, Htok, (truthy_some contract Hne), (truthy_some token Htne).
    cbn [negb text].
    rewrite bind_emit, (bind_run _ _ _ _ _ _ Hclient), !bind_emit, !prepend_prepend.
    unfold queryOwnerOf. rewrite bind_call, Hquery. reflexivity. }
  rewrite (try_catch_thrown _ _ _ _ _ _ Hbody). unfold handler. split.
  - intros Hinc.
    rewrite Hinc, (truthy_some (message e)) by (by apply (includes_nonempty _ "not found")).
    cbn [andb]. unfold console_log, console_error. rewrite !bind_emit. reflexivity.
  - intros Hinc. rewrite Hinc, andb_false_r, handleError_run. done.
Qed.

(** X11: a failing metadata or token-list query does not abort the
    verification.  Once the ownership query has answered,
    [verifyOwnership] always goes on to query the metadata and then the
    owner's tokens (at most 100), whatever either of them answers, returns
    normally and disconnects: its SDK calls are the connection, the three
    queries in that order, and the disconnect. *)
Theorem verifyOwnership_queries
        (env : gmap string string) (argv : list string) (c c1 c2 : Chain)
        (contract token : string) (client : Client) (ownerResult : OwnerOfResponse) :
  env !! "CONTRACT_ADDRESS" = Some contract -> contract <> EmptyString ->
  env_or_arg env argv "TOKEN_ID" 2 = Some token -> token <> EmptyString ->
  client_connect (rpcEndpoint XION_CONFIG) c = (Ok client, c1) ->
  client_queryOwnerOf client contract token c1 = (Ok ownerResult, c2) ->
  List.filter is_sdk_call (run_trace (verifyOwnership env argv c))
  = [ Connect (rpcEndpoint XION_CONFIG);
      QueryContractSmart contract (OwnerOf token);
      QueryContractSmart contract (NftInfo token);
      QueryContractSmart contract (Tokens (owner ownerResult) 100);
      Disconnect ]
  /\ run_outcome (verifyOwnership env argv c) = Returned tt.
Proof.
  intros Hca Hne Htok Htne Hconnect Hquery.
  pose proof (connectQueryClient_run client c c1 Hconnect) as Hclient.
  assert (Howner : queryOwnerOf client contract token c1
                   = mkRun (Returned ownerResult) c2
                           [QueryContractSmart contract (OwnerOf token)]).
  { unfold queryOwnerOf, call. by rewrite Hquery. }
  unfold verifyOwnership.
  match goal with |- context [try_catch ?b ?h c] => set (body := b); set (handler := h) end.
  pose proof (eq_refl (body c)) as Hb. unfold body at 2 in Hb. cbv zeta in Hb.
  cbn [verifyOwnership_params verify_CONTRACT_ADDRESS verify_TOKEN_ID verify_EXPECTED_OWNER]
    in Hb.
  rewrite Hca, Htok, (truthy_some contract Hne), (truthy_some token Htne) in Hb.
  cbn [negb text] in Hb. unfold console_log, console_error in Hb.
  rewrite !bind_emit, (bind_run _ _ _ _ _ _ Hclient), !bind_emit in Hb.
  rewrite (bind_run _ _ _ _ _ _ Howner), !bind_emit in Hb.
  unfold queryNftInfo, queryTokens in Hb.
  step_prints_in Hb. rewrite !bind_emit in Hb.
  step_prints_in Hb. rewrite !bind_emit in Hb.
  step_query_in Hb. rewrite !bind_emit in Hb.
  step_query_in Hb. rewrite !bind_emit in Hb.
  unfold disconnect in Hb. rewrite !prepend_prepend, prepend_run in Hb.
  rewrite (try_catch_returned _ _ _ _ _ _ Hb). cbn [run_trace run_outcome].
  split; [|done].
  rewrite !List.filter_app. cbn [List.filter is_sdk_call].
  repeat match goal with
         | Ht : forallb is_console ?t = true |- _ =>
             rewrite (filter_console is_sdk_call sdk_call_console t Ht); clear Ht
         end.
  reflexivity.
Qed.

End WithSdk.

Lemma wallet_scripts_without_mnemonic_witness :
  List.filter is_sdk_call
    (run_trace (@deployContract (Scripted.sdk (Scripted.healthy "5"))
                  (Scripted.contracts _ (Scripted.knows_token _)) ∅ 0%nat)) = [].
Proof.
  refine (proj2 (proj2 (@wallet_scripts_without_mnemonic
                          (Scripted.sdk (Scripted.healthy "5"))
                          (Scripted.contracts _ (Scripted.knows_token _)) ∅ [] 0%nat _))).
  reflexivity.
Defined.

Lemma mintToken_network_calls_witness :
  exists extension,
    List.filter is_network
      (run_trace (@mintToken (Scripted.sdk (Scripted.healthy "5"))
                    (Scripted.contracts _ (Scripted.knows_token _))
                    Scripted.configured ["node"; "mint-token.js"; "7"] 0%nat))
    = [ ConnectWithSigner (rpcEndpoint XION_CONFIG) (gasPrice XION_CONFIG);
        Execute (address Scripted.account) "xion1contract"
          {| mint_token_id := mint_TOKEN_ID (mintToken_params Scripted.configured
                                               ["node"; "mint-token.js"; "7"]);
             mint_owner := or_default (env_or_arg Scripted.configured
                                         ["node"; "mint-token.js"; "7"] "OWNER_ADDRESS" 3)
                                      (address Scripted.account);
             mint_token_uri := mint_TOKEN_URI (mintToken_params Scripted.configured
                                                 ["node"; "mint-token.js"; "7"]);
             mint_extension := extension |}
          ("Minted NFT #" +:+ mint_TOKEN_ID (mintToken_params Scripted.configured
                                               ["node"; "mint-token.js"; "7"])) [] ]
    /\ ext_image extension
       = Some (mint_TOKEN_IMAGE (mintToken_params Scripted.configured
                                   ["node"; "mint-token.js"; "7"])).
Proof.
  refine (@mintToken_network_calls (Scripted.sdk (Scripted.healthy "5"))
            (Scripted.contracts _ (Scripted.knows_token _))
            Scripted.configured ["node"; "mint-token.js"; "7"] 0%nat 0%nat
            "xion1contract" "abandon ability able" "wallet" Scripted.account [] tt
            _ _ _ _ _ _ _); try reflexivity; discriminate.
Defined.

Lemma verifyOwnership_missing_parameters_witness :
  @verifyOwnership (Scripted.sdk (Scripted.healthy "5"))
     (Scripted.contracts _ (Scripted.knows_token _))
     Scripted.configured ["node"; "verify-ownership.js"] 0%nat
  = @mkRun (Scripted.sdk (Scripted.healthy "5")) _ (Returned tt) 0%nat
      [ ConsoleLog ("Verifying NFT Ownership..." +:+ nl);
        ConsoleError "Error: TOKEN_ID not provided!";
        ConsoleLog "   Usage: npm run verify-ownership <token_id> [expected_owner_address]";
        ConsoleLog "   Or set TOKEN_ID in .env file" ].
Proof.
  refine (proj2 (@verifyOwnership_missing_parameters
                   (Scripted.sdk (Scripted.healthy "5"))
                   (Scripted.contracts _ (Scripted.knows_token _))
                   Scripted.configured ["node"; "verify-ownership.js"] 0%nat) _ _);
    reflexivity.
Defined.

Lemma verifyOwnership_token_not_found_witness :
  run_outcome (@verifyOwnership (Scripted.sdk (Scripted.healthy "5"))
                 (Scripted.contracts _ (Scripted.rejects_owner _ Scripted.not_found))
                 Scripted.configured ["node"; "verify-ownership.js"; "9"] 0%nat)
  = Returned tt
  /\ run_outcome (@verifyOwnership (Scripted.sdk (Scripted.healthy "5"))
                    (Scripted.contracts _ (Scripted.rejects_owner _ Scripted.timeout))
                    Scripted.configured ["node"; "verify-ownership.js"; "9"] 0%nat)
     = Exited 1.
Proof.
  split.
  - pose proof (proj1 (@verifyOwnership_token_not_found
                         (Scripted.sdk (Scripted.healthy "5"))
                         (Scripted.contracts _ (Scripted.rejects_owner _ Scripted.not_found))
                         Scripted.configured ["node"; "verify-ownership.js"; "9"]
                         0%nat 0%nat 0%nat "xion1contract" "9" tt Scripted.not_found
                         eq_refl ltac:(discriminate) eq_refl ltac:(discriminate)
                         eq_refl eq_refl) eq_refl) as Hw.
    by rewrite Hw.
  - exact (proj1 (proj2 (@verifyOwnership_token_not_found
                           (Scripted.sdk (Scripted.healthy "5"))
                           (Scripted.contracts _ (Scripted.rejects_owner _ Scripted.timeout))
                           Scripted.configured ["node"; "verify-ownership.js"; "9"]
                           0%nat 0%nat 0%nat "xion1contract" "9" tt Scripted.timeout
                           eq_refl ltac:(discriminate) eq_refl ltac:(discriminate)
                           eq_refl eq_refl) eq_refl)).
Defined.

Lemma verifyOwnership_queries_witness :
  List.filter is_sdk_call
    (run_trace (@verifyOwnership (Scripted.sdk (Scripted.healthy "5"))
                  (Scripted.contracts _ (Scripted.knows_token _))
                  Scripted.configured ["node"; "verify-ownership.js"; "9"] 0%nat))
  = [ Connect (rpcEndpoint XION_CONFIG);
      QueryContractSmart "xion1contract" (OwnerOf "9");
      QueryContractSmart "xion1contract" (NftInfo "9");
      QueryContractSmart "xion1contract" (Tokens "xion1owner" 100);
      Disconnect ].
Proof.
  refine (proj1 (@verifyOwnership_queries (Scripted.sdk (Scripted.healthy "5"))
                   (Scripted.contracts _ (Scripted.knows_token _))
                   Scripted.configured ["node"; "verify-ownership.js"; "9"]
                   0%nat 0%nat 0%nat "xion1contract" "9" tt
                   (@Build_OwnerOfResponse (Scripted.sdk (Scripted.healthy "5"))
                      "xion1owner" [])
                   _ _ _ _ _ _)); try reflexivity; discriminate.
Defined.

End ScriptFacts.

(** ** Running the verification again *)

Module RepeatClaims.
Import JsString Number Config Amounts Runtime Helpers Scripts RunShape RunFacts ScriptRunFacts.
Import Repeat.

Section Related.
Context `{Sdk} `{!Contracts}.
Variable R : Chain -> Chain -> Prop.

Lemma alike_ret {A} (a : A) : alike R (ret a).
Proof. by intros c c' HR. Qed.

Lemma alike_throw {A} (e : js_error) : alike R (@throw _ A e).
Proof. by intros c c' HR. Qed.

Lemma alike_emit (ev : event) : alike R (emit ev).
Proof. by intros c c' HR. Qed.

Lemma alike_exit {A} (code : Z) : alike R (@process_exit _ A code).
Proof. by intros c c' HR. Qed.

Lemma alike_bind {A B} (m : M A) (k : A -> M B) :
  alike R m -> (forall a, alike R (k a)) -> alike R (bind m k).
Proof.
  intros Hm Hk c c' HR. destruct (Hm c c' HR) as (Ho & Ht & Hc).
  unfold bind. rewrite <- Ho, <- Ht.
  destruct (run_outcome (m c)) as [a|e|code]; cbn; [|done..].
  destruct (Hk a _ _ Hc) as (Ho' & Ht' & Hc'). by rewrite Ho', Ht'.
Qed.

Lemma alike_try_catch {A} (m : M A) (h : js_error -> M A) :
  alike R m -> (forall e, alike R (h e)) -> alike R (try_catch m h).
Proof.
  intros Hm Hh c c' HR. destruct (Hm c c' HR) as (Ho & Ht & Hc).
  unfold try_catch. rewrite <- Ho.
  destruct (run_outcome (m c)) as [a|e|code] eqn:Hoc; cbn; [by rewrite Hoc| |by rewrite Hoc].
  destruct (Hh e _ _ Hc) as (Ho' & Ht' & Hc'). by rewrite Ho', Ht', Ht.
Qed.

Lemma alike_call {A} (ev : event) (op : Chain -> result A * Chain) :
  answers_alike R op -> alike R (call ev op).
Proof.
  intros Hop c c' HR. destruct (Hop c c' HR) as (Hf & Hs). unfold call.
  destruct (op c) as [r c1], (op c') as [r' c1']. cbn in *. by subst r'.
Qed.

Lemma alike_for_each {A} (xs : list A) (body : A -> M unit) :
  (forall x, alike R (body x)) -> alike R (for_each xs body).
Proof.
  intros Hbody. induction xs as [|x xs IH]; [apply alike_ret|].
  cbn [for_each]. apply alike_bind; [apply Hbody|]. intros _. exact IH.
Qed.

Lemma alike_print_approvals (i : nat) (xs : list Approval) :
  alike R (print_approvals i xs).
Proof.
  revert i. induction xs as [|a xs IH]; intros i; [apply alike_ret|].
  cbn [print_approvals]. apply alike_bind; [apply alike_emit|].
  intros _. apply IH.
Qed.

Ltac alike_step :=
  lazymatch goal with
  | |- alike _ (ret _) => apply alike_ret
  | |- alike _ (throw _) => apply alike_throw
  | |- alike _ (emit _) => apply alike_emit
  | |- alike _ (process_exit _) => apply alike_exit
  | |- alike _ (print_approvals _ _) => apply alike_print_approvals
  | |- alike _ (bind _ _) => apply alike_bind; [|intros ?]
  | |- alike _ (try_catch _ _) => apply alike_try_catch; [|intros ?]
  | |- alike _ (for_each _ _) => apply alike_for_each; intros ?
  | |- alike _ (call _ _) => apply alike_call; solve [auto]
  | |- alike _ (if ?b then _ else _) => destruct b
  | |- alike _ (match ?x with _ => _ end) => destruct x
  end.

Lemma alike_handleError {A} (e : js_error) : alike R (@handleError _ A e).
Proof. unfold handleError, console_error. repeat alike_step. Qed.

Lemma alike_print_metadata (nftInfo : NftInfoResponse) :
  alike R (print_metadata nftInfo).
Proof. unfold print_metadata, print_field, console_log. repeat alike_step. Qed.

(** When the calls of the query client answer alike, the whole
    verification runs alike. *)
Lemma verifyOwnership_alike (env : gmap string string) (argv : list string) :
  same_answers R -> alike R (verifyOwnership env argv).
Proof.
  intros (Hconnect & Howner & Hinfo & Htokens & Hdisconnect).
  assert (Hd : forall client, alike R (disconnect client)).
  { intros client c c' HR. unfold disconnect. cbn. auto. }
  unfold verifyOwnership, console_log, console_error, connectQueryClient,
    queryOwnerOf, queryNftInfo, queryTokens.
  repeat lazymatch goal with
         | |- alike _ (print_metadata _) => apply alike_print_metadata
         | |- alike _ (handleError _) => apply alike_handleError
         | |- alike _ (disconnect _) => apply Hd
         | |- _ => alike_step
         end.
Qed.


Lemma trace_bind_head {A B} (m : M A) (k : A -> M B) (c : Chain) (ev : event) :
  In ev (run_trace (m c)) -> In ev (run_trace (bind m k c)).
Proof.
  intros Hin. unfold bind. destruct (run_outcome (m c)); cbn; [|done..].
  apply in_or_app. by left.
Qed.

Lemma trace_bind_run {A B} (m : M A) (k : A -> M B) (c c' : Chain) (a : A)
      (t : list event) (ev : event) :
  m c = mkRun (Returned a) c' t ->
  In ev (run_trace (k a c')) -> In ev (run_trace (bind m k c)).
Proof.
  intros Hm Hin. rewrite (bind_run _ _ _ _ _ _ Hm). cbn. apply in_or_app. by right.
Qed.

Lemma trace_bind_prints {B} (m : M unit) (k : unit -> M B) (c : Chain) (ev : event) :
  prints_only m -> In ev (run_trace (k tt c)) -> In ev (run_trace (bind m k c)).
Proof.
  intros Hm Hin. destruct (Hm c) as ([] & t & Heq & _).
  by apply (trace_bind_run _ _ _ _ _ _ _ Heq).
Qed.

Lemma trace_try_head {A} (body : M A) (h : js_error -> M A) (c : Chain) (ev : event) :
  In ev (run_trace (body c)) -> In ev (run_trace (try_catch body h c)).
Proof.
  intros Hin. destruct (try_catch_trace body h c) as (t & ->).
  apply in_or_app. by left.
Qed.

Ltac prints_step :=
  lazymatch goal with
  | |- prints_only (ret _) => apply prints_only_ret
  | |- prints_only (emit _) => apply prints_only_emit; reflexivity
  | |- prints_only (console_log _) => apply prints_only_emit; reflexivity
  | |- prints_only (console_error _) => apply prints_only_emit; reflexivity
  | |- prints_only (print_approvals _ _) => apply prints_only_print_approvals
  | |- prints_only (bind _ _) => apply prints_only_bind; [|intros ?]
  | |- prints_only (for_each _ _) => apply prints_only_for_each; intros ?
  | |- prints_only (if ?b then _ else _) => destruct b
  | |- prints_only (match ?x with _ => _ end) => destruct x
  end.

Ltac prints := unfold console_log, console_error; repeat prints_step.

Ltac skip_prints := apply trace_bind_prints; [solve [prints]|].

Lemma prints_only_print_field (label key : string) (ext : list (string * Json)) :
  prints_only (print_field label key ext).
Proof. unfold print_field. prints. Qed.

(** A field that is there and truthy is printed under its label. *)
Lemma print_field_prints (label key : string) (ext : list (string * Json)) (v : Json)
      (c : Chain) :
  field key ext = Some v -> json_truthy v = true ->
  In (ConsoleLog (label +:+ json_text v)) (run_trace (print_field label key ext c)).
Proof. intros Hf Hv. unfold print_field. rewrite Hf, Hv. by left. Qed.

Lemma print_metadata_token_uri (nftInfo : NftInfoResponse) (c : Chain) :
  In (ConsoleLog ("   Token URI: " +:+ or_default (token_uri nftInfo) "Not set"))
     (run_trace (print_metadata nftInfo c)).
Proof.
  unfold print_metadata. skip_prints. apply trace_bind_head. by left.
Qed.

Lemma print_metadata_fields (nftInfo : NftInfoResponse) (ext : list (string * Json))
      (c : Chain) (v : Json) :
  extension nftInfo = Some ext -> json_truthy v = true ->
  (field "name" ext = Some v ->
   In (ConsoleLog ("   Name: " +:+ json_text v)) (run_trace (print_metadata nftInfo c)))
  /\ (field "description" ext = Some v ->
      In (ConsoleLog ("   Description: " +:+ json_text v))
         (run_trace (print_metadata nftInfo c)))
  /\ (field "image" ext = Some v ->
      In (ConsoleLog ("   Image: " +:+ json_text v)) (run_trace (print_metadata nftInfo c))).
Proof.
  intros Hext Hv. unfold print_metadata. rewrite Hext.
  split; [|split]; intros Hf; do 2 skip_prints.
  - apply trace_bind_head. by apply print_field_prints.
  - apply trace_bind_prints; [apply prints_only_print_field|].
    apply trace_bind_head. by apply print_field_prints.
  - do 2 (apply trace_bind_prints; [apply prints_only_print_field|]).
    apply trace_bind_head. by apply print_field_prints.
Qed.

(** What a run of the verification prints once the connection is open
    and the ownership query has answered: the owner, and the metadata
    the second query answers, or the line that says it could not be
    fetched. *)
Lemma verifyOwnership_prints
      (env : gmap string string) (argv : list string) (c c1 c2 : Chain)
      (contract token : string) (client : Client) (ownerResult : OwnerOfResponse) :
  env !! "CONTRACT_ADDRESS" = Some contract -> contract <> EmptyString ->
  env_or_arg env argv "TOKEN_ID" 2 = Some token -> token <> EmptyString ->
  client_connect (rpcEndpoint XION_CONFIG) c = (Ok client, c1) ->
  client_queryOwnerOf client contract token c1 = (Ok ownerResult, c2) ->
  In (ConsoleLog ("Owner: " +:+ owner ownerResult)) (run_trace (verifyOwnership env argv c))
  /\ forall ev,
       match fst (client_queryNftInfo client contract token c2) with
       | Ok nftInfo =>
           In ev (run_trace (print_metadata nftInfo
                               (snd (client_queryNftInfo client contract token c2))))
       | Err _ => ev = ConsoleLog (nl +:+ "Could not fetch metadata (may not be available)")
       end ->
       In ev (run_trace (verifyOwnership env argv c)).
Proof.
  intros Hca Hne Htok Htne Hconnect Hquery.
  pose proof (connectQueryClient_run client c c1 Hconnect) as Hclient.
  assert (Howner : queryOwnerOf client contract token c1
                   = mkRun (Returned ownerResult) c2
                           [QueryContractSmart contract (OwnerOf token)]).
  { unfold queryOwnerOf, call. by rewrite Hquery. }
  assert (Hhead : forall ev,
             In ev (run_trace
                      (bind (console_log ("Owner: " +:+ owner ownerResult))
                         (fun _ =>
                            do* (match approvals ownerResult with
                                 | [] => console_log "Approvals: None"
                                 | _ :: _ =>
                                     do* console_log ("Approvals: "
                                            +:+ pretty (length (approvals ownerResult))) in
                                     print_approvals 0 (approvals ownerResult)
                                 end) in
                            do* console_log rule in
                            do* (if truthy (verify_EXPECTED_OWNER (verifyOwnership_params env argv))
                                 then
                                   do* console_log (nl +:+ "Verification Check:") in
                                   do* console_log ("   Expected: " +:+ text (verify_EXPECTED_OWNER (verifyOwnership_params env argv))) in
                                   do* console_log ("   Actual: " +:+ owner ownerResult) in
                                   if String.eqb (owner ownerResult) (text (verify_EXPECTED_OWNER (verifyOwnership_params env argv)))
                                   then console_log "   MATCH - Ownership verified!"
                                   else console_log "   MISMATCH - Owner does not match expected address"
                                 else ret tt) in
                            do* console_log (nl +:+ "Fetching NFT metadata...") in
                            do* try_catch
                                  (let* nftInfo := queryNftInfo client contract token in
                                   print_metadata nftInfo)
                                  (fun _ => console_log (nl +:+ "Could not fetch metadata (may not be available)")) in
                            do* console_log (nl +:+ "Checking owner's total NFTs...") in
                            do* try_catch
                                  (let* tokensResult := queryTokens client contract (owner ownerResult) 100 in
                                   do* console_log (nl +:+ "Total NFTs owned by " +:+ owner ownerResult +:+ ": "
                                                    +:+ pretty (length (tokens tokensResult))) in
                                   match tokens tokensResult with
                                   | [] => ret tt
                                   | _ :: _ => console_log ("   Token IDs: " +:+ join ", " (tokens tokensResult))
                                   end)
                                  (fun _ => console_log (nl +:+ "Could not fetch owner's token list")) in
                            do* console_log EmptyString in
                            disconnect client) c2)) ->
             In ev (run_trace (verifyOwnership env argv c))).
  { intros ev Hin. unfold verifyOwnership. apply trace_try_head. cbv zeta.
    cbn [verifyOwnership_params verify_CONTRACT_ADDRESS verify_TOKEN_ID verify_EXPECTED_OWNER]
      in *.
    rewrite Hca, Htok, (truthy_some contract Hne), (truthy_some token Htne).
    cbn [negb text]. do 2 skip_prints.
    apply (trace_bind_run _ _ _ _ _ _ _ Hclient). do 5 skip_prints.
    apply (trace_bind_run _ _ _ _ _ _ _ Howner). do 4 skip_prints.
    exact Hin. }
  split.
  - apply Hhead. apply trace_bind_head. by left.
  - intros ev Hev. apply Hhead. do 5 skip_prints.
    apply trace_bind_head. unfold try_catch, queryNftInfo. rewrite bind_call.
    destruct (client_queryNftInfo client contract token c2) as [[nftInfo|e] c3];
      cbn [fst snd] in *.
    + destruct (ScriptFacts.prints_only_print_metadata nftInfo c3) as ([] & t & Heq & _).
      rewrite Heq in *. cbn in *. by right.
    + subst ev. cbn. right. by left.
Qed.

End Related.

Section WithSdk.
Context `{Sdk} `{!Contracts}.

(** C9: two runs of the ownership verification whose queries answer
    alike end the same way and print the same lines, among them the
    owner and the metadata fields.  [R] relates the chain states in
    which the calls of the query client give the same responses, as the
    state a first run leaves and the state it started from do when the
    chain has not changed; from two such states the runs have the same
    outcome and the same events and leave such states again.  With the
    contract address and the token id given, when the connection opens
    and the ownership query answers, both runs print the owner it
    answered and, as the metadata query answers, the token URI and every
    name, description and image that is set, or the line that the
    metadata could not be fetched.  The run changes the chain
    state through the calls of the client only: where these leave it
    unchanged, so does the run. *)
Theorem verifyOwnership_repeatable
        (R : Chain -> Chain -> Prop) (env : gmap string string) (argv : list string)
        (c c' : Chain) :
  same_answers R -> R c c' ->
  (run_outcome (verifyOwnership env argv c') = run_outcome (verifyOwnership env argv c)
   /\ run_trace (verifyOwnership env argv c') = run_trace (verifyOwnership env argv c)
   /\ R (run_chain (verifyOwnership env argv c)) (run_chain (verifyOwnership env argv c')))
  /\ (forall contract token client ownerResult c1 c2,
         env !! "CONTRACT_ADDRESS" = Some contract -> contract <> EmptyString ->
         env_or_arg env argv "TOKEN_ID" 2 = Some token -> token <> EmptyString ->
         client_connect (rpcEndpoint XION_CONFIG) c = (Ok client, c1) ->
         client_queryOwnerOf client contract token c1 = (Ok ownerResult, c2) ->
         both_print ("Owner: " +:+ owner ownerResult)
                    (verifyOwnership env argv c) (verifyOwnership env argv c')
         /\ match fst (client_queryNftInfo client contract token c2) with
            | Ok nftInfo =>
                both_print ("   Token URI: " +:+ or_default (token_uri nftInfo) "Not set")
                           (verifyOwnership env argv c) (verifyOwnership env argv c')
                /\ forall ext v,
                     extension nftInfo = Some ext -> json_truthy v = true ->
                     (field "name" ext = Some v ->
                      both_print ("   Name: " +:+ json_text v)
                                 (verifyOwnership env argv c) (verifyOwnership env argv c'))
                     /\ (field "description" ext = Some v ->
                         both_print ("   Description: " +:+ json_text v)
                                    (verifyOwnership env argv c) (verifyOwnership env argv c'))
                     /\ (field "image" ext = Some v ->
                         both_print ("   Image: " +:+ json_text v)
                                    (verifyOwnership env argv c) (verifyOwnership env argv c'))
            | Err _ =>
                both_print (nl +:+ "Could not fetch metadata (may not be available)")
                           (verifyOwnership env argv c) (verifyOwnership env argv c')
            end)
  /\ (read_only -> run_chain (verifyOwnership env argv c) = c).
Proof.
  intros Hsame HR.
  destruct (verifyOwnership_alike R env argv Hsame c c' HR) as (Ho & Ht & Hc).
  split; [by rewrite Ho, Ht|]. split.
  - intros contract token client ownerResult c1 c2 Hca Hne Htok Htne Hconnect Hquery.
    destruct (verifyOwnership_prints env argv c c1 c2 contract token client ownerResult
                Hca Hne Htok Htne Hconnect Hquery) as (Hown & Hmeta).
    unfold both_print. rewrite <- Ht.
    split; [done|].
    destruct (fst (client_queryNftInfo client contract token c2)) as [nftInfo|e] eqn:Hinfo.
    + split.
      * split; apply Hmeta, print_metadata_token_uri.
      * intros ext v Hext Hv.
        pose proof (print_metadata_fields nftInfo ext
                      (snd (client_queryNftInfo client contract token c2)) v Hext Hv)
          as (Hn & Hd & Hi).
        split; [|split]; intros Hf; split; apply Hmeta; auto.
    + split; by apply Hmeta.
  - intros (Hconnect & Howner & Hinfo & Htokens & Hdisconnect).
    by apply PreservationFacts.verifyOwnership_preserves.
Qed.

End WithSdk.

Lemma verifyOwnership_repeatable_witness :
  run_chain (@verifyOwnership Counting.sdk Counting.contracts
               {[ "CONTRACT_ADDRESS" := "xion1contract" ]}
               ["node"; "verify-ownership.js"; "1"] 0%nat) = 5%nat
  /\ run_trace (@verifyOwnership Counting.sdk Counting.contracts
                  {[ "CONTRACT_ADDRESS" := "xion1contract" ]}
                  ["node"; "verify-ownership.js"; "1"] 5%nat)
     = run_trace (@verifyOwnership Counting.sdk Counting.contracts
                    {[ "CONTRACT_ADDRESS" := "xion1contract" ]}
                    ["node"; "verify-ownership.js"; "1"] 0%nat)
  /\ In (ConsoleLog "Owner: xion1owner")
        (run_trace (@verifyOwnership Counting.sdk Counting.contracts
                      {[ "CONTRACT_ADDRESS" := "xion1contract" ]}
                      ["node"; "verify-ownership.js"; "1"] 5%nat))
  /\ In (ConsoleLog "   Token URI: ipfs://token")
        (run_trace (@verifyOwnership Counting.sdk Counting.contracts
                      {[ "CONTRACT_ADDRESS" := "xion1contract" ]}
                      ["node"; "verify-ownership.js"; "1"] 5%nat))
  /\ In (ConsoleLog "   Name: Token")
        (run_trace (@verifyOwnership Counting.sdk Counting.contracts
                      {[ "CONTRACT_ADDRESS" := "xion1contract" ]}
                      ["node"; "verify-ownership.js"; "1"] 5%nat)).
Proof.
  split; [vm_compute; reflexivity|].
  destruct (@verifyOwnership_repeatable Counting.sdk Counting.contracts
              (fun _ _ => True) {[ "CONTRACT_ADDRESS" := "xion1contract" ]}
              ["node"; "verify-ownership.js"; "1"] 0%nat 5%nat)
    as ((_ & Htrace & _) & Hprints & _).
  - repeat split.
  - exact I.
  - split; [exact Htrace|].
    destruct (Hprints "xion1contract" "1" tt
                (@Build_OwnerOfResponse Counting.sdk "xion1owner" []) 1%nat 2%nat)
      as ((_ & Hown) & (_ & Huri) & Hfields);
      [reflexivity|discriminate|reflexivity|discriminate|reflexivity|reflexivity|].
    split; [exact Hown|]. split; [exact Huri|].
    destruct (Hfields [("name", "Token"); ("image", EmptyString); ("rarity", "rare")]
                      "Token") as (Hname & _); [reflexivity|reflexivity|].
    exact (proj2 (Hname eq_refl)).
Defined.

(** Where the answers differ the runs differ: against a contract whose
    token changes hands between the runs, the second run prints another
    owner. *)
Example verifyOwnership_follows_the_answers :
  In (ConsoleLog "Owner: xion1owner1")
     (run_trace (@verifyOwnership Counting.sdk Counting.moving_contracts
                   {[ "CONTRACT_ADDRESS" := "xion1contract" ]}
                   ["node"; "verify-ownership.js"; "1"] 0%nat))
  /\ In (ConsoleLog "Owner: xion1owner6")
        (run_trace (@verifyOwnership Counting.sdk Counting.moving_contracts
                      {[ "CONTRACT_ADDRESS" := "xion1contract" ]}
                      ["node"; "verify-ownership.js"; "1"] 5%nat))
  /\ run_trace (@verifyOwnership Counting.sdk Counting.moving_contracts
                  {[ "CONTRACT_ADDRESS" := "xion1contract" ]}
                  ["node"; "verify-ownership.js"; "1"] 5%nat)
     <> run_trace (@verifyOwnership Counting.sdk Counting.moving_contracts
                     {[ "CONTRACT_ADDRESS" := "xion1contract" ]}
                     ["node"; "verify-ownership.js"; "1"] 0%nat).
Proof.
  split; [vm_compute; tauto|]. split; [vm_compute; tauto|].
  vm_compute. discriminate.
Qed.
End RepeatClaims.

(** ** Runs with transfers and simulations *)

Module TransferFacts.
Import JsString Number Config Amounts Runtime Helpers Scripts RunShape RunFacts.
Import ScriptRunFacts Transfers.
Import RoundingFacts IntegerFacts RoundFacts DecimalFacts ToStringFacts ParseFacts FeeFacts.
Import QuotientFacts.

(** *** Comparison of integers as numbers *)

Lemma lt_int (a b : Z) :
  0 < a < 2 ^ 53 -> 0 < b < 2 ^ 53 ->
  lt (int_repr false a) (int_repr false b) = (a <? b).
Proof.
  intros Ha Hb. destruct (int_mantissa a Ha) as [Hla HMa].
  destruct (int_mantissa b Hb) as [Hlb HMb].
  unfold lt, SFltb, int_repr. cbn [SFcompare].
  destruct (Z.compare_spec (Z.log2 a - 52) (Z.log2 b - 52)) as [Heq|Hlt|Hgt].
  - assert (Hl : Z.log2 a = Z.log2 b) by lia. rewrite <- Hl in *.
    assert (HK : 0 < 2 ^ (52 - Z.log2 a)) by (apply pow2_pos; lia).
    change (Pos.compare_cont Eq ?x ?y) with (Pos.compare x y).
    rewrite <- Z2Pos.inj_compare by lia.
    destruct (Z.compare_spec (a * 2 ^ (52 - Z.log2 a)) (b * 2 ^ (52 - Z.log2 a)));
      destruct (Z.ltb_spec a b); try reflexivity; nia.
  - assert (a < b); [|by destruct (Z.ltb_spec a b); [|lia]].
    apply Z.log2_lt_cancel. lia.
  - assert (b < a); [|by destruct (Z.ltb_spec a b); [lia|]].
    apply Z.log2_lt_cancel. lia.
Qed.

Lemma parseInt_printed (z : Z) :
  0 <= z < 2 ^ 53 -> parseInt (pretty z) = of_Z z.
Proof.
  intros Hz. destruct (Z.eq_dec z 0) as [->|Hz0]; [reflexivity|].
  rewrite parseInt_pretty, of_Z_int by lia. reflexivity.
Qed.

(** [parseInt(b) < parseInt(a)] on the decimal strings of two naturals
    below [2 ^ 53] is the comparison of the naturals. *)
Lemma lt_printed (a b : Z) :
  0 <= a < 2 ^ 53 -> 0 <= b < 2 ^ 53 ->
  lt (parseInt (pretty a)) (parseInt (pretty b)) = (a <? b).
Proof.
  intros Ha Hb. rewrite !parseInt_printed by done.
  destruct (Z.eq_dec a 0) as [->|Ha0]; destruct (Z.eq_dec b 0) as [->|Hb0].
  - reflexivity.
  - rewrite (of_Z_int b) by lia. cbn. by destruct (Z.ltb_spec 0 b); [|lia].
  - rewrite (of_Z_int a) by lia. cbn. by destruct (Z.ltb_spec a 0); [lia|].
  - rewrite (of_Z_int a), (of_Z_int b) by lia. apply lt_int; lia.
Qed.

Lemma lt_nan_r (x : number) : lt x S754_nan = false.
Proof. by destruct x. Qed.

(** *** The gas adjustment *)

Lemma gasAdjustment_value :
  gasAdjustment XION_CONFIG = S754_finite false (Z.to_pos adjustment_mantissa) (-52).
Proof. vm_compute. reflexivity. Qed.

(** Rounding up the double-precision product of an integer gas estimate
    below [2 ^ 49] and the adjustment 1.3 gives thirteen tenths of the
    estimate, rounded up. *)
Lemma ceil_adjusted (g : Z) :
  0 < g < 2 ^ 49 ->
  Math_ceil (mul (int_repr false g) (gasAdjustment XION_CONFIG))
  = int_repr false ((13 * g + 9) / 10).
Proof.
  intros Hg. change (2 ^ 49) with 562949953421312 in Hg.
  assert (Hg53 : 0 < g < 2 ^ 53) by (change (2 ^ 53) with 9007199254740992; lia).
  destruct (int_mantissa g Hg53) as [Hl _].
  destruct (int_repr_pos_mantissa false g Hg53) as [-> P].
  rewrite gasAdjustment_value. cbn [mul xorb]. rewrite P.
  change (Z.pos (Z.to_pos adjustment_mantissa)) with adjustment_mantissa.
  rewrite (Z.max_l 0 (Z.log2 g - 52 + -52)), Z.pow_0_r, Z.mul_1_r by lia.
  rewrite (Z.max_r 0 (- (Z.log2 g - 52 + -52))) by lia.
  replace (- (Z.log2 g - 52 + -52)) with (52 + (52 - Z.log2 g)) by lia.
  rewrite pow2_split by lia.
  replace (g * 2 ^ (52 - Z.log2 g) * adjustment_mantissa)
    with (g * adjustment_mantissa * 2 ^ (52 - Z.log2 g)) by ring.
  rewrite round_scale; [|unfold adjustment_mantissa; lia|reflexivity|apply pow2_pos; lia].
  clear P Hl.
  set (N := (13 * g + 9) / 10).
  assert (HN : 10 * (N - 1) < 13 * g <= 10 * N).
  { pose proof (Z.div_mod (13 * g + 9) 10 ltac:(lia)).
    pose proof (Z.mod_pos_bound (13 * g + 9) 10 ltac:(lia)). fold N in H. lia. }
  assert (HN53 : 0 < N < 2 ^ 53) by (change (2 ^ 53) with 9007199254740992; lia).
  set (n := g * adjustment_mantissa). change (2 ^ 52) with 4503599627370496.
  assert (H10 : 10 * n = g * (13 * 4503599627370496 + 2))
    by (unfold n, adjustment_mantissa; lia).
  assert (Hn : 0 < n) by (unfold n, adjustment_mantissa; lia).
  assert (Hd : 0 < 4503599627370496) by lia.
  destruct (Z.eq_dec (13 * g) (10 * N)) as [Heq|Hne].
  - (* a multiple of ten: the product rounds to the quotient itself *)
    destruct (int_mantissa N HN53) as [HlN HMN].
    set (Kn := 2 ^ (52 - Z.log2 N)) in *.
    assert (HKn : 0 < Kn) by (apply pow2_pos; lia).
    change (2 ^ 53) with 9007199254740992 in HMN.
    change (2 ^ 52) with 4503599627370496 in HMN.
    set (R := n - N * 4503599627370496).
    assert (HR : 13 * R = 2 * N) by (unfold R; lia).
    assert (HRK : 13 * (R * Kn) = 2 * (N * Kn)) by (rewrite Z.mul_assoc, HR; ring).
    assert (HRK0 : 0 <= R * Kn) by (apply Z.mul_nonneg_nonneg; lia).
    rewrite (round_near false n 4503599627370496 (N * Kn) (Z.log2 N - 52)).
    + apply Math_ceil_int. done.
    + done.
    + done.
    + change (2 ^ 53) with 9007199254740992. change (2 ^ 52) with 4503599627370496. lia.
    + lia.
    + replace (- (Z.log2 N - 52)) with (52 - Z.log2 N) by lia. fold Kn.
      replace (n * Kn) with (R * Kn + N * Kn * 4503599627370496) by (unfold R; ring). lia.
    + replace (- (Z.log2 N - 52)) with (52 - Z.log2 N) by lia. fold Kn.
      replace (n * Kn - N * Kn * 4503599627370496) with (R * Kn) by (unfold R; ring). lia.
  - (* otherwise the rounded product lies strictly between N - 1 and N *)
    assert (Hlo : (N - 1) * 4503599627370496 < n) by lia.
    assert (Hhi : n < N * 4503599627370496) by lia.
    assert (Hgap : 4503599627370496 <= 10 * (n - (N - 1) * 4503599627370496)) by lia.
    pose proof (ilog2_spec n 4503599627370496 Hn Hd) as Hf.
    destruct (round_quotient_bounds n 4503599627370496 Hn Hd) as [Hq Hq52].
    pose proof (round_cases false n 4503599627370496 Hn Hd) as Hc. cbv zeta in Hc.
    pose proof (round_carry false n 4503599627370496 Hn Hd) as Hup. cbv zeta in Hup.
    set (f := ilog2 n 4503599627370496) in *.
    assert (Hf0 : 0 <= f).
    { destruct (Z.le_gt_cases 0 f); [done|]. exfalso.
      rewrite (Z.max_l 0 f), (Z.max_r 0 (- f)), Z.pow_0_r in Hf by lia.
      assert (2 ^ 1 <= 2 ^ (- f)) by (apply Z.pow_le_mono_r; lia).
      change (2 ^ 1) with 2 in H0.
      assert (n * 2 <= n * 2 ^ (- f)) by (apply Z.mul_le_mono_nonneg_l; lia).
      unfold n, adjustment_mantissa in *. lia. }
    assert (Hf49 : f <= 49).
    { destruct (Z.le_gt_cases f 49); [done|]. exfalso.
      rewrite (Z.max_r 0 f), (Z.max_l 0 (- f)), Z.pow_0_r in Hf by lia.
      assert (2 ^ 50 <= 2 ^ f) by (apply Z.pow_le_mono_r; lia).
      change (2 ^ 50) with 1125899906842624 in H0.
      assert (4503599627370496 * 1125899906842624 <= 4503599627370496 * 2 ^ f)
        by (apply Z.mul_le_mono_nonneg_l; lia).
      lia. }
    rewrite (Z.max_l (f - 52) (-1074)) in * by lia.
    rewrite (Z.max_r 0 (- (f - 52))), (Z.max_l 0 (f - 52)), Z.pow_0_r, Z.mul_1_r in * by lia.
    set (P := 2 ^ (- (f - 52))) in *.
    assert (HP : 2 ^ 3 <= P) by (apply Z.pow_le_mono_r; lia).
    change (2 ^ 3) with 8 in HP.
    specialize (Hq52 ltac:(lia)).
    set (q := n * P / 4503599627370496) in *.
    assert (Hqd : q * 4503599627370496 <= n * P < (q + 1) * 4503599627370496).
    { pose proof (Z.div_mod (n * P) 4503599627370496 ltac:(lia)).
      pose proof (Z.mod_pos_bound (n * P) 4503599627370496 Hd). fold q in H. lia. }
    assert (HloP : (N - 1) * P * 4503599627370496 < n * P).
    { replace ((N - 1) * P * 4503599627370496) with ((N - 1) * 4503599627370496 * P) by ring.
      apply Z.mul_lt_mono_pos_r; lia. }
    assert (HhiP : n * P < N * P * 4503599627370496).
    { replace (N * P * 4503599627370496) with (N * 4503599627370496 * P) by ring.
      apply Z.mul_lt_mono_pos_r; lia. }
    assert (HgapP : 8 * (n - (N - 1) * 4503599627370496)
                    <= n * P - (N - 1) * P * 4503599627370496).
    { replace (n * P - (N - 1) * P * 4503599627370496)
        with ((n - (N - 1) * 4503599627370496) * P) by ring.
      rewrite (Z.mul_comm 8). apply Z.mul_le_mono_nonneg_l; lia. }
    assert (Hupp : q + 1 <= N * P) by lia.
    assert (Hlow : (N - 1) * P <= q) by lia.
    assert (Hdown : 2 * (n * P - q * 4503599627370496) <= 4503599627370496 ->
                    (N - 1) * P < q).
    { intros Hhalf. destruct (Z.eq_dec q ((N - 1) * P)) as [Hq0|Hq0]; [|lia].
      exfalso. rewrite Hq0 in Hhalf. lia. }
    destruct Hc as [[_ H0]|[[_ H0]|(m & e' & Hr & Hm)]]; [change (2 ^ 52) with 4503599627370496 in Hq52; lia|lia|].
    destruct Hm as [(-> & Hm & [[-> Hhalf]|[-> Hhalf]])|(-> & -> & Hcarry)].
    + rewrite Hr. specialize (Hdown Hhalf). apply Math_ceil_between; try lia; fold P; lia.
    + rewrite Hr. apply Math_ceil_between; try lia; fold P; lia.
    + rewrite Hr. apply Math_ceil_between; try lia; [].
      replace (- (f - 52 + 1)) with (- (f - 52) - 1) by lia.
      assert (Hs : P = 2 * 2 ^ (- (f - 52) - 1)).
      { unfold P. change 2 with (2 ^ 1) at 2. rewrite <- pow2_split by lia. f_equal. lia. }
      change (2 ^ 53) with 9007199254740992 in Hcarry.
      change (2 ^ 52) with 4503599627370496. lia.
Qed.



(** An amount that does not read as a number converts to ["NaN"], which
    compares below nothing. *)
Lemma parseXionAmount_nan (s : string) :
  parseFloat s = S754_nan -> parseXionAmount (AmountString s) = "NaN".
Proof. intros Hs. unfold parseXionAmount. by rewrite Hs. Qed.

Lemma parseInt_NaN : parseInt "NaN" = S754_nan.
Proof. vm_compute. reflexivity. Qed.

End TransferFacts.

(** ** The transfer and fee scripts *)

Module TransferRunFacts.
Import JsString Number Config Amounts Runtime Helpers Scripts RunShape RunFacts.
Import ScriptRunFacts Transfers.

Section WithSdk.
Context `{Sdk} `{!Contracts} `{!Bank}.


Lemma xprepend_run {A} (t t' : list xevent) (o : outcome A) (c : Chain) :
  xprepend t (mkXRun o c t') = mkXRun o c (t ++ t').
Proof. reflexivity. Qed.

Lemma xprepend_prepend {A} (t t' : list xevent) (r : xrun A) :
  xprepend t (xprepend t' r) = xprepend (t ++ t') r.
Proof. unfold xprepend. cbn. by rewrite app_assoc. Qed.

Lemma xbind_log {B} (line : string) (k : unit -> X B) (c : Chain) :
  xbind (xlog line) k c = xprepend [Core (ConsoleLog line)] (k tt c).
Proof. reflexivity. Qed.

Lemma xbind_error {B} (line : string) (k : unit -> X B) (c : Chain) :
  xbind (xerror line) k c = xprepend [Core (ConsoleError line)] (k tt c).
Proof. reflexivity. Qed.

Lemma xlog_run (line : string) (c : Chain) :
  xlog line c = mkXRun (Returned tt) c [Core (ConsoleLog line)].
Proof. reflexivity. Qed.

Lemma xerror_run (line : string) (c : Chain) :
  xerror line c = mkXRun (Returned tt) c [Core (ConsoleError line)].
Proof. reflexivity. Qed.

Lemma xbind_lift_run {A B} (m : M A) (k : A -> X B) (c c' : Chain) (a : A) (t : list event) :
  m c = mkRun (Returned a) c' t ->
  xbind (lift m) k c = xprepend (map Core t) (k a c').
Proof. intros Hm. unfold xbind, lift. by rewrite Hm. Qed.

Lemma xbind_lift_thrown {A B} (m : M A) (k : A -> X B) (c c' : Chain) (e : js_error)
      (t : list event) :
  m c = mkRun (Thrown e) c' t ->
  xbind (lift m) k c = mkXRun (Thrown e) c' (map Core t).
Proof. intros Hm. unfold xbind, lift. by rewrite Hm. Qed.

Lemma xbind_run {A B} (m : X A) (k : A -> X B) (c c' : Chain) (a : A) (t : list xevent) :
  m c = mkXRun (Returned a) c' t ->
  xbind m k c = xprepend t (k a c').
Proof. intros Hm. unfold xbind. by rewrite Hm. Qed.

Lemma xbind_thrown {A B} (m : X A) (k : A -> X B) (c c' : Chain) (e : js_error)
      (t : list xevent) :
  m c = mkXRun (Thrown e) c' t ->
  xbind m k c = mkXRun (Thrown e) c' t.
Proof. intros Hm. unfold xbind. by rewrite Hm. Qed.

Lemma xcall_ok {A} (ev : xevent) (op : Chain -> result A * Chain) (c c' : Chain) (a : A) :
  op c = (Ok a, c') -> xcall ev op c = mkXRun (Returned a) c' [ev].
Proof. intros Hop. unfold xcall. by rewrite Hop. Qed.

Lemma xcall_err {A} (ev : xevent) (op : Chain -> result A * Chain) (c c' : Chain)
      (e : js_error) :
  op c = (Err e, c') -> xcall ev op c = mkXRun (Thrown e) c' [ev].
Proof. intros Hop. unfold xcall. by rewrite Hop. Qed.

Lemma xtry_catch_returned {A} (body : X A) (h : js_error -> X A) c a c' t :
  body c = mkXRun (Returned a) c' t -> xtry_catch body h c = mkXRun (Returned a) c' t.
Proof. intros Hb. unfold xtry_catch. by rewrite Hb. Qed.

Lemma xtry_catch_thrown {A} (body : X A) (h : js_error -> X A) c e c' t :
  body c = mkXRun (Thrown e) c' t -> xtry_catch body h c = xprepend t (h e c').
Proof. intros Hb. unfold xtry_catch. by rewrite Hb. Qed.

(** What a [try] block did is kept, whatever the handler adds. *)
Lemma xtry_catch_trace {A} (body : X A) (h : js_error -> X A) (c : Chain) :
  exists t, xrun_trace (xtry_catch body h c) = xrun_trace (body c) ++ t.
Proof.
  unfold xtry_catch. destruct (xrun_outcome (body c)).
  - exists []. by rewrite app_nil_r.
  - by eexists.
  - exists []. by rewrite app_nil_r.
Qed.

Lemma lift_handleError {A} (e : js_error) (c : Chain) :
  lift (@handleError _ A e) c = mkXRun (Exited 1) c (map Core (error_report e)).
Proof. unfold lift. by rewrite handleError_run. Qed.

Lemma filter_core_console (t : list event) :
  forallb is_console t = true -> List.filter is_xsdk_call (map Core t) = [].
Proof.
  induction t as [|ev t IH]; [done|]. cbn [forallb map List.filter].
  intros [Hev Ht]%andb_prop. rewrite (IH Ht). by destruct ev.
Qed.

Lemma xsdk_calls_error_report (e : js_error) :
  List.filter is_xsdk_call (map Core (error_report e)) = [].
Proof. unfold error_report. by destruct (truthy (stack e)). Qed.

(** The opening steps of a wallet script, once the mnemonic is set and
    the SDK answers. *)
Lemma opening_run {B} (env : gmap string string) (k : Client -> string -> X B)
      (c c1 : Chain) (mnemonic : string) (wallet : Wallet) (account : Account)
      (accounts : list Account) (client : Client) :
  env !! "MNEMONIC" = Some mnemonic -> mnemonic <> EmptyString ->
  wallet_fromMnemonic mnemonic "xion" = Ok wallet ->
  wallet_getAccounts wallet = account :: accounts ->
  client_connectWithSigner (rpcEndpoint XION_CONFIG) wallet (Config.gasPrice XION_CONFIG) c
  = (Ok client, c1) ->
  (do+ xlog "Loading wallet from environment..." in
   let+ wallet := lift (loadWallet env) in
   let+ account := lift (getFirstAccount wallet) in
   let+ address := lift (account_address account) in
   do+ xlog ("Wallet loaded: " +:+ address +:+ nl) in
   do+ xlog "Connecting to XION network..." in
   let+ client := lift (connectSigningClient wallet) in
   do+ xlog ("Connected to " +:+ chainId XION_CONFIG +:+ nl) in
   k client address) c
  = xprepend (opening mnemonic (address account)) (k client (address account) c1).
Proof.
  intros Henv Hne Hwallet Haccounts Hconnect.
  rewrite xbind_log.
  rewrite (xbind_lift_run _ _ _ _ _ _ (loadWallet_present env c mnemonic wallet Henv Hne Hwallet)).
  rewrite (xbind_lift_run _ _ _ _ _ _ (getFirstAccount_run wallet account accounts c Haccounts)).
  rewrite (xbind_lift_run (account_address (Some account)) _ c c (address account) [] eq_refl).
  rewrite !xbind_log.
  rewrite (xbind_lift_run _ _ _ _ _ _ (connectSigningClient_run wallet client c c1 Hconnect)).
  rewrite xbind_log. rewrite !xprepend_prepend. reflexivity.
Qed.

Lemma getBalance_run (client : Client) (a : string) (c c' : Chain) (balance : Coin) :
  client_getBalance client a (denom XION_CONFIG) c = (Ok balance, c') ->
  getBalance client a c = mkRun (Returned balance) c' [GetBalance a (denom XION_CONFIG)].
Proof. intros Hb. unfold getBalance, call. by rewrite Hb. Qed.

(** A call is recorded whatever it answers. *)
Lemma xbind_call_head {A B} (ev : xevent) (op : Chain -> result A * Chain)
      (k : A -> X B) (c : Chain) :
  exists r, xbind (xcall ev op) k c = xprepend [ev] r.
Proof.
  unfold xbind, xcall. destruct (op c) as [[a|e] c']; cbn.
  - by eexists.
  - by exists (mkXRun (Thrown e) c' []).
Qed.


Lemma calls_xprepend {A} (t : list xevent) (r : xrun A) :
  List.filter is_xsdk_call (xrun_trace (xprepend t r))
  = List.filter is_xsdk_call t ++ List.filter is_xsdk_call (xrun_trace r).
Proof. cbn. by rewrite List.filter_app. Qed.

Lemma outcome_xprepend {A} (t : list xevent) (r : xrun A) :
  xrun_outcome (xprepend t r) = xrun_outcome r.
Proof. reflexivity. Qed.

Lemma trace_xprepend {A} (t : list xevent) (r : xrun A) :
  xrun_trace (xprepend t r) = t ++ xrun_trace r.
Proof. reflexivity. Qed.

Lemma xnever_exits_ret {A} (a : A) : xnever_exits (xret a).
Proof. by intros c code. Qed.

Lemma xnever_exits_lift {A} (m : M A) : never_exits m -> xnever_exits (lift m).
Proof. intros Hm c code. apply Hm. Qed.

Lemma xnever_exits_log (line : string) : xnever_exits (xlog line).
Proof. by intros c code. Qed.

Lemma xnever_exits_error (line : string) : xnever_exits (xerror line).
Proof. by intros c code. Qed.

Lemma xnever_exits_call {A} (ev : xevent) (op : Chain -> result A * Chain) :
  xnever_exits (xcall ev op).
Proof. intros c code. unfold xcall. by destruct (op c) as [[a|e] c']. Qed.

Lemma xnever_exits_bind {A B} (m : X A) (k : A -> X B) :
  xnever_exits m -> (forall a, xnever_exits (k a)) -> xnever_exits (xbind m k).
Proof.
  intros Hm Hk c code. unfold xbind. specialize (Hm c).
  destruct (xrun_outcome (m c)) eqn:Ho; cbn [xprepend xrun_outcome]; [apply Hk|done|].
  by destruct (Hm code0).
Qed.

(** How a script that catches everything and hands it to [handleError]
    can end. *)
Lemma xcaught_outcome (body : X unit) (c : Chain) :
  xnever_exits body ->
  xrun_outcome (xtry_catch body (fun error => lift (handleError error)) c) = Returned tt
  \/ xrun_outcome (xtry_catch body (fun error => lift (handleError error)) c) = Exited 1.
Proof.
  intros Hbody. unfold xtry_catch. specialize (Hbody c).
  destruct (xrun_outcome (body c)) as [[]|e|code] eqn:Ho.
  - left. exact Ho.
  - right. cbn [xprepend xrun_outcome]. by rewrite lift_handleError.
  - by destruct (Hbody code).
Qed.

Lemma never_exits_loadWallet (env : gmap string string) : never_exits (loadWallet env).
Proof.
  unfold loadWallet, createWalletFromMnemonic.
  destruct (env !! "MNEMONIC") as [m|]; [|apply never_exits_throw].
  destruct (String.eqb m EmptyString); [apply never_exits_throw|apply never_exits_call].
Qed.

Lemma never_exits_account_address (account : option Account) :
  never_exits (account_address account).
Proof. destruct account; [apply never_exits_ret|apply never_exits_throw]. Qed.

Lemma never_exits_printTxResult (result : TxResult) : never_exits (printTxResult result).
Proof.
  unfold printTxResult, console_log.
  repeat first
    [ apply never_exits_ret
    | apply never_exits_emit
    | apply never_exits_bind; [|intros ?]
    | apply never_exits_for_each; intros ?
    | match goal with
      | |- never_exits (if ?b then _ else _) => destruct b
      | |- never_exits (match ?x with _ => _ end) => destruct x
      end ].
Qed.

Lemma xsdk_calls_opening (mnemonic address : string) :
  List.filter is_xsdk_call (opening mnemonic address)
  = map Core [ WalletFromMnemonic mnemonic "xion"; WalletGetAccounts;
               ConnectWithSigner (rpcEndpoint XION_CONFIG) (Config.gasPrice XION_CONFIG) ].
Proof. reflexivity. Qed.

End WithSdk.

End TransferRunFacts.

Module TransferExtras.
Import JsString Number Config Amounts Runtime Helpers Scripts RunShape RunFacts.
Import ScriptRunFacts Transfers TransferFacts TransferRunFacts.
Import IntegerFacts ToStringFacts ParseFacts FeeFacts ScriptedBank.

Section WithSdk.
Context `{Sdk} `{!Contracts} `{!Bank}.

(** X13 ([simulateTransaction]): when the simulation answers an integer
    gas estimate [g] with [0 <= g < 2 ^ 49], the helper returns thirteen
    tenths of it rounded up to an integer, [(13 * g + 9) / 10], after the
    one [simulate] call with the empty memo. *)
Theorem simulateTransaction_adjusts
        (client : Client) (sender : string) (messages : list EncodeObject)
        (c c' : Chain) (g : Z) :
  0 <= g < 2 ^ 49 ->
  client_simulate client sender messages EmptyString c = (Ok (of_Z g), c') ->
  simulateTransaction client sender messages c
  = mkXRun (Returned (of_Z ((13 * g + 9) / 10))) c' [Simulate sender messages EmptyString].
Proof.
  intros Hg Hsim. unfold simulateTransaction.
  rewrite (xbind_run _ _ _ _ _ _ (xcall_ok _ _ _ _ _ Hsim)).
  unfold xret. rewrite xprepend_run. cbn [app]. f_equal. f_equal.
  destruct (Z.eq_dec g 0) as [->|Hg0]; [reflexivity|].
  change (2 ^ 49) with 562949953421312 in Hg.
  assert (HN : 0 < (13 * g + 9) / 10 < 2 ^ 53).
  { change (2 ^ 53) with 9007199254740992.
    pose proof (Z.div_mod (13 * g + 9) 10 ltac:(lia)).
    pose proof (Z.mod_pos_bound (13 * g + 9) 10 ltac:(lia)). lia. }
  rewrite (of_Z_int g) by (change (2 ^ 53) with 9007199254740992; lia).
  rewrite (of_Z_int _ HN). apply ceil_adjusted.
  change (2 ^ 49) with 562949953421312. lia.
Qed.

(** X14 ([transferGas]): the recipient is checked before the amount.
    Without a recipient the script prints the recipient usage lines, and
    with a recipient but no amount the amount usage lines; in both cases
    it returns normally without touching the wallet or the network. *)
Theorem transferGas_missing_parameters
        (env : gmap string string) (argv : list string) (c : Chain) :
  (truthy (env_or_arg env argv "RECIPIENT" 2) = false ->
   transferGas env argv c
   = mkXRun (Returned tt) c
       (map Core
          [ ConsoleLog ("Transferring XION Tokens..." +:+ nl);
            ConsoleError "Error: RECIPIENT address not provided!";
            ConsoleLog "   Usage: npm run transfer-gas <recipient_address> <amount_in_xion>";
            ConsoleLog "   Example: npm run transfer-gas xion1abc... 1.5";
            ConsoleLog "   Or set RECIPIENT and AMOUNT in .env file" ]))
  /\ (truthy (env_or_arg env argv "RECIPIENT" 2) = true ->
      truthy (env_or_arg env argv "AMOUNT" 3) = false ->
      transferGas env argv c
      = mkXRun (Returned tt) c
          (map Core
             [ ConsoleLog ("Transferring XION Tokens..." +:+ nl);
               ConsoleError "Error: AMOUNT not provided!";
               ConsoleLog "   Usage: npm run transfer-gas <recipient_address> <amount_in_xion>";
               ConsoleLog "   Example: npm run transfer-gas xion1abc... 1.5";
               ConsoleLog "   Or set AMOUNT in .env file" ])).
Proof.
  split.
  - intros Hr. unfold transferGas. apply xtry_catch_returned. cbv zeta.
    cbn [transferGas_params gas_RECIPIENT gas_AMOUNT]. rewrite xbind_log, Hr. reflexivity.
  - intros Hr Ha. unfold transferGas. apply xtry_catch_returned. cbv zeta.
    cbn [transferGas_params gas_RECIPIENT gas_AMOUNT]. rewrite xbind_log, Hr, Ha. reflexivity.
Qed.

(** X15 ([transferNFT]): the contract address is checked first, then the
    token id, then the recipient; the first one missing gets its own
    message and the script returns normally without touching the wallet
    or the network. *)
Theorem transferNFT_missing_parameters
        (env : gmap string string) (argv : list string) (c : Chain) :
  (truthy (env !! "CONTRACT_ADDRESS") = false ->
   transferNFT env argv c
   = mkXRun (Returned tt) c
       (map Core
          [ ConsoleLog ("Transferring NFT..." +:+ nl);
            ConsoleError "Error: CONTRACT_ADDRESS not set!";
            ConsoleLog "   Please set CONTRACT_ADDRESS in your .env file" ]))
  /\ (truthy (env !! "CONTRACT_ADDRESS") = true ->
      truthy (env_or_arg env argv "TOKEN_ID" 2) = false ->
      transferNFT env argv c
      = mkXRun (Returned tt) c
          (map Core
             [ ConsoleLog ("Transferring NFT..." +:+ nl);
               ConsoleError "Error: TOKEN_ID not provided!";
               ConsoleLog "   Usage: npm run transfer-nft <token_id> <recipient_address>";
               ConsoleLog "   Or set TOKEN_ID and RECIPIENT in .env file" ]))
  /\ (truthy (env !! "CONTRACT_ADDRESS") = true ->
      truthy (env_or_arg env argv "TOKEN_ID" 2) = true ->
      truthy (env_or_arg env argv "RECIPIENT" 3) = false ->
      transferNFT env argv c
      = mkXRun (Returned tt) c
          (map Core
             [ ConsoleLog ("Transferring NFT..." +:+ nl);
               ConsoleError "Error: RECIPIENT address not provided!";
               ConsoleLog "   Usage: npm run transfer-nft <token_id> <recipient_address>";
               ConsoleLog "   Or set RECIPIENT in .env file" ])).
Proof.
  repeat split.
  - intros Hc. unfold transferNFT. apply xtry_catch_returned. cbv zeta.
    cbn [transferNFT_params nft_CONTRACT_ADDRESS nft_TOKEN_ID nft_RECIPIENT].
    rewrite xbind_log, Hc. reflexivity.
  - intros Hc Ht. unfold transferNFT. apply xtry_catch_returned. cbv zeta.
    cbn [transferNFT_params nft_CONTRACT_ADDRESS nft_TOKEN_ID nft_RECIPIENT].
    rewrite xbind_log, Hc, Ht. reflexivity.
  - intros Hc Ht Hr. unfold transferNFT. apply xtry_catch_returned. cbv zeta.
    cbn [transferNFT_params nft_CONTRACT_ADDRESS nft_TOKEN_ID nft_RECIPIENT].
    rewrite xbind_log, Hc, Ht, Hr. reflexivity.
Qed.

(** X16 ([checkGasFee]): the transaction type is only looked at after the
    wallet is loaded and the connection is open.  An ASCII type that is
    none of the four known ones, compared in lower case, is reported with
    the list of types; the script then returns normally, with nothing
    simulated and the client left connected. *)
Theorem checkGasFee_unknown_type
        (env : gmap string string) (argv : list string) (c c1 : Chain)
        (mnemonic : string) (wallet : Wallet) (account : Account)
        (accounts : list Account) (client : Client) :
  env !! "MNEMONIC" = Some mnemonic -> mnemonic <> EmptyString ->
  wallet_fromMnemonic mnemonic "xion" = Ok wallet ->
  wallet_getAccounts wallet = account :: accounts ->
  client_connectWithSigner (rpcEndpoint XION_CONFIG) wallet (Config.gasPrice XION_CONFIG) c
  = (Ok client, c1) ->
  ascii_only (checkGasFee_TRANSACTION_TYPE env argv) = true ->
  toLowerCase (checkGasFee_TRANSACTION_TYPE env argv) <> "mint" ->
  toLowerCase (checkGasFee_TRANSACTION_TYPE env argv) <> "transfer-nft" ->
  toLowerCase (checkGasFee_TRANSACTION_TYPE env argv) <> "send-tokens" ->
  toLowerCase (checkGasFee_TRANSACTION_TYPE env argv) <> "instantiate" ->
  checkGasFee env argv c
  = mkXRun (Returned tt) c1
      (Core (ConsoleLog ("Estimating Gas Fees..." +:+ nl))
       :: opening mnemonic (address account)
       ++ map Core
            [ ConsoleError ("Unknown transaction type: "
                            +:+ checkGasFee_TRANSACTION_TYPE env argv);
              ConsoleLog (nl +:+ "Available transaction types:");
              ConsoleLog "   - mint: Estimate gas for minting an NFT";
              ConsoleLog "   - transfer-nft: Estimate gas for transferring an NFT";
              ConsoleLog "   - send-tokens: Estimate gas for sending XION tokens";
              ConsoleLog "   - instantiate: Estimate gas for deploying a contract";
              ConsoleLog (nl +:+ "Usage: npm run check-gas <transaction-type>") ]).
Proof.
  intros Henv Hne Hwallet Haccounts Hconnect _ Hm Ht Hs Hi.
  unfold checkGasFee. apply xtry_catch_returned. cbv zeta.
  rewrite xbind_log.
  rewrite (opening_run env _ c c1 mnemonic wallet account accounts client
             Henv Hne Hwallet Haccounts Hconnect).
  apply String.eqb_neq in Hm, Ht, Hs, Hi. rewrite Hm, Ht, Hs, Hi.
  reflexivity.
Qed.

(** X17 ([checkGasFee]): for the types [mint] and [transfer-nft] the
    contract address is required, and it is checked only after the wallet
    is loaded and the connection is open: without it the script prints
    one error naming the type and returns normally, with nothing
    simulated. *)
Theorem checkGasFee_needs_contract
        (env : gmap string string) (argv : list string) (c c1 : Chain)
        (mnemonic : string) (wallet : Wallet) (account : Account)
        (accounts : list Account) (client : Client) (kind : string) :
  env !! "MNEMONIC" = Some mnemonic -> mnemonic <> EmptyString ->
  wallet_fromMnemonic mnemonic "xion" = Ok wallet ->
  wallet_getAccounts wallet = account :: accounts ->
  client_connectWithSigner (rpcEndpoint XION_CONFIG) wallet (Config.gasPrice XION_CONFIG) c
  = (Ok client, c1) ->
  toLowerCase (checkGasFee_TRANSACTION_TYPE env argv) = kind ->
  kind = "mint" \/ kind = "transfer-nft" ->
  truthy (env !! "CONTRACT_ADDRESS") = false ->
  checkGasFee env argv c
  = mkXRun (Returned tt) c1
      (Core (ConsoleLog ("Estimating Gas Fees..." +:+ nl))
       :: opening mnemonic (address account)
       ++ [ Core (ConsoleError ("Error: CONTRACT_ADDRESS required for " +:+ kind
                                +:+ " simulation")) ]).
Proof.
  intros Henv Hne Hwallet Haccounts Hconnect Hkind Hk Hca.
  unfold checkGasFee. apply xtry_catch_returned. cbv zeta.
  rewrite xbind_log.
  rewrite (opening_run env _ c c1 mnemonic wallet account accounts client
             Henv Hne Hwallet Haccounts Hconnect).
  rewrite Hkind, Hca. by destruct Hk as [->| ->].
Qed.

(** X18 ([transferGas]): the balance guard.  With a balance of [B] and
    an amount that converts to [A] base units, both below [2 ^ 53]: when
    [B < A] the script reports the insufficient balance and returns
    normally after the balance query, sending nothing and leaving the
    client connected; otherwise the next call after the balance query is
    [sendTokens] with one [uxion] coin of [A], the fee ["auto"] and the
    memo naming the amount as typed. *)
Theorem transferGas_balance_guard
        (env : gmap string string) (argv : list string) (c c1 c2 : Chain)
        (recipient amount mnemonic : string) (wallet : Wallet) (account : Account)
        (accounts : list Account) (client : Client) (balance : Coin) (A B : Z) :
  env_or_arg env argv "RECIPIENT" 2 = Some recipient -> recipient <> EmptyString ->
  env_or_arg env argv "AMOUNT" 3 = Some amount -> amount <> EmptyString ->
  env !! "MNEMONIC" = Some mnemonic -> mnemonic <> EmptyString ->
  wallet_fromMnemonic mnemonic "xion" = Ok wallet ->
  wallet_getAccounts wallet = account :: accounts ->
  client_connectWithSigner (rpcEndpoint XION_CONFIG) wallet (Config.gasPrice XION_CONFIG) c
  = (Ok client, c1) ->
  client_getBalance client (address account) (denom XION_CONFIG) c1 = (Ok balance, c2) ->
  coin_amount balance = pretty B -> 0 <= B < 2 ^ 53 ->
  parseXionAmount (AmountString amount) = pretty A -> 0 <= A < 2 ^ 53 ->
  let r := transferGas env argv c in
  let calls :=
    map Core [ WalletFromMnemonic mnemonic "xion"; WalletGetAccounts;
               ConnectWithSigner (rpcEndpoint XION_CONFIG) (Config.gasPrice XION_CONFIG);
               GetBalance (address account) (denom XION_CONFIG) ] in
  (B < A ->
   xrun_outcome r = Returned tt /\ xrun_chain r = c2
   /\ List.filter is_xsdk_call (xrun_trace r) = calls
   /\ In (Core (ConsoleError (nl +:+ "Error: Insufficient balance!"))) (xrun_trace r))
  /\ (A <= B ->
      exists t,
        List.filter is_xsdk_call (xrun_trace r)
        = calls
          ++ SendTokens (address account) recipient
               [ {| coin_denom := denom XION_CONFIG; coin_amount := pretty A |} ]
               "auto" ("Transfer " +:+ amount +:+ " XION tokens") :: t).
Proof.
  intros Hrec Hrec0 Ham Ham0 Henv Hne Hwallet Haccounts Hconnect Hbal HB HBr HA HAr r calls.
  pose proof (lt_printed B A HBr HAr) as Hlt. rewrite <- HB, <- HA in Hlt.
  split.
  - intros HBA. destruct (Z.ltb_spec B A); [|lia].
    assert (Hr : r = mkXRun (Returned tt) c2
                   (Core (ConsoleLog ("Transferring XION Tokens..." +:+ nl))
                    :: opening mnemonic (address account)
                    ++ map Core
                         [ GetBalance (address account) (denom XION_CONFIG);
                           ConsoleLog "Wallet Balance:";
                           ConsoleLog ("   Current: " +:+ coin_amount balance +:+ " "
                                       +:+ denom XION_CONFIG +:+ " ("
                                       +:+ formatXionAmount (AmountString (coin_amount balance))
                                       +:+ " XION)");
                           ConsoleError (nl +:+ "Error: Insufficient balance!");
                           ConsoleLog ("   Required: "
                                       +:+ parseXionAmount (AmountString amount) +:+ " "
                                       +:+ denom XION_CONFIG +:+ " (" +:+ amount +:+ " XION)");
                           ConsoleLog ("   Available: " +:+ coin_amount balance +:+ " "
                                       +:+ denom XION_CONFIG +:+ " ("
                                       +:+ formatXionAmount (AmountString (coin_amount balance))
                                       +:+ " XION)") ])).
    { unfold r, transferGas. apply xtry_catch_returned. cbv zeta.
      cbn [transferGas_params gas_RECIPIENT gas_AMOUNT].
      rewrite xbind_log, Hrec, Ham, !truthy_some by done. cbn [negb text].
      rewrite (opening_run env _ c c1 mnemonic wallet account accounts client
                 Henv Hne Hwallet Haccounts Hconnect).
      rewrite (xbind_lift_run _ _ _ _ _ _ (getBalance_run _ _ _ _ _ Hbal)).
      rewrite !xbind_log, Hlt, xbind_error, xbind_log, xlog_run.
      rewrite !xprepend_prepend, xprepend_run. reflexivity. }
    rewrite Hr. cbn [xrun_outcome xrun_chain xrun_trace].
    split; [done|]. split; [done|]. split.
    + cbn [List.filter is_xsdk_call]. rewrite List.filter_app, xsdk_calls_opening. reflexivity.
    + right. apply in_or_app. right. cbn. tauto.
  - intros HAB. destruct (Z.ltb_spec B A); [lia|].
    unfold r, transferGas.
    match goal with
    | |- context [xtry_catch ?body ?h c] =>
        destruct (xtry_catch_trace body h c) as [t' Ht']; rewrite Ht'; clear Ht'
    end.
    cbv zeta. cbn [transferGas_params gas_RECIPIENT gas_AMOUNT].
    rewrite xbind_log, Hrec, Ham, !truthy_some by done. cbn [negb text].
    rewrite (opening_run env _ c c1 mnemonic wallet account accounts client
               Henv Hne Hwallet Haccounts Hconnect).
    rewrite (xbind_lift_run _ _ _ _ _ _ (getBalance_run _ _ _ _ _ Hbal)).
    rewrite !xbind_log, Hlt, !xbind_log.
    match goal with
    | |- context [xbind (xcall ?ev ?op) ?k c2] =>
        destruct (xbind_call_head ev op k c2) as [r' Hr']; rewrite Hr'; clear Hr'
    end.
    rewrite !xprepend_prepend, trace_xprepend, <- app_assoc, !List.filter_app.
    rewrite HA. eexists.
    cbn [List.filter is_xsdk_call map app]. rewrite xsdk_calls_opening.
    cbn [List.filter is_xsdk_call map app]. reflexivity.
Qed.

(** X19 ([transferGas]): an ASCII amount that does not read as a number
    is not stopped by the balance guard.  It converts to ["NaN"], the
    comparison with any balance is false, and the script goes on to call
    [sendTokens] with the amount ["NaN"]. *)
Theorem transferGas_unreadable_amount
        (env : gmap string string) (argv : list string) (c c1 c2 : Chain)
        (recipient amount mnemonic : string) (wallet : Wallet) (account : Account)
        (accounts : list Account) (client : Client) (balance : Coin) :
  env_or_arg env argv "RECIPIENT" 2 = Some recipient -> recipient <> EmptyString ->
  env_or_arg env argv "AMOUNT" 3 = Some amount -> amount <> EmptyString ->
  env !! "MNEMONIC" = Some mnemonic -> mnemonic <> EmptyString ->
  wallet_fromMnemonic mnemonic "xion" = Ok wallet ->
  wallet_getAccounts wallet = account :: accounts ->
  client_connectWithSigner (rpcEndpoint XION_CONFIG) wallet (Config.gasPrice XION_CONFIG) c
  = (Ok client, c1) ->
  client_getBalance client (address account) (denom XION_CONFIG) c1 = (Ok balance, c2) ->
  ascii_only amount = true ->
  parseFloat amount = S754_nan ->
  exists t,
    List.filter is_xsdk_call (xrun_trace (transferGas env argv c))
    = map Core [ WalletFromMnemonic mnemonic "xion"; WalletGetAccounts;
                 ConnectWithSigner (rpcEndpoint XION_CONFIG) (Config.gasPrice XION_CONFIG);
                 GetBalance (address account) (denom XION_CONFIG) ]
      ++ SendTokens (address account) recipient
           [ {| coin_denom := denom XION_CONFIG; coin_amount := "NaN" |} ]
           "auto" ("Transfer " +:+ amount +:+ " XION tokens") :: t.
Proof.
  intros Hrec Hrec0 Ham Ham0 Henv Hne Hwallet Haccounts Hconnect Hbal _ Hnan.
  unfold transferGas.
  match goal with
  | |- context [xtry_catch ?body ?h c] =>
      destruct (xtry_catch_trace body h c) as [t' Ht']; rewrite Ht'; clear Ht'
  end.
  cbv zeta. cbn [transferGas_params gas_RECIPIENT gas_AMOUNT].
  rewrite xbind_log, Hrec, Ham, !truthy_some by done. cbn [negb text].
  rewrite (opening_run env _ c c1 mnemonic wallet account accounts client
             Henv Hne Hwallet Haccounts Hconnect).
  rewrite (xbind_lift_run _ _ _ _ _ _ (getBalance_run _ _ _ _ _ Hbal)).
  rewrite (parseXionAmount_nan amount Hnan), parseInt_NaN, lt_nan_r.
  rewrite !xbind_log.
  match goal with
  | |- context [xbind (xcall ?ev ?op) ?k c2] =>
      destruct (xbind_call_head ev op k c2) as [r' Hr']; rewrite Hr'; clear Hr'
  end.
  rewrite !xprepend_prepend, trace_xprepend, <- app_assoc, !List.filter_app.
  eexists.
  cbn [List.filter is_xsdk_call map app]. rewrite xsdk_calls_opening.
  cbn [List.filter is_xsdk_call map app]. reflexivity.
Qed.

(** X20 ([transferNFT]): with the three parameters set, the script makes
    one [execute] call on the contract, with the transfer message of the
    recipient and the token id, the memo naming both and no funds.  When
    the call is accepted the script disconnects and returns normally;
    when it is rejected the error message is printed, the process exits
    with status 1 and the client is not disconnected. *)
Theorem transferNFT_executes
        (env : gmap string string) (argv : list string) (c c1 c2 : Chain)
        (contract token recipient mnemonic : string) (wallet : Wallet) (account : Account)
        (accounts : list Account) (client : Client) (answer : result TxResult) :
  env !! "CONTRACT_ADDRESS" = Some contract -> contract <> EmptyString ->
  env_or_arg env argv "TOKEN_ID" 2 = Some token -> token <> EmptyString ->
  env_or_arg env argv "RECIPIENT" 3 = Some recipient -> recipient <> EmptyString ->
  env !! "MNEMONIC" = Some mnemonic -> mnemonic <> EmptyString ->
  wallet_fromMnemonic mnemonic "xion" = Ok wallet ->
  wallet_getAccounts wallet = account :: accounts ->
  client_connectWithSigner (rpcEndpoint XION_CONFIG) wallet (Config.gasPrice XION_CONFIG) c
  = (Ok client, c1) ->
  client_executeTransfer client (address account) contract
    {| transfer_recipient := recipient; transfer_token_id := token |}
    ("Transferred NFT #" +:+ token +:+ " to " +:+ recipient) [] c1 = (answer, c2) ->
  let r := transferNFT env argv c in
  let calls :=
    map Core [ WalletFromMnemonic mnemonic "xion"; WalletGetAccounts;
               ConnectWithSigner (rpcEndpoint XION_CONFIG) (Config.gasPrice XION_CONFIG) ]
    ++ [ ExecuteTransfer (address account) contract
           {| transfer_recipient := recipient; transfer_token_id := token |}
           ("Transferred NFT #" +:+ token +:+ " to " +:+ recipient) [] ] in
  match answer with
  | Ok _ =>
      xrun_outcome r = Returned tt
      /\ List.filter is_xsdk_call (xrun_trace r) = calls ++ [Core Disconnect]
  | Err e =>
      xrun_outcome r = Exited 1
      /\ List.filter is_xsdk_call (xrun_trace r) = calls
      /\ In (Core (ConsoleError (message e))) (xrun_trace r)
  end.
Proof.
  intros Hca Hca0 Htok Htok0 Hrec Hrec0 Henv Hne Hwallet Haccounts Hconnect Hexec r calls.
  destruct answer as [result|e].
  - destruct (ScriptFacts.prints_only_printTxResult result c2) as (u & tp & Hp & Hcons).
    destruct u.
    assert (Hr : exists t, r = mkXRun (Returned tt) (client_disconnect client c2) t
                           /\ List.filter is_xsdk_call t = calls ++ [Core Disconnect]).
    { eexists. split.
      - unfold r, transferNFT. apply xtry_catch_returned. cbv zeta.
        cbn [transferNFT_params nft_CONTRACT_ADDRESS nft_TOKEN_ID nft_RECIPIENT].
        rewrite xbind_log, Hca, Htok, Hrec, !truthy_some by done. cbn [negb text].
        rewrite (opening_run env _ c c1 mnemonic wallet account accounts client
                   Henv Hne Hwallet Haccounts Hconnect).
        rewrite !xbind_log.
        unfold executeTransfer.
        rewrite (xbind_run _ _ _ _ _ _ (xcall_ok _ _ _ _ _ Hexec)).
        rewrite !xbind_log.
        rewrite (xbind_lift_run _ _ _ _ _ _ Hp).
        rewrite !xbind_log.
        change (lift (disconnect client) c2)
          with (mkXRun (Returned tt) (client_disconnect client c2) [Core Disconnect]).
        rewrite !xprepend_prepend, xprepend_run. reflexivity.
      - rewrite !List.filter_app. rewrite (filter_core_console tp Hcons).
        cbn [List.filter is_xsdk_call map app]. rewrite xsdk_calls_opening.
        reflexivity. }
    destruct Hr as (t & -> & Ht). by split.
  - assert (Hr : exists t, r = mkXRun (Exited 1) c2 (t ++ map Core (error_report e))
                           /\ List.filter is_xsdk_call t = calls).
    { eexists. split.
      - unfold r, transferNFT.
        erewrite xtry_catch_thrown; [by rewrite lift_handleError, xprepend_run|].
        cbv zeta.
        cbn [transferNFT_params nft_CONTRACT_ADDRESS nft_TOKEN_ID nft_RECIPIENT].
        rewrite xbind_log, Hca, Htok, Hrec, !truthy_some by done. cbn [negb text].
        rewrite (opening_run env _ c c1 mnemonic wallet account accounts client
                   Henv Hne Hwallet Haccounts Hconnect).
        rewrite !xbind_log.
        unfold executeTransfer.
        rewrite (xbind_thrown _ _ _ _ _ _ (xcall_err _ _ _ _ _ Hexec)).
        rewrite !xprepend_prepend, xprepend_run. reflexivity.
      - rewrite !List.filter_app.
        cbn [List.filter is_xsdk_call map app]. rewrite xsdk_calls_opening.
        reflexivity. }
    destruct Hr as (t & -> & Ht). cbn [xrun_outcome xrun_trace].
    split; [done|]. split.
    + by rewrite List.filter_app, Ht, xsdk_calls_error_report, app_nil_r.
    + apply in_or_app. right. unfold error_report. cbn. tauto.
Qed.



Ltac xnever_exit_step :=
  lazymatch goal with
  | |- xnever_exits (xret _) => apply xnever_exits_ret
  | |- xnever_exits (xlog _) => apply xnever_exits_log
  | |- xnever_exits (xerror _) => apply xnever_exits_error
  | |- xnever_exits (xcall _ _) => apply xnever_exits_call
  | |- xnever_exits (xbind _ _) => apply xnever_exits_bind; [|intros ?]
  | |- xnever_exits (lift (loadWallet _)) =>
      apply xnever_exits_lift, never_exits_loadWallet
  | |- xnever_exits (lift (getFirstAccount _)) =>
      apply xnever_exits_lift, never_exits_call
  | |- xnever_exits (lift (account_address _)) =>
      apply xnever_exits_lift, never_exits_account_address
  | |- xnever_exits (lift (connectSigningClient _)) =>
      apply xnever_exits_lift, never_exits_call
  | |- xnever_exits (lift (getBalance _ _)) =>
      apply xnever_exits_lift, never_exits_call
  | |- xnever_exits (lift (printTxResult _)) =>
      apply xnever_exits_lift, never_exits_printTxResult
  | |- xnever_exits (lift (disconnect _)) =>
      apply xnever_exits_lift, never_exits_disconnect
  | |- xnever_exits (lift (throw _)) =>
      apply xnever_exits_lift, never_exits_throw
  | |- xnever_exits (if ?b then _ else _) => destruct b
  | |- xnever_exits (match ?x with _ => _ end) => destruct x
  end.

Ltac xnever_exit :=
  cbv zeta; unfold estimate, simulateTransaction, executeTransfer, first_amount;
  cbv zeta; repeat xnever_exit_step.

(** X22 ([transferGas], [transferNFT], [checkGasFee]): no run ends in an
    uncaught exception.  Whatever the environment, the arguments and the
    answers of the SDK, each of the three scripts either returns normally
    or ends the process with exit code 1. *)
Theorem transfer_scripts_end_in_return_or_exit_1
        (env : gmap string string) (argv : list string) (c : Chain) :
  (xrun_outcome (transferGas env argv c) = Returned tt
   \/ xrun_outcome (transferGas env argv c) = Exited 1)
  /\ (xrun_outcome (transferNFT env argv c) = Returned tt
      \/ xrun_outcome (transferNFT env argv c) = Exited 1)
  /\ (xrun_outcome (checkGasFee env argv c) = Returned tt
      \/ xrun_outcome (checkGasFee env argv c) = Exited 1).
Proof.
  split; [|split].
  - unfold transferGas. apply xcaught_outcome. xnever_exit.
  - unfold transferNFT. apply xcaught_outcome. xnever_exit.
  - unfold checkGasFee. apply xcaught_outcome. xnever_exit.
Qed.

End WithSdk.

Lemma simulateTransaction_adjusts_witness :
  @simulateTransaction funded accepting tt "xion1stub" [] 0%nat
  = @mkXRun funded _ (Returned (of_Z ((13 * 100000 + 9) / 10))) 0%nat
      [@Simulate funded "xion1stub" [] EmptyString].
Proof.
  refine (@simulateTransaction_adjusts funded accepting tt "xion1stub" [] 0%nat 0%nat
            100000 _ _); [lia|reflexivity].
Defined.

Lemma transferGas_missing_parameters_witness :
  xrun_trace (@transferGas funded accepting ∅ ["node"; "transfer-gas.js"] 0%nat)
  = map (@Core funded)
      [ ConsoleLog ("Transferring XION Tokens..." +:+ nl);
        ConsoleError "Error: RECIPIENT address not provided!";
        ConsoleLog "   Usage: npm run transfer-gas <recipient_address> <amount_in_xion>";
        ConsoleLog "   Example: npm run transfer-gas xion1abc... 1.5";
        ConsoleLog "   Or set RECIPIENT and AMOUNT in .env file" ]
  /\ xrun_trace (@transferGas funded accepting transfer_env ["node"; "transfer-gas.js"] 0%nat)
     = map (@Core funded)
         [ ConsoleLog ("Transferring XION Tokens..." +:+ nl);
           ConsoleError "Error: AMOUNT not provided!";
           ConsoleLog "   Usage: npm run transfer-gas <recipient_address> <amount_in_xion>";
           ConsoleLog "   Example: npm run transfer-gas xion1abc... 1.5";
           ConsoleLog "   Or set AMOUNT in .env file" ].
Proof.
  split.
  - rewrite (proj1 (@transferGas_missing_parameters funded accepting ∅
                      ["node"; "transfer-gas.js"] 0%nat)) by reflexivity.
    reflexivity.
  - rewrite (proj2 (@transferGas_missing_parameters funded accepting transfer_env
                      ["node"; "transfer-gas.js"] 0%nat)) by reflexivity.
    reflexivity.
Defined.

Lemma transferNFT_missing_parameters_witness :
  xrun_outcome (@transferNFT funded accepting ∅ ["node"; "transfer-nft.js"; "7"; "xion1friend"]
                  0%nat) = Returned tt
  /\ xrun_outcome (@transferNFT funded accepting Scripted.configured
                     ["node"; "transfer-nft.js"] 0%nat) = Returned tt
  /\ xrun_outcome (@transferNFT funded accepting Scripted.configured
                     ["node"; "transfer-nft.js"; "7"] 0%nat) = Returned tt.
Proof.
  split; [|split].
  - by rewrite (proj1 (@transferNFT_missing_parameters funded accepting ∅
                         ["node"; "transfer-nft.js"; "7"; "xion1friend"] 0%nat))
      by reflexivity.
  - by rewrite (proj1 (proj2 (@transferNFT_missing_parameters funded accepting
                                Scripted.configured ["node"; "transfer-nft.js"] 0%nat)))
      by reflexivity.
  - by rewrite (proj2 (proj2 (@transferNFT_missing_parameters funded accepting
                                Scripted.configured ["node"; "transfer-nft.js"; "7"] 0%nat)))
      by reflexivity.
Defined.

Lemma checkGasFee_unknown_type_witness :
  xrun_outcome (@checkGasFee funded accepting Scripted.configured
                  ["node"; "check-gas-fee.js"; "Burn"] 0%nat) = Returned tt
  /\ List.filter is_simulate
       (xrun_trace (@checkGasFee funded accepting Scripted.configured
                      ["node"; "check-gas-fee.js"; "Burn"] 0%nat)) = [].
Proof.
  rewrite (@checkGasFee_unknown_type funded accepting Scripted.configured
             ["node"; "check-gas-fee.js"; "Burn"] 0%nat 0%nat
             "abandon ability able" "wallet" Scripted.account [] tt)
    by (try reflexivity; vm_compute; discriminate).
  split; reflexivity.
Defined.

Lemma checkGasFee_needs_contract_witness :
  xrun_trace (@checkGasFee funded accepting {[ "MNEMONIC" := "abandon ability able" ]}
                ["node"; "check-gas-fee.js"; "MINT"] 0%nat)
  = Core (ConsoleLog ("Estimating Gas Fees..." +:+ nl))
    :: @opening funded "abandon ability able" "xion1stub"
    ++ [ Core (ConsoleError "Error: CONTRACT_ADDRESS required for mint simulation") ].
Proof.
  rewrite (@checkGasFee_needs_contract funded accepting
             {[ "MNEMONIC" := "abandon ability able" ]}
             ["node"; "check-gas-fee.js"; "MINT"] 0%nat 0%nat
             "abandon ability able" "wallet" Scripted.account [] tt "mint")
    by first [reflexivity | discriminate | by left].
  reflexivity.
Defined.

Lemma transferGas_balance_guard_witness :
  (exists t,
     List.filter is_xsdk_call
       (xrun_trace (@transferGas funded accepting transfer_env
                      ["node"; "transfer-gas.js"; "xion1other"; "1.5"] 0%nat))
     = map Core [ WalletFromMnemonic "abandon ability able" "xion"; WalletGetAccounts;
                  ConnectWithSigner (rpcEndpoint XION_CONFIG) (Config.gasPrice XION_CONFIG);
                  GetBalance "xion1stub" "uxion" ]
       ++ SendTokens "xion1stub" "xion1friend"
            [ {| coin_denom := "uxion"; coin_amount := pretty 1500000 |} ]
            "auto" "Transfer 1.5 XION tokens" :: t)
  /\ xrun_outcome (@transferGas funded accepting transfer_env
                     ["node"; "transfer-gas.js"; "xion1other"; "5.5"] 0%nat) = Returned tt.
Proof.
  split.
  - refine (proj2 (@transferGas_balance_guard funded accepting transfer_env
                     ["node"; "transfer-gas.js"; "xion1other"; "1.5"] 0%nat 0%nat 0%nat
                     "xion1friend" "1.5" "abandon ability able" "wallet" Scripted.account []
                     tt {| coin_denom := "uxion"; coin_amount := "5000000" |}
                     1500000 5000000 _ _ _ _ _ _ _ _ _ _ _ _ _ _) _);
      first [reflexivity | discriminate | lia | vm_compute; reflexivity].
  - refine (proj1 (proj1 (@transferGas_balance_guard funded accepting transfer_env
                     ["node"; "transfer-gas.js"; "xion1other"; "5.5"] 0%nat 0%nat 0%nat
                     "xion1friend" "5.5" "abandon ability able" "wallet" Scripted.account []
                     tt {| coin_denom := "uxion"; coin_amount := "5000000" |}
                     5500000 5000000 _ _ _ _ _ _ _ _ _ _ _ _ _ _) _));
      first [reflexivity | discriminate | lia | vm_compute; reflexivity].
Defined.

Lemma transferGas_unreadable_amount_witness :
  exists t,
    List.filter is_xsdk_call
      (xrun_trace (@transferGas funded accepting transfer_env
                     ["node"; "transfer-gas.js"; "xion1other"; "lots"] 0%nat))
    = map Core [ WalletFromMnemonic "abandon ability able" "xion"; WalletGetAccounts;
                 ConnectWithSigner (rpcEndpoint XION_CONFIG) (Config.gasPrice XION_CONFIG);
                 GetBalance "xion1stub" "uxion" ]
      ++ SendTokens "xion1stub" "xion1friend"
           [ {| coin_denom := "uxion"; coin_amount := "NaN" |} ]
           "auto" "Transfer lots XION tokens" :: t.
Proof.
  refine (@transferGas_unreadable_amount funded accepting transfer_env
            ["node"; "transfer-gas.js"; "xion1other"; "lots"] 0%nat 0%nat 0%nat
            "xion1friend" "lots" "abandon ability able" "wallet" Scripted.account []
            tt {| coin_denom := "uxion"; coin_amount := "5000000" |}
            _ _ _ _ _ _ _ _ _ _ _ _);
    first [reflexivity | discriminate | vm_compute; reflexivity].
Defined.

Lemma transferNFT_executes_witness :
  xrun_outcome (@transferNFT funded accepting Scripted.configured
                  ["node"; "transfer-nft.js"; "7"; "xion1friend"] 0%nat) = Returned tt
  /\ xrun_outcome (@transferNFT funded rejecting Scripted.configured
                     ["node"; "transfer-nft.js"; "7"; "xion1friend"] 0%nat) = Exited 1.
Proof.
  split.
  - refine (proj1 (@transferNFT_executes funded accepting Scripted.configured
                     ["node"; "transfer-nft.js"; "7"; "xion1friend"] 0%nat 0%nat 0%nat
                     "xion1contract" "7" "xion1friend" "abandon ability able" "wallet"
                     Scripted.account [] tt (Ok Scripted.receipt)
                     _ _ _ _ _ _ _ _ _ _ _ _));
      first [reflexivity | discriminate].
  - refine (proj1 (@transferNFT_executes funded rejecting Scripted.configured
                     ["node"; "transfer-nft.js"; "7"; "xion1friend"] 0%nat 0%nat 0%nat
                     "xion1contract" "7" "xion1friend" "abandon ability able" "wallet"
                     Scripted.account [] tt (Err Scripted.timeout)
                     _ _ _ _ _ _ _ _ _ _ _ _));
      first [reflexivity | discriminate].
Defined.


End TransferExtras.
